(** * Woldecks board: the authorization core of the two servers

    The repository serves one bulletin board from two back ends that
    re-implement the same authorization rules:

    - the hosted Worker ([worker/index.js]), which keeps posts, view tokens
      and admin sessions in three relational tables reached over REST;
    - the local Node server ([server.js]), which keeps posts in a JSON file
      and sessions in a process-wide [Map].

    Both are embedded below as executable functions.  Platform services that
    are not code of the repository (PBKDF2, SHA-256, HMAC, the entropy
    source, the UUID formatter, the ISO rendering of dates, URI encoding,
    array sorting) are fields of a type class, so every statement holds
    for whatever the platform computes.  The relational back end of the
    Worker is modelled by the three tables and the filters the Worker
    sends; a request handler runs alone, on one reading of the clock.

    JavaScript strings are modelled as [string]: one [ascii] per code unit,
    which restricts the model to code units below 256. *)

From Stdlib Require Import ZArith List Strings.String Strings.Ascii Strings.Byte Bool Lia.
From stdpp Require Import base gmap strings.
Import ListNotations.
Open Scope Z_scope.
Set Warnings "-register-all".

(** ** JavaScript primitives used by the servers *)

Module Js.

(** The result of a call that may raise: [Throw] carries [err.message]. *)
Inductive Outcome (A : Type) : Type :=
| Ret (a : A)
| Throw (message : string).
Arguments Ret {A} a.
Arguments Throw {A} message.

Definition code (c : ascii) : Z := Z.of_N (N_of_ascii c).

(** [s.charCodeAt(i)], read as a 32-bit integer operand ([NaN] becomes 0). *)
Definition charCodeAt (s : string) (i : nat) : Z :=
  match String.get i s with
  | Some c => code c
  | None => 0
  end.

(** Position of the last occurrence of [c], counted from the head. *)
Fixpoint lastPos (c : ascii) (s : string) : option nat :=
  match s with
  | EmptyString => None
  | String a rest =>
      match lastPos c rest with
      | Some i => Some (S i)
      | None => if Ascii.eqb a c then Some O else None
      end
  end.

(** [s.lastIndexOf(c)]: the index of the last occurrence, or -1. *)
Definition lastIndexOf (c : ascii) (s : string) : Z :=
  match lastPos c s with
  | Some i => Z.of_nat i
  | None => -1
  end.

(** Relative index resolution shared by [slice]'s two arguments. *)
Definition clampIndex (len i : Z) : Z :=
  if i <? 0 then Z.max (len + i) 0 else Z.min i len.

(** [s.slice(from, to)]. *)
Definition slice (s : string) (from to : Z) : string :=
  let len := Z.of_nat (String.length s) in
  let a := clampIndex len from in
  let b := clampIndex len to in
  String.substring (Z.to_nat a) (Z.to_nat (Z.max (b - a) 0)) s.

(** [s.slice(from)]. *)
Definition sliceFrom (s : string) (from : Z) : string :=
  slice s from (Z.of_nat (String.length s)).

(** White space and line terminators among the code units below 256. *)
Definition isWhiteSpace (c : ascii) : bool :=
  let n := code c in
  ((9 <=? n) && (n <=? 13)) || (n =? 32) || (n =? 160).

Fixpoint trimStart (s : string) : string :=
  match s with
  | String c rest => if isWhiteSpace c then trimStart rest else s
  | EmptyString => EmptyString
  end.

Fixpoint trimEnd (s : string) : string :=
  match s with
  | EmptyString => EmptyString
  | String c rest =>
      match trimEnd rest with
      | EmptyString => if isWhiteSpace c then EmptyString else String c EmptyString
      | kept => String c kept
      end
  end.

(** [s.trim()]. *)
Definition trim (s : string) : string := trimEnd (trimStart s).

(** The string [s] with the character at index [i] replaced by [c]. *)
Fixpoint alterAt (i : nat) (c : ascii) (s : string) : string :=
  match s, i with
  | EmptyString, _ => EmptyString
  | String _ rest, O => String c rest
  | String x rest, S j => String x (alterAt j c rest)
  end.

(** [!s] for a string. *)
Definition isEmpty (s : string) : bool :=
  match s with
  | EmptyString => true
  | String _ _ => false
  end.

Definition hexDigitValue (c : ascii) : option Z :=
  let n := code c in
  if (48 <=? n) && (n <=? 57) then Some (n - 48)
  else if (97 <=? n) && (n <=? 102) then Some (n - 87)
  else if (65 <=? n) && (n <=? 70) then Some (n - 55)
  else None.

(** The longest prefix of radix-16 digits, as a number; [None] when the
    prefix is empty. *)
Fixpoint digitsPrefix (s : string) (acc : option Z) : option Z :=
  match s with
  | EmptyString => acc
  | String c rest =>
      match hexDigitValue c with
      | Some d => digitsPrefix rest (Some (16 * default 0 acc + d))
      | None => acc
      end
  end.

(** [Number.parseInt(s, 16)]; [None] is [NaN].  Leading white space is
    skipped, one sign is read, a [0x] or [0X] prefix is dropped, and the
    digits stop at the first character that is not a hex digit. *)
Definition parseInt16 (s : string) : option Z :=
  let s1 := trimStart s in
  let '(negative, s2) :=
    match s1 with
    | String "-" rest => (true, rest)
    | String "+" rest => (false, rest)
    | _ => (false, s1)
    end in
  let s3 :=
    match s2 with
    | String "0" (String "x" rest) => rest
    | String "0" (String "X" rest) => rest
    | _ => s2
    end in
  match digitsPrefix s3 None with
  | Some v => Some (if negative then - v else v)
  | None => None
  end.

(** Storing a number into a [Uint8Array] slot: [NaN] is 0, anything else
    is reduced modulo 256. *)
Definition toUint8 (v : option Z) : byte :=
  match v with
  | None => x00
  | Some z => default x00 (Byte.of_N (Z.to_N (z mod 256)))
  end.

Definition hexDigit (n : N) : ascii :=
  if (n <? 10)%N then ascii_of_N (48 + n) else ascii_of_N (87 + n).

(** [b.toString(16)] for a byte. *)
Definition toString16 (b : byte) : string :=
  let n := Byte.to_N b in
  if (n <? 16)%N then String (hexDigit n) EmptyString
  else String (hexDigit (n / 16)) (String (hexDigit (n mod 16)) EmptyString).

(** Whether a string is made of pairs of hex digits only. *)
Fixpoint isHexString (s : string) : bool :=
  match s with
  | EmptyString => true
  | String a (String b rest) =>
      bool_decide (is_Some (hexDigitValue a)) && bool_decide (is_Some (hexDigitValue b))
      && isHexString rest
  | String _ EmptyString => false
  end.

(** The two characters a byte is written with. *)
Definition hexHi (b : byte) : ascii := hexDigit (Byte.to_N b / 16).
Definition hexLo (b : byte) : ascii := hexDigit (Byte.to_N b mod 16).

(** [s.padStart(2, "0")]. *)
Definition padStart2 (s : string) : string :=
  match s with
  | EmptyString => "00"
  | String c EmptyString => String "0" s
  | _ => s
  end.

End Js.

(** ** JSON values carried by request and response bodies *)

Module Json.

Inductive json : Type :=
| JNull
| JBool (b : bool)
| JNum (n : Z)
| JStr (s : string)
| JArr (items : list json)
| JObj (fields : list (string * json)).

Fixpoint assoc (k : string) (fields : list (string * json)) : option json :=
  match fields with
  | [] => None
  | (k', v) :: rest => if String.eqb k k' then Some v else assoc k rest
  end.

(** [!body] for a parsed body. *)
Definition falsy (v : json) : bool :=
  match v with
  | JNull | JBool false | JNum 0 | JStr EmptyString => true
  | _ => false
  end.

(** [typeof body.k === "string" ? body.k : ""]. *)
Definition strField (body : json) (k : string) : string :=
  match body with
  | JObj fields =>
      match assoc k fields with
      | Some (JStr s) => s
      | _ => EmptyString
      end
  | _ => EmptyString
  end.

Definition keys (v : json) : list string :=
  match v with
  | JObj fields => map fst fields
  | _ => []
  end.

(** [v.k] for an object, [None] when the property is undefined. *)
Definition field (v : json) (k : string) : option json :=
  match v with
  | JObj fields => assoc k fields
  | _ => None
  end.

(** Every property name that occurs in a value, at any depth. *)
Fixpoint allKeys (v : json) : list string :=
  match v with
  | JObj fields => flat_map (fun kv => fst kv :: allKeys (snd kv)) fields
  | JArr items => flat_map allKeys items
  | _ => []
  end.

(** The fields a post may show to the public. *)
Definition publicPostKeys : list string :=
  ["id"; "title"; "author"; "content"; "createdAt"; "updatedAt"]%string.

(** The names under which either server stores a credential. *)
Definition credentialKeys : list string :=
  ["pw_salt_hex"; "pw_iterations"; "pw_digest"; "pw_keylen"; "pw_hash_hex";
   "password"; "saltHex"; "iterations"; "digest"; "keylen"; "hashHex"]%string.

Definition optStr (o : option string) : json :=
  match o with
  | Some s => JStr s
  | None => JNull
  end.

End Json.

(** A response as the client sees it: status, JSON body, and the
    [Set-Cookie] header when one is sent. *)
Record Response : Type := mkResponse {
  status : Z;
  body : Json.json;
  set_cookie : option string
}.

(** ** The hosted Worker *)

Module Worker.
Import Js Json.

(** Platform services of the Worker runtime. *)
Class WebCrypto : Type := {
  (** [crypto.subtle.deriveBits({name: "PBKDF2", hash, salt, iterations},
      key, length)] for the key imported from the password; it rejects
      parameters it does not support by raising. *)
  deriveBits : string -> list byte -> Z -> string -> Z -> Outcome (list byte);
  (** [crypto.subtle.digest("SHA-256", textEncoder.encode(input))]. *)
  digest256 : string -> list byte;
  (** Byte number [n] produced by the entropy source. *)
  entropy : nat -> byte;
  (** The textual UUID that [crypto.randomUUID] builds from 16 random bytes. *)
  uuidOfBytes : list byte -> string;
  (** [new Date(ms).toISOString()]. *)
  toISOString : Z -> string;
  encodeURIComponent : string -> string
}.

Record PasswordRecord : Type := {
  pw_salt_hex : string;
  pw_iterations : Z;
  pw_digest : string;
  pw_keylen : Z;
  pw_hash_hex : string
}.

(** A row of [public.posts]; the five credential columns are grouped. *)
Record PostRow : Type := {
  id : string;
  title : string;
  author : string;
  content : string;
  pw : PasswordRecord;
  created_at : string;
  updated_at : option string
}.

(** A row of [public.view_tokens]; times are milliseconds since the epoch. *)
Record ViewTokenRow : Type := {
  vt_post_id : string;
  vt_token_hash : string;
  vt_token_salt : string;
  vt_expires_at : Z
}.

(** A row of [public.admin_sessions]. *)
Record AdminSessionRow : Type := {
  as_token_hash : string;
  as_token_salt : string;
  as_expires_at : Z
}.

Record Db : Type := {
  posts : list PostRow;
  view_tokens : list ViewTokenRow;
  admin_sessions : list AdminSessionRow
}.

Inductive Table : Type := Posts | ViewTokens | AdminSessions.
Inductive Verb : Type := Select | Insert | Patch | Delete.

(** What a request handler does besides answering. *)
Inductive Event : Type :=
| Rest (t : Table) (v : Verb)   (* one [supabaseRequest] *)
| Derive                        (* one PBKDF2 derivation *)
| Mint.                         (* one [makeToken] *)

(** The state a handler runs against: the tables, the number of entropy
    bytes consumed so far, and the events in the order they happened. *)
Record World : Type := {
  db : Db;
  drawn : nat;
  trace : list Event
}.

(** The worker's bindings, the clock reading of the request, and for each
    REST call whether the back end refuses it ([Some detail] is the text of
    a response that is not [ok]). *)
Record Env : Type := {
  ADMIN_PASSWORD : string;
  TOKEN_PEPPER : string;
  now : Z;
  outage : Table -> Verb -> option string
}.

(** The part of a request the handlers read: the value of the
    [woldecks.admin] cookie after [parseCookies], and the result of
    [readJson] ([None] when the text is not JSON). *)
Record Request : Type := {
  adminCookie : option string;
  parsedBody : option json
}.

Inductive Route : Type :=
| AdminMe
| AdminLogin
| AdminLogout
| PostsList
| PostGet (id : string)
| PostView (id : string)
| PostPut (id : string)
| PostDelete (id : string).

(** *** Handler monad: state with exceptions, the state surviving a raise *)

Definition M (A : Type) : Type := World -> Outcome A * World.

#[global] Instance M_ret : MRet M := fun A a w => (Ret a, w).

#[global] Instance M_bind : MBind M := fun A B f m w =>
  match m w with
  | (Ret a, w') => f a w'
  | (Throw e, w') => (Throw e, w')
  end.

(** The world [w] with the events [evs] added to its trace. *)
Definition logged (w : World) (evs : list Event) : World :=
  {| db := db w; drawn := drawn w; trace := trace w ++ evs |}.

Definition emit (e : Event) : M unit := fun w => (Ret tt, logged w [e]).

Definition liftOutcome {A : Type} (o : Outcome A) : M A := fun w => (o, w).

(** [try { h } catch (err) { k(err.message) }]. *)
Definition catch {A : Type} (h : M A) (k : string -> M A) : M A := fun w =>
  match h w with
  | (Ret a, w') => (Ret a, w')
  | (Throw e, w') => k e w'
  end.

Definition send (st : Z) (b : json) : Response :=
  {| status := st; body := b; set_cookie := None |}.

Definition errorBody (msg : string) : json := JObj [("error", JStr msg)].

Definition errorDetail (msg detail : string) : json :=
  JObj [("error", JStr msg); ("detail", JStr detail)].

Definition okBody : json := JObj [("ok", JBool true)].

Section Engine.
Context `{rt : WebCrypto}.

(** *** Credential hasher *)

Definition bytesToHex (bytes : list byte) : string :=
  String.concat "" (map (fun b => padStart2 (toString16 b)) bytes).

Definition hexToBytes (hex : string) : list byte :=
  if isEmpty hex then []
  else
    let n := Z.to_nat (Z.of_nat (String.length hex) / 2) in
    map (fun i => toUint8 (parseInt16 (slice hex (Z.of_nat i * 2) (Z.of_nat i * 2 + 2))))
        (seq 0 n).

Definition safeEqualHex (a b : string) : bool :=
  if negb (String.length a =? String.length b)%nat then false
  else
    let diff :=
      fold_left (fun d i => Z.lor d (Z.lxor (charCodeAt a i) (charCodeAt b i)))
                (seq 0 (String.length a)) 0 in
    diff =? 0.

Definition pbkdf2Hash (password saltHex : string) (iterations keylen : Z)
    (digest : string) : M string :=
  _ ← emit Derive;
  bits ← liftOutcome (deriveBits digest (hexToBytes saltHex) iterations password (keylen * 8));
  mret (bytesToHex bits).

(** [crypto.getRandomValues(new Uint8Array(n))]. *)
Definition getRandomValues (n : nat) : M (list byte) := fun w =>
  (Ret (map entropy (seq (drawn w) n)),
   {| db := db w; drawn := (drawn w + n)%nat; trace := trace w |}).

Definition randomUUID : M string :=
  bytes ← getRandomValues 16;
  mret (uuidOfBytes bytes).

Definition makePasswordRecord (password : string) : M PasswordRecord :=
  salt ← getRandomValues 16;
  let saltHex := bytesToHex salt in
  let iterations := 100000 in
  let keylen := 32 in
  let digest := "SHA-256"%string in
  hashHex ← pbkdf2Hash password saltHex iterations keylen digest;
  mret {| pw_salt_hex := saltHex;
          pw_iterations := iterations;
          pw_digest := "sha256";
          pw_keylen := keylen;
          pw_hash_hex := hashHex |}.

(** [record.pw_digest === "sha256" ? "SHA-256" : record.pw_digest]. *)
Definition digestName (record : PasswordRecord) : string :=
  if String.eqb (pw_digest record) "sha256" then "SHA-256"%string
  else pw_digest record.

Definition verifyPassword (password : string) (record : PasswordRecord) : M bool :=
  let digest := digestName record in
  hashHex ← pbkdf2Hash password (pw_salt_hex record) (pw_iterations record)
                        (pw_keylen record) digest;
  mret (safeEqualHex hashHex (pw_hash_hex record)).

(** *** Token codec *)

Definition sha256Hex (input : string) : string := bytesToHex (digest256 input).

Record Token : Type := { token : string; salt : string; hash : string }.

Record TokenParts : Type := { tp_token : string; tp_salt : string }.

(** The string hashed for a token: [`${token}:${salt}:${pepper}`]. *)
Definition tokenInput (tok slt pepper : string) : string :=
  tok +:+ ":" +:+ slt +:+ ":" +:+ pepper.

Definition makeToken (pepper : string) : M Token :=
  _ ← emit Mint;
  tok ← randomUUID;
  bytes ← getRandomValues 16;
  let slt := bytesToHex bytes in
  mret {| token := tok; salt := slt; hash := sha256Hex (tokenInput tok slt pepper) |}.

Definition splitToken (raw : option string) : option TokenParts :=
  match raw with
  | None => None
  | Some r =>
      if isEmpty r then None
      else
        let idx := lastIndexOf "." r in
        if idx =? -1 then None
        else Some {| tp_token := slice r 0 idx; tp_salt := sliceFrom r (idx + 1) |}
  end.

(** The string handed to the client: [`${token}.${salt}`]. *)
Definition presented (t : Token) : string := token t +:+ "." +:+ salt t.

(** *** The REST back end

    [supabaseRequest] is recorded in the trace; when the back end refuses
    the call the tables are left as they are and the response text is
    returned on the left. *)

Definition rest {A : Type} (env : Env) (t : Table) (v : Verb)
    (run : Db -> A * Db) : M (string + A) :=
  _ ← emit (Rest t v);
  ((fun w =>
      match outage env t v with
      | Some detail => (Ret (inl detail), w)
      | None =>
          let '(a, d) := run (db w) in
          (Ret (inr a), {| db := d; drawn := drawn w; trace := trace w |})
      end) : M (string + A)).

(** [token_hash=eq.h & token_salt=eq.s & expires_at=gt.now]. *)
Definition adminSessionFilter (env : Env) (h s : string) (r : AdminSessionRow) : bool :=
  String.eqb (as_token_hash r) h && String.eqb (as_token_salt r) s
  && (now env <? as_expires_at r).

(** [post_id=eq.id & token_hash=eq.h & token_salt=eq.s & expires_at=gt.now]. *)
Definition viewTokenFilter (env : Env) (pid h s : string) (r : ViewTokenRow) : bool :=
  String.eqb (vt_post_id r) pid && String.eqb (vt_token_hash r) h
  && String.eqb (vt_token_salt r) s && (now env <? vt_expires_at r).

Definition selectAdminSessions (env : Env) (h s : string) : M (string + list AdminSessionRow) :=
  rest env AdminSessions Select
       (fun d => (firstn 1 (List.filter (adminSessionFilter env h s) (admin_sessions d)), d)).

Definition selectViewTokens (env : Env) (pid h s : string) : M (string + list ViewTokenRow) :=
  rest env ViewTokens Select
       (fun d => (firstn 1 (List.filter (viewTokenFilter env pid h s) (view_tokens d)), d)).

(** [posts?id=eq.pid&limit=1]. *)
Definition selectPost (env : Env) (pid : string) : M (string + list PostRow) :=
  rest env Posts Select
       (fun d => (firstn 1 (List.filter (fun p => String.eqb (id p) pid) (posts d)), d)).

(** [posts?select=...&order=created_at.desc]; the order in which the back
    end returns the rows is not modelled. *)
Definition selectPosts (env : Env) : M (string + list PostRow) :=
  rest env Posts Select (fun d => (posts d, d)).

Definition insertAdminSession (env : Env) (r : AdminSessionRow) : M (string + unit) :=
  rest env AdminSessions Insert
       (fun d => (tt, {| posts := posts d; view_tokens := view_tokens d;
                         admin_sessions := admin_sessions d ++ [r] |})).

Definition insertViewToken (env : Env) (r : ViewTokenRow) : M (string + unit) :=
  rest env ViewTokens Insert
       (fun d => (tt, {| posts := posts d; view_tokens := view_tokens d ++ [r];
                         admin_sessions := admin_sessions d |})).

Definition deleteAdminSessions (env : Env) (h s : string) : M (string + unit) :=
  rest env AdminSessions Delete
       (fun d => (tt, {| posts := posts d; view_tokens := view_tokens d;
                         admin_sessions :=
                           List.filter (fun r => negb (String.eqb (as_token_hash r) h
                                                  && String.eqb (as_token_salt r) s))
                                  (admin_sessions d) |})).

(** The row after [PATCH {title, content}]; the table's trigger stamps
    [updated_at]. *)
Definition patched (env : Env) (newTitle newContent : string) (p : PostRow) : PostRow :=
  {| id := id p; title := newTitle; author := author p; content := newContent;
     pw := pw p; created_at := created_at p;
     updated_at := Some (toISOString (now env)) |}.

(** [PATCH posts?id=eq.${id}], the id read as the checks read it: the
    rows whose id is the path segment.  That is how the back end reads the
    query for a segment that needs no escaping ([Addressing.plainId]). *)
Definition patchPost (env : Env) (pid newTitle newContent : string) : M (string + unit) :=
  rest env Posts Patch
       (fun d => (tt, {| posts := map (fun p => if String.eqb (id p) pid
                                                then patched env newTitle newContent p
                                                else p) (posts d);
                         view_tokens := view_tokens d;
                         admin_sessions := admin_sessions d |})).

(** [DELETE posts?id=eq.${id}], the id read as the checks read it (see
    [patchPost]); the view tokens of the post go with it
    ([on delete cascade]). *)
Definition deletePost (env : Env) (pid : string) : M (string + unit) :=
  rest env Posts Delete
       (fun d => (tt, {| posts := List.filter (fun p => negb (String.eqb (id p) pid)) (posts d);
                         view_tokens :=
                           List.filter (fun r => negb (String.eqb (vt_post_id r) pid))
                                  (view_tokens d);
                         admin_sessions := admin_sessions d |})).

(** The row that answers the cookie, if the back end answers. *)
Definition answeringSession (env : Env) (parts : TokenParts) (d : Db)
    : option AdminSessionRow :=
  match outage env AdminSessions Select with
  | Some _ => None
  | None =>
      head (List.filter (adminSessionFilter env
                      (sha256Hex (tokenInput (tp_token parts) (tp_salt parts)
                                             (TOKEN_PEPPER env)))
                      (tp_salt parts))
                   (admin_sessions d))
  end.

(** Whether a live view token answers the presented one, if the back end
    answers. *)
Definition answeringViewToken (env : Env) (pid : string) (parts : TokenParts) (d : Db)
    : bool :=
  match outage env ViewTokens Select with
  | Some _ => false
  | None =>
      bool_decide (is_Some (head (List.filter
        (viewTokenFilter env pid
           (sha256Hex (tokenInput (tp_token parts) (tp_salt parts) (TOKEN_PEPPER env)))
           (tp_salt parts))
        (view_tokens d))))
  end.

(** *** Admin session *)

Definition adminSessionFromCookie (env : Env) (request : Request)
    : M (option AdminSessionRow) :=
  match splitToken (adminCookie request) with
  | None => mret None
  | Some tokenParts =>
      let tokenHash :=
        sha256Hex (tokenInput (tp_token tokenParts) (tp_salt tokenParts) (TOKEN_PEPPER env)) in
      res ← selectAdminSessions env tokenHash (tp_salt tokenParts);
      match res with
      | inl _ => mret None
      | inr data => mret (head data)
      end
  end.

Definition isAdmin (env : Env) (request : Request) : M bool :=
  r ← adminSessionFromCookie env request;
  mret (bool_decide (is_Some r)).

(** *** Response bodies *)

Definition listedPost (p : PostRow) : json :=
  JObj [("id", JStr (id p)); ("title", JStr (title p)); ("author", JStr (author p));
        ("createdAt", JStr (created_at p)); ("updatedAt", optStr (updated_at p))].

Definition shownPost (p : PostRow) : json :=
  JObj [("id", JStr (id p)); ("title", JStr (title p)); ("author", JStr (author p));
        ("content", JStr (content p));
        ("createdAt", JStr (created_at p)); ("updatedAt", optStr (updated_at p))].

(** *** Handlers *)

Definition handleAdminMe (env : Env) (request : Request) : M Response :=
  admin ← isAdmin env request;
  mret (send 200 (JObj [("admin", JBool admin)])).

Definition adminCookieHeader (t : Token) : string :=
  "woldecks.admin=" +:+ encodeURIComponent (presented t)
  +:+ "; Path=/; HttpOnly; SameSite=None; Secure; Max-Age=86400".

Definition handleAdminLogin (env : Env) (request : Request) : M Response :=
  match parsedBody request with
  | None => mret (send 400 (errorBody "Invalid JSON"))
  | Some b =>
      if falsy b then mret (send 400 (errorBody "Invalid JSON"))
      else
        let input := strField b "password" in
        if isEmpty input then mret (send 400 (errorBody "Missing field: password"))
        else if negb (String.eqb input (ADMIN_PASSWORD env))
        then mret (send 401 (errorBody "Invalid password"))
        else
          tokenData ← makeToken (TOKEN_PEPPER env);
          let expiresAt := now env + 24 * 60 * 60 * 1000 in
          insertRes ← insertAdminSession env
                        {| as_token_hash := hash tokenData;
                           as_token_salt := salt tokenData;
                           as_expires_at := expiresAt |};
          match insertRes with
          | inl _ => mret (send 500 (errorBody "Failed to create session"))
          | inr _ =>
              mret {| status := 200; body := JObj [("admin", JBool true)];
                      set_cookie := Some (adminCookieHeader tokenData) |}
          end
  end.

Definition handleAdminLogout (env : Env) (request : Request) : M Response :=
  _ ← match splitToken (adminCookie request) with
      | Some tokenParts =>
          let tokenHash :=
            sha256Hex (tokenInput (tp_token tokenParts) (tp_salt tokenParts)
                                  (TOKEN_PEPPER env)) in
          _ ← deleteAdminSessions env tokenHash (tp_salt tokenParts);
          mret tt
      | None => mret tt
      end;
  mret {| status := 200; body := okBody;
          set_cookie := Some "woldecks.admin=x; Path=/; HttpOnly; SameSite=None; Secure; Max-Age=0"%string |}.

Definition handlePostsList (env : Env) : M Response :=
  res ← selectPosts env;
  match res with
  | inl detail => mret (send 500 (errorDetail "Failed to load posts" detail))
  | inr rows => mret (send 200 (JObj [("posts", JArr (map listedPost rows))]))
  end.

(** The body shared by [GET /api/posts/{id}] and the admin branch of the
    view exchange. *)
Definition loadPost (env : Env) (pid : string) : M Response :=
  res ← selectPost env pid;
  match res with
  | inl detail => mret (send 500 (errorDetail "Failed to load post" detail))
  | inr [] => mret (send 404 (errorBody "Not found"))
  | inr (post :: _) => mret (send 200 (JObj [("post", shownPost post)]))
  end.

Definition handlePostGet (env : Env) (pid : string) (request : Request) : M Response :=
  admin ← isAdmin env request;
  if negb admin then mret (send 401 (errorBody "Admin only"))
  else loadPost env pid.

Definition handlePostView (env : Env) (pid : string) (request : Request) : M Response :=
  admin ← isAdmin env request;
  if (admin : bool) then loadPost env pid
  else
    match parsedBody request with
    | None => mret (send 400 (errorBody "Invalid JSON"))
    | Some b =>
        if falsy b then mret (send 400 (errorBody "Invalid JSON"))
        else
          let password := strField b "password" in
          if isEmpty password then mret (send 401 (errorBody "Password required"))
          else
            res ← selectPost env pid;
            match res with
            | inl detail => mret (send 500 (errorDetail "Failed to load post" detail))
            | inr [] => mret (send 404 (errorBody "Not found"))
            | inr (post :: _) =>
                ok ← verifyPassword password (pw post);
                if negb ok then mret (send 401 (errorBody "Invalid password"))
                else
                  tokenData ← makeToken (TOKEN_PEPPER env);
                  let expiresAt := now env + 60 * 60 * 1000 in
                  insertRes ← insertViewToken env
                                {| vt_post_id := pid;
                                   vt_token_hash := hash tokenData;
                                   vt_token_salt := salt tokenData;
                                   vt_expires_at := expiresAt |};
                  match insertRes with
                  | inl detail => mret (send 500 (errorDetail "Failed to issue token" detail))
                  | inr _ =>
                      mret (send 200 (JObj [("post", shownPost post);
                                            ("viewToken", JStr (presented tokenData))]))
                  end
            end
    end.

(** The view-token check of [PUT] and [DELETE]: the lookup is made only
    for a token that splits, and a refused lookup leaves [authorized]
    false. *)
Definition viewTokenAuthorized (env : Env) (pid viewToken : string) : M bool :=
  match splitToken (Some viewToken) with
  | None => mret false
  | Some tokenParts =>
      let tokenHash :=
        sha256Hex (tokenInput (tp_token tokenParts) (tp_salt tokenParts) (TOKEN_PEPPER env)) in
      res ← selectViewTokens env pid tokenHash (tp_salt tokenParts);
      match res with
      | inl _ => mret false
      | inr rows => mret (0 <? length rows)%nat
      end
  end.

(** The password fallback of [PUT] and [DELETE]; [Some r] is the early
    [return send(...)], [None] lets the handler go on. *)
Definition passwordFallback (env : Env) (pid password : string) : M (option Response) :=
  if isEmpty password then mret (Some (send 401 (errorBody "Password required")))
  else
    res ← selectPost env pid;
    match res with
    | inl detail => mret (Some (send 500 (errorDetail "Failed to verify" detail)))
    | inr [] => mret (Some (send 404 (errorBody "Not found")))
    | inr (row :: _) =>
        ok ← verifyPassword password (pw row);
        if negb ok then mret (Some (send 401 (errorBody "Invalid password")))
        else mret None
    end.

(** The authorization block that [PUT] and [DELETE] both carry, word for
    word: [const isAdminUser = await isAdmin(...); if (!isAdminUser) {...}]. *)
Definition authorize (env : Env) (pid : string) (request : Request)
    (password viewToken : string) : M (option Response) :=
  isAdminUser ← isAdmin env request;
  if negb isAdminUser then
    authorized ← viewTokenAuthorized env pid viewToken;
    if negb authorized then passwordFallback env pid password
    else mret None
  else mret None.

(** The tail of [PUT] once the request is authorized. *)
Definition applyUpdate (env : Env) (pid newTitle newContent : string) : M Response :=
  updateRes ← patchPost env pid newTitle newContent;
  match updateRes with
  | inl detail => mret (send 500 (errorDetail "Failed to update" detail))
  | inr _ => mret (send 200 okBody)
  end.

(** The tail of [DELETE] once the request is authorized. *)
Definition applyDelete (env : Env) (pid : string) : M Response :=
  delRes ← deletePost env pid;
  match delRes with
  | inl detail => mret (send 500 (errorDetail "Failed to delete" detail))
  | inr _ => mret (send 200 okBody)
  end.

Definition handlePostPut (env : Env) (pid : string) (request : Request) : M Response :=
  match parsedBody request with
  | None => mret (send 400 (errorBody "Invalid JSON"))
  | Some b =>
      if falsy b then mret (send 400 (errorBody "Invalid JSON"))
      else
        let title := trim (strField b "title") in
        let content := trim (strField b "content") in
        let password := strField b "password" in
        let viewToken := strField b "viewToken" in
        if isEmpty title || isEmpty content
        then mret (send 400 (errorBody "Missing fields"))
        else
          denied ← authorize env pid request password viewToken;
          match denied with
          | Some r => mret r
          | None => applyUpdate env pid title content
          end
  end.

Definition handlePostDelete (env : Env) (pid : string) (request : Request) : M Response :=
  match parsedBody request with
  | None => mret (send 400 (errorBody "Invalid JSON"))
  | Some b =>
      if falsy b then mret (send 400 (errorBody "Invalid JSON"))
      else
        let password := strField b "password" in
        let viewToken := strField b "viewToken" in
        denied ← authorize env pid request password viewToken;
        match denied with
        | Some r => mret r
        | None => applyDelete env pid
        end
  end.

(** A well-formed [PUT] or [DELETE] on the post [pid] with the parsed body
    [b]: the route, the verb sent to the back end once authorized, and the
    tail of the handler that sends it. *)
Inductive Mutation (env : Env) (b : json) : Route -> string -> Verb -> M Response -> Prop :=
| MutationPut (pid : string) :
    isEmpty (trim (strField b "title")) = false ->
    isEmpty (trim (strField b "content")) = false ->
    Mutation env b (PostPut pid) pid Patch
             (applyUpdate env pid (trim (strField b "title")) (trim (strField b "content")))
| MutationDelete (pid : string) :
    Mutation env b (PostDelete pid) pid Delete (applyDelete env pid).

Definition dispatch (env : Env) (route : Route) (request : Request) : M Response :=
  match route with
  | AdminMe => handleAdminMe env request
  | AdminLogin => handleAdminLogin env request
  | AdminLogout => handleAdminLogout env request
  | PostsList => handlePostsList env
  | PostGet pid => handlePostGet env pid request
  | PostView pid => handlePostView env pid request
  | PostPut pid => handlePostPut env pid request
  | PostDelete pid => handlePostDelete env pid request
  end.

(** The exported [fetch], on the routes of the authorization core: whatever
    a handler raises is answered with status 500 and the message. *)
Definition fetch (env : Env) (route : Route) (request : Request) : M Response :=
  catch (dispatch env route request)
        (fun message => mret (send 500 (errorDetail "Worker error" message))).

End Engine.
End Worker.

(** ** The local Node server *)

Module LocalServer.
Import Js Json.

(** Platform services of the Node runtime. *)
Class NodeRuntime : Type := {
  (** [crypto.pbkdf2Sync(password, salt, iterations, keylen, digest)]; it
      raises on parameters it does not accept. *)
  pbkdf2Sync : string -> list byte -> Z -> Z -> string -> Outcome (list byte);
  (** [crypto.createHmac("sha256", key).update(value).digest("hex")]. *)
  hmacHex : string -> string -> string;
  (** Byte number [n] produced by the entropy source. *)
  entropy : nat -> byte;
  (** The textual UUID that [crypto.randomUUID] builds from 16 random bytes. *)
  uuidOfBytes : list byte -> string;
  (** [new Date(ms).toISOString()]. *)
  toISOString : Z -> string;
  encodeURIComponent : string -> string;
  (** [Array.prototype.sort] with a comparator. *)
  arraySort : forall A : Type, (A -> A -> Z) -> list A -> list A
}.

Record PasswordRecord : Type := {
  saltHex : string;
  iterations : Z;
  digest : string;
  keylen : Z;
  hashHex : string
}.

(** An element of [posts] in the data file. *)
Record Post : Type := {
  id : string;
  title : string;
  author : string;
  content : string;
  password : PasswordRecord;
  createdAt : string;
  updatedAt : option string
}.

(** A value of a session's [tokens] map. *)
Record IssuedToken : Type := {
  token : string;
  issuedAt : Z
}.

(** A value of the [sessions] map. *)
Record Session : Type := {
  sessionCreatedAt : string;
  verified : gset string;
  tokens : gmap string IssuedToken
}.

Inductive Event : Type :=
| Derive      (* one [pbkdf2Sync] *)
| Mint        (* one view token drawn with [randomUUID] *)
| WriteData.  (* one [writeData] *)

(** The state a handler runs against: the [sessions] map, the posts of the
    data file, the entropy bytes consumed, the [Set-Cookie] header put on
    the response object so far, and the events in order. *)
Record World : Type := {
  sessions : gmap string Session;
  data : list Post;
  drawn : nat;
  resCookie : option string;
  trace : list Event
}.

(** The configuration and the clock reading of the request. *)
Record Env : Type := {
  ADMIN_PASSWORD : string;
  SESSION_SECRET : string;
  now : Z
}.

(** The part of a request the handlers read: two cookies after
    [parseCookies], and the text of the body parsed as JSON ([None] when it
    does not parse). *)
Record Request : Type := {
  sidCookie : option string;
  adminCookie : option string;
  parsedBody : option json
}.

Inductive Route : Type :=
| AdminMe
| AdminLogin
| AdminLogout
| PostsList
| PostGet (id : string)
| PostView (id : string)
| PostPut (id : string)
| PostDelete (id : string).

Definition M (A : Type) : Type := World -> Outcome A * World.

#[global] Instance M_ret : MRet M := fun A a w => (Ret a, w).

#[global] Instance M_bind : MBind M := fun A B f m w =>
  match m w with
  | (Ret a, w') => f a w'
  | (Throw e, w') => (Throw e, w')
  end.

(** The world [w] with the events [evs] added to its trace. *)
Definition logged (w : World) (evs : list Event) : World :=
  {| sessions := sessions w; data := data w; drawn := drawn w;
     resCookie := resCookie w; trace := trace w ++ evs |}.

Definition emit (e : Event) : M unit := fun w => (Ret tt, logged w [e]).

Definition liftOutcome {A : Type} (o : Outcome A) : M A := fun w => (o, w).

Definition getWorld : M World := fun w => (Ret w, w).

Definition setSessions (m : gmap string Session) : M unit := fun w =>
  (Ret tt, {| sessions := m; data := data w; drawn := drawn w;
              resCookie := resCookie w; trace := trace w |}).

(** [writeData(data)]. *)
Definition writeData (ps : list Post) : M unit :=
  _ ← emit WriteData;
  ((fun w =>
      (Ret tt, {| sessions := sessions w; data := ps; drawn := drawn w;
                  resCookie := resCookie w; trace := trace w |})) : M unit).

Definition setHeaderCookie (c : string) : M unit := fun w =>
  (Ret tt, {| sessions := sessions w; data := data w; drawn := drawn w;
              resCookie := Some c; trace := trace w |}).

(** [json(res, status, body)]: the response leaves with the headers set on
    [res] so far.  The handlers answer [Some] response, or [None] when they
    return without writing one. *)
Definition json (st : Z) (b : Json.json) : M (option Response) := fun w =>
  (Ret (Some {| status := st; body := b; set_cookie := resCookie w |}), w).

Definition errorBody (msg : string) : Json.json := JObj [("error", JStr msg)].
Definition okBody : Json.json := JObj [("ok", JBool true)].

Definition notFound : M (option Response) := json 404 (errorBody "Not found").
Definition badRequest (msg : string) : M (option Response) := json 400 (errorBody msg).
Definition unauthorized (msg : string) : M (option Response) := json 401 (errorBody msg).

(** *** Node's hex codec and buffer comparison *)

(** [buf.toString("hex")]. *)
Definition bufferToHex (bytes : list byte) : string :=
  String.concat "" (map (fun b => padStart2 (toString16 b)) bytes).

(** [Buffer.from(s, "hex")]: pairs of hex digits are decoded up to the
    first pair that is not one; a trailing single character is dropped. *)
Fixpoint bufferFromHex (s : string) : list byte :=
  match s with
  | String a (String b rest) =>
      match hexDigitValue a, hexDigitValue b with
      | Some hi, Some lo => toUint8 (Some (16 * hi + lo)) :: bufferFromHex rest
      | _, _ => []
      end
  | _ => []
  end.

Fixpoint bytesEqual (a b : list byte) : bool :=
  match a, b with
  | [], [] => true
  | x :: a', y :: b' => Byte.eqb x y && bytesEqual a' b'
  | _, _ => false
  end.

(** [crypto.timingSafeEqual(a, b)], which raises on buffers of different
    lengths. *)
Definition timingSafeEqual (a b : list byte) : Outcome bool :=
  if negb (length a =? length b)%nat
  then Throw "Input buffers must have the same byte length"
  else Ret (bytesEqual a b).

Section Engine.
Context `{rt : NodeRuntime}.

(** [crypto.getRandomValues]-style draw of [n] bytes ([crypto.randomBytes(n)]). *)
Definition randomBytes (n : nat) : M (list byte) := fun w =>
  (Ret (map entropy (seq (drawn w) n)),
   {| sessions := sessions w; data := data w; drawn := (drawn w + n)%nat;
      resCookie := resCookie w; trace := trace w |}).

Definition randomUUID : M string :=
  bytes ← randomBytes 16;
  mret (uuidOfBytes bytes).

(** *** Signed cookies and sessions *)

Definition sign (env : Env) (value : string) : string :=
  value +:+ "." +:+ hmacHex (SESSION_SECRET env) value.

(** The comparison is [timingSafeEqual] on the UTF-8 bytes of the two
    strings inside [try]: equal strings give the value, anything else
    (different bytes, or different lengths and the raise that follows)
    gives [null]. *)
Definition verifySigned (env : Env) (signed : string) : option string :=
  let idx := lastIndexOf "." signed in
  if idx =? -1 then None
  else
    let value := slice signed 0 idx in
    let mac := sliceFrom signed (idx + 1) in
    let expected := hmacHex (SESSION_SECRET env) value in
    if String.eqb mac expected then Some value else None.

Definition setCookie (name value : string) (extra : string) : M unit :=
  setHeaderCookie (name +:+ "=" +:+ encodeURIComponent value
                   +:+ "; Path=/; HttpOnly; SameSite=Lax" +:+ extra).

Definition getSessionId (env : Env) (req : Request) : option string :=
  match sidCookie req with
  | None => None
  | Some signed => if isEmpty signed then None else verifySigned env signed
  end.

Definition freshSession (env : Env) : Session :=
  {| sessionCreatedAt := toISOString (now env); verified := ∅; tokens := ∅ |}.

(** [sid && sessions.has(sid) ? sessions.get(sid) : null]. *)
Definition sessionOf (w : World) (sid : option string) : option Session :=
  match sid with
  | Some s => if isEmpty s then None else sessions w !! s
  | None => None
  end.

Definition createSession (env : Env) : M string :=
  sid ← randomUUID;
  w ← getWorld;
  _ ← setSessions (<[sid := freshSession env]> (sessions w));
  _ ← setCookie "woldecks.sid" (sign env sid) "";
  mret sid.

(** Returns the session id; the session itself stays in the map, where
    the callers update it in place. *)
Definition getOrCreateSession (env : Env) (req : Request) : M string :=
  w ← getWorld;
  match getSessionId env req with
  | Some sid =>
      if negb (isEmpty sid) && bool_decide (is_Some (sessions w !! sid)) then mret sid
      else createSession env
  | None => createSession env
  end.

(** [sessions.get(sid).field = ...] on the session shared through the map. *)
Definition updateSession (sid : string) (f : Session -> Session) : M unit :=
  w ← getWorld;
  setSessions (alter f sid (sessions w)).

Definition addVerified (pid : string) (s : Session) : Session :=
  {| sessionCreatedAt := sessionCreatedAt s;
     verified := {[pid]} ∪ verified s;
     tokens := tokens s |}.

Definition setToken (pid : string) (t : IssuedToken) (s : Session) : Session :=
  {| sessionCreatedAt := sessionCreatedAt s;
     verified := verified s;
     tokens := <[pid := t]> (tokens s) |}.

Definition getAdminSession (env : Env) (w : World) (req : Request) : option string :=
  match adminCookie req with
  | None => None
  | Some signed =>
      if isEmpty signed then None
      else
        match verifySigned env signed with
        | None => None
        | Some sid =>
            if isEmpty sid then None
            else if bool_decide (is_Some (sessions w !! sid)) then Some sid else None
        end
  end.

Definition isAdmin (env : Env) (w : World) (req : Request) : bool :=
  bool_decide (is_Some (getAdminSession env w req)).

(** *** Credential hasher *)

Definition pbkdf2Hash (pass salt_hex : string) : M PasswordRecord :=
  let salt := bufferFromHex salt_hex in
  let iters := 120000 in
  let klen := 32 in
  let dig := "sha256"%string in
  _ ← emit Derive;
  hash ← liftOutcome (pbkdf2Sync pass salt iters klen dig);
  mret {| saltHex := salt_hex; iterations := iters; digest := dig; keylen := klen;
          hashHex := bufferToHex hash |}.

Definition makePasswordRecord (pass : string) : M PasswordRecord :=
  bytes ← randomBytes 16;
  let salt_hex := bufferToHex bytes in
  derived ← pbkdf2Hash pass salt_hex;
  mret {| saltHex := salt_hex;
          iterations := iterations derived;
          digest := digest derived;
          keylen := keylen derived;
          hashHex := hashHex derived |}.

Definition verifyPassword (pass : string) (record : PasswordRecord) : M bool :=
  _ ← emit Derive;
  derived ← liftOutcome (pbkdf2Sync pass (bufferFromHex (saltHex record))
                                    (iterations record) (keylen record) (digest record));
  match timingSafeEqual (bufferFromHex (hashHex record))
                        (bufferFromHex (bufferToHex derived)) with
  | Ret b => mret b
  | Throw _ => mret false
  end.

(** What follows a verified password in the view exchange, in [PUT] and
    in [DELETE] alike: the caller's session (made if need be) marks the
    post as verified and receives a newly drawn token for it.  The token
    is returned to the handler. *)
Definition unlock (env : Env) (req : Request) (pid : string) : M string :=
  sid ← getOrCreateSession env req;
  _ ← updateSession sid (addVerified pid);
  _ ← emit Mint;
  newToken ← randomUUID;
  _ ← updateSession sid (setToken pid {| token := newToken; issuedAt := now env |});
  mret newToken.

(** The session a verified password leaves behind. *)
Definition unlockedSession (env : Env) (pid tk : string) (s : Session) : Session :=
  setToken pid {| token := tk; issuedAt := now env |} (addVerified pid s).

(** *** Posts of the data file *)

(** [posts.findIndex(p => p.id === pid)], with the element found. *)
Fixpoint findIndex (pid : string) (ps : list Post) : option (nat * Post) :=
  match ps with
  | [] => None
  | p :: rest =>
      if String.eqb (id p) pid then Some (O, p)
      else
        match findIndex pid rest with
        | Some (i, q) => Some (S i, q)
        | None => None
        end
  end.

(** [p.updatedAt || null]. *)
Definition orNull (o : option string) : Json.json :=
  match o with
  | Some s => if isEmpty s then JNull else JStr s
  | None => JNull
  end.

Definition listedPost (p : Post) : Json.json :=
  JObj [("id", JStr (id p)); ("title", JStr (title p)); ("author", JStr (author p));
        ("createdAt", JStr (createdAt p)); ("updatedAt", orNull (updatedAt p))].

Definition shownPost (p : Post) : Json.json :=
  JObj [("id", JStr (id p)); ("title", JStr (title p)); ("author", JStr (author p));
        ("content", JStr (content p));
        ("createdAt", JStr (createdAt p)); ("updatedAt", orNull (updatedAt p))].

(** [(a, b) => (a.createdAt < b.createdAt ? 1 : -1)]. *)
Definition byCreatedDesc (a b : Post) : Z :=
  if String.ltb (createdAt a) (createdAt b) then 1 else -1.

Definition edited (env : Env) (newTitle newContent : string) (p : Post) : Post :=
  {| id := id p; title := newTitle; author := author p; content := newContent;
     password := password p; createdAt := createdAt p;
     updatedAt := Some (toISOString (now env)) |}.

(** *** Handlers *)

Definition handleAdminMe (env : Env) (req : Request) : M (option Response) :=
  w ← getWorld;
  json 200 (JObj [("admin", JBool (isAdmin env w req))]).

Definition handleAdminLogin (env : Env) (req : Request) : M (option Response) :=
  match parsedBody req with
  | None => badRequest "Invalid JSON"
  | Some JNull => mret None
  | Some b =>
      let input := strField b "password" in
      if isEmpty input then badRequest "Missing field: password"
      else if negb (String.eqb input (ADMIN_PASSWORD env)) then unauthorized "Invalid password"
      else
        sid ← randomUUID;
        w ← getWorld;
        _ ← setSessions (<[sid := freshSession env]> (sessions w));
        _ ← setCookie "woldecks.admin" (sign env sid) "";
        json 200 (JObj [("admin", JBool true)])
  end.

Definition handleAdminLogout (env : Env) (req : Request) : M (option Response) :=
  w ← getWorld;
  _ ← match getAdminSession env w req with
      | Some sid => setSessions (delete sid (sessions w))
      | None => mret tt
      end;
  _ ← setCookie "woldecks.admin" "x" "; Max-Age=0";
  json 200 okBody.

Definition handlePostsList : M (option Response) :=
  w ← getWorld;
  json 200 (JObj [("posts", JArr (map listedPost (arraySort Post byCreatedDesc (data w))))]).

(** [data.posts.find(p => p.id === id)] is the element [findIndex] stops at. *)
Definition handlePostGet (env : Env) (pid : string) (req : Request) : M (option Response) :=
  w ← getWorld;
  if negb (isAdmin env w req) then unauthorized "Admin only"
  else
    match findIndex pid (data w) with
    | None => notFound
    | Some (_, post) => json 200 (JObj [("post", shownPost post)])
    end.

(** For an admin the handler rewrites [req.url] to [/api/posts/{id}] and
    calls [route] again; the method is still [POST], no route matches that
    pair, [route] returns [null] and no response is written. *)
Definition handlePostView (env : Env) (pid : string) (req : Request) : M (option Response) :=
  w ← getWorld;
  if isAdmin env w req then mret None
  else
    match parsedBody req with
    | None => badRequest "Invalid JSON"
    | Some JNull => mret None
    | Some b =>
        let pass := strField b "password" in
        if isEmpty pass then unauthorized "Password required"
        else
          match findIndex pid (data w) with
          | None => notFound
          | Some (_, post) =>
              ok ← verifyPassword pass (password post);
              if negb ok then unauthorized "Invalid password"
              else
                viewToken ← unlock env req pid;
                json 200 (JObj [("post", shownPost post); ("viewToken", JStr viewToken)])
          end
    end.

(** [session ? session.verified.has(id) : false]. *)
Definition sessionVerified (session : option Session) (pid : string) : bool :=
  match session with
  | Some s => bool_decide (pid ∈ verified s)
  | None => false
  end.

(** [session && session.tokens.has(id) ? session.tokens.get(id).token === viewToken : false]. *)
Definition sessionTokenOk (session : option Session) (pid viewToken : string) : bool :=
  match session with
  | Some s =>
      match tokens s !! pid with
      | Some t => String.eqb (token t) viewToken
      | None => false
      end
  | None => false
  end.

(** The authorization block that [PUT] and [DELETE] both carry, word for
    word: [if (!isAdmin(req)) {...}].  [Some r] is the early return with
    what was written, [None] lets the handler go on. *)
Definition authorize (env : Env) (pid : string) (req : Request)
    (pass viewToken : string) (post : Post) : M (option (option Response)) :=
  w ← getWorld;
  if negb (isAdmin env w req) then
    let session := sessionOf w (getSessionId env req) in
    let isVerified := sessionVerified session pid in
    let tokenOk := sessionTokenOk session pid viewToken in
    if negb isVerified && negb tokenOk then
      if isEmpty pass then r ← unauthorized "Password required"; mret (Some r)
      else
        ok ← verifyPassword pass (password post);
        if negb ok then r ← unauthorized "Invalid password"; mret (Some r)
        else
          _ ← unlock env req pid;
          mret None
    else mret None
  else mret None.

(** The tail of [PUT] once the request is authorized: the post at [idx]
    of the posts read at the start is edited in place and the file is
    written. *)
Definition applyUpdate (env : Env) (ps : list Post) (idx : nat) (post : Post)
    (newTitle newContent : string) : M (option Response) :=
  _ ← writeData (<[idx := edited env newTitle newContent post]> ps);
  json 200 okBody.

(** The tail of [DELETE] once the request is authorized:
    [data.posts.splice(idx, 1)] and the file is written. *)
Definition applyDelete (ps : list Post) (idx : nat) : M (option Response) :=
  _ ← writeData (delete idx ps);
  json 200 okBody.

Definition handlePostPut (env : Env) (pid : string) (req : Request) : M (option Response) :=
  match parsedBody req with
  | None => badRequest "Invalid JSON"
  | Some JNull => mret None
  | Some b =>
      let newTitle := trim (strField b "title") in
      let newContent := trim (strField b "content") in
      let pass := strField b "password" in
      let viewToken := strField b "viewToken" in
      if isEmpty newTitle || isEmpty newContent then badRequest "Missing fields"
      else
        w ← getWorld;
        match findIndex pid (data w) with
        | None => notFound
        | Some (idx, post) =>
            denied ← authorize env pid req pass viewToken post;
            match denied with
            | Some r => mret r
            | None => applyUpdate env (data w) idx post newTitle newContent
            end
        end
  end.

Definition handlePostDelete (env : Env) (pid : string) (req : Request) : M (option Response) :=
  match parsedBody req with
  | None => badRequest "Invalid JSON"
  | Some JNull => mret None
  | Some b =>
      let pass := strField b "password" in
      let viewToken := strField b "viewToken" in
      w ← getWorld;
      match findIndex pid (data w) with
      | None => notFound
      | Some (idx, post) =>
          denied ← authorize env pid req pass viewToken post;
          match denied with
          | Some r => mret r
          | None => applyDelete (data w) idx
          end
      end
  end.

(** The world as a request finds it: the response object is new and has no
    header yet. *)
Definition arriving (w : World) : World :=
  {| sessions := sessions w; data := data w; drawn := drawn w;
     resCookie := None; trace := trace w |}.

(** A well-formed [PUT] or [DELETE] on the post [pid], which the data
    file [ps] holds: the route, the post, and the tail of the handler that
    writes the file once the request is authorized. *)
Inductive Mutation (env : Env) (b : Json.json) (ps : list Post)
    : Route -> string -> Post -> M (option Response) -> Prop :=
| MutationPut (pid : string) (idx : nat) (post : Post) :
    isEmpty (trim (strField b "title")) = false ->
    isEmpty (trim (strField b "content")) = false ->
    findIndex pid ps = Some (idx, post) ->
    Mutation env b ps (PostPut pid) pid post
             (applyUpdate env ps idx post (trim (strField b "title"))
                          (trim (strField b "content")))
| MutationDelete (pid : string) (idx : nat) (post : Post) :
    findIndex pid ps = Some (idx, post) ->
    Mutation env b ps (PostDelete pid) pid post (applyDelete ps idx).

(** [route] on the routes of the authorization core. *)
Definition route (env : Env) (r : Route) (req : Request) : M (option Response) :=
  _ ← ((fun w => (Ret tt, arriving w)) : M unit);
  match r with
  | AdminMe => handleAdminMe env req
  | AdminLogin => handleAdminLogin env req
  | AdminLogout => handleAdminLogout env req
  | PostsList => handlePostsList
  | PostGet pid => handlePostGet env pid req
  | PostView pid => handlePostView env pid req
  | PostPut pid => handlePostPut env pid req
  | PostDelete pid => handlePostDelete env pid req
  end.

End Engine.
End LocalServer.

(** ** A small platform on which the handlers can be run

    The derivation and the hashes below are stand-ins that keep their whole
    input, so that distinct inputs never collide; the derivation refuses an
    iteration count that is not positive, as the real one does. *)

Module Sample.
Import Js Json.

Definition bytesOf (s : string) : list byte :=
  map byte_of_ascii (list_ascii_of_string s).

Definition entropyByte (n : nat) : byte :=
  default x00 (Byte.of_N (N.of_nat n mod 256)).

Definition derive (salt : list byte) (iterations : Z) (password : string)
    : Outcome (list byte) :=
  if iterations <=? 0 then Throw "iterations must be positive"
  else Ret (salt ++ bytesOf password).

Definition web : Worker.WebCrypto :=
  {| Worker.deriveBits := fun _ salt iterations password _ => derive salt iterations password;
     Worker.digest256 := bytesOf;
     Worker.entropy := entropyByte;
     Worker.uuidOfBytes := Worker.bytesToHex;
     Worker.toISOString := fun _ => "2026-01-01T00:00:00.000Z"%string;
     Worker.encodeURIComponent := fun s => s |}.

Definition node : LocalServer.NodeRuntime :=
  {| LocalServer.pbkdf2Sync := fun password salt iterations _ _ => derive salt iterations password;
     LocalServer.hmacHex := fun key value => LocalServer.bufferToHex (bytesOf (key +:+ value));
     LocalServer.entropy := entropyByte;
     LocalServer.uuidOfBytes := LocalServer.bufferToHex;
     LocalServer.toISOString := fun _ => "2026-01-01T00:00:00.000Z"%string;
     LocalServer.encodeURIComponent := fun s => s;
     LocalServer.arraySort := fun _ _ l => l |}.

Definition webDb0 : Worker.Db :=
  {| Worker.posts := []; Worker.view_tokens := []; Worker.admin_sessions := [] |}.

Definition webWorld0 : Worker.World :=
  {| Worker.db := webDb0; Worker.drawn := 0; Worker.trace := [] |}.

Definition nodeWorld0 : LocalServer.World :=
  {| LocalServer.sessions := ∅; LocalServer.data := []; LocalServer.drawn := 0;
     LocalServer.resCookie := None; LocalServer.trace := [] |}.

Definition webEnv : Worker.Env :=
  {| Worker.ADMIN_PASSWORD := "admin1234";
     Worker.TOKEN_PEPPER := "pepper";
     Worker.now := 1000;
     Worker.outage := fun _ _ => None |}.

(** The token [makeToken] issues when the entropy source is at its start. *)
Definition issued : Worker.Token :=
  {| Worker.token := "000102030405060708090a0b0c0d0e0f";
     Worker.salt := "101112131415161718191a1b1c1d1e1f";
     Worker.hash :=
       Worker.sha256Hex (rt := web)
         (Worker.tokenInput "000102030405060708090a0b0c0d0e0f"
                            "101112131415161718191a1b1c1d1e1f" "pepper") |}.

Definition adminRow (expires : Z) : Worker.AdminSessionRow :=
  {| Worker.as_token_hash := Worker.hash issued;
     Worker.as_token_salt := Worker.salt issued;
     Worker.as_expires_at := expires |}.

Definition webWorldWith (sessions : list Worker.AdminSessionRow)
    (tokens : list Worker.ViewTokenRow) (rows : list Worker.PostRow) : Worker.World :=
  {| Worker.db := {| Worker.posts := rows; Worker.view_tokens := tokens;
                     Worker.admin_sessions := sessions |};
     Worker.drawn := 0; Worker.trace := [] |}.

Definition webRequest (cookie : option string) (b : option json) : Worker.Request :=
  {| Worker.adminCookie := cookie; Worker.parsedBody := b |}.

Definition nodeEnv : LocalServer.Env :=
  {| LocalServer.ADMIN_PASSWORD := "admin1234";
     LocalServer.SESSION_SECRET := "secret";
     LocalServer.now := 1000 |}.

(** A body with the four fields the mutating handlers read. *)
Definition putBody (password viewToken : string) : json :=
  JObj [("title", JStr "New title"); ("content", JStr "New text");
        ("password", JStr password); ("viewToken", JStr viewToken)].

(** The record either server makes for the password [swordfish] when the
    entropy source is at its start. *)
Definition webRecord : Worker.PasswordRecord :=
  {| Worker.pw_salt_hex := "000102030405060708090a0b0c0d0e0f";
     Worker.pw_iterations := 100000;
     Worker.pw_digest := "sha256";
     Worker.pw_keylen := 32;
     Worker.pw_hash_hex := "000102030405060708090a0b0c0d0e0f73776f726466697368" |}.

Definition nodeRecord : LocalServer.PasswordRecord :=
  {| LocalServer.saltHex := "000102030405060708090a0b0c0d0e0f";
     LocalServer.iterations := 120000;
     LocalServer.digest := "sha256";
     LocalServer.keylen := 32;
     LocalServer.hashHex := "000102030405060708090a0b0c0d0e0f73776f726466697368" |}.

Definition webPost : Worker.PostRow :=
  {| Worker.id := "p1"; Worker.title := "Hello"; Worker.author := "ann";
     Worker.content := "text"; Worker.pw := webRecord;
     Worker.created_at := "2026-01-01T00:00:00.000Z"; Worker.updated_at := None |}.

Definition nodePost : LocalServer.Post :=
  {| LocalServer.id := "p1"; LocalServer.title := "Hello"; LocalServer.author := "ann";
     LocalServer.content := "text"; LocalServer.password := nodeRecord;
     LocalServer.createdAt := "2026-01-01T00:00:00.000Z"; LocalServer.updatedAt := None |}.

(** The local server holding one post and no session. *)
Definition nodeWorld1 : LocalServer.World :=
  {| LocalServer.sessions := ∅; LocalServer.data := [nodePost]; LocalServer.drawn := 0;
     LocalServer.resCookie := None; LocalServer.trace := [] |}.

Definition nodeRequest (sid : option string) (b : option json) : LocalServer.Request :=
  {| LocalServer.sidCookie := sid; LocalServer.adminCookie := None;
     LocalServer.parsedBody := b |}.

(** The session id the local server draws first, and its signed form as
    the browser sends it back. *)
Definition firstSid : string := "000102030405060708090a0b0c0d0e0f".
Definition firstSidSigned : string := LocalServer.sign (rt := node) nodeEnv firstSid.

(** A stored record whose iteration count is no count, and a post that
    carries it. *)
Definition zeroRecord : Worker.PasswordRecord :=
  {| Worker.pw_salt_hex := "000102030405060708090a0b0c0d0e0f";
     Worker.pw_iterations := 0;
     Worker.pw_digest := "sha256";
     Worker.pw_keylen := 32;
     Worker.pw_hash_hex := "000102030405060708090a0b0c0d0e0f73776f726466697368" |}.

Definition zeroPost : Worker.PostRow :=
  {| Worker.id := "p1"; Worker.title := "Hello"; Worker.author := "ann";
     Worker.content := "text"; Worker.pw := zeroRecord;
     Worker.created_at := "2026-01-01T00:00:00.000Z"; Worker.updated_at := None |}.

End Sample.

(** ** Creating a post

    [POST /api/posts] of either server.  In the Worker the id and the
    creation time of the new row are given by the defaults of the table
    ([gen_random_uuid()] and [now()]), so they are an input of the model. *)

Module WorkerCreate.
Import Js Json Worker.

(** What the defaults of [public.posts] give a new row. *)
Record Assigned : Type := {
  assignedId : string;
  assignedCreatedAt : string
}.

Section Engine.
Context `{rt : WebCrypto}.

(** [POST posts] with [Prefer: return=representation]: the stored row is
    returned. *)
Definition insertPost (env : Env) (given : Assigned) (newTitle newAuthor newContent : string)
    (record : PasswordRecord) : M (string + list PostRow) :=
  rest env Posts Insert
       (fun d =>
          let row := {| id := assignedId given; title := newTitle; author := newAuthor;
                        content := newContent; pw := record;
                        created_at := assignedCreatedAt given; updated_at := None |} in
          ([row], {| posts := posts d ++ [row]; view_tokens := view_tokens d;
                     admin_sessions := admin_sessions d |})).

(** [{ id: created[0]?.id }]: an undefined property is left out by
    [JSON.stringify]. *)
Definition createdBody (created : list PostRow) : json :=
  match created with
  | p :: _ => JObj [("id", JStr (id p))]
  | [] => JObj []
  end.

Definition handlePostCreate (env : Env) (given : Assigned) (request : Request) : M Response :=
  match parsedBody request with
  | None => mret (send 400 (errorBody "Invalid JSON"))
  | Some b =>
      if falsy b then mret (send 400 (errorBody "Invalid JSON"))
      else
        let title := trim (strField b "title") in
        let author := trim (strField b "author") in
        let content := trim (strField b "content") in
        let password := strField b "password" in
        if isEmpty title || isEmpty author || isEmpty content || isEmpty password
        then mret (send 400 (errorBody "Missing fields"))
        else
          passwordRecord ← makePasswordRecord password;
          res ← insertPost env given title author content passwordRecord;
          match res with
          | inl detail => mret (send 500 (errorDetail "Failed to create post" detail))
          | inr created => mret (send 201 (createdBody created))
          end
  end.

(** [fetch] on this route, with its [catch]. *)
Definition fetchCreate (env : Env) (given : Assigned) (request : Request) : M Response :=
  catch (handlePostCreate env given request)
        (fun message => mret (send 500 (errorDetail "Worker error" message))).

End Engine.
End WorkerCreate.

Module LocalCreate.
Import Js Json LocalServer.

Section Engine.
Context `{rt : NodeRuntime}.

(** The post is put in front of the others ([unshift]). *)
Definition handlePostCreate (env : Env) (req : Request) : M (option Response) :=
  match parsedBody req with
  | None => badRequest "Invalid JSON"
  | Some JNull => mret None
  | Some b =>
      let newTitle := trim (strField b "title") in
      let newAuthor := trim (strField b "author") in
      let newContent := trim (strField b "content") in
      let pass := strField b "password" in
      if isEmpty newTitle || isEmpty newAuthor || isEmpty newContent || isEmpty pass
      then badRequest "Missing fields"
      else
        w ← getWorld;
        newId ← randomUUID;
        record ← makePasswordRecord pass;
        let post := {| id := newId; title := newTitle; author := newAuthor;
                       content := newContent; password := record;
                       createdAt := toISOString (now env); updatedAt := None |} in
        _ ← writeData (post :: data w);
        json 201 (JObj [("id", JStr newId)])
  end.

(** [route] on this request. *)
Definition routeCreate (env : Env) (req : Request) : M (option Response) :=
  _ ← ((fun w => (Ret tt, arriving w)) : M unit);
  handlePostCreate env req.

End Engine.
End LocalCreate.

(** ** Matching a request to a route

    Both servers test the method and the path of a request against the
    same chain of conditions, in the same order. *)

Module Routing.
Import Js.

(** [s.startsWith(p)], with what follows the prefix. *)
Fixpoint stripPrefix (p s : string) : option string :=
  match p, s with
  | EmptyString, _ => Some s
  | String a p', String b s' => if Ascii.eqb a b then stripPrefix p' s' else None
  | String _ _, EmptyString => None
  end.

(** What [[^/]+] takes from the head of a string, the longest run of
    characters other than the slash, and what is left. *)
Fixpoint segment (s : string) : string * string :=
  match s with
  | EmptyString => (EmptyString, EmptyString)
  | String c rest =>
      if Ascii.eqb c "/" then (EmptyString, s)
      else let '(seg, after) := segment rest in (String c seg, after)
  end.

(** The capture of [path.match(/^\/api\/posts\/([^/]+)$/)]. *)
Definition postMatch (path : string) : option string :=
  match stripPrefix "/api/posts/" path with
  | Some rest =>
      let '(seg, after) := segment rest in
      if negb (isEmpty seg) && isEmpty after then Some seg else None
  | None => None
  end.

(** The capture of [path.match(/^\/api\/posts\/([^/]+)\/view$/)]. *)
Definition viewMatch (path : string) : option string :=
  match stripPrefix "/api/posts/" path with
  | Some rest =>
      let '(seg, after) := segment rest in
      if negb (isEmpty seg) && String.eqb after "/view" then Some seg else None
  | None => None
  end.

Inductive Target : Type :=
| AdminMe
| AdminLogin
| AdminLogout
| PostsList
| PostCreate
| PostGet (id : string)
| PostView (id : string)
| PostPut (id : string)
| PostDelete (id : string).

(** The chain of [if]s of the local server's [route]; [None] is its final
    [return null]. *)
Definition route (method pathname : string) : option Target :=
  if String.eqb pathname "/api/admin/me" && String.eqb method "GET" then Some AdminMe
  else if String.eqb pathname "/api/admin/login" && String.eqb method "POST"
  then Some AdminLogin
  else if String.eqb pathname "/api/admin/logout" && String.eqb method "POST"
  then Some AdminLogout
  else if String.eqb pathname "/api/posts" && String.eqb method "GET" then Some PostsList
  else if String.eqb pathname "/api/posts" && String.eqb method "POST" then Some PostCreate
  else
    let postIdMatch := postMatch pathname in
    match postIdMatch, String.eqb method "GET" with
    | Some id, true => Some (PostGet id)
    | _, _ =>
        match viewMatch pathname, String.eqb method "POST" with
        | Some id, true => Some (PostView id)
        | _, _ =>
            match postIdMatch, String.eqb method "PUT" with
            | Some id, true => Some (PostPut id)
            | _, _ =>
                match postIdMatch, String.eqb method "DELETE" with
                | Some id, true => Some (PostDelete id)
                | _, _ => None
                end
            end
        end
    end.

(** What the Worker's [fetch] does with a request before any handler
    runs. *)
Inductive Decision : Type :=
| Preflight               (* [handleOptions] *)
| Routed (t : Target)
| NotFound.               (* the final [send(404, ...)] *)

Definition fetchRoute (method path : string) : Decision :=
  if String.eqb method "OPTIONS" then Preflight
  else if String.eqb path "/api/admin/me" && String.eqb method "GET" then Routed AdminMe
  else if String.eqb path "/api/admin/login" && String.eqb method "POST"
  then Routed AdminLogin
  else if String.eqb path "/api/admin/logout" && String.eqb method "POST"
  then Routed AdminLogout
  else if String.eqb path "/api/posts" && String.eqb method "GET" then Routed PostsList
  else if String.eqb path "/api/posts" && String.eqb method "POST" then Routed PostCreate
  else
    let postMatched := postMatch path in
    match postMatched, String.eqb method "GET" with
    | Some id, true => Routed (PostGet id)
    | _, _ =>
        match viewMatch path, String.eqb method "POST" with
        | Some id, true => Routed (PostView id)
        | _, _ =>
            match postMatched, String.eqb method "PUT" with
            | Some id, true => Routed (PostPut id)
            | _, _ =>
                match postMatched, String.eqb method "DELETE" with
                | Some id, true => Routed (PostDelete id)
                | _, _ => NotFound
                end
            end
        end
    end.

(** The path the local server's view exchange puts in [req.url] for an
    admin before it calls [route] again: [`/api/posts/${viewMatch[1]}`]. *)
Definition redirected (id : string) : string := "/api/posts/" +:+ id.

End Routing.

(** ** Reading the [Cookie] header

    [parseCookies] of either server.  The object it fills is a map from
    names to values; the servers read it at two fixed names only. *)

Module Cookies.
Import Js.

(** [decodeURIComponent], which raises on a malformed escape. *)
Class UriDecoder : Type := {
  decodeURIComponent : string -> Outcome string
}.

(** Position of the first occurrence of [c]: [s.indexOf(c)], [None] for -1. *)
Fixpoint firstPos (c : ascii) (s : string) : option nat :=
  match s with
  | EmptyString => None
  | String a rest =>
      if Ascii.eqb a c then Some O
      else match firstPos c rest with
           | Some i => Some (S i)
           | None => None
           end
  end.

(** [s.split(c)] for a separator of one character. *)
Fixpoint split (c : ascii) (s : string) : list string :=
  match s with
  | EmptyString => [EmptyString]
  | String a rest =>
      if Ascii.eqb a c then EmptyString :: split c rest
      else match split c rest with
           | piece :: pieces => String a piece :: pieces
           | [] => [String a EmptyString]
           end
  end.

(** The key and the value one part of the header gives, both trimmed;
    [None] for a part without [=] or with an empty key. *)
Definition pairOf (part : string) : option (string * string) :=
  match firstPos "=" part with
  | None => None
  | Some idx =>
      let key := trim (slice part 0 (Z.of_nat idx)) in
      let value := trim (sliceFrom part (Z.of_nat idx + 1)) in
      if isEmpty key then None else Some (key, value)
  end.

Section Engine.
Context `{rt : UriDecoder}.

(** The body of the [forEach]: [out[key] = decodeURIComponent(value)].
    Assigning a string to [__proto__] leaves an object as it is. *)
Fixpoint assign (parts : list string) (out : gmap string string)
    : Outcome (gmap string string) :=
  match parts with
  | [] => Ret out
  | part :: rest =>
      match pairOf part with
      | None => assign rest out
      | Some (key, value) =>
          match decodeURIComponent value with
          | Ret v =>
              assign rest (if String.eqb key "__proto__" then out else <[key := v]> out)
          | Throw message => Throw message
          end
      end
  end.

(** The Worker's [parseCookies(request.headers.get("Cookie"))]. *)
Definition workerParseCookies (header : option string) : Outcome (gmap string string) :=
  match header with
  | None => Ret ∅
  | Some h => if isEmpty h then Ret ∅ else assign (split ";" h) ∅
  end.

(** The local server's [parseCookies(req)], which starts from
    [req.headers.cookie || ""]. *)
Definition localParseCookies (header : option string) : Outcome (gmap string string) :=
  let h := match header with
           | Some h => if isEmpty h then EmptyString else h
           | None => EmptyString
           end in
  assign (split ";" h) ∅.

End Engine.
End Cookies.

(** A decoder for running [parseCookies]: it returns a value without
    escape as it is and refuses every other, as the real one refuses a
    malformed escape. *)

Module SampleCookies.
Import Js.

Definition decode (value : string) : Outcome string :=
  match Cookies.firstPos "%" value with
  | None => Ret value
  | Some _ => Throw "URI malformed"
  end.

Definition decoder : Cookies.UriDecoder := {| Cookies.decodeURIComponent := decode |}.

End SampleCookies.

(** ** The configuration of the local server

    [loadDotEnv] fills [process.env], a map from names to strings, from
    the text of the [.env] file. *)

Module DotEnv.
Import Js.

(** [raw.split(/\r?\n/)]: a line ends at a line feed, and a carriage
    return right before it goes with it. *)
Fixpoint splitLines (raw : string) : list string :=
  let keep (a : ascii) (pieces : list string) : list string :=
    match pieces with
    | piece :: others => String a piece :: others
    | [] => [String a EmptyString]
    end in
  match raw with
  | EmptyString => [EmptyString]
  | String a rest =>
      if Ascii.eqb a "010" then EmptyString :: splitLines rest
      else
        match rest with
        | String b rest' =>
            if Ascii.eqb a "013" && Ascii.eqb b "010" then EmptyString :: splitLines rest'
            else keep a (splitLines rest)
        | EmptyString => keep a (splitLines rest)
        end
  end.

(** [s.startsWith(c)] and [s.endsWith(c)] for one character. *)
Definition startsWith (c : ascii) (s : string) : bool :=
  match s with
  | String a _ => Ascii.eqb a c
  | EmptyString => false
  end.

Fixpoint endsWith (c : ascii) (s : string) : bool :=
  match s with
  | EmptyString => false
  | String a EmptyString => Ascii.eqb a c
  | String _ rest => endsWith c rest
  end.

(** A value inside a pair of double or single quotes loses them. *)
Definition unquote (val : string) : string :=
  if (startsWith "034" val && endsWith "034" val)
     || (startsWith "'" val && endsWith "'" val)
  then slice val 1 (-1)
  else val.

(** What one line defines: nothing for a blank line, a comment, a line
    without [=] or with an empty key. *)
Definition entryOf (line : string) : option (string * string) :=
  let trimmed := trim line in
  if isEmpty trimmed || startsWith "#" trimmed then None
  else
    match Cookies.firstPos "=" trimmed with
    | None => None
    | Some idx =>
        let key := trim (slice trimmed 0 (Z.of_nat idx)) in
        let val := unquote (trim (sliceFrom trimmed (Z.of_nat idx + 1))) in
        if isEmpty key then None else Some (key, val)
    end.

(** The [forEach]: a variable is set only if [process.env] has none of
    that name. *)
Fixpoint load (lines : list string) (env : gmap string string) : gmap string string :=
  match lines with
  | [] => env
  | line :: rest =>
      match entryOf line with
      | Some (key, val) =>
          load rest (match env !! key with
                     | None => <[key := val]> env
                     | Some _ => env
                     end)
      | None => load rest env
      end
  end.

(** [file] is the text of [.env], [None] when reading it raises. *)
Definition loadDotEnv (file : option string) (env : gmap string string)
    : gmap string string :=
  match file with
  | Some raw => load (splitLines raw) env
  | None => env
  end.

(** [process.env.ADMIN_PASSWORD || "admin1234"]. *)
Definition adminPassword (env : gmap string string) : string :=
  match env !! "ADMIN_PASSWORD"%string with
  | Some s => if isEmpty s then "admin1234"%string else s
  | None => "admin1234"%string
  end.

End DotEnv.

(** ** Reading the body of a request in the local server *)

Module Upload.
Import Js Json.

(** [readBody(req, limitBytes)] on the chunks the [data] events bring, in
    order: the promise is rejected at the first chunk that takes the size
    over the limit, and resolved at [end] with the chunks kept, joined.
    The text is kept as its bytes. *)
Fixpoint collect (limitBytes size : Z) (chunks kept : list (list byte))
    : Outcome (list byte) :=
  match chunks with
  | [] => Ret (concat (rev kept))
  | chunk :: rest =>
      let size' := size + Z.of_nat (length chunk) in
      if limitBytes <? size' then Throw "Payload too large"
      else collect limitBytes size' rest (chunk :: kept)
  end.

Definition readBody (chunks : list (list byte)) : Outcome (list byte) :=
  collect (256 * 1024) 0 chunks [].

(** [readJson(req, res)], with [JSON.parse] as [parse]: [None] is the
    [null] returned after [badRequest(res, "Invalid JSON")]. *)
Definition readJson (parse : list byte -> Outcome json) (chunks : list (list byte))
    : option json :=
  match readBody chunks with
  | Ret [] => Some (JObj [])
  | Ret raw =>
      match parse raw with
      | Ret v => Some v
      | Throw _ => None
      end
  | Throw _ => None
  end.

End Upload.

(** ** Files of the local server

    [writeData], [serveStatic] and the listener of [http.createServer]
    over the regular files of the disk, a map from absolute paths to
    contents.  The [path] module of the platform is a parameter. *)

Module LocalStatic.
Import Js.

Class PathModule : Type := {
  (** [__dirname]. *)
  dirname : string;
  (** [path.join(__dirname, p)]. *)
  join : string -> string;
  (** [path.extname(p).toLowerCase()]. *)
  extname : string -> string
}.

Section Engine.
Context `{rt : PathModule}.

(** [DATA_PATH]. *)
Definition dataPath : string := join "woldecks-data.json".

(** [writeData(data)], [text] being [JSON.stringify(data, null, 2)]: the
    text is written beside the data file and renamed over it. *)
Definition writeData (text : string) (files : gmap string string) : gmap string string :=
  let tmp := (dataPath +:+ ".tmp")%string in
  let written := <[tmp := text]> files in
  <[dataPath := text]> (delete tmp written).

Definition contentType (ext : string) : string :=
  if String.eqb ext ".html" then "text/html; charset=utf-8"%string
  else if String.eqb ext ".css" then "text/css; charset=utf-8"%string
  else if String.eqb ext ".js" then "application/javascript; charset=utf-8"%string
  else "application/octet-stream"%string.

(** What [serveStatic] does: [Refused] is its [notFound(res)], [Absent]
    its [return null] for a path that is no regular file, [Sent] the 200
    answer with the content of the file piped into it. *)
Inductive Served : Type :=
| Refused
| Absent
| Sent (type content : string).

Definition serveStatic (files : gmap string string) (pathname : string) : Served :=
  let safe := if String.eqb pathname "/" then "/index.html"%string else pathname in
  let filePath := join safe in
  if negb (String.prefix dirname filePath) then Refused
  else
    match files !! filePath with
    | None => Absent
    | Some content => Sent (contentType (extname filePath)) content
    end.

(** The listener: a request no route takes is answered from the disk,
    with [index.html] when the path names no file. *)
Inductive Answer : Type :=
| Handled (t : Routing.Target)   (* [route] did not return [null] *)
| Static (type content : string)
| NotFound.

Definition listener (files : gmap string string) (method pathname : string) : Answer :=
  match Routing.route method pathname with
  | Some t => Handled t
  | None =>
      match serveStatic files pathname with
      | Sent type content => Static type content
      | Refused => NotFound
      | Absent =>
          match serveStatic files "/index.html" with
          | Sent type content => Static type content
          | Refused => NotFound
          | Absent => NotFound
          end
      end
  end.

End Engine.
End LocalStatic.

(** A [path] module for running the listener: the directory is
    [/srv/board], and joining puts one separator between it and a
    relative or absolute path without dot segments. *)

Module SampleDisk.

Definition paths : LocalStatic.PathModule :=
  {| LocalStatic.dirname := "/srv/board";
     LocalStatic.join := fun p =>
       match p with
       | String "/" _ => ("/srv/board" +:+ p)%string
       | _ => ("/srv/board/" +:+ p)%string
       end;
     LocalStatic.extname := fun p =>
       match Js.lastPos "." p with
       | Some i => String.substring i (String.length p - i) p
       | None => EmptyString
       end |}.

End SampleDisk.

(** ** The CSV export of the client

    [downloadCsv] of [app.js] up to the text it hands to the [Blob]; the
    byte order mark put in front of it is a code unit above 255 and is
    left out. *)

Module Csv.
Import Js.

Definition quote : ascii := "034".
Definition comma : ascii := ",".
Definition lineFeed : ascii := "010".
Definition carriageReturn : ascii := "013".

Definition special (c : ascii) : bool :=
  Ascii.eqb c quote || Ascii.eqb c comma || Ascii.eqb c lineFeed
  || Ascii.eqb c carriageReturn.

(** The test of [text] against the class of the four special characters. *)
Fixpoint needsQuotes (text : string) : bool :=
  match text with
  | EmptyString => false
  | String c rest => special c || needsQuotes rest
  end.

(** The global [replace] of [text]: every quote is written twice. *)
Fixpoint doubleQuotes (text : string) : string :=
  match text with
  | EmptyString => EmptyString
  | String c rest =>
      if Ascii.eqb c quote then String quote (String quote (doubleQuotes rest))
      else String c (doubleQuotes rest)
  end.

Definition escapeCell (text : string) : string :=
  if needsQuotes text
  then String quote (doubleQuotes text +:+ String quote EmptyString)
  else text.

(** Cells are joined by commas, rows by carriage return and line feed. *)
Definition csvRow (row : list string) : string :=
  String.concat (String comma EmptyString) (map escapeCell row).

Definition csv (rows : list (list string)) : string :=
  String.concat (String carriageReturn (String lineFeed EmptyString)) (map csvRow rows).

(** *** A reader of the format

    Not code of the repository: a reader of comma separated values with
    quoted cells, as a spreadsheet applies it, against which the export
    is checked.  It reads one character at a time. *)

Inductive Mode : Type :=
| Fresh      (* at the start of a cell *)
| Plain      (* inside a cell without quotes *)
| Quoted     (* inside a quoted cell *)
| Closing    (* after a quote inside a quoted cell *)
| Return.    (* after a carriage return that ends a row *)

Record Reader : Type := {
  mode : Mode;
  cell : string;
  row : list string;
  rows : list (list string)
}.

Definition keep (c : ascii) (m : Mode) (r : Reader) : Reader :=
  {| mode := m; cell := (cell r +:+ String c EmptyString)%string; row := row r;
     rows := rows r |}.

Definition endCell (m : Mode) (r : Reader) : Reader :=
  {| mode := m; cell := EmptyString; row := row r ++ [cell r]; rows := rows r |}.

Definition endRow (r : Reader) : Reader :=
  {| mode := Fresh; cell := EmptyString; row := []; rows := rows r ++ [row r] |}.

Definition step (r : Reader) (c : ascii) : Reader :=
  match mode r with
  | Fresh =>
      if Ascii.eqb c quote then
        {| mode := Quoted; cell := cell r; row := row r; rows := rows r |}
      else if Ascii.eqb c comma then endCell Fresh r
      else if Ascii.eqb c carriageReturn then endCell Return r
      else keep c Plain r
  | Plain =>
      if Ascii.eqb c comma then endCell Fresh r
      else if Ascii.eqb c carriageReturn then endCell Return r
      else keep c Plain r
  | Quoted =>
      if Ascii.eqb c quote then
        {| mode := Closing; cell := cell r; row := row r; rows := rows r |}
      else keep c Quoted r
  | Closing =>
      if Ascii.eqb c quote then keep c Quoted r
      else if Ascii.eqb c comma then endCell Fresh r
      else if Ascii.eqb c carriageReturn then endCell Return r
      else keep c Plain r
  | Return =>
      if Ascii.eqb c lineFeed then endRow r else r
  end.

Fixpoint run (r : Reader) (text : string) : Reader :=
  match text with
  | EmptyString => r
  | String c rest => run (step r c) rest
  end.

(** At the end of the text the cell and the row being read are closed. *)
Definition finish (r : Reader) : list (list string) :=
  match mode r with
  | Return => rows r ++ [row r]
  | _ => rows r ++ [row r ++ [cell r]]
  end.

Definition read (text : string) : list (list string) :=
  finish (run {| mode := Fresh; cell := EmptyString; row := []; rows := [] |} text).

End Csv.

(** ** The headers of the Worker's responses

    Header sets are maps from names to values; spreading one object after
    another lets the later one win. *)

Module WorkerCors.
Import Js.

(** [{...a, ...b}]. *)
Definition spread (a b : gmap string string) : gmap string string := b ∪ a.

Definition corsHeaders (origin : option string) : gmap string string :=
  match origin with
  | None => ∅
  | Some o =>
      if isEmpty o then ∅
      else
        <["Vary"%string := "Origin"%string]>
          (<["Access-Control-Allow-Headers"%string := "Content-Type"%string]>
             (<["Access-Control-Allow-Methods"%string
                := "GET,POST,PUT,DELETE,OPTIONS"%string]>
                (<["Access-Control-Allow-Credentials"%string := "true"%string]>
                   (<["Access-Control-Allow-Origin"%string := o]> ∅))))
  end.

(** The headers [json(status, body, extraHeaders)] gives a response. *)
Definition jsonHeaders (extraHeaders : gmap string string) : gmap string string :=
  spread (<["Cache-Control"%string := "no-store"%string]>
            (<["Content-Type"%string := "application/json; charset=utf-8"%string]> ∅))
         extraHeaders.

(** [getAllowedOrigin(request, env)], on the [Origin] header of the
    request: the bindings of the Worker are not consulted. *)
Definition getAllowedOrigin (originHeader : option string) : option string :=
  match originHeader with
  | None => None
  | Some o => if isEmpty o then None else Some o
  end.

(** The status and the headers of [handleOptions(request, env)]. *)
Definition handleOptions (originHeader : option string) : Z * gmap string string :=
  match getAllowedOrigin originHeader with
  | None => (204, ∅)
  | Some o => (204, corsHeaders (Some o))
  end.

(** The headers of [send(status, body, extraHeaders)] inside [fetch]. *)
Definition sendHeaders (originHeader : option string) (extraHeaders : gmap string string)
    : gmap string string :=
  let origin := getAllowedOrigin originHeader in
  jsonHeaders (spread extraHeaders
                      (match origin with
                       | Some o => corsHeaders (Some o)
                       | None => ∅
                       end)).

End WorkerCors.

(** ** Reading the data file of the local server *)

Module DataFile.
Import Js Json.

Definition emptyData : json := JObj [("posts", JArr [])].

(** [typeof v === "object"]. *)
Definition isObjectType (v : json) : bool :=
  match v with
  | JNull | JArr _ | JObj _ => true
  | _ => false
  end.

(** [Array.isArray(v.posts)]. *)
Definition hasPostsArray (v : json) : bool :=
  match field v "posts" with
  | Some (JArr _) => true
  | _ => false
  end.

(** [readData()], [parsed] being what [JSON.parse] makes of the text of
    the file, [None] when reading or parsing raises. *)
Definition readData (parsed : option json) : json :=
  match parsed with
  | None => emptyData
  | Some v =>
      if falsy v || negb (isObjectType v) then emptyData
      else if negb (hasPostsArray v) then emptyData
      else v
  end.

End DataFile.

(** ** Addressing a post by the path segment

    The checks of [PUT] and [DELETE] name the post through
    [URLSearchParams], which escapes the id; the writes send
    [posts?id=eq.${id}] with the path segment as it came, and the back end
    decodes what it receives.  The two queries are the same text when
    [URLSearchParams] has nothing to escape in the id.  [plainId] holds of
    such ids: those made of ASCII letters, digits, [-], [_] and [.], as
    every uuid is.  [Worker.patchPost] and [Worker.deletePost] read the id
    as the checks do, so they are the writes of the source for these ids;
    what the back end makes of any other segment is its own
    ([WorkerWire.RawWrites]). *)

Module Addressing.

Definition plainChar (c : ascii) : bool :=
  let n := Ascii.N_of_ascii c in
  (((48 <=? n) && (n <=? 57)) || ((65 <=? n) && (n <=? 90))
   || ((97 <=? n) && (n <=? 122)) || (n =? 45) || (n =? 46) || (n =? 95))%N.

Fixpoint plainId (id : string) : bool :=
  match id with
  | EmptyString => true
  | String c rest => plainChar c && plainId rest
  end.

(** Whether the write a route sends, if it sends one, names its post by a
    [plainId]. *)
Definition plainWrite (route : Worker.Route) : bool :=
  match route with
  | Worker.PostPut pid | Worker.PostDelete pid => plainId pid
  | _ => true
  end.

End Addressing.

(** ** The Worker from the [Cookie] header and the path segment on

    [Worker.Request] carries the admin cookie as [parseCookies] gives it.
    The source reads the header where the cookie is first needed: inside
    [adminSessionFromCookie], hence at the start of [isAdmin], and at the
    start of the logout handler.  [decodeURIComponent] raises on a value
    with a malformed escape, and the raise reaches the [catch] of [fetch].
    This module puts the reading of the header in front of the handlers of
    [Worker], at the place where the source has it.

    It also sends the writes of [PUT] and [DELETE] as the source does,
    with the path segment unescaped in [posts?id=eq.${id}]: for a plain id
    the back end writes the rows of that id, for any other segment it does
    what it makes of the query. *)

Module WorkerWire.
Import Js Json.

(** The request as [fetch] receives it: the [Cookie] header as sent, and
    the result of [readJson]. *)
Record Request : Type := {
  cookieHeader : option string;
  parsedBody : option json
}.

(** What the back end does with a write whose filter carries a segment
    that is no plain id: the rows it writes, if any, and whether it
    accepts the request, are its own reading of the query. *)
Class RawWrites : Type := {
  rawPatch : Worker.Env -> string -> string -> string -> Worker.M (string + unit);
  rawDelete : Worker.Env -> string -> Worker.M (string + unit)
}.

Section Engine.
Context `{rt : Worker.WebCrypto} `{decoder : Cookies.UriDecoder} `{raw : RawWrites}.

(** [parseCookies(request.headers.get("Cookie"))]. *)
Definition parseCookies (request : Request) : Worker.M (gmap string string) :=
  Worker.liftOutcome (Cookies.workerParseCookies (cookieHeader request)).

(** What the handlers read once the cookies are parsed:
    [cookies["woldecks.admin"]] and the body. *)
Definition parsed (request : Request) (cookies : gmap string string) : Worker.Request :=
  {| Worker.adminCookie := cookies !! "woldecks.admin"%string;
     Worker.parsedBody := parsedBody request |}.

(** A piece of a handler that starts by reading the cookies. *)
Definition withCookies {A : Type} (request : Request)
    (handler : Worker.Request -> Worker.M A) : Worker.M A :=
  cookies ← parseCookies request;
  handler (parsed request cookies).

Definition adminSessionFromCookie (env : Worker.Env) (request : Request)
    : Worker.M (option Worker.AdminSessionRow) :=
  withCookies request (Worker.adminSessionFromCookie env).

Definition isAdmin (env : Worker.Env) (request : Request) : Worker.M bool :=
  r ← adminSessionFromCookie env request;
  mret (bool_decide (is_Some r)).

Definition handleAdminMe (env : Worker.Env) (request : Request) : Worker.M Response :=
  admin ← isAdmin env request;
  mret (Worker.send 200 (JObj [("admin", JBool admin)])).

(** The login handler reads the body only. *)
Definition handleAdminLogin (env : Worker.Env) (request : Request) : Worker.M Response :=
  Worker.handleAdminLogin env (parsed request ∅).

Definition handleAdminLogout (env : Worker.Env) (request : Request) : Worker.M Response :=
  withCookies request (Worker.handleAdminLogout env).

Definition handlePostGet (env : Worker.Env) (pid : string) (request : Request)
    : Worker.M Response :=
  admin ← isAdmin env request;
  if negb admin then mret (Worker.send 401 (Worker.errorBody "Admin only"))
  else Worker.loadPost env pid.

(** The view exchange asks [isAdmin] before anything else. *)
Definition handlePostView (env : Worker.Env) (pid : string) (request : Request)
    : Worker.M Response :=
  withCookies request (Worker.handlePostView env pid).

(** The authorization block of [PUT] and [DELETE], which starts with
    [isAdmin]. *)
Definition authorize (env : Worker.Env) (pid : string) (request : Request)
    (password viewToken : string) : Worker.M (option Response) :=
  isAdminUser ← isAdmin env request;
  if negb isAdminUser then
    authorized ← Worker.viewTokenAuthorized env pid viewToken;
    if negb authorized then Worker.passwordFallback env pid password
    else mret None
  else mret None.

(** [supabaseRequest(env, `posts?id=eq.${id}`, { method: "PATCH", ... })]. *)
Definition patchPost (env : Worker.Env) (pid newTitle newContent : string)
    : Worker.M (string + unit) :=
  if Addressing.plainId pid then Worker.patchPost env pid newTitle newContent
  else rawPatch env pid newTitle newContent.

(** [supabaseRequest(env, `posts?id=eq.${id}`, { method: "DELETE" })]. *)
Definition deletePost (env : Worker.Env) (pid : string) : Worker.M (string + unit) :=
  if Addressing.plainId pid then Worker.deletePost env pid
  else rawDelete env pid.

(** The tail of [PUT] once the request is authorized. *)
Definition applyUpdate (env : Worker.Env) (pid newTitle newContent : string)
    : Worker.M Response :=
  updateRes ← patchPost env pid newTitle newContent;
  match updateRes with
  | inl detail => mret (Worker.send 500 (Worker.errorDetail "Failed to update" detail))
  | inr _ => mret (Worker.send 200 Worker.okBody)
  end.

(** The tail of [DELETE] once the request is authorized. *)
Definition applyDelete (env : Worker.Env) (pid : string) : Worker.M Response :=
  delRes ← deletePost env pid;
  match delRes with
  | inl detail => mret (Worker.send 500 (Worker.errorDetail "Failed to delete" detail))
  | inr _ => mret (Worker.send 200 Worker.okBody)
  end.

Definition handlePostPut (env : Worker.Env) (pid : string) (request : Request)
    : Worker.M Response :=
  match parsedBody request with
  | None => mret (Worker.send 400 (Worker.errorBody "Invalid JSON"))
  | Some b =>
      if falsy b then mret (Worker.send 400 (Worker.errorBody "Invalid JSON"))
      else
        let title := trim (strField b "title") in
        let content := trim (strField b "content") in
        let password := strField b "password" in
        let viewToken := strField b "viewToken" in
        if isEmpty title || isEmpty content
        then mret (Worker.send 400 (Worker.errorBody "Missing fields"))
        else
          denied ← authorize env pid request password viewToken;
          match denied with
          | Some r => mret r
          | None => applyUpdate env pid title content
          end
  end.

Definition handlePostDelete (env : Worker.Env) (pid : string) (request : Request)
    : Worker.M Response :=
  match parsedBody request with
  | None => mret (Worker.send 400 (Worker.errorBody "Invalid JSON"))
  | Some b =>
      if falsy b then mret (Worker.send 400 (Worker.errorBody "Invalid JSON"))
      else
        let password := strField b "password" in
        let viewToken := strField b "viewToken" in
        denied ← authorize env pid request password viewToken;
        match denied with
        | Some r => mret r
        | None => applyDelete env pid
        end
  end.

Definition dispatch (env : Worker.Env) (route : Worker.Route) (request : Request)
    : Worker.M Response :=
  match route with
  | Worker.AdminMe => handleAdminMe env request
  | Worker.AdminLogin => handleAdminLogin env request
  | Worker.AdminLogout => handleAdminLogout env request
  | Worker.PostsList => Worker.handlePostsList env
  | Worker.PostGet pid => handlePostGet env pid request
  | Worker.PostView pid => handlePostView env pid request
  | Worker.PostPut pid => handlePostPut env pid request
  | Worker.PostDelete pid => handlePostDelete env pid request
  end.

(** The exported [fetch] with its [try] and [catch]. *)
Definition fetch (env : Worker.Env) (route : Worker.Route) (request : Request)
    : Worker.M Response :=
  Worker.catch (dispatch env route request)
               (fun message =>
                  mret (Worker.send 500 (Worker.errorDetail "Worker error" message))).

End Engine.
End WorkerWire.

(** Requests for running the Worker from the header on. *)

Module SampleWire.
Import Js Json.

Definition request (header : option string) (b : option json) : WorkerWire.Request :=
  {| WorkerWire.cookieHeader := header; WorkerWire.parsedBody := b |}.

(** A header whose cookie value has a malformed escape. *)
Definition brokenHeader : string := "woldecks.admin=%E0%A4%A".

(** The header a browser sends back after the login that issued
    [Sample.issued]. *)
Definition adminHeader : string :=
  "theme=dark; woldecks.admin=" +:+ Worker.presented Sample.issued.

(** A back end that decodes the escapes [%xx] of what it receives. *)
Fixpoint percentDecode (s : string) : string :=
  match s with
  | EmptyString => EmptyString
  | String c tail =>
      if Ascii.eqb c "%" then
        match tail with
        | String a (String b rest) =>
            match hexDigitValue a, hexDigitValue b with
            | Some hi, Some lo =>
                String (ascii_of_byte (toUint8 (Some (16 * hi + lo)))) (percentDecode rest)
            | _, _ => String c (percentDecode tail)
            end
        | _ => String c (percentDecode tail)
        end
      else String c (percentDecode tail)
  end.

Definition rawWrites : WorkerWire.RawWrites :=
  {| WorkerWire.rawPatch := fun env pid newTitle newContent =>
       Worker.patchPost (rt := Sample.web) env (percentDecode pid) newTitle newContent;
     WorkerWire.rawDelete := fun env pid =>
       Worker.deletePost env (percentDecode pid) |}.

End SampleWire.

(** ** Facts about the JavaScript primitives *)

Module JsFacts.
Import Js.
#[local] Arguments String.append !_ _ / : simpl nomatch.

Lemma Ret_inj {A : Type} (a b : A) : Ret a = Ret b -> a = b.
Proof. congruence. Qed.

Lemma Some_inj {A : Type} (a b : A) : Some a = Some b -> a = b.
Proof. congruence. Qed.

Lemma concat_cons (x : string) (xs : list string) :
  String.concat "" (x :: xs) = x +:+ String.concat "" xs.
Proof.
  destruct xs as [|y ys]; simpl.
  - induction x as [|c x IH]; simpl; [reflexivity | now f_equal].
  - reflexivity.
Qed.

Lemma hex_of_byte (b : byte) :
  padStart2 (toString16 b) = String (hexHi b) (String (hexLo b) EmptyString).
Proof. destruct b; reflexivity. Qed.

Lemma parse_hex_of_byte (b : byte) :
  toUint8 (parseInt16 (String (hexHi b) (String (hexLo b) EmptyString))) = b.
Proof. destruct b; reflexivity. Qed.

Lemma digits_of_byte (b : byte) :
  exists hi lo, hexDigitValue (hexHi b) = Some hi /\ hexDigitValue (hexLo b) = Some lo
                /\ toUint8 (Some (16 * hi + lo)) = b.
Proof. destruct b; eexists _, _; repeat split; reflexivity. Qed.

Lemma hex_chars_not_dot (b : byte) :
  Ascii.eqb (hexHi b) "." = false /\ Ascii.eqb (hexLo b) "." = false.
Proof. destruct b; split; reflexivity. Qed.

Lemma hex_of_byte_inj (a b : byte) :
  hexHi a = hexHi b -> hexLo a = hexLo b -> a = b.
Proof.
  intros Hh Hl. rewrite <- (parse_hex_of_byte a), <- (parse_hex_of_byte b).
  now rewrite Hh, Hl.
Qed.

Lemma clampIndex_nonneg (len i : Z) : 0 <= i -> clampIndex len i = Z.min i len.
Proof. intros Hi. unfold clampIndex. destruct (Z.ltb_spec i 0); [lia | reflexivity]. Qed.

(** [slice] on indices that are not negative, in terms of [substring]. *)
Lemma slice_nonneg (s : string) (x y : Z) :
  0 <= x -> 0 <= y ->
  slice s x y =
  String.substring (Z.to_nat (Z.min x (Z.of_nat (String.length s))))
                   (Z.to_nat (Z.min y (Z.of_nat (String.length s))
                              - Z.min x (Z.of_nat (String.length s)))) s.
Proof.
  intros Hx Hy. unfold slice. rewrite !clampIndex_nonneg by assumption.
  f_equal. lia.
Qed.

Lemma slice_shift (c : ascii) (s : string) (x y : Z) :
  0 <= x -> 0 <= y -> slice (String c s) (x + 1) (y + 1) = slice s x y.
Proof.
  intros Hx Hy. rewrite !slice_nonneg by lia.
  change (String.length (String c s)) with (S (String.length s)).
  set (len := String.length s).
  replace (Z.to_nat (Z.min (x + 1) (Z.of_nat (S len))))
    with (S (Z.to_nat (Z.min x (Z.of_nat len)))) by lia.
  simpl. f_equal. lia.
Qed.

Lemma slice_head2 (a b : ascii) (rest : string) :
  slice (String a (String b rest)) 0 2 = String a (String b EmptyString).
Proof.
  rewrite slice_nonneg by lia.
  change (String.length (String a (String b rest))) with (S (S (String.length rest))).
  set (n := String.length rest).
  replace (Z.to_nat (Z.min 0 (Z.of_nat (S (S n))))) with O by lia.
  replace (Z.to_nat (Z.min 2 (Z.of_nat (S (S n))) - Z.min 0 (Z.of_nat (S (S n)))))
    with 2%nat by lia.
  simpl. now destruct rest.
Qed.

Lemma substring_all (s : string) : String.substring 0 (String.length s) s = s.
Proof. induction s as [|c s IH]; simpl; [reflexivity | now rewrite IH]. Qed.

Lemma slice_all (s : string) : slice s 0 (Z.of_nat (String.length s)) = s.
Proof.
  rewrite slice_nonneg by lia.
  replace (Z.to_nat (Z.min 0 (Z.of_nat (String.length s)))) with O by lia.
  replace (Z.to_nat (Z.min (Z.of_nat (String.length s)) (Z.of_nat (String.length s))
                     - Z.min 0 (Z.of_nat (String.length s))))
    with (String.length s) by lia.
  apply substring_all.
Qed.

Lemma slice_cons0 (c : ascii) (s : string) (y : Z) :
  0 <= y -> slice (String c s) 0 (y + 1) = String c (slice s 0 y).
Proof.
  intros Hy. rewrite !slice_nonneg by lia.
  change (String.length (String c s)) with (S (String.length s)).
  set (len := String.length s).
  replace (Z.to_nat (Z.min 0 (Z.of_nat (S len)))) with O by lia.
  replace (Z.to_nat (Z.min 0 (Z.of_nat len))) with O by lia.
  replace (Z.to_nat (Z.min (y + 1) (Z.of_nat (S len)) - Z.min 0 (Z.of_nat (S len))))
    with (S (Z.to_nat (Z.min y (Z.of_nat len) - Z.min 0 (Z.of_nat len)))) by lia.
  reflexivity.
Qed.

Lemma slice_empty (s : string) : slice s 0 0 = EmptyString.
Proof.
  rewrite slice_nonneg by lia.
  replace (Z.to_nat (Z.min 0 (Z.of_nat (String.length s)))) with O by lia.
  simpl. now destruct s.
Qed.

(** Cutting [a ++ c :: b] at the position of [c]. *)
Lemma slice_before (a b : string) (c : ascii) :
  slice (a +:+ String c b) 0 (Z.of_nat (String.length a)) = a.
Proof.
  induction a as [|x a IH]; simpl (_ +:+ _).
  - apply slice_empty.
  - change (String.length (String x a)) with (S (String.length a)).
    rewrite Nat2Z.inj_succ, <- Z.add_1_r, slice_cons0 by lia. now rewrite IH.
Qed.

Lemma length_app (a b : string) :
  String.length (a +:+ b) = (String.length a + String.length b)%nat.
Proof. induction a as [|x a IH]; simpl; [reflexivity | now rewrite IH]. Qed.

Lemma sliceFrom_after (a b : string) (c : ascii) :
  sliceFrom (a +:+ String c b) (Z.of_nat (String.length a) + 1) = b.
Proof.
  unfold sliceFrom. induction a as [|x a IH].
  - simpl (EmptyString +:+ _). simpl (String.length EmptyString).
    change (String.length (String c b)) with (S (String.length b)).
    rewrite Nat2Z.inj_succ, <- Z.add_1_r. change (Z.of_nat 0) with 0.
    rewrite slice_shift by lia. apply slice_all.
  - simpl (String x a +:+ _).
    change (String.length (String x a)) with (S (String.length a)).
    change (String.length (String x (a +:+ String c b)))
      with (S (String.length (a +:+ String c b))).
    rewrite !Nat2Z.inj_succ, <- !Z.add_1_r.
    rewrite slice_shift by lia. apply IH.
Qed.

Lemma lastPos_app (c : ascii) (a b : string) :
  lastPos c b = None -> lastPos c (a +:+ String c b) = Some (String.length a).
Proof.
  intros Hb. induction a as [|x a IH]; simpl.
  - now rewrite Hb, Ascii.eqb_refl.
  - now rewrite IH.
Qed.

(** The last occurrence splits the string into a head, the character, and
    a tail without it. *)
Lemma lastPos_split (c : ascii) (s : string) (i : nat) :
  lastPos c s = Some i ->
  exists a b, s = a +:+ String c b /\ String.length a = i /\ lastPos c b = None.
Proof.
  revert i. induction s as [|x s IH]; intros i; simpl; [discriminate|].
  destruct (lastPos c s) as [j|] eqn:E.
  - intros [= <-]. destruct (IH j eq_refl) as (a & b & -> & <- & Hb).
    exists (String x a), b. repeat split; auto.
  - destruct (Ascii.eqb_spec x c) as [->|]; [|discriminate].
    intros [= <-]. exists EmptyString, s. repeat split; auto.
Qed.

Lemma lastPos_none_app (c : ascii) (a b : string) :
  lastPos c (a +:+ b) = None -> lastPos c b = None.
Proof.
  induction a as [|x a IH]; simpl; [auto|].
  destruct (lastPos c (a +:+ b)); [discriminate|]. intros _. now apply IH.
Qed.

(** A tail after the last occurrence is shorter than any string that
    contains the character. *)
Lemma lastPos_some_length (c : ascii) (s : string) (i : nat) :
  lastPos c s = Some i -> (i < String.length s)%nat.
Proof.
  intros Hs. destruct (lastPos_split c s i Hs) as (a & b & -> & <- & _).
  rewrite length_app. simpl. lia.
Qed.

Lemma code_inj (a b : ascii) : code a = code b -> a = b.
Proof.
  unfold code. intros Hc. apply N2Z.inj in Hc.
  rewrite <- (ascii_N_embedding a), <- (ascii_N_embedding b). now rewrite Hc.
Qed.

Lemma charCodeAt_ext (a b : string) :
  String.length a = String.length b ->
  (forall i, (i < String.length a)%nat -> charCodeAt a i = charCodeAt b i) ->
  a = b.
Proof.
  revert b. induction a as [|x a IH]; intros [|y b]; simpl; try discriminate; auto.
  intros [= Hlen] Hall. f_equal.
  - apply code_inj. apply (Hall O). lia.
  - apply IH; auto. intros i Hi. apply (Hall (S i)). lia.
Qed.

Lemma fold_lor_zero (g : nat -> Z) (l : list nat) (d : Z) :
  fold_left (fun d i => Z.lor d (g i)) l d = 0 <-> d = 0 /\ Forall (fun i => g i = 0) l.
Proof.
  revert d. induction l as [|i l IH]; intros d; simpl.
  - split; [intros ->; auto | tauto].
  - rewrite IH, Z.lor_eq_0_iff. split.
    + intros [[Hd Hg] Hl]. split; auto.
    + intros [Hd Hl]. inversion Hl; subst. auto.
Qed.

Lemma alterAt_length (i : nat) (c : ascii) (s : string) :
  String.length (alterAt i c s) = String.length s.
Proof.
  revert i. induction s as [|x s IH]; intros [|i]; simpl; auto.
Qed.

Lemma alterAt_changes (i : nat) (c : ascii) (s : string) :
  (i < String.length s)%nat -> String.get i s <> Some c -> alterAt i c s <> s.
Proof.
  revert i. induction s as [|x s IH]; intros [|i]; simpl; try lia.
  - intros _ Hx [= ->]. now apply Hx.
  - intros Hi Hx [= Heq]. apply (IH i); auto. lia.
Qed.

(** Two concatenations that agree and whose second parts have the same
    length agree part by part. *)
Lemma app_same_length (a a' b b' : string) :
  a +:+ b = a' +:+ b' -> String.length b = String.length b' -> a = a' /\ b = b'.
Proof.
  revert a'. induction a as [|x a IH]; intros [|y a'] Heq Hlen; simpl in Heq.
  - auto.
  - exfalso. apply (f_equal String.length) in Heq. simpl in Heq.
    rewrite length_app in Heq. lia.
  - exfalso. apply (f_equal String.length) in Heq. simpl in Heq.
    rewrite length_app in Heq. lia.
  - injection Heq as -> Heq. destruct (IH a' Heq Hlen) as [-> ->]. auto.
Qed.

Lemma head_filter_in {A : Type} (f : A -> bool) (l : list A) (x : A) :
  In x l -> f x = true -> exists y, head (List.filter f l) = Some y /\ f y = true.
Proof.
  induction l as [|a l IH]; simpl; [tauto|].
  intros [->|Hin] Hx.
  - rewrite Hx. simpl. eauto.
  - destruct (f a) eqn:E; simpl; eauto.
Qed.

Lemma lastPos_contains (c : ascii) (a b : string) :
  lastPos c (a +:+ String c b) <> None.
Proof.
  induction a as [|x a IH]; simpl.
  - destruct (lastPos c b); [discriminate|]. now rewrite Ascii.eqb_refl.
  - destruct (lastPos c (a +:+ String c b)); [discriminate | contradiction].
Qed.

Lemma head_firstn1 {A : Type} (l : list A) : head (firstn 1 l) = head l.
Proof. now destruct l. Qed.

Lemma filter_without {A : Type} (f : A -> bool) (l1 l2 : list A) (x : A) :
  f x = false -> List.filter f (l1 ++ x :: l2) = List.filter f (l1 ++ l2).
Proof. intros Hx. rewrite !List.filter_app. simpl. now rewrite Hx. Qed.

End JsFacts.

(** ** Facts about the Worker's hasher and token codec *)

Module WorkerFacts.
Import Js Json Worker JsFacts.
#[local] Arguments String.append !_ _ / : simpl nomatch.

Lemma bytesToHex_cons (b : byte) (bs : list byte) :
  bytesToHex (b :: bs) = String (hexHi b) (String (hexLo b) (bytesToHex bs)).
Proof.
  unfold bytesToHex. rewrite map_cons, concat_cons, hex_of_byte. reflexivity.
Qed.

Lemma bytesToHex_length (bs : list byte) :
  String.length (bytesToHex bs) = (2 * length bs)%nat.
Proof.
  induction bs as [|b bs IH]; [reflexivity|].
  rewrite bytesToHex_cons. simpl. rewrite IH. lia.
Qed.

(** The guard on the empty string changes nothing: the loop already
    yields the empty array. *)
Lemma hexToBytes_loop (hex : string) :
  hexToBytes hex =
  map (fun i => toUint8 (parseInt16 (slice hex (Z.of_nat i * 2) (Z.of_nat i * 2 + 2))))
      (seq 0 (Z.to_nat (Z.of_nat (String.length hex) / 2))).
Proof. unfold hexToBytes. destruct hex; reflexivity. Qed.

Lemma hexToBytes_pair (a b : ascii) (rest : string) :
  hexToBytes (String a (String b rest)) =
  toUint8 (parseInt16 (String a (String b EmptyString))) :: hexToBytes rest.
Proof.
  rewrite !hexToBytes_loop.
  change (String.length (String a (String b rest))) with (S (S (String.length rest))).
  set (n := String.length rest).
  replace (Z.to_nat (Z.of_nat (S (S n)) / 2)) with (S (Z.to_nat (Z.of_nat n / 2))).
  2:{ replace (Z.of_nat (S (S n))) with (1 * 2 + Z.of_nat n) by lia.
      rewrite Z.div_add_l by lia.
      assert (0 <= Z.of_nat n / 2) by (apply Z.div_pos; lia). lia. }
  rewrite <- cons_seq, map_cons. f_equal.
  - change (Z.of_nat 0 * 2) with 0. change (0 + 2) with 2. now rewrite slice_head2.
  - rewrite <- seq_shift, map_map. apply map_ext. intros i.
    replace (Z.of_nat (S i) * 2) with (Z.of_nat i * 2 + 1 + 1) by lia.
    replace (Z.of_nat i * 2 + 1 + 1 + 2) with (Z.of_nat i * 2 + 2 + 1 + 1) by lia.
    now rewrite !slice_shift by lia.
Qed.

(** Decoding what was encoded gives the bytes back. *)
Lemma hexToBytes_bytesToHex (bs : list byte) : hexToBytes (bytesToHex bs) = bs.
Proof.
  induction bs as [|b bs IH]; [reflexivity|].
  now rewrite bytesToHex_cons, hexToBytes_pair, parse_hex_of_byte, IH.
Qed.

Lemma bytesToHex_inj (xs ys : list byte) : bytesToHex xs = bytesToHex ys -> xs = ys.
Proof.
  intros Heq. rewrite <- (hexToBytes_bytesToHex xs), <- (hexToBytes_bytesToHex ys).
  now rewrite Heq.
Qed.

(** No separator ever occurs in a hex rendering. *)
Lemma bytesToHex_no_dot (bs : list byte) : lastPos "." (bytesToHex bs) = None.
Proof.
  induction bs as [|b bs IH]; [reflexivity|].
  rewrite bytesToHex_cons. simpl. rewrite IH.
  destruct (hex_chars_not_dot b) as [Hh Hl]. now rewrite Hl, Hh.
Qed.

(** The comparison of [safeEqualHex] is string equality. *)
Lemma safeEqualHex_true_iff (a b : string) : safeEqualHex a b = true <-> a = b.
Proof.
  unfold safeEqualHex.
  destruct (Nat.eqb_spec (String.length a) (String.length b)) as [Hlen|Hlen]; simpl.
  - rewrite Z.eqb_eq, fold_lor_zero, List.Forall_forall. split.
    + intros [_ Hall]. apply charCodeAt_ext; auto.
      intros i Hi. apply Z.lxor_eq_0_iff. apply Hall. apply in_seq. lia.
    + intros ->. split; auto. intros i _. apply Z.lxor_nilpotent.
  - split; [discriminate | intros ->; contradiction].
Qed.

Lemma safeEqualHex_refl (a : string) : safeEqualHex a a = true.
Proof. now apply safeEqualHex_true_iff. Qed.

Lemma safeEqualHex_false (a b : string) : a <> b -> safeEqualHex a b = false.
Proof.
  intros Hne. destruct (safeEqualHex a b) eqn:E; auto.
  apply safeEqualHex_true_iff in E. contradiction.
Qed.

Lemma sha256Hex_inj `{rt : WebCrypto} (x y : string) :
  sha256Hex x = sha256Hex y -> digest256 x = digest256 y.
Proof. apply bytesToHex_inj. Qed.

(** *** Splitting a presented token *)

Lemma splitToken_joined (tok slt : string) :
  lastPos "." slt = None ->
  splitToken (Some (tok +:+ "." +:+ slt)) = Some {| tp_token := tok; tp_salt := slt |}.
Proof.
  intros Hs. unfold splitToken.
  change ("." +:+ slt) with (String "." slt).
  assert (Hne : isEmpty (tok +:+ String "." slt) = false) by now destruct tok.
  rewrite Hne. unfold lastIndexOf. rewrite lastPos_app by assumption.
  destruct (Z.eqb_spec (Z.of_nat (String.length tok)) (-1)); [lia|].
  now rewrite slice_before, sliceFrom_after.
Qed.

(** What [splitToken] returns is the cut at the last separator. *)
Lemma splitToken_some (r : string) (p : TokenParts) :
  splitToken (Some r) = Some p ->
  r = tp_token p +:+ "." +:+ tp_salt p /\ lastPos "." (tp_salt p) = None.
Proof.
  unfold splitToken. destruct (isEmpty r); [discriminate|].
  unfold lastIndexOf. destruct (lastPos "." r) as [i|] eqn:E.
  - destruct (lastPos_split _ _ _ E) as (a & b & -> & <- & Hb).
    destruct (Z.eqb_spec (Z.of_nat (String.length a)) (-1)); [lia|].
    rewrite slice_before, sliceFrom_after. intros [= <-]. simpl. auto.
  - simpl. discriminate.
Qed.

Lemma splitToken_none (raw : option string) :
  splitToken raw = None <->
  raw = None \/ raw = Some EmptyString \/ exists r, raw = Some r /\ lastPos "." r = None.
Proof.
  unfold splitToken. destruct raw as [r|]; [|tauto].
  destruct r as [|c r]; simpl isEmpty; cbv iota.
  - split; auto.
  - unfold lastIndexOf. destruct (lastPos "." (String c r)) as [i|] eqn:E.
    + destruct (Z.eqb_spec (Z.of_nat i) (-1)); [lia|]. split; [discriminate|].
      intros [|[|(r' & [= <-] & Hr')]]; congruence.
    + simpl. split; auto. intros _. right. right. eauto.
Qed.

End WorkerFacts.

(** ** The claims *)

Import Js Json.

(** Unfolds the plumbing of either handler monad. *)
Ltac run :=
  cbv beta iota zeta delta
    [mbind mret Worker.M_bind Worker.M_ret LocalServer.M_bind LocalServer.M_ret
     Worker.emit Worker.liftOutcome Worker.catch
     LocalServer.emit LocalServer.liftOutcome LocalServer.getWorld
     LocalServer.setSessions LocalServer.setHeaderCookie LocalServer.json
     fst snd].

(** Splits a run equation [m w = (Ret a, w')] into the value and the world. *)
Ltac split_run H :=
  let Hv := fresh "Hv" in
  let Hw := fresh "Hw" in
  apply pair_equal_spec in H as [Hv Hw];
  first [apply JsFacts.Ret_inj in Hv | discriminate Hv];
  try subst.

Section WorkerHasher.
Context `{rt : Worker.WebCrypto}.
Import Worker WorkerFacts.

Lemma web_pbkdf2Hash_run (password saltHex : string) (iterations keylen : Z)
    (digest : string) (w : World) :
  pbkdf2Hash password saltHex iterations keylen digest w =
  (match deriveBits digest (hexToBytes saltHex) iterations password (keylen * 8) with
   | Ret bits => Ret (bytesToHex bits)
   | Throw m => Throw m
   end,
   logged w [Derive]).
Proof.
  unfold pbkdf2Hash. run.
  destruct (deriveBits digest (hexToBytes saltHex) iterations password (keylen * 8));
    reflexivity.
Qed.

Lemma web_makePasswordRecord_run (password : string) (w : World) :
  makePasswordRecord password w =
  (let salt := map entropy (seq (drawn w) 16) in
   match deriveBits "SHA-256" salt 100000 password 256 with
   | Ret bits =>
       Ret {| pw_salt_hex := bytesToHex salt; pw_iterations := 100000;
              pw_digest := "sha256"; pw_keylen := 32;
              pw_hash_hex := bytesToHex bits |}
   | Throw m => Throw m
   end,
   {| db := db w; drawn := (drawn w + 16)%nat; trace := trace w ++ [Derive] |}).
Proof.
  unfold makePasswordRecord, getRandomValues. run. rewrite web_pbkdf2Hash_run. run.
  rewrite hexToBytes_bytesToHex. change (32 * 8) with 256.
  destruct (deriveBits "SHA-256" (map entropy (seq (drawn w) 16)) 100000 password 256);
    reflexivity.
Qed.

Lemma web_verifyPassword_run (password : string) (record : PasswordRecord) (w : World) :
  verifyPassword password record w =
  (match deriveBits (digestName record) (hexToBytes (pw_salt_hex record))
                    (pw_iterations record) password (pw_keylen record * 8) with
   | Ret bits => Ret (String.eqb (bytesToHex bits) (pw_hash_hex record))
   | Throw m => Throw m
   end,
   logged w [Derive]).
Proof.
  unfold verifyPassword. run. rewrite web_pbkdf2Hash_run. run.
  destruct (deriveBits _ _ _ _ _) as [bits|m]; [|reflexivity].
  f_equal. f_equal.
  destruct (String.eqb_spec (bytesToHex bits) (pw_hash_hex record)) as [->|Hne].
  - apply safeEqualHex_refl.
  - now apply safeEqualHex_false.
Qed.

End WorkerHasher.

Section LocalHasher.
Context `{rt : LocalServer.NodeRuntime}.
Import LocalServer JsFacts.

Lemma bufferToHex_cons (b : byte) (bs : list byte) :
  bufferToHex (b :: bs) = String (hexHi b) (String (hexLo b) (bufferToHex bs)).
Proof. exact (WorkerFacts.bytesToHex_cons b bs). Qed.

Lemma bufferFromHex_bufferToHex (bs : list byte) : bufferFromHex (bufferToHex bs) = bs.
Proof.
  induction bs as [|b bs IH]; [reflexivity|].
  rewrite bufferToHex_cons.
  change (bufferFromHex (String (hexHi b) (String (hexLo b) (bufferToHex bs))))
    with (match hexDigitValue (hexHi b), hexDigitValue (hexLo b) with
          | Some hi, Some lo => toUint8 (Some (16 * hi + lo)) :: bufferFromHex (bufferToHex bs)
          | _, _ => []
          end).
  destruct (digits_of_byte b) as (hi & lo & -> & -> & ->). now rewrite IH.
Qed.

Lemma bytesEqual_true_iff (a b : list byte) : bytesEqual a b = true <-> a = b.
Proof.
  revert b. induction a as [|x a IH]; intros [|y b]; simpl; try (split; congruence).
  rewrite andb_true_iff, IH. split.
  - intros [Hxy ->]. now rewrite (byte_dec_bl _ _ Hxy).
  - intros [= -> ->]. split; auto. now apply byte_dec_lb.
Qed.

Lemma bytesEqual_length (a b : list byte) :
  length a <> length b -> bytesEqual a b = false.
Proof.
  intros Hne. destruct (bytesEqual a b) eqn:E; auto.
  apply bytesEqual_true_iff in E. now subst.
Qed.

(** The [try] around [timingSafeEqual] turns its raise into [false], which
    is what the byte comparison says of buffers of different lengths. *)
Lemma node_verifyPassword_run (pass : string) (record : PasswordRecord) (w : World) :
  verifyPassword pass record w =
  (match pbkdf2Sync pass (bufferFromHex (saltHex record)) (iterations record)
                     (keylen record) (digest record) with
   | Ret derived => Ret (bytesEqual (bufferFromHex (hashHex record)) derived)
   | Throw m => Throw m
   end,
   logged w [Derive]).
Proof.
  unfold verifyPassword. run.
  destruct (pbkdf2Sync _ _ _ _ _) as [derived|m]; [|reflexivity].
  rewrite bufferFromHex_bufferToHex. unfold timingSafeEqual.
  destruct (Nat.eqb_spec (length (bufferFromHex (hashHex record))) (length derived))
    as [Hlen|Hlen]; simpl; [reflexivity|].
  now rewrite bytesEqual_length.
Qed.

Lemma node_makePasswordRecord_run (pass : string) (w : World) :
  makePasswordRecord pass w =
  (let salt := map entropy (seq (drawn w) 16) in
   match pbkdf2Sync pass salt 120000 32 "sha256" with
   | Ret hash =>
       Ret {| saltHex := bufferToHex salt; iterations := 120000;
              digest := "sha256"; keylen := 32; hashHex := bufferToHex hash |}
   | Throw m => Throw m
   end,
   {| sessions := sessions w; data := data w; drawn := (drawn w + 16)%nat;
      resCookie := resCookie w; trace := trace w ++ [Derive] |}).
Proof.
  unfold makePasswordRecord, pbkdf2Hash, randomBytes. run.
  rewrite bufferFromHex_bufferToHex.
  destruct (pbkdf2Sync pass (map entropy (seq (drawn w) 16)) 120000 32 "sha256");
    reflexivity.
Qed.

End LocalHasher.

(** *** Credential records *)

(** C9.  A record made by [makePasswordRecord] has, in both servers: a
    salt that is the hex rendering of 16 bytes newly drawn from the
    entropy source; an iteration count of at least 100000; the digest
    [sha256] with a key of 32 bytes, that is 256 bits; and a hash that is
    the PBKDF2 derivation of the password under exactly the parameters
    the record stores.  A record is produced whenever the platform's
    derivation returns. *)
Theorem makePasswordRecord_parameters (web : Worker.WebCrypto)
    (node : LocalServer.NodeRuntime) (password : string) :
  (forall (w w' : Worker.World) (r : Worker.PasswordRecord),
      Worker.makePasswordRecord password w = (Ret r, w') ->
      Worker.hexToBytes (Worker.pw_salt_hex r)
        = map Worker.entropy (seq (Worker.drawn w) 16)
      /\ (16 <= length (Worker.hexToBytes (Worker.pw_salt_hex r)))%nat
      /\ Worker.drawn w' = (Worker.drawn w + 16)%nat
      /\ 100000 <= Worker.pw_iterations r
      /\ Worker.pw_digest r = "sha256"%string
      /\ Worker.pw_keylen r * 8 = 256
      /\ exists bits,
           Worker.deriveBits (Worker.digestName r)
                             (Worker.hexToBytes (Worker.pw_salt_hex r))
                             (Worker.pw_iterations r) password
                             (Worker.pw_keylen r * 8) = Ret bits
           /\ Worker.pw_hash_hex r = Worker.bytesToHex bits)
  /\ (forall (w : Worker.World) (bits : list byte),
        Worker.deriveBits "SHA-256" (map Worker.entropy (seq (Worker.drawn w) 16))
                          100000 password 256 = Ret bits ->
        exists r w', Worker.makePasswordRecord password w = (Ret r, w'))
  /\ (forall (w w' : LocalServer.World) (r : LocalServer.PasswordRecord),
        LocalServer.makePasswordRecord password w = (Ret r, w') ->
        LocalServer.bufferFromHex (LocalServer.saltHex r)
          = map LocalServer.entropy (seq (LocalServer.drawn w) 16)
        /\ (16 <= length (LocalServer.bufferFromHex (LocalServer.saltHex r)))%nat
        /\ LocalServer.drawn w' = (LocalServer.drawn w + 16)%nat
        /\ 100000 <= LocalServer.iterations r
        /\ LocalServer.digest r = "sha256"%string
        /\ LocalServer.keylen r * 8 = 256
        /\ exists hash,
             LocalServer.pbkdf2Sync password
                                    (LocalServer.bufferFromHex (LocalServer.saltHex r))
                                    (LocalServer.iterations r) (LocalServer.keylen r)
                                    (LocalServer.digest r) = Ret hash
             /\ LocalServer.hashHex r = LocalServer.bufferToHex hash)
  /\ (forall (w : LocalServer.World) (hash : list byte),
        LocalServer.pbkdf2Sync password
                               (map LocalServer.entropy (seq (LocalServer.drawn w) 16))
                               120000 32 "sha256" = Ret hash ->
        exists r w', LocalServer.makePasswordRecord password w = (Ret r, w')).
Proof.
  split; [|split; [|split]].
  - intros w w' r. rewrite web_makePasswordRecord_run. cbv zeta.
    destruct (Worker.deriveBits _ _ _ _ _) as [bits|m] eqn:E; intros Hrun;
      split_run Hrun.
    cbv beta iota delta [Worker.pw_salt_hex Worker.pw_iterations Worker.pw_digest
                         Worker.pw_keylen Worker.pw_hash_hex Worker.drawn].
    rewrite WorkerFacts.hexToBytes_bytesToHex, length_map, length_seq.
    repeat split; try reflexivity; try lia.
    exists bits. split; [exact E | reflexivity].
  - intros w bits E. rewrite web_makePasswordRecord_run. cbv zeta. rewrite E. eauto.
  - intros w w' r. rewrite node_makePasswordRecord_run. cbv zeta.
    destruct (LocalServer.pbkdf2Sync _ _ _ _ _) as [hash|m] eqn:E; intros Hrun;
      split_run Hrun.
    cbv beta iota delta [LocalServer.saltHex LocalServer.iterations LocalServer.digest
                         LocalServer.keylen LocalServer.hashHex LocalServer.drawn].
    rewrite bufferFromHex_bufferToHex, length_map, length_seq.
    repeat split; try reflexivity; try lia.
    exists hash. split; [exact E | reflexivity].
  - intros w hash E. rewrite node_makePasswordRecord_run. cbv zeta. rewrite E. eauto.
Qed.

Lemma makePasswordRecord_parameters_witness :
  fst (Worker.makePasswordRecord (rt := Sample.web) "swordfish" Sample.webWorld0)
    = Ret Sample.webRecord
  /\ 100000 <= Worker.pw_iterations Sample.webRecord.
Proof.
  assert (E : Worker.makePasswordRecord (rt := Sample.web) "swordfish" Sample.webWorld0
              = (Ret Sample.webRecord,
                 {| Worker.db := Sample.webDb0; Worker.drawn := 16;
                    Worker.trace := [Worker.Derive] |}))
    by (vm_compute; reflexivity).
  split; [now rewrite E|].
  exact (proj1 (proj2 (proj2 (proj2
           (proj1 (makePasswordRecord_parameters Sample.web Sample.node "swordfish")
                  _ _ _ E))))).
Defined.

(** C5.  In both servers, whenever the platform's derivation of a
    password under the newly drawn salt returns, [makePasswordRecord]
    returns a record, the password verifies against that record, and a
    different password is refused whenever its derivation under the same
    salt returns a different key (a collision being the event of
    negligible probability).  The same holds of every record that
    [makePasswordRecord] returns. *)
Theorem verifyPassword_of_makePasswordRecord (web : Worker.WebCrypto)
    (node : LocalServer.NodeRuntime) :
  (forall (p : string) (w : Worker.World) (bits : list byte),
      Worker.deriveBits "SHA-256" (map Worker.entropy (seq (Worker.drawn w) 16))
                        100000 p 256 = Ret bits ->
      exists (r : Worker.PasswordRecord) (w' : Worker.World),
        Worker.makePasswordRecord p w = (Ret r, w')
        /\ (forall w2, fst (Worker.verifyPassword p r w2) = Ret true)
        /\ (forall (p2 : string) (bits2 : list byte) (w2 : Worker.World),
              Worker.deriveBits "SHA-256"
                                (map Worker.entropy (seq (Worker.drawn w) 16))
                                100000 p2 256 = Ret bits2 ->
              bits2 <> bits ->
              fst (Worker.verifyPassword p2 r w2) = Ret false))
  /\ (forall (p : string) (w : LocalServer.World) (hash : list byte),
        LocalServer.pbkdf2Sync p (map LocalServer.entropy (seq (LocalServer.drawn w) 16))
                               120000 32 "sha256" = Ret hash ->
        exists (r : LocalServer.PasswordRecord) (w' : LocalServer.World),
          LocalServer.makePasswordRecord p w = (Ret r, w')
          /\ (forall w2, fst (LocalServer.verifyPassword p r w2) = Ret true)
          /\ (forall (p2 : string) (hash2 : list byte) (w2 : LocalServer.World),
                LocalServer.pbkdf2Sync p2
                                       (map LocalServer.entropy
                                            (seq (LocalServer.drawn w) 16))
                                       120000 32 "sha256" = Ret hash2 ->
                hash2 <> hash ->
                fst (LocalServer.verifyPassword p2 r w2) = Ret false))
  /\ (forall (p : string) (w w' w2 : Worker.World) (r : Worker.PasswordRecord),
      Worker.makePasswordRecord p w = (Ret r, w') ->
      fst (Worker.verifyPassword p r w2) = Ret true)
  /\ (forall (p1 p2 : string) (w w' w2 : Worker.World) (r : Worker.PasswordRecord)
             (bits2 : list byte),
        Worker.makePasswordRecord p1 w = (Ret r, w') ->
        p1 <> p2 ->
        Worker.deriveBits "SHA-256" (map Worker.entropy (seq (Worker.drawn w) 16))
                          100000 p2 256 = Ret bits2 ->
        (Worker.deriveBits "SHA-256" (map Worker.entropy (seq (Worker.drawn w) 16))
                           100000 p1 256 = Ret bits2 -> p1 = p2) ->
        fst (Worker.verifyPassword p2 r w2) = Ret false)
  /\ (forall (p : string) (w w' w2 : LocalServer.World) (r : LocalServer.PasswordRecord),
        LocalServer.makePasswordRecord p w = (Ret r, w') ->
        fst (LocalServer.verifyPassword p r w2) = Ret true)
  /\ (forall (p1 p2 : string) (w w' w2 : LocalServer.World)
             (r : LocalServer.PasswordRecord) (hash2 : list byte),
        LocalServer.makePasswordRecord p1 w = (Ret r, w') ->
        p1 <> p2 ->
        LocalServer.pbkdf2Sync p2 (map LocalServer.entropy (seq (LocalServer.drawn w) 16))
                               120000 32 "sha256" = Ret hash2 ->
        (LocalServer.pbkdf2Sync p1 (map LocalServer.entropy (seq (LocalServer.drawn w) 16))
                                120000 32 "sha256" = Ret hash2 -> p1 = p2) ->
        fst (LocalServer.verifyPassword p2 r w2) = Ret false).
Proof.
  split; [|split; [|split; [|split; [|split]]]].
  - intros p w bits E. rewrite web_makePasswordRecord_run. cbv zeta. rewrite E.
    eexists _, _. split; [reflexivity|]. split.
    + intros w2. rewrite web_verifyPassword_run.
      cbv beta iota delta [Worker.pw_salt_hex Worker.pw_iterations Worker.pw_digest
                           Worker.pw_keylen Worker.pw_hash_hex Worker.digestName fst].
      rewrite WorkerFacts.hexToBytes_bytesToHex.
      change (32 * 8) with 256. simpl (String.eqb "sha256" "sha256"). cbv iota.
      now rewrite E, String.eqb_refl.
    + intros p2 bits2 w2 E2 Hne. rewrite web_verifyPassword_run.
      cbv beta iota delta [Worker.pw_salt_hex Worker.pw_iterations Worker.pw_digest
                           Worker.pw_keylen Worker.pw_hash_hex Worker.digestName fst].
      rewrite WorkerFacts.hexToBytes_bytesToHex.
      change (32 * 8) with 256. simpl (String.eqb "sha256" "sha256"). cbv iota.
      rewrite E2. f_equal. apply String.eqb_neq. intros Heq.
      now apply WorkerFacts.bytesToHex_inj in Heq.
  - intros p w hash E. rewrite node_makePasswordRecord_run. cbv zeta. rewrite E.
    eexists _, _. split; [reflexivity|]. split.
    + intros w2. rewrite node_verifyPassword_run.
      cbv beta iota delta [LocalServer.saltHex LocalServer.iterations LocalServer.digest
                           LocalServer.keylen LocalServer.hashHex fst].
      rewrite !bufferFromHex_bufferToHex, E. f_equal. now apply bytesEqual_true_iff.
    + intros p2 hash2 w2 E2 Hne. rewrite node_verifyPassword_run.
      cbv beta iota delta [LocalServer.saltHex LocalServer.iterations LocalServer.digest
                           LocalServer.keylen LocalServer.hashHex fst].
      rewrite !bufferFromHex_bufferToHex, E2. f_equal.
      destruct (LocalServer.bytesEqual hash hash2) eqn:Eb; [|reflexivity].
      apply bytesEqual_true_iff in Eb. now destruct Hne.
  - intros p w w' w2 r. rewrite web_makePasswordRecord_run. cbv zeta.
    destruct (Worker.deriveBits _ _ _ _ _) as [bits|m] eqn:E; intros Hrun;
      split_run Hrun.
    rewrite web_verifyPassword_run.
    cbv beta iota delta [Worker.pw_salt_hex Worker.pw_iterations Worker.pw_digest
                         Worker.pw_keylen Worker.pw_hash_hex Worker.digestName fst].
    rewrite WorkerFacts.hexToBytes_bytesToHex.
    change (32 * 8) with 256. simpl (String.eqb "sha256" "sha256"). cbv iota.
    now rewrite E, String.eqb_refl.
  - intros p1 p2 w w' w2 r bits2. rewrite web_makePasswordRecord_run. cbv zeta.
    destruct (Worker.deriveBits _ _ _ p1 _) as [bits|m] eqn:E; intros Hrun Hne E2 Hcol;
      split_run Hrun.
    rewrite web_verifyPassword_run.
    cbv beta iota delta [Worker.pw_salt_hex Worker.pw_iterations Worker.pw_digest
                         Worker.pw_keylen Worker.pw_hash_hex Worker.digestName fst].
    rewrite WorkerFacts.hexToBytes_bytesToHex.
    change (32 * 8) with 256. simpl (String.eqb "sha256" "sha256"). cbv iota.
    rewrite E2. f_equal. apply String.eqb_neq. intros Heq.
    apply WorkerFacts.bytesToHex_inj in Heq. subst bits2. now apply Hne, Hcol.
  - intros p w w' w2 r. rewrite node_makePasswordRecord_run. cbv zeta.
    destruct (LocalServer.pbkdf2Sync _ _ _ _ _) as [hash|m] eqn:E; intros Hrun;
      split_run Hrun.
    rewrite node_verifyPassword_run.
    cbv beta iota delta [LocalServer.saltHex LocalServer.iterations LocalServer.digest
                         LocalServer.keylen LocalServer.hashHex fst].
    rewrite !bufferFromHex_bufferToHex, E. f_equal. now apply bytesEqual_true_iff.
  - intros p1 p2 w w' w2 r hash2. rewrite node_makePasswordRecord_run. cbv zeta.
    destruct (LocalServer.pbkdf2Sync p1 _ _ _ _) as [hash|m] eqn:E;
      intros Hrun Hne E2 Hcol; split_run Hrun.
    rewrite node_verifyPassword_run.
    cbv beta iota delta [LocalServer.saltHex LocalServer.iterations LocalServer.digest
                         LocalServer.keylen LocalServer.hashHex fst].
    rewrite !bufferFromHex_bufferToHex, E2. f_equal.
    destruct (LocalServer.bytesEqual hash hash2) eqn:Eb; [|reflexivity].
    apply bytesEqual_true_iff in Eb. subst hash2. now destruct Hne; apply Hcol.
Qed.

Lemma verifyPassword_of_makePasswordRecord_witness :
  (exists r w',
      Worker.makePasswordRecord (rt := Sample.web) "swordfish" Sample.webWorld0
        = (Ret r, w')
      /\ fst (Worker.verifyPassword (rt := Sample.web) "swordfish" r Sample.webWorld0)
         = Ret true
      /\ fst (Worker.verifyPassword (rt := Sample.web) "wrong" r Sample.webWorld0)
         = Ret false)
  /\ (exists r w',
        LocalServer.makePasswordRecord (rt := Sample.node) "swordfish" Sample.nodeWorld0
          = (Ret r, w')
        /\ fst (LocalServer.verifyPassword (rt := Sample.node) "swordfish" r
                                           Sample.nodeWorld0) = Ret true
        /\ fst (LocalServer.verifyPassword (rt := Sample.node) "wrong" r
                                           Sample.nodeWorld0) = Ret false).
Proof.
  destruct (verifyPassword_of_makePasswordRecord Sample.web Sample.node) as (Hweb & Hnode & _).
  split.
  - destruct (Hweb "swordfish"%string Sample.webWorld0 _ eq_refl)
      as (r & w' & Hmade & Hsame & Hother).
    exists r, w'. split; [exact Hmade|]. split; [apply Hsame|].
    apply (Hother "wrong"%string _ Sample.webWorld0 eq_refl). vm_compute. discriminate.
  - destruct (Hnode "swordfish"%string Sample.nodeWorld0 _ eq_refl)
      as (r & w' & Hmade & Hsame & Hother).
    exists r, w'. split; [exact Hmade|]. split; [apply Hsame|].
    apply (Hother "wrong"%string _ Sample.nodeWorld0 eq_refl). vm_compute. discriminate.
Defined.

(** *** Token codec *)

(** C8 as stated fails: a string whose secret part or whose salt part is
    empty is split, not turned into [null]. *)
Lemma splitToken_empty_part_counterexample :
  Worker.splitToken (Some "secret.") <> None
  /\ Worker.splitToken (Some ".5a17") <> None.
Proof. split; vm_compute; discriminate. Qed.

(** C8, amended.  [splitToken] is total and cuts at the last separator: it
    returns [null] exactly for a missing string, an empty string, or a
    string without separator; for every other string it returns what
    precedes and what follows the last separator, either of which may be
    empty. *)
Theorem splitToken_cuts_at_last_separator (raw : option string) :
  match Worker.splitToken raw with
  | None =>
      raw = None \/ raw = Some EmptyString
      \/ exists r, raw = Some r /\ lastPos "." r = None
  | Some parts =>
      raw = Some (Worker.tp_token parts +:+ "." +:+ Worker.tp_salt parts)
      /\ lastPos "." (Worker.tp_salt parts) = None
  end.
Proof.
  destruct (Worker.splitToken raw) as [parts|] eqn:E.
  - destruct raw as [r|]; [|discriminate].
    destruct (WorkerFacts.splitToken_some r parts E) as [-> Hs]. auto.
  - now apply WorkerFacts.splitToken_none.
Qed.

(** *** Running the Worker's checks *)

Section WorkerChecks.
Context `{rt : Worker.WebCrypto}.
Import Worker WorkerFacts JsFacts.

Lemma rest_run {A : Type} (env : Env) (t : Table) (v : Verb) (q : Db -> A * Db)
    (w : World) :
  rest env t v q w =
  match outage env t v with
  | Some detail => (Ret (inl detail), logged w [Rest t v])
  | None =>
      (Ret (inr (fst (q (db w)))),
       {| db := snd (q (db w)); drawn := drawn w; trace := trace w ++ [Rest t v] |})
  end.
Proof.
  unfold rest. run. destruct (outage env t v); [reflexivity|].
  destruct w as [d n tr]. unfold logged. cbv beta iota delta [db drawn trace].
  now destruct (q d).
Qed.

Lemma adminSessionFromCookie_run (env : Env) (req : Request) (w : World) :
  adminSessionFromCookie env req w =
  match splitToken (adminCookie req) with
  | None => (Ret None, w)
  | Some parts =>
      (Ret (answeringSession env parts (db w)), logged w [Rest AdminSessions Select])
  end.
Proof.
  unfold adminSessionFromCookie, answeringSession.
  destruct (splitToken (adminCookie req)) as [parts|]; [|reflexivity].
  unfold selectAdminSessions. run. rewrite rest_run.
  destruct (outage env AdminSessions Select); [reflexivity|].
  cbv beta iota delta [fst snd]. rewrite head_firstn1. destruct w as [[] ? ?]. reflexivity.
Qed.

Lemma isAdmin_run (env : Env) (req : Request) (w : World) :
  isAdmin env req w =
  match splitToken (adminCookie req) with
  | None => (Ret false, w)
  | Some parts =>
      (Ret (bool_decide (is_Some (answeringSession env parts (db w)))),
       logged w [Rest AdminSessions Select])
  end.
Proof.
  unfold isAdmin. run. rewrite adminSessionFromCookie_run.
  destruct (splitToken (adminCookie req)); reflexivity.
Qed.

Lemma viewTokenAuthorized_run (env : Env) (pid viewToken : string) (w : World) :
  viewTokenAuthorized env pid viewToken w =
  match splitToken (Some viewToken) with
  | None => (Ret false, w)
  | Some parts =>
      (Ret (answeringViewToken env pid parts (db w)), logged w [Rest ViewTokens Select])
  end.
Proof.
  unfold viewTokenAuthorized, answeringViewToken.
  destruct (splitToken (Some viewToken)) as [parts|]; [|reflexivity].
  unfold selectViewTokens. run. rewrite rest_run.
  destruct (outage env ViewTokens Select); [reflexivity|].
  cbv beta iota delta [fst snd].
  destruct w as [[] ? ?]. cbv beta iota delta [db view_tokens].
  match goal with |- context [List.filter ?f ?l] => destruct (List.filter f l) end;
    reflexivity.
Qed.

Lemma makeToken_run (pepper : string) (w : World) :
  makeToken pepper w =
  (let tok := uuidOfBytes (map entropy (seq (drawn w) 16)) in
   let slt := bytesToHex (map entropy (seq (drawn w + 16) 16)) in
   Ret {| token := tok; salt := slt; hash := sha256Hex (tokenInput tok slt pepper) |},
   {| db := db w; drawn := (drawn w + 16 + 16)%nat; trace := trace w ++ [Mint] |}).
Proof. reflexivity. Qed.

End WorkerChecks.

(** C4.  In the hosted variant a stored admin session or view token with
    expiry [t] that answers the presented credential is accepted by every
    check made strictly before [t] (the back end answering), and at or
    after [t] it is treated as absent: the check gives what it gives on
    the table without that row, and rejects when no other row is left,
    although the row is still stored. *)
Theorem expiry_enforced_at_read (web : Worker.WebCrypto) (env : Worker.Env) :
  (forall (req : Worker.Request) (parts : Worker.TokenParts) (row : Worker.AdminSessionRow)
          (l1 l2 : list Worker.AdminSessionRow) (w : Worker.World),
      Worker.splitToken (Worker.adminCookie req) = Some parts ->
      Worker.as_token_hash row
        = Worker.sha256Hex (Worker.tokenInput (Worker.tp_token parts) (Worker.tp_salt parts)
                                              (Worker.TOKEN_PEPPER env)) ->
      Worker.as_token_salt row = Worker.tp_salt parts ->
      Worker.admin_sessions (Worker.db w) = l1 ++ row :: l2 ->
      (Worker.now env < Worker.as_expires_at row ->
       Worker.outage env Worker.AdminSessions Worker.Select = None ->
       fst (Worker.isAdmin env req w) = Ret true)
      /\ (Worker.as_expires_at row <= Worker.now env ->
          forall w' : Worker.World,
            Worker.admin_sessions (Worker.db w') = l1 ++ l2 ->
            fst (Worker.adminSessionFromCookie env req w)
              = fst (Worker.adminSessionFromCookie env req w'))
      /\ (Worker.as_expires_at row <= Worker.now env ->
          l1 ++ l2 = [] ->
          fst (Worker.isAdmin env req w) = Ret false))
  /\ (forall (pid viewToken : string) (parts : Worker.TokenParts) (row : Worker.ViewTokenRow)
             (l1 l2 : list Worker.ViewTokenRow) (w : Worker.World),
        Worker.splitToken (Some viewToken) = Some parts ->
        Worker.vt_post_id row = pid ->
        Worker.vt_token_hash row
          = Worker.sha256Hex (Worker.tokenInput (Worker.tp_token parts) (Worker.tp_salt parts)
                                                (Worker.TOKEN_PEPPER env)) ->
        Worker.vt_token_salt row = Worker.tp_salt parts ->
        Worker.view_tokens (Worker.db w) = l1 ++ row :: l2 ->
        (Worker.now env < Worker.vt_expires_at row ->
         Worker.outage env Worker.ViewTokens Worker.Select = None ->
         fst (Worker.viewTokenAuthorized env pid viewToken w) = Ret true)
        /\ (Worker.vt_expires_at row <= Worker.now env ->
            forall w' : Worker.World,
              Worker.view_tokens (Worker.db w') = l1 ++ l2 ->
              fst (Worker.viewTokenAuthorized env pid viewToken w)
                = fst (Worker.viewTokenAuthorized env pid viewToken w'))
        /\ (Worker.vt_expires_at row <= Worker.now env ->
            l1 ++ l2 = [] ->
            fst (Worker.viewTokenAuthorized env pid viewToken w) = Ret false)).
Proof.
  split.
  - intros req parts row l1 l2 w Hsplit Hhash Hsalt Htable.
    assert (Hlive : Worker.now env < Worker.as_expires_at row ->
                    Worker.adminSessionFilter env (Worker.as_token_hash row)
                                              (Worker.as_token_salt row) row = true).
    { intros Hlt. unfold Worker.adminSessionFilter.
      rewrite !String.eqb_refl. simpl. now apply Z.ltb_lt. }
    assert (Hdead : Worker.as_expires_at row <= Worker.now env ->
                    forall h s, Worker.adminSessionFilter env h s row = false).
    { intros Hle h s. unfold Worker.adminSessionFilter.
      replace (Worker.now env <? Worker.as_expires_at row) with false
        by (symmetry; apply Z.ltb_ge; lia).
      apply andb_false_r. }
    split; [|split].
    + intros Hlt Hup. rewrite isAdmin_run, Hsplit. unfold Worker.answeringSession.
      rewrite Hup, Htable, <- Hhash, <- Hsalt. cbv beta iota delta [fst].
      destruct (JsFacts.head_filter_in
                  (Worker.adminSessionFilter env (Worker.as_token_hash row)
                                             (Worker.as_token_salt row))
                  (l1 ++ row :: l2) row (in_elt _ _ _) (Hlive Hlt)) as (y & Hy & _).
      now rewrite Hy.
    + intros Hle w' Htable'. rewrite !adminSessionFromCookie_run, Hsplit.
      unfold Worker.answeringSession. rewrite Htable, Htable'.
      now rewrite JsFacts.filter_without by now apply Hdead.
    + intros Hle Hnil. rewrite isAdmin_run, Hsplit. unfold Worker.answeringSession.
      rewrite Htable, JsFacts.filter_without, Hnil by now apply Hdead.
      now destruct (Worker.outage env Worker.AdminSessions Worker.Select).
  - intros pid viewToken parts row l1 l2 w Hsplit Hpid Hhash Hsalt Htable.
    assert (Hlive : Worker.now env < Worker.vt_expires_at row ->
                    Worker.viewTokenFilter env (Worker.vt_post_id row)
                      (Worker.vt_token_hash row) (Worker.vt_token_salt row) row = true).
    { intros Hlt. unfold Worker.viewTokenFilter.
      rewrite !String.eqb_refl. simpl. now apply Z.ltb_lt. }
    assert (Hdead : Worker.vt_expires_at row <= Worker.now env ->
                    forall i h s, Worker.viewTokenFilter env i h s row = false).
    { intros Hle i h s. unfold Worker.viewTokenFilter.
      replace (Worker.now env <? Worker.vt_expires_at row) with false
        by (symmetry; apply Z.ltb_ge; lia).
      apply andb_false_r. }
    split; [|split].
    + intros Hlt Hup. rewrite viewTokenAuthorized_run, Hsplit.
      unfold Worker.answeringViewToken.
      rewrite Hup, Htable, <- Hhash, <- Hsalt, <- Hpid. cbv beta iota delta [fst].
      destruct (JsFacts.head_filter_in
                  (Worker.viewTokenFilter env (Worker.vt_post_id row)
                     (Worker.vt_token_hash row) (Worker.vt_token_salt row))
                  (l1 ++ row :: l2) row (in_elt _ _ _) (Hlive Hlt)) as (y & Hy & _).
      now rewrite Hy.
    + intros Hle w' Htable'. rewrite !viewTokenAuthorized_run, Hsplit.
      unfold Worker.answeringViewToken. rewrite Htable, Htable'.
      now rewrite JsFacts.filter_without by now apply Hdead.
    + intros Hle Hnil. rewrite viewTokenAuthorized_run, Hsplit.
      unfold Worker.answeringViewToken.
      rewrite Htable, JsFacts.filter_without, Hnil by now apply Hdead.
      now destruct (Worker.outage env Worker.ViewTokens Worker.Select).
Qed.

Lemma expiry_enforced_at_read_witness :
  fst (Worker.isAdmin (rt := Sample.web) Sample.webEnv
         (Sample.webRequest (Some (Worker.presented Sample.issued)) None)
         (Sample.webWorldWith [Sample.adminRow 2000] [] []))
  = Ret true.
Proof.
  refine (proj1 (proj1 (expiry_enforced_at_read Sample.web Sample.webEnv)
                       (Sample.webRequest (Some (Worker.presented Sample.issued)) None)
                       {| Worker.tp_token := Worker.token Sample.issued;
                          Worker.tp_salt := Worker.salt Sample.issued |}
                       (Sample.adminRow 2000) [] []
                       (Sample.webWorldWith [Sample.adminRow 2000] [] [])
                       _ _ _ _) _ _).
  - vm_compute; reflexivity.
  - reflexivity.
  - reflexivity.
  - reflexivity.
  - vm_compute; reflexivity.
  - reflexivity.
Defined.

(** C6.  A token issued by [makeToken] under the pepper, presented as
    [secret.salt], is accepted against the row that stores its hash and
    salt: the parsed salt is the stored salt and the recomputed SHA-256 of
    secret, salt and pepper is the stored hash.  With any single character
    of the salt altered the presented string is refused; with any single
    character of the secret altered it is refused unless SHA-256 collides
    on the two hashed strings. *)
Theorem issued_token_round_trip (web : Worker.WebCrypto) (env : Worker.Env)
    (w0 w1 w : Worker.World) (t : Worker.Token) (expires : Z) :
  Worker.makeToken (Worker.TOKEN_PEPPER env) w0 = (Ret t, w1) ->
  Worker.outage env Worker.AdminSessions Worker.Select = None ->
  Worker.now env < expires ->
  Worker.admin_sessions (Worker.db w)
    = [ {| Worker.as_token_hash := Worker.hash t;
           Worker.as_token_salt := Worker.salt t;
           Worker.as_expires_at := expires |} ] ->
  let check raw :=
    fst (Worker.adminSessionFromCookie env
           {| Worker.adminCookie := Some raw; Worker.parsedBody := None |} w) in
  Worker.splitToken (Some (Worker.presented t))
    = Some {| Worker.tp_token := Worker.token t; Worker.tp_salt := Worker.salt t |}
  /\ Worker.sha256Hex (Worker.tokenInput (Worker.token t) (Worker.salt t)
                                         (Worker.TOKEN_PEPPER env)) = Worker.hash t
  /\ check (Worker.presented t)
     = Ret (Some {| Worker.as_token_hash := Worker.hash t;
                    Worker.as_token_salt := Worker.salt t;
                    Worker.as_expires_at := expires |})
  /\ (forall (i : nat) (c : ascii),
        (i < String.length (Worker.salt t))%nat ->
        String.get i (Worker.salt t) <> Some c ->
        check (Worker.token t +:+ "." +:+ alterAt i c (Worker.salt t)) = Ret None)
  /\ (forall (i : nat) (c : ascii),
        (i < String.length (Worker.token t))%nat ->
        String.get i (Worker.token t) <> Some c ->
        (Worker.digest256 (Worker.tokenInput (alterAt i c (Worker.token t)) (Worker.salt t)
                                             (Worker.TOKEN_PEPPER env))
         = Worker.digest256 (Worker.tokenInput (Worker.token t) (Worker.salt t)
                                               (Worker.TOKEN_PEPPER env)) ->
         Worker.tokenInput (alterAt i c (Worker.token t)) (Worker.salt t)
                           (Worker.TOKEN_PEPPER env)
         = Worker.tokenInput (Worker.token t) (Worker.salt t) (Worker.TOKEN_PEPPER env)) ->
        check (alterAt i c (Worker.token t) +:+ "." +:+ Worker.salt t) = Ret None).
Proof.
  intros Hmake Hup Hlive Htable check.
  rewrite makeToken_run in Hmake. cbv zeta in Hmake. split_run Hmake.
  set (tok := Worker.uuidOfBytes (map Worker.entropy (seq (Worker.drawn w0) 16))) in *.
  set (bytes := map Worker.entropy (seq (Worker.drawn w0 + 16) 16)) in *.
  cbv beta iota delta [Worker.token Worker.salt Worker.hash Worker.presented] in *.
  set (pepper := Worker.TOKEN_PEPPER env) in *.
  pose proof (WorkerFacts.bytesToHex_no_dot bytes) as Hnodot.
  assert (Hsplit : Worker.splitToken (Some (tok +:+ "." +:+ Worker.bytesToHex bytes))
                   = Some {| Worker.tp_token := tok;
                             Worker.tp_salt := Worker.bytesToHex bytes |})
    by now apply WorkerFacts.splitToken_joined.
  split; [exact Hsplit|]. split; [reflexivity|].
  assert (Hrun : forall raw parts,
             Worker.splitToken (Some raw) = Some parts ->
             check raw =
             Ret (head (List.filter
                          (Worker.adminSessionFilter env
                             (Worker.sha256Hex (Worker.tokenInput (Worker.tp_token parts)
                                                  (Worker.tp_salt parts) pepper))
                             (Worker.tp_salt parts))
                          (Worker.admin_sessions (Worker.db w))))).
  { intros raw parts Hp. unfold check. rewrite adminSessionFromCookie_run.
    cbv beta iota delta [Worker.adminCookie]. rewrite Hp.
    unfold Worker.answeringSession. now rewrite Hup. }
  split; [|split].
  - rewrite (Hrun _ _ Hsplit), Htable. simpl. unfold Worker.adminSessionFilter. simpl.
    rewrite !String.eqb_refl. simpl.
    now replace (Worker.now env <? expires) with true by (symmetry; apply Z.ltb_lt; lia).
  - intros i c Hi Hc.
    destruct (Worker.splitToken
                (Some (tok +:+ "." +:+ alterAt i c (Worker.bytesToHex bytes))))
      as [parts|] eqn:E.
    + rewrite (Hrun _ _ E), Htable. simpl. unfold Worker.adminSessionFilter. simpl.
      destruct (WorkerFacts.splitToken_some _ _ E) as [Hcut _].
      destruct (String.eqb_spec (Worker.bytesToHex bytes) (Worker.tp_salt parts))
        as [Heq|Hne].
      * exfalso. rewrite <- Heq in Hcut.
        apply JsFacts.app_same_length in Hcut as [_ Hcut].
        -- apply (String.app_inj ".") in Hcut.
           now apply (JsFacts.alterAt_changes i c _ Hi Hc).
        -- now rewrite !JsFacts.length_app, JsFacts.alterAt_length.
      * now rewrite andb_false_r.
    + apply WorkerFacts.splitToken_none in E as [E|[E|(r & [= <-] & Hr)]];
        [discriminate| |].
      * exfalso. apply JsFacts.Some_inj in E. apply (f_equal String.length) in E.
        rewrite !JsFacts.length_app in E. simpl in E. lia.
      * exfalso. now apply (JsFacts.lastPos_contains "." tok _ Hr).
  - intros i c Hi Hc Hcol.
    assert (Hsplit' :
              Worker.splitToken (Some (alterAt i c tok +:+ "." +:+ Worker.bytesToHex bytes))
              = Some {| Worker.tp_token := alterAt i c tok;
                        Worker.tp_salt := Worker.bytesToHex bytes |})
      by now apply WorkerFacts.splitToken_joined.
    rewrite (Hrun _ _ Hsplit'), Htable. simpl. unfold Worker.adminSessionFilter. simpl.
    destruct (String.eqb_spec
                (Worker.sha256Hex (Worker.tokenInput tok (Worker.bytesToHex bytes) pepper))
                (Worker.sha256Hex (Worker.tokenInput (alterAt i c tok)
                                                     (Worker.bytesToHex bytes) pepper)))
      as [Heq|Hne]; [|reflexivity].
    exfalso. symmetry in Heq. apply WorkerFacts.sha256Hex_inj in Heq.
    apply Hcol in Heq. unfold Worker.tokenInput in Heq.
    apply JsFacts.app_same_length in Heq as [Heq _]; [|reflexivity].
    now apply (JsFacts.alterAt_changes i c _ Hi Hc).
Qed.

Lemma issued_token_round_trip_witness :
  fst (Worker.adminSessionFromCookie (rt := Sample.web) Sample.webEnv
         (Sample.webRequest (Some (Worker.presented Sample.issued)) None)
         (Sample.webWorldWith [Sample.adminRow 2000] [] []))
  = Ret (Some (Sample.adminRow 2000)).
Proof.
  assert (E : Worker.makeToken (rt := Sample.web) (Worker.TOKEN_PEPPER Sample.webEnv)
                               Sample.webWorld0
              = (Ret Sample.issued,
                 {| Worker.db := Sample.webDb0; Worker.drawn := 32;
                    Worker.trace := [Worker.Mint] |}))
    by (vm_compute; reflexivity).
  exact (proj1 (proj2 (proj2
           (issued_token_round_trip Sample.web Sample.webEnv _ _
              (Sample.webWorldWith [Sample.adminRow 2000] [] []) _ 2000
              E eq_refl eq_refl eq_refl)))).
Defined.

(** *** Running the Worker's mutating handlers *)

Section WorkerMutations.
Context `{rt : Worker.WebCrypto}.
Import Worker WorkerFacts JsFacts.

Lemma logged_logged (w : World) (a b : list Event) :
  logged (logged w a) b = logged w (a ++ b).
Proof. unfold logged. simpl. now rewrite <- List.app_assoc. Qed.

Lemma logged_nil (w : World) : logged w [] = w.
Proof. destruct w. unfold logged. simpl. now rewrite List.app_nil_r. Qed.

(** The first post with the asked id, as [selectPost] returns it. *)
Lemma selectPost_run (env : Env) (pid : string) (w : World) :
  selectPost env pid w =
  match outage env Posts Select with
  | Some detail => (Ret (inl detail), logged w [Rest Posts Select])
  | None =>
      (Ret (inr (firstn 1 (List.filter (fun p => String.eqb (id p) pid) (posts (db w))))),
       logged w [Rest Posts Select])
  end.
Proof.
  unfold selectPost. rewrite rest_run.
  destruct (outage env Posts Select); [reflexivity|].
  destruct w as [[] ? ?]. reflexivity.
Qed.

Lemma passwordFallback_run (env : Env) (pid password : string) (w : World) :
  passwordFallback env pid password w =
  if isEmpty password
  then (Ret (Some (send 401 (errorBody "Password required"))), w)
  else
    match outage env Posts Select with
    | Some detail =>
        (Ret (Some (send 500 (errorDetail "Failed to verify" detail))),
         logged w [Rest Posts Select])
    | None =>
        match List.filter (fun p => String.eqb (id p) pid) (posts (db w)) with
        | [] => (Ret (Some (send 404 (errorBody "Not found"))), logged w [Rest Posts Select])
        | row :: _ =>
            (match deriveBits (digestName (pw row)) (hexToBytes (pw_salt_hex (pw row)))
                              (pw_iterations (pw row)) password
                              (pw_keylen (pw row) * 8) with
             | Ret bits =>
                 Ret (if String.eqb (bytesToHex bits) (pw_hash_hex (pw row)) then None
                      else Some (send 401 (errorBody "Invalid password")))
             | Throw m => Throw m
             end,
             logged w [Rest Posts Select; Derive])
        end
    end.
Proof.
  unfold passwordFallback. destruct (isEmpty password); [reflexivity|].
  run. rewrite selectPost_run.
  destruct (outage env Posts Select); [reflexivity|].
  destruct (List.filter _ _) as [|row rest]; [reflexivity|].
  cbv beta iota delta [firstn]. rewrite web_verifyPassword_run, logged_logged.
  destruct (deriveBits _ _ _ _ _) as [bits|m]; [|reflexivity].
  now destruct (String.eqb _ _).
Qed.

Lemma applyUpdate_run (env : Env) (pid t c : string) (w : World) :
  applyUpdate env pid t c w =
  match outage env Posts Patch with
  | Some detail =>
      (Ret (send 500 (errorDetail "Failed to update" detail)), logged w [Rest Posts Patch])
  | None =>
      (Ret (send 200 okBody),
       {| db := {| posts := map (fun p => if String.eqb (id p) pid
                                         then patched env t c p else p) (posts (db w));
                   view_tokens := view_tokens (db w);
                   admin_sessions := admin_sessions (db w) |};
          drawn := drawn w; trace := trace w ++ [Rest Posts Patch] |})
  end.
Proof.
  unfold applyUpdate, patchPost. run. rewrite rest_run.
  destruct (outage env Posts Patch); reflexivity.
Qed.

Lemma applyDelete_run (env : Env) (pid : string) (w : World) :
  applyDelete env pid w =
  match outage env Posts Delete with
  | Some detail =>
      (Ret (send 500 (errorDetail "Failed to delete" detail)), logged w [Rest Posts Delete])
  | None =>
      (Ret (send 200 okBody),
       {| db := {| posts := List.filter (fun p => negb (String.eqb (id p) pid)) (posts (db w));
                   view_tokens := List.filter (fun r => negb (String.eqb (vt_post_id r) pid))
                                              (view_tokens (db w));
                   admin_sessions := admin_sessions (db w) |};
          drawn := drawn w; trace := trace w ++ [Rest Posts Delete] |})
  end.
Proof.
  unfold applyDelete, deletePost. run. rewrite rest_run.
  destruct (outage env Posts Delete); reflexivity.
Qed.

(** The tail of a mutation answers, adds its one REST call to the trace,
    and mints nothing. *)
Lemma mutation_tail (env : Env) (b : json) (route : Route) (pid : string) (v : Verb)
    (tail : M Response) (w : World) :
  Mutation env b route pid v tail ->
  exists r, fst (tail w) = Ret r
            /\ trace (snd (tail w)) = trace w ++ [Rest Posts v]
            /\ drawn (snd (tail w)) = drawn w
            /\ admin_sessions (db (snd (tail w))) = admin_sessions (db w)
            /\ (outage env Posts v = None -> r = send 200 okBody)
            /\ (outage env Posts v <> None -> status r = 500 /\ db (snd (tail w)) = db w)
            /\ List.incl (view_tokens (db (snd (tail w)))) (view_tokens (db w)).
Proof.
  intros [pid' Ht Hc|pid'].
  - rewrite applyUpdate_run. destruct (outage env Posts Patch) as [detail|];
      eexists; repeat split; try reflexivity; try congruence; apply List.incl_refl.
  - rewrite applyDelete_run. destruct (outage env Posts Delete) as [detail|];
      eexists; repeat split; try reflexivity; try congruence;
      solve [apply List.incl_refl | apply List.incl_filter].
Qed.

Lemma catch_tail (env : Env) (b : json) (route : Route) (pid : string) (v : Verb)
    (tail : M Response) (k : string -> M Response) (w : World) :
  Mutation env b route pid v tail -> catch tail k w = tail w.
Proof.
  intros Hm. destruct (mutation_tail env b route pid v tail w Hm) as (r & Hr & _).
  unfold catch. destruct (tail w) as [[r'|m] w']; [reflexivity | discriminate].
Qed.

(** The whole of a well-formed [PUT] or [DELETE], check by check. *)
Lemma fetch_mutation_run (env : Env) (b : json) (route : Route) (pid : string) (v : Verb)
    (tail : M Response) (req : Request) (w : World) :
  Mutation env b route pid v tail ->
  parsedBody req = Some b ->
  falsy b = false ->
  fetch env route req w =
  match fst (isAdmin env req w) with
  | Ret true => tail (snd (isAdmin env req w))
  | _ =>
      match fst (viewTokenAuthorized env pid (strField b "viewToken")
                                     (snd (isAdmin env req w))) with
      | Ret true =>
          tail (snd (viewTokenAuthorized env pid (strField b "viewToken")
                                         (snd (isAdmin env req w))))
      | _ =>
          match passwordFallback env pid (strField b "password")
                  (snd (viewTokenAuthorized env pid (strField b "viewToken")
                                            (snd (isAdmin env req w)))) with
          | (Ret None, w') => tail w'
          | (Ret (Some r), w') => (Ret r, w')
          | (Throw m, w') => (Ret (send 500 (errorDetail "Worker error" m)), w')
          end
      end
  end.
Proof.
  intros Hm Hb Hf.
  assert (Hbody : forall w0, dispatch env route req w0 =
            (denied ← authorize env pid req (strField b "password") (strField b "viewToken");
             match denied with Some r => mret r | None => tail end) w0).
  { intros w0. destruct Hm as [pid' Ht Hc|pid']; unfold dispatch.
    - unfold handlePostPut. rewrite Hb, Hf, Ht, Hc. reflexivity.
    - unfold handlePostDelete. rewrite Hb, Hf. reflexivity. }
  assert (Htail : forall w0,
            match tail w0 with
            | (Ret a, w1) => (Ret a, w1)
            | (Throw e, w1) => (Ret (send 500 (errorDetail "Worker error" e)), w1)
            end = tail w0).
  { intros w0. destruct (mutation_tail env b route pid v tail w0 Hm) as (r & Hr & _).
    destruct (tail w0) as [[r'|m] w1]; [reflexivity | discriminate Hr]. }
  unfold fetch, catch at 1. rewrite Hbody. unfold authorize. run.
  rewrite isAdmin_run. destruct (splitToken (adminCookie req)) as [parts|].
  - cbv beta iota delta [fst snd].
    destruct (bool_decide _); cbv beta iota delta [negb]; [apply Htail|].
    rewrite viewTokenAuthorized_run.
    destruct (splitToken (Some (strField b "viewToken"))) as [vparts|].
    + cbv beta iota delta [fst snd].
      destruct (answeringViewToken env pid vparts _); cbv beta iota delta [negb];
        [apply Htail|].
      destruct (passwordFallback _ _ _ _) as [[[r|]|m] w']; try reflexivity.
      apply Htail.
    + cbv beta iota delta [fst snd negb].
      destruct (passwordFallback _ _ _ _) as [[[r|]|m] w']; try reflexivity.
      apply Htail.
  - cbv beta iota delta [fst snd negb].
    rewrite viewTokenAuthorized_run.
    destruct (splitToken (Some (strField b "viewToken"))) as [vparts|].
    + cbv beta iota delta [fst snd].
      destruct (answeringViewToken env pid vparts _); cbv beta iota delta [negb];
        [apply Htail|].
      destruct (passwordFallback _ _ _ _) as [[[r|]|m] w']; try reflexivity.
      apply Htail.
    + cbv beta iota delta [fst snd negb].
      destruct (passwordFallback _ _ _ _) as [[[r|]|m] w']; try reflexivity.
      apply Htail.
Qed.

(** The checks read the tables only: on a world that differs by its trace
    they answer the same and add the same events. *)
Lemma isAdmin_events (env : Env) (req : Request) (w : World) :
  exists evA,
    (evA = [] \/ evA = [Rest AdminSessions Select])
    /\ snd (isAdmin env req w) = logged w evA
    /\ (fst (isAdmin env req w) = Ret true -> evA = [Rest AdminSessions Select])
    /\ (fst (isAdmin env req w) = Ret true \/ fst (isAdmin env req w) = Ret false).
Proof.
  rewrite isAdmin_run. destruct (splitToken (adminCookie req)) as [parts|].
  - exists [Rest AdminSessions Select]. cbv beta iota delta [fst snd].
    repeat split; auto. destruct (bool_decide _); auto.
  - exists []. cbv beta iota delta [fst snd]. rewrite logged_nil.
    repeat split; auto. discriminate.
Qed.

Lemma viewTokenAuthorized_events (env : Env) (pid vt : string) (w : World)
    (evs : list Event) :
  exists evT,
    (evT = [] \/ evT = [Rest ViewTokens Select])
    /\ viewTokenAuthorized env pid vt (logged w evs)
       = (fst (viewTokenAuthorized env pid vt w), logged w (evs ++ evT))
    /\ (fst (viewTokenAuthorized env pid vt w) = Ret true ->
        evT = [Rest ViewTokens Select])
    /\ (fst (viewTokenAuthorized env pid vt w) = Ret true
        \/ fst (viewTokenAuthorized env pid vt w) = Ret false).
Proof.
  rewrite !viewTokenAuthorized_run. destruct (splitToken (Some vt)) as [parts|].
  - exists [Rest ViewTokens Select]. rewrite logged_logged.
    cbv beta iota delta [fst]. repeat split; auto.
    destruct (answeringViewToken _ _ _ _); auto.
  - exists []. rewrite List.app_nil_r. cbv beta iota delta [fst].
    repeat split; auto. discriminate.
Qed.

Lemma passwordFallback_events (env : Env) (pid pw : string) (w : World)
    (evs : list Event) :
  exists evP,
    (evP = [] \/ evP = [Rest Posts Select] \/ evP = [Rest Posts Select; Derive])
    /\ passwordFallback env pid pw (logged w evs)
       = (fst (passwordFallback env pid pw w), logged w (evs ++ evP))
    /\ (fst (passwordFallback env pid pw w) = Ret None ->
        evP = [Rest Posts Select; Derive]).
Proof.
  rewrite !passwordFallback_run. destruct (isEmpty pw).
  - exists []. rewrite List.app_nil_r. cbv beta iota delta [fst]. repeat split; auto.
    discriminate.
  - destruct (outage env Posts Select) as [detail|].
    + exists [Rest Posts Select]. rewrite logged_logged. cbv beta iota delta [fst].
      repeat split; auto. discriminate.
    + change (db (logged w evs)) with (db w).
      destruct (List.filter _ _) as [|row rest].
      * exists [Rest Posts Select]. rewrite logged_logged. cbv beta iota delta [fst].
        repeat split; auto. discriminate.
      * exists [Rest Posts Select; Derive]. rewrite logged_logged.
        cbv beta iota delta [fst]. repeat split; auto.
Qed.

Lemma passwordFallback_denies (env : Env) (pid pw : string) (w : World) (r : Response) :
  fst (passwordFallback env pid pw w) = Ret (Some r) ->
  status r = 401 \/ status r = 404 \/ status r = 500.
Proof.
  rewrite passwordFallback_run. destruct (isEmpty pw).
  - intros H. apply Ret_inj, Some_inj in H. subst r. auto.
  - destruct (outage env Posts Select).
    + intros H. apply Ret_inj, Some_inj in H. subst r. auto.
    + destruct (List.filter _ _) as [|row rest].
      * intros H. apply Ret_inj, Some_inj in H. subst r. auto.
      * cbv beta iota delta [fst]. destruct (deriveBits _ _ _ _ _); [|discriminate].
        destruct (String.eqb _ _); [discriminate|].
        intros H. apply Ret_inj, Some_inj in H. subst r. auto.
Qed.

(** The run of a well-formed [PUT] or [DELETE] in terms of what the three
    checks answer on the world the request finds, with the events each
    check adds. *)
Lemma fetch_mutation_cases (env : Env) (b : json) (route : Route) (pid : string) (v : Verb)
    (tail : M Response) (req : Request) (w : World) :
  Mutation env b route pid v tail ->
  parsedBody req = Some b ->
  falsy b = false ->
  exists evA evT evP,
    (evA = [] \/ evA = [Rest AdminSessions Select])
    /\ (fst (isAdmin env req w) = Ret true -> evA = [Rest AdminSessions Select])
    /\ (fst (isAdmin env req w) = Ret true \/ fst (isAdmin env req w) = Ret false)
    /\ (evT = [] \/ evT = [Rest ViewTokens Select])
    /\ (fst (viewTokenAuthorized env pid (strField b "viewToken") w) = Ret true ->
        evT = [Rest ViewTokens Select])
    /\ (fst (viewTokenAuthorized env pid (strField b "viewToken") w) = Ret true
        \/ fst (viewTokenAuthorized env pid (strField b "viewToken") w) = Ret false)
    /\ (evP = [] \/ evP = [Rest Posts Select] \/ evP = [Rest Posts Select; Derive])
    /\ (fst (passwordFallback env pid (strField b "password") w) = Ret None ->
        evP = [Rest Posts Select; Derive])
    /\ fetch env route req w =
       match fst (isAdmin env req w) with
       | Ret true => tail (logged w evA)
       | _ =>
           match fst (viewTokenAuthorized env pid (strField b "viewToken") w) with
           | Ret true => tail (logged w (evA ++ evT))
           | _ =>
               match fst (passwordFallback env pid (strField b "password") w) with
               | Ret (Some r) => (Ret r, logged w ((evA ++ evT) ++ evP))
               | Ret None => tail (logged w ((evA ++ evT) ++ evP))
               | Throw m =>
                   (Ret (send 500 (errorDetail "Worker error" m)),
                    logged w ((evA ++ evT) ++ evP))
               end
           end
       end.
Proof.
  intros Hm Hb Hf.
  destruct (isAdmin_events env req w) as (evA & HevA & HsndA & HtrueA & HcaseA).
  destruct (viewTokenAuthorized_events env pid (strField b "viewToken") w evA)
    as (evT & HevT & HrunT & HtrueT & HcaseT).
  destruct (passwordFallback_events env pid (strField b "password") w (evA ++ evT))
    as (evP & HevP & HrunP & HnoneP).
  exists evA, evT, evP. repeat (split; [assumption|]).
  rewrite (fetch_mutation_run env b route pid v tail req w Hm Hb Hf).
  rewrite HsndA, HrunT. cbn [fst snd]. rewrite HrunP. reflexivity.
Qed.

End WorkerMutations.

(** *** Running the local server's mutating handlers *)

Section LocalMutations.
Context `{rt : LocalServer.NodeRuntime}.
Import LocalServer JsFacts.

Lemma unlockedSession_spec (env : Env) (pid tk : string) (s : Session) :
  pid ∈ verified (unlockedSession env pid tk s)
  /\ tokens (unlockedSession env pid tk s) !! pid
     = Some {| token := tk; issuedAt := now env |}.
Proof.
  unfold unlockedSession, setToken, addVerified. simpl. split.
  - set_solver.
  - apply lookup_insert_eq.
Qed.

(** [unlock] on a caller whose signed session is already in the map. *)
Lemma unlock_known (env : Env) (req : Request) (pid sid : string) (s : Session)
    (w : World) :
  getSessionId env req = Some sid ->
  isEmpty sid = false ->
  sessions w !! sid = Some s ->
  unlock env req pid w =
  (let tk := uuidOfBytes (map entropy (seq (drawn w) 16)) in
   (Ret tk,
    {| sessions := alter (setToken pid {| token := tk; issuedAt := now env |}) sid
                     (alter (addVerified pid) sid (sessions w));
       data := data w; drawn := (drawn w + 16)%nat;
       resCookie := resCookie w; trace := trace w ++ [Mint] |})).
Proof.
  intros Hsid Hne Hs. unfold unlock, getOrCreateSession, updateSession, randomUUID,
    randomBytes. run. rewrite Hsid, Hne, Hs. reflexivity.
Qed.

(** [unlock] on a caller without a session in the map: a session is made
    under a new id and its signed cookie is set. *)
Lemma unlock_new (env : Env) (req : Request) (pid : string) (w : World) :
  sessionOf w (getSessionId env req) = None ->
  unlock env req pid w =
  (let sid := uuidOfBytes (map entropy (seq (drawn w) 16)) in
   let tk := uuidOfBytes (map entropy (seq (drawn w + 16) 16)) in
   (Ret tk,
    {| sessions := alter (setToken pid {| token := tk; issuedAt := now env |}) sid
                     (alter (addVerified pid) sid
                        (<[sid := freshSession env]> (sessions w)));
       data := data w; drawn := (drawn w + 16 + 16)%nat;
       resCookie := Some ("woldecks.sid" +:+ "=" +:+ encodeURIComponent (sign env sid)
                          +:+ "; Path=/; HttpOnly; SameSite=Lax" +:+ "");
       trace := trace w ++ [Mint] |})).
Proof.
  intros Hnone. unfold unlock, getOrCreateSession, createSession, updateSession,
    randomUUID, randomBytes, setCookie. run.
  unfold sessionOf in Hnone.
  destruct (getSessionId env req) as [sid|]; [|reflexivity].
  destruct (isEmpty sid); [reflexivity|]. rewrite Hnone. reflexivity.
Qed.

(** Either way the caller's session ends up holding the verified mark and
    a token for the post, newly drawn; the data file is untouched. *)
Lemma unlock_spec (env : Env) (req : Request) (pid : string) (w : World) :
  exists (sid tk : string) (s : Session) (w' : World),
    unlock env req pid w = (Ret tk, w')
    /\ sessions w' !! sid = Some s
    /\ pid ∈ verified s
    /\ tokens s !! pid = Some {| token := tk; issuedAt := now env |}
    /\ tk = uuidOfBytes (map entropy (seq (drawn w' - 16) 16))
    /\ (drawn w + 16 <= drawn w')%nat
    /\ data w' = data w
    /\ trace w' = trace w ++ [Mint].
Proof.
  destruct (sessionOf w (getSessionId env req)) as [s|] eqn:E.
  - unfold sessionOf in E. destruct (getSessionId env req) as [sid|] eqn:Hsid;
      [|discriminate].
    destruct (isEmpty sid) eqn:Hne; [discriminate|].
    rewrite (unlock_known env req pid sid s w Hsid Hne E). cbv zeta.
    eexists sid, _, (unlockedSession env pid _ s), _. split; [reflexivity|].
    cbn [sessions drawn data trace].
    rewrite !lookup_alter_eq, E.
    destruct (unlockedSession_spec env pid
                (uuidOfBytes (map entropy (seq (drawn w) 16))) s) as [Hv Ht].
    repeat split; auto; try lia.
    now replace (drawn w + 16 - 16)%nat with (drawn w) by lia.
  - rewrite (unlock_new env req pid w E). cbv zeta.
    eexists _, _, (unlockedSession env pid _ (freshSession env)), _.
    split; [reflexivity|].
    cbn [sessions drawn data trace].
    rewrite !lookup_alter_eq, lookup_insert_eq.
    destruct (unlockedSession_spec env pid
                (uuidOfBytes (map entropy (seq (drawn w + 16) 16))) (freshSession env))
      as [Hv Ht].
    repeat split; auto; try lia.
    now replace (drawn w + 16 + 16 - 16)%nat with (drawn w + 16)%nat by lia.
Qed.

Lemma node_writeData_run (ps : list Post) (w : World) :
  writeData ps w =
  (Ret tt, {| sessions := sessions w; data := ps; drawn := drawn w;
              resCookie := resCookie w; trace := trace w ++ [WriteData] |}).
Proof. reflexivity. Qed.

(** The tail of a mutation answers 200, writes the file once and touches
    neither the sessions nor the entropy. *)
Lemma node_mutation_tail (env : Env) (b : Json.json) (ps : list Post) (r : Route)
    (pid : string) (post : Post) (tail : M (option Response)) (w : World) :
  Mutation env b ps r pid post tail ->
  exists ps',
    tail w = (Ret (Some {| status := 200; body := okBody; set_cookie := resCookie w |}),
              {| sessions := sessions w; data := ps'; drawn := drawn w;
                 resCookie := resCookie w; trace := trace w ++ [WriteData] |}).
Proof.
  intros [pid' idx post' Ht Hc Hfind|pid' idx post' Hfind]; eexists; reflexivity.
Qed.

(** The whole of a well-formed [PUT] or [DELETE] on a post of the data
    file, check by check. *)
Lemma route_mutation_run (env : Env) (b : Json.json) (r : Route) (pid : string)
    (post : Post) (tail : M (option Response)) (req : Request) (w : World) :
  Mutation env b (data w) r pid post tail ->
  parsedBody req = Some b ->
  b <> JNull ->
  route env r req w =
  (let w0 := arriving w in
   let session := sessionOf w0 (getSessionId env req) in
   if isAdmin env w0 req then tail w0
   else if sessionVerified session pid
           || sessionTokenOk session pid (strField b "viewToken") then tail w0
   else if isEmpty (strField b "password")
   then (Ret (Some {| status := 401; body := errorBody "Password required";
                      set_cookie := None |}), w0)
   else
     match verifyPassword (strField b "password") (password post) w0 with
     | (Ret true, w1) =>
         match unlock env req pid w1 with
         | (Ret _, w2) => tail w2
         | (Throw m, w2) => (Throw m, w2)
         end
     | (Ret false, w1) =>
         (Ret (Some {| status := 401; body := errorBody "Invalid password";
                       set_cookie := None |}), w1)
     | (Throw m, w1) => (Throw m, w1)
     end).
Proof.
  intros Hm Hb Hnull.
  assert (Hbody : route env r req w =
            (denied ← authorize env pid req (strField b "password")
                                (strField b "viewToken") post;
             match denied with Some res => mret res | None => tail end) (arriving w)).
  { destruct Hm as [pid' idx post' Ht Hc Hfind|pid' idx post' Hfind];
      unfold route; run.
    - unfold handlePostPut. rewrite Hb.
      destruct b; try contradiction; rewrite Ht, Hc; run;
        cbv beta iota delta [orb];
        change (data (arriving w)) with (data w); rewrite Hfind; reflexivity.
    - unfold handlePostDelete. rewrite Hb.
      destruct b; try contradiction; run;
        cbv beta iota delta [orb];
        change (data (arriving w)) with (data w); rewrite Hfind; reflexivity. }
  rewrite Hbody. unfold authorize. run. cbv zeta.
  destruct (isAdmin env (arriving w) req); cbv beta iota delta [negb]; [reflexivity|].
  destruct (sessionVerified _ pid); cbv beta iota delta [negb andb orb]; [reflexivity|].
  destruct (sessionTokenOk _ pid _); cbv beta iota delta [negb andb orb]; [reflexivity|].
  destruct (isEmpty (strField b "password")); [reflexivity|].
  rewrite node_verifyPassword_run.
  destruct (pbkdf2Sync _ _ _ _ _) as [derived|m]; [|reflexivity].
  destruct (bytesEqual _ _); cbv beta iota delta [negb]; [|reflexivity].
  destruct (unlock env req pid _) as [[tk|m] w2]; reflexivity.
Qed.

End LocalMutations.

(** *** The Worker from the header and the path segment on *)

Section WorkerWireFacts.
Context `{rt : Worker.WebCrypto} `{decoder : Cookies.UriDecoder}
        `{raw : WorkerWire.RawWrites}.

(** Once the header parses, a piece of a handler that starts by reading
    the cookies is that piece run on what they give. *)
Lemma withCookies_parsed {A : Type} (req : WorkerWire.Request)
    (handler : Worker.Request -> Worker.M A) (cookies : gmap string string)
    (w : Worker.World) :
  Cookies.workerParseCookies (WorkerWire.cookieHeader req) = Ret cookies ->
  WorkerWire.withCookies req handler w = handler (WorkerWire.parsed req cookies) w.
Proof.
  intros H. unfold WorkerWire.withCookies, WorkerWire.parseCookies. run. rewrite H.
  destruct (handler (WorkerWire.parsed req cookies) w) as [[a|m] w']; reflexivity.
Qed.

(** When [parseCookies] raises, so does the piece, before doing anything. *)
Lemma withCookies_raises {A : Type} (req : WorkerWire.Request)
    (handler : Worker.Request -> Worker.M A) (m : string) (w : Worker.World) :
  Cookies.workerParseCookies (WorkerWire.cookieHeader req) = Throw m ->
  WorkerWire.withCookies req handler w = (Throw m, w).
Proof.
  intros H. unfold WorkerWire.withCookies, WorkerWire.parseCookies. run. now rewrite H.
Qed.

Lemma wire_isAdmin_parsed (env : Worker.Env) (req : WorkerWire.Request)
    (cookies : gmap string string) (w : Worker.World) :
  Cookies.workerParseCookies (WorkerWire.cookieHeader req) = Ret cookies ->
  WorkerWire.isAdmin env req w = Worker.isAdmin env (WorkerWire.parsed req cookies) w.
Proof.
  intros H. unfold WorkerWire.isAdmin, WorkerWire.adminSessionFromCookie, Worker.isAdmin.
  run. now rewrite (withCookies_parsed req _ cookies w H).
Qed.

Lemma wire_isAdmin_raises (env : Worker.Env) (req : WorkerWire.Request) (m : string)
    (w : Worker.World) :
  Cookies.workerParseCookies (WorkerWire.cookieHeader req) = Throw m ->
  WorkerWire.isAdmin env req w = (Throw m, w).
Proof.
  intros H. unfold WorkerWire.isAdmin, WorkerWire.adminSessionFromCookie.
  run. now rewrite (withCookies_raises req _ m w H).
Qed.

Lemma wire_authorize_parsed (env : Worker.Env) (pid : string) (req : WorkerWire.Request)
    (password viewToken : string) (cookies : gmap string string) (w : Worker.World) :
  Cookies.workerParseCookies (WorkerWire.cookieHeader req) = Ret cookies ->
  WorkerWire.authorize env pid req password viewToken w
  = Worker.authorize env pid (WorkerWire.parsed req cookies) password viewToken w.
Proof.
  intros H. unfold WorkerWire.authorize, Worker.authorize. run.
  now rewrite (wire_isAdmin_parsed env req cookies w H).
Qed.

Lemma wire_authorize_raises (env : Worker.Env) (pid : string) (req : WorkerWire.Request)
    (password viewToken : string) (m : string) (w : Worker.World) :
  Cookies.workerParseCookies (WorkerWire.cookieHeader req) = Throw m ->
  WorkerWire.authorize env pid req password viewToken w = (Throw m, w).
Proof.
  intros H. unfold WorkerWire.authorize. run.
  now rewrite (wire_isAdmin_raises env req m w H).
Qed.

(** For a plain id the writes are the writes of the rows of that id. *)
Lemma wire_applyUpdate_plain (env : Worker.Env) (pid t c : string) (w : Worker.World) :
  Addressing.plainId pid = true ->
  WorkerWire.applyUpdate env pid t c w = Worker.applyUpdate env pid t c w.
Proof.
  intros H. unfold WorkerWire.applyUpdate, WorkerWire.patchPost. now rewrite H.
Qed.

Lemma wire_applyDelete_plain (env : Worker.Env) (pid : string) (w : Worker.World) :
  Addressing.plainId pid = true ->
  WorkerWire.applyDelete env pid w = Worker.applyDelete env pid w.
Proof.
  intros H. unfold WorkerWire.applyDelete, WorkerWire.deletePost. now rewrite H.
Qed.

(** Once the header parses, [fetch] is the [fetch] of the handlers on
    what the cookies give, on every route whose write, if it sends one,
    carries a plain id. *)
Lemma wire_fetch_parsed (env : Worker.Env) (route : Worker.Route)
    (req : WorkerWire.Request) (cookies : gmap string string) (w : Worker.World) :
  Cookies.workerParseCookies (WorkerWire.cookieHeader req) = Ret cookies ->
  Addressing.plainWrite route = true ->
  WorkerWire.fetch env route req w
  = Worker.fetch env route (WorkerWire.parsed req cookies) w.
Proof.
  intros H Hplain. unfold WorkerWire.fetch, Worker.fetch, Worker.catch.
  assert (Hd : WorkerWire.dispatch env route req w
               = Worker.dispatch env route (WorkerWire.parsed req cookies) w);
    [|now rewrite Hd].
  destruct route as [| | | |pid|pid|pid|pid];
    unfold WorkerWire.dispatch, Worker.dispatch.
  - unfold WorkerWire.handleAdminMe, Worker.handleAdminMe. run.
    now rewrite (wire_isAdmin_parsed env req cookies w H).
  - reflexivity.
  - apply withCookies_parsed, H.
  - reflexivity.
  - unfold WorkerWire.handlePostGet, Worker.handlePostGet. run.
    now rewrite (wire_isAdmin_parsed env req cookies w H).
  - apply withCookies_parsed, H.
  - unfold WorkerWire.handlePostPut, Worker.handlePostPut.
    cbn [Worker.parsedBody WorkerWire.parsed].
    destruct (WorkerWire.parsedBody req) as [b|]; [|reflexivity].
    destruct (falsy b); [reflexivity|]. cbv zeta.
    destruct (isEmpty (trim (strField b "title")) || isEmpty (trim (strField b "content")));
      [reflexivity|].
    run. rewrite (wire_authorize_parsed env pid req _ _ cookies w H).
    destruct (Worker.authorize _ _ _ _ _ w) as [[[r|]|m] w']; try reflexivity.
    apply wire_applyUpdate_plain, Hplain.
  - unfold WorkerWire.handlePostDelete, Worker.handlePostDelete.
    cbn [Worker.parsedBody WorkerWire.parsed].
    destruct (WorkerWire.parsedBody req) as [b|]; [|reflexivity].
    destruct (falsy b); [reflexivity|]. cbv zeta.
    run. rewrite (wire_authorize_parsed env pid req _ _ cookies w H).
    destruct (Worker.authorize _ _ _ _ _ w) as [[[r|]|m] w']; try reflexivity.
    apply wire_applyDelete_plain, Hplain.
Qed.

(** A [PUT] or [DELETE] that the authorization block turns down is
    answered with what the block answers, whatever its path segment. *)
Lemma wire_fetch_denied (env : Worker.Env) (b : json) (route : Worker.Route)
    (pid : string) (v : Worker.Verb) (tail : Worker.M Response)
    (req : WorkerWire.Request) (cookies : gmap string string) (w w' : Worker.World)
    (r : Response) :
  Worker.Mutation env b route pid v tail ->
  WorkerWire.parsedBody req = Some b ->
  falsy b = false ->
  Cookies.workerParseCookies (WorkerWire.cookieHeader req) = Ret cookies ->
  Worker.authorize env pid (WorkerWire.parsed req cookies) (strField b "password")
                   (strField b "viewToken") w = (Ret (Some r), w') ->
  WorkerWire.fetch env route req w = (Ret r, w').
Proof.
  intros Hm Hb Hf H Hden. unfold WorkerWire.fetch, Worker.catch.
  destruct Hm as [pid' Ht Hc|pid']; unfold WorkerWire.dispatch.
  - unfold WorkerWire.handlePostPut. rewrite Hb, Hf. cbv zeta. rewrite Ht, Hc.
    cbn [orb]. run. rewrite (wire_authorize_parsed env pid' req _ _ cookies w H), Hden.
    reflexivity.
  - unfold WorkerWire.handlePostDelete. rewrite Hb, Hf. cbv zeta.
    run. rewrite (wire_authorize_parsed env pid' req _ _ cookies w H), Hden.
    reflexivity.
Qed.

(** When [parseCookies] raises, every route that reads the cookies at its
    start answers 500 with the message and does nothing else; a [PUT] or
    [DELETE] does so once its body has passed the checks that come before
    the credentials. *)
Lemma wire_fetch_raises (env : Worker.Env) (route : Worker.Route)
    (req : WorkerWire.Request) (m : string) (w : Worker.World) :
  Cookies.workerParseCookies (WorkerWire.cookieHeader req) = Throw m ->
  match route with
  | Worker.AdminMe | Worker.AdminLogout | Worker.PostGet _ | Worker.PostView _ => True
  | Worker.PostPut _ =>
      exists b, WorkerWire.parsedBody req = Some b /\ falsy b = false
                /\ isEmpty (trim (strField b "title")) = false
                /\ isEmpty (trim (strField b "content")) = false
  | Worker.PostDelete _ =>
      exists b, WorkerWire.parsedBody req = Some b /\ falsy b = false
  | _ => False
  end ->
  WorkerWire.fetch env route req w
  = (Ret (Worker.send 500 (Worker.errorDetail "Worker error" m)), w).
Proof.
  intros H Hroute. unfold WorkerWire.fetch, Worker.catch.
  assert (Hd : WorkerWire.dispatch env route req w = (Throw m, w)); [|now rewrite Hd].
  destruct route as [| | | |pid|pid|pid|pid];
    unfold WorkerWire.dispatch; try contradiction.
  - unfold WorkerWire.handleAdminMe. run. now rewrite (wire_isAdmin_raises env req m w H).
  - apply withCookies_raises, H.
  - unfold WorkerWire.handlePostGet. run. now rewrite (wire_isAdmin_raises env req m w H).
  - apply withCookies_raises, H.
  - destruct Hroute as (b & Hb & Hf & Ht & Hc).
    unfold WorkerWire.handlePostPut. rewrite Hb, Hf. cbv zeta. rewrite Ht, Hc.
    cbn [orb]. run. now rewrite (wire_authorize_raises env pid req _ _ m w H).
  - destruct Hroute as (b & Hb & Hf).
    unfold WorkerWire.handlePostDelete. rewrite Hb, Hf. cbv zeta.
    run. now rewrite (wire_authorize_raises env pid req _ _ m w H).
Qed.

(** When [parseCookies] raises, a request that reads the cookies is
    answered with a status other than 200 and nothing is touched. *)
Lemma wire_fetch_raises_refused (env : Worker.Env) (route : Worker.Route)
    (req : WorkerWire.Request) (m : string) (w : Worker.World) :
  Cookies.workerParseCookies (WorkerWire.cookieHeader req) = Throw m ->
  route <> Worker.AdminLogin ->
  route <> Worker.PostsList ->
  exists r : Response,
    WorkerWire.fetch env route req w = (Ret r, w) /\ status r <> 200.
Proof.
  intros H Hlogin Hlist.
  pose proof (wire_fetch_raises env route req m w H) as Hraise0.
  match type of Hraise0 with
  | ?P -> _ =>
      assert (Hraise : P -> exists r : Response,
                WorkerWire.fetch env route req w = (Ret r, w) /\ status r <> 200)
  end.
  { intros Hroute. eexists. split; [exact (Hraise0 Hroute)|]. cbn. lia. }
  clear Hraise0.
  assert (H400 : forall msg,
            WorkerWire.fetch env route req w
            = (Ret (Worker.send 400 (Worker.errorBody msg)), w) ->
            exists r : Response,
              WorkerWire.fetch env route req w = (Ret r, w) /\ status r <> 200).
  { intros msg E. eexists. split; [exact E|]. cbn. lia. }
  destruct route as [| | | |pid|pid|pid|pid]; try contradiction;
    try (apply Hraise; exact I).
  - destruct (WorkerWire.parsedBody req) as [b|] eqn:Hb.
    2:{ apply (H400 "Invalid JSON"%string).
        unfold WorkerWire.fetch, Worker.catch, WorkerWire.dispatch,
          WorkerWire.handlePostPut. now rewrite Hb. }
    destruct (falsy b) eqn:Hf.
    { apply (H400 "Invalid JSON"%string).
      unfold WorkerWire.fetch, Worker.catch, WorkerWire.dispatch,
        WorkerWire.handlePostPut. now rewrite Hb, Hf. }
    destruct (isEmpty (trim (strField b "title"))) eqn:Ht.
    { apply (H400 "Missing fields"%string).
      unfold WorkerWire.fetch, Worker.catch, WorkerWire.dispatch,
        WorkerWire.handlePostPut. now rewrite Hb, Hf, Ht. }
    destruct (isEmpty (trim (strField b "content"))) eqn:Hc.
    { apply (H400 "Missing fields"%string).
      unfold WorkerWire.fetch, Worker.catch, WorkerWire.dispatch,
        WorkerWire.handlePostPut. now rewrite Hb, Hf, Ht, Hc. }
    apply Hraise. exists b. auto.
  - destruct (WorkerWire.parsedBody req) as [b|] eqn:Hb.
    2:{ apply (H400 "Invalid JSON"%string).
        unfold WorkerWire.fetch, Worker.catch, WorkerWire.dispatch,
          WorkerWire.handlePostDelete. now rewrite Hb. }
    destruct (falsy b) eqn:Hf.
    { apply (H400 "Invalid JSON"%string).
      unfold WorkerWire.fetch, Worker.catch, WorkerWire.dispatch,
        WorkerWire.handlePostDelete. now rewrite Hb, Hf. }
    apply Hraise. exists b. auto.
Qed.

(** The login and the listing read no cookie. *)
Lemma wire_fetch_cookieless (env : Worker.Env) (route : Worker.Route)
    (req : WorkerWire.Request) (w : Worker.World) :
  route = Worker.AdminLogin \/ route = Worker.PostsList ->
  WorkerWire.fetch env route req w
  = Worker.fetch env route (WorkerWire.parsed req ∅) w.
Proof. intros [-> | ->]; reflexivity. Qed.

End WorkerWireFacts.

(** *** The authorization decision *)

(** C1 as stated fails in the local server: a caller who is not admin, who
    presents a forged view token and no password, is authorized when the
    signed session of the browser has unlocked the post before.  The
    first request below unlocks the post with its password; the second,
    from the same browser, edits it with neither admin cookie, nor valid
    token, nor password. *)
Lemma session_unlock_counterexample :
  let view := LocalServer.route (rt := Sample.node) Sample.nodeEnv (LocalServer.PostView "p1")
                (Sample.nodeRequest None (Some (JObj [("password", JStr "swordfish")])))
                Sample.nodeWorld1 in
  let req := Sample.nodeRequest (Some Sample.firstSidSigned)
                                (Some (Sample.putBody "" "forged")) in
  let edit := LocalServer.route (rt := Sample.node) Sample.nodeEnv (LocalServer.PostPut "p1")
                                req (snd view) in
  LocalServer.isAdmin (rt := Sample.node) Sample.nodeEnv (snd view) req = false
  /\ LocalServer.sessionTokenOk
       (LocalServer.sessionOf (snd view)
          (LocalServer.getSessionId (rt := Sample.node) Sample.nodeEnv req))
       "p1" "forged" = false
  /\ strField (Sample.putBody "" "forged") "password" = EmptyString
  /\ fst edit = Ret (Some {| status := 200; body := LocalServer.okBody; set_cookie := None |})
  /\ map LocalServer.title (LocalServer.data (snd edit)) = ["New title"%string].
Proof. vm_compute. repeat split; reflexivity. Qed.

(** C1, amended.  For a well-formed [PUT] or [DELETE] on a post:

    - in both servers a caller with a currently valid admin credential is
      authorized at once: nothing but the admin check and the mutation
      itself happens (no token lookup, no derivation, nothing minted);
    - otherwise the hosted Worker looks the presented view token up, and
      only if that fails verifies the password against the post; it never
      mints a token on these routes;
    - otherwise the local server authorizes when the caller's signed
      session has already unlocked the post or holds a token for it equal
      to the presented one, and only if both fail verifies the password;
    - when every path fails the request is answered with a status other
      than 200 and nothing stored is changed. *)
Theorem mutation_precedence (web : Worker.WebCrypto) (node : LocalServer.NodeRuntime) :
  (forall (env : Worker.Env) (b : json) (route : Worker.Route) (pid : string)
          (v : Worker.Verb) (tail : Worker.M Response) (req : Worker.Request)
          (w : Worker.World),
      Worker.Mutation env b route pid v tail ->
      Worker.parsedBody req = Some b ->
      falsy b = false ->
      let vt := strField b "viewToken" in
      let pw := strField b "password" in
      let out := Worker.fetch env route req w in
      (fst (Worker.isAdmin env req w) = Ret true ->
       out = tail (Worker.logged w [Worker.Rest Worker.AdminSessions Worker.Select])
       /\ Worker.trace (snd out)
          = Worker.trace w ++ [Worker.Rest Worker.AdminSessions Worker.Select;
                               Worker.Rest Worker.Posts v])
      /\ (fst (Worker.isAdmin env req w) = Ret false ->
          fst (Worker.viewTokenAuthorized env pid vt w) = Ret true ->
          exists evs,
            (evs = [] \/ evs = [Worker.Rest Worker.AdminSessions Worker.Select])
            /\ out = tail (Worker.logged w
                             (evs ++ [Worker.Rest Worker.ViewTokens Worker.Select]))
            /\ Worker.trace (snd out)
               = Worker.trace w
                 ++ evs ++ [Worker.Rest Worker.ViewTokens Worker.Select;
                            Worker.Rest Worker.Posts v])
      /\ (fst (Worker.isAdmin env req w) = Ret false ->
          fst (Worker.viewTokenAuthorized env pid vt w) = Ret false ->
          fst (Worker.passwordFallback env pid pw w) = Ret None ->
          exists evs,
            ~ In Worker.Derive evs /\ ~ In Worker.Mint evs
            /\ out = tail (Worker.logged w
                             (evs ++ [Worker.Rest Worker.Posts Worker.Select;
                                      Worker.Derive])))
      /\ (fst (Worker.isAdmin env req w) = Ret false ->
          fst (Worker.viewTokenAuthorized env pid vt w) = Ret false ->
          fst (Worker.passwordFallback env pid pw w) <> Ret None ->
          Worker.db (snd out) = Worker.db w
          /\ exists r, fst out = Ret r /\ status r <> 200)
      /\ Worker.drawn (snd out) = Worker.drawn w
      /\ Worker.admin_sessions (Worker.db (snd out))
         = Worker.admin_sessions (Worker.db w))
  /\ (forall (env : LocalServer.Env) (b : json) (r : LocalServer.Route) (pid : string)
             (post : LocalServer.Post) (tail : LocalServer.M (option Response))
             (req : LocalServer.Request) (w : LocalServer.World),
        LocalServer.Mutation env b (LocalServer.data w) r pid post tail ->
        LocalServer.parsedBody req = Some b ->
        b <> JNull ->
        let vt := strField b "viewToken" in
        let pw := strField b "password" in
        let session := LocalServer.sessionOf w (LocalServer.getSessionId env req) in
        let out := LocalServer.route env r req w in
        (LocalServer.isAdmin env w req = true ->
         out = tail (LocalServer.arriving w)
         /\ LocalServer.trace (snd out) = LocalServer.trace w ++ [LocalServer.WriteData]
         /\ LocalServer.sessions (snd out) = LocalServer.sessions w)
        /\ (LocalServer.isAdmin env w req = false ->
            LocalServer.sessionVerified session pid
            || LocalServer.sessionTokenOk session pid vt = true ->
            out = tail (LocalServer.arriving w)
            /\ LocalServer.trace (snd out) = LocalServer.trace w ++ [LocalServer.WriteData]
            /\ LocalServer.sessions (snd out) = LocalServer.sessions w)
        /\ (LocalServer.isAdmin env w req = false ->
            LocalServer.sessionVerified session pid
            || LocalServer.sessionTokenOk session pid vt = false ->
            isEmpty pw = false ->
            fst (LocalServer.verifyPassword pw (LocalServer.password post) w) = Ret true ->
            exists w', out = tail w'
                       /\ LocalServer.data w' = LocalServer.data w
                       /\ LocalServer.trace w'
                          = LocalServer.trace w ++ [LocalServer.Derive; LocalServer.Mint])
        /\ (LocalServer.isAdmin env w req = false ->
            LocalServer.sessionVerified session pid
            || LocalServer.sessionTokenOk session pid vt = false ->
            isEmpty pw = true
            \/ fst (LocalServer.verifyPassword pw (LocalServer.password post) w) = Ret false ->
            LocalServer.data (snd out) = LocalServer.data w
            /\ LocalServer.sessions (snd out) = LocalServer.sessions w
            /\ exists res, fst out = Ret (Some res) /\ status res = 401)).
Proof.
  split.
  - intros env b route pid v tail req w Hm Hb Hf vt pw out.
    destruct (fetch_mutation_cases env b route pid v tail req w Hm Hb Hf)
      as (evA & evT & evP & HevA & HtrueA & HcaseA & HevT & HtrueT & HcaseT
          & HevP & HnoneP & Hout).
    fold vt pw out in Hout, HtrueT, HcaseT, HnoneP.
    assert (Htail : forall evs,
              Worker.trace (snd (tail (Worker.logged w evs)))
              = Worker.trace w ++ evs ++ [Worker.Rest Worker.Posts v]
              /\ Worker.drawn (snd (tail (Worker.logged w evs))) = Worker.drawn w
              /\ Worker.admin_sessions (Worker.db (snd (tail (Worker.logged w evs))))
                 = Worker.admin_sessions (Worker.db w)).
    { intros evs. destruct (mutation_tail env b route pid v tail (Worker.logged w evs) Hm)
        as (r & _ & Ht & Hd & Ha & _). rewrite Ht, Hd, Ha. unfold Worker.logged. simpl.
      now rewrite <- List.app_assoc. }
    split; [|split; [|split; [|split]]].
    + intros Hadm. rewrite Hadm, (HtrueA Hadm) in Hout. split; [exact Hout|].
      rewrite Hout. apply Htail.
    + intros Hadm Htok. rewrite Hadm, Htok, (HtrueT Htok) in Hout.
      exists evA. split; [exact HevA|]. split; [exact Hout|].
      rewrite Hout, (proj1 (Htail _)). now rewrite <- List.app_assoc.
    + intros Hadm Htok Hpw. rewrite Hadm, Htok, Hpw, (HnoneP Hpw) in Hout.
      exists (evA ++ evT). rewrite <- List.app_assoc in Hout. rewrite <- List.app_assoc.
      split; [|split; [|exact Hout]].
      * destruct HevA as [->| ->], HevT as [->| ->]; simpl; intuition discriminate.
      * destruct HevA as [->| ->], HevT as [->| ->]; simpl; intuition discriminate.
    + intros Hadm Htok Hpw. rewrite Hadm, Htok in Hout.
      destruct (fst (Worker.passwordFallback env pid pw w)) as [[r|]|m] eqn:E;
        [| contradiction |]; rewrite Hout; cbn [fst snd];
        (split; [reflexivity|]).
      * exists r. split; [reflexivity|].
        destruct (passwordFallback_denies env pid pw w r E) as [->|[->| ->]]; discriminate.
      * eexists. split; [reflexivity | discriminate].
    + destruct HcaseA as [Hadm|Hadm]; rewrite Hadm in Hout.
      * rewrite Hout. split; apply Htail.
      * destruct HcaseT as [Htok|Htok]; rewrite Htok in Hout.
        -- rewrite Hout. split; apply Htail.
        -- destruct (fst (Worker.passwordFallback env pid pw w)) as [[r|]|m];
             rewrite Hout; try (split; reflexivity). split; apply Htail.
  - intros env b r pid post tail req w Hm Hb Hnull vt pw session out.
    assert (Hout : out = _)
      by exact (route_mutation_run env b r pid post tail req w Hm Hb Hnull).
    cbv zeta in Hout. fold vt pw in Hout.
    change (LocalServer.isAdmin env (LocalServer.arriving w) req)
      with (LocalServer.isAdmin env w req) in Hout.
    change (LocalServer.sessionOf (LocalServer.arriving w) (LocalServer.getSessionId env req))
      with session in Hout.
    assert (Htail : forall w0,
              LocalServer.trace (snd (tail w0))
              = LocalServer.trace w0 ++ [LocalServer.WriteData]
              /\ LocalServer.sessions (snd (tail w0)) = LocalServer.sessions w0).
    { intros w0. destruct (node_mutation_tail env b _ r pid post tail w0 Hm) as (ps' & ->).
      split; reflexivity. }
    rewrite node_verifyPassword_run in Hout.
    split; [|split; [|split]].
    + intros Hadm. rewrite Hadm in Hout. split; [exact Hout|].
      rewrite Hout. destruct (Htail (LocalServer.arriving w)) as [Ht Hs].
      split; [exact Ht | exact Hs].
    + intros Hadm Hsess. rewrite Hadm, Hsess in Hout. split; [exact Hout|].
      rewrite Hout. destruct (Htail (LocalServer.arriving w)) as [Ht Hs].
      split; [exact Ht | exact Hs].
    + intros Hadm Hsess Hpw Hok. rewrite Hadm, Hsess, Hpw in Hout.
      rewrite node_verifyPassword_run in Hok. cbn [fst] in Hok.
      destruct (LocalServer.pbkdf2Sync _ _ _ _ _) as [derived|m]; [|discriminate].
      apply JsFacts.Ret_inj in Hok. rewrite Hok in Hout.
      destruct (unlock_spec env req pid
                  (LocalServer.logged (LocalServer.arriving w) [LocalServer.Derive]))
        as (sid & tk & s & w' & Hun & _ & _ & _ & _ & _ & Hdata & Htrace).
      rewrite Hun in Hout. exists w'. split; [exact Hout|]. split; [exact Hdata|].
      rewrite Htrace. simpl. now rewrite <- List.app_assoc.
    + intros Hadm Hsess Hbad. rewrite Hadm, Hsess in Hout.
      destruct (isEmpty pw) eqn:Hpw.
      * rewrite Hout. cbn [fst snd]. repeat split. eexists. split; reflexivity.
      * destruct Hbad as [Hbad|Hbad]; [discriminate|].
        rewrite node_verifyPassword_run in Hbad. cbn [fst] in Hbad.
        destruct (LocalServer.pbkdf2Sync _ _ _ _ _) as [derived|m]; [|discriminate].
        apply JsFacts.Ret_inj in Hbad. rewrite Hbad in Hout.
        rewrite Hout. cbn [fst snd]. repeat split. eexists. split; reflexivity.
Qed.

Lemma mutation_precedence_witness :
  Worker.trace
    (snd (Worker.fetch (rt := Sample.web) Sample.webEnv (Worker.PostPut "p1")
            (Sample.webRequest (Some (Worker.presented Sample.issued))
                               (Some (Sample.putBody "" "")))
            (Sample.webWorldWith [Sample.adminRow 2000] [] [Sample.webPost])))
  = [Worker.Rest Worker.AdminSessions Worker.Select; Worker.Rest Worker.Posts Worker.Patch].
Proof.
  refine (proj2 (proj1 (proj1 (mutation_precedence Sample.web Sample.node)
                          Sample.webEnv (Sample.putBody "" "") (Worker.PostPut "p1") "p1"
                          Worker.Patch _
                          (Sample.webRequest (Some (Worker.presented Sample.issued))
                                             (Some (Sample.putBody "" "")))
                          (Sample.webWorldWith [Sample.adminRow 2000] [] [Sample.webPost])
                          (Worker.MutationPut Sample.webEnv (Sample.putBody "" "") "p1"
                                              eq_refl eq_refl)
                          eq_refl eq_refl) _)).
  vm_compute; reflexivity.
Defined.

(** The view-token path at work in the Worker: the view exchange hands a
    token out, and a [PUT] that presents only that token is carried out
    after the two lookups, with no derivation. *)
Example token_then_edit :
  let w := Sample.webWorldWith [] [] [Sample.webPost] in
  let view := Worker.fetch (rt := Sample.web) Sample.webEnv (Worker.PostView "p1")
                (Sample.webRequest None (Some (JObj [("password", JStr "swordfish")]))) w in
  let edit := Worker.fetch (rt := Sample.web) Sample.webEnv (Worker.PostPut "p1")
                (Sample.webRequest None
                   (Some (Sample.putBody "" (Worker.presented Sample.issued))))
                (snd view) in
  option_map (fun v => field v "viewToken")
             (match fst view with Ret r => Some (body r) | Throw _ => None end)
    = Some (Some (JStr (Worker.presented Sample.issued)))
  /\ fst edit = Ret (Worker.send 200 Worker.okBody)
  /\ skipn (length (Worker.trace (snd view))) (Worker.trace (snd edit))
     = [Worker.Rest Worker.ViewTokens Worker.Select; Worker.Rest Worker.Posts Worker.Patch].
Proof. vm_compute. repeat split; reflexivity. Qed.

(** C2 as stated fails in both servers.  In the Worker a [PUT] whose view
    token fails and whose password verifies is answered [{ok: true}]: no
    token is in the body, none is stored, nothing is drawn.  In the local
    server the same request is answered [{ok: true}] too, with no token in
    the body, although one is minted and kept in the session. *)
Lemma password_fallback_counterexample :
  let wreq := Sample.webRequest None (Some (Sample.putBody "swordfish" "")) in
  let w := Sample.webWorldWith [] [] [Sample.webPost] in
  let out := Worker.fetch (rt := Sample.web) Sample.webEnv (Worker.PostPut "p1") wreq w in
  let nreq := Sample.nodeRequest None (Some (Sample.putBody "swordfish" "")) in
  let nout := LocalServer.route (rt := Sample.node) Sample.nodeEnv (LocalServer.PostPut "p1")
                                nreq Sample.nodeWorld1 in
  fst (Worker.isAdmin (rt := Sample.web) Sample.webEnv wreq w) = Ret false
  /\ fst (Worker.viewTokenAuthorized (rt := Sample.web) Sample.webEnv "p1" "" w) = Ret false
  /\ fst (Worker.verifyPassword (rt := Sample.web) "swordfish" Sample.webRecord w) = Ret true
  /\ fst out = Ret (Worker.send 200 (JObj [("ok", JBool true)]))
  /\ Worker.view_tokens (Worker.db (snd out)) = []
  /\ Worker.drawn (snd out) = Worker.drawn w
  /\ option_map (fun r => (status r, body r)) (match fst nout with Ret o => o | Throw _ => None end)
     = Some (200, JObj [("ok", JBool true)])
  /\ In LocalServer.Mint (LocalServer.trace (snd nout)).
Proof. vm_compute. repeat split; auto. Qed.

(** The session [unlock] writes to is the caller's: the one the signed
    [woldecks.sid] cookie of the request names, when the map holds it, and
    otherwise a new one, whose signed id is set as cookie on the response.
    No other session changes. *)
Lemma unlock_caller `{rt : LocalServer.NodeRuntime} (env : LocalServer.Env)
    (req : LocalServer.Request) (pid : string) (w : LocalServer.World) :
  exists (sid tk : string) (s : LocalServer.Session) (w' : LocalServer.World),
    LocalServer.unlock env req pid w = (Ret tk, w')
    /\ LocalServer.sessions w' !! sid = Some s
    /\ pid ∈ LocalServer.verified s
    /\ LocalServer.tokens s !! pid
       = Some {| LocalServer.token := tk; LocalServer.issuedAt := LocalServer.now env |}
    /\ tk = LocalServer.uuidOfBytes
              (map LocalServer.entropy (seq (LocalServer.drawn w' - 16) 16))
    /\ (LocalServer.drawn w + 16 <= LocalServer.drawn w')%nat
    /\ LocalServer.data w' = LocalServer.data w
    /\ LocalServer.trace w' = LocalServer.trace w ++ [LocalServer.Mint]
    /\ (forall sid' : string,
          sid' <> sid -> LocalServer.sessions w' !! sid' = LocalServer.sessions w !! sid')
    /\ ((LocalServer.getSessionId env req = Some sid
         /\ isEmpty sid = false
         /\ is_Some (LocalServer.sessions w !! sid)
         /\ LocalServer.resCookie w' = LocalServer.resCookie w)
        \/ (LocalServer.sessionOf w (LocalServer.getSessionId env req) = None
            /\ sid = LocalServer.uuidOfBytes
                       (map LocalServer.entropy (seq (LocalServer.drawn w) 16))
            /\ LocalServer.resCookie w'
               = Some ("woldecks.sid=" +:+ LocalServer.encodeURIComponent
                                             (LocalServer.sign env sid)
                       +:+ "; Path=/; HttpOnly; SameSite=Lax"))).
Proof.
  destruct (LocalServer.sessionOf w (LocalServer.getSessionId env req)) as [s|] eqn:E.
  - unfold LocalServer.sessionOf in E.
    destruct (LocalServer.getSessionId env req) as [sid|] eqn:Hsid; [|discriminate].
    destruct (isEmpty sid) eqn:Hne; [discriminate|].
    rewrite (unlock_known env req pid sid s w Hsid Hne E). cbv zeta.
    eexists sid, _, (LocalServer.unlockedSession env pid _ s), _. split; [reflexivity|].
    cbn [LocalServer.sessions LocalServer.drawn LocalServer.data LocalServer.trace
         LocalServer.resCookie].
    rewrite !lookup_alter_eq, E.
    destruct (unlockedSession_spec env pid
                (LocalServer.uuidOfBytes
                   (map LocalServer.entropy (seq (LocalServer.drawn w) 16))) s)
      as [Hv Ht].
    split; [reflexivity|]. split; [exact Hv|]. split; [exact Ht|].
    split; [now replace (LocalServer.drawn w + 16 - 16)%nat
              with (LocalServer.drawn w) by lia|].
    split; [lia|]. split; [reflexivity|]. split; [reflexivity|]. split.
    + intros sid' Hne'. now rewrite !lookup_alter_ne by congruence.
    + left. repeat split; eauto.
  - rewrite (unlock_new env req pid w E). cbv zeta.
    eexists _, _, (LocalServer.unlockedSession env pid _ (LocalServer.freshSession env)), _.
    split; [reflexivity|].
    cbn [LocalServer.sessions LocalServer.drawn LocalServer.data LocalServer.trace
         LocalServer.resCookie].
    rewrite !lookup_alter_eq, lookup_insert_eq.
    destruct (unlockedSession_spec env pid
                (LocalServer.uuidOfBytes
                   (map LocalServer.entropy (seq (LocalServer.drawn w + 16) 16)))
                (LocalServer.freshSession env)) as [Hv Ht].
    split; [reflexivity|]. split; [exact Hv|]. split; [exact Ht|].
    split; [now replace (LocalServer.drawn w + 16 + 16 - 16)%nat
              with (LocalServer.drawn w + 16)%nat by lia|].
    split; [lia|]. split; [reflexivity|]. split; [reflexivity|]. split.
    + intros sid' Hne'.
      now rewrite !lookup_alter_ne, lookup_insert_ne by congruence.
    + right. repeat split; reflexivity.
Qed.

(** C2, amended.  For a [PUT] or [DELETE] by a caller who is not admin,
    whose view token fails and whose password verifies, the mutation is
    carried out and answered [{ok: true}], a body without token, in both
    servers.  In the Worker the write is carried out by the back end: when
    it accepts the write, the posts with the asked id carry the new title
    and content ([PUT]) or are gone with their view tokens ([DELETE]), the
    path segment being a plain id, which the write names as the checks do;
    when it refuses, nothing changes and the answer is 500.  The Worker
    mints and stores nothing on these routes.  The local server edits or
    removes the post in the data file; it draws a new token for the post
    and keeps it, with the verified mark, in the caller's session, and in
    no other: the session that the signed [woldecks.sid] cookie of the
    request names, or, when there is none, a new session whose signed id
    the response sets as that cookie.  It does not return the token. *)
Theorem password_fallback_outcome (web : Worker.WebCrypto) (node : LocalServer.NodeRuntime)
    (decoder : Cookies.UriDecoder) (raw : WorkerWire.RawWrites) :
  (forall (env : Worker.Env) (b : json) (route : Worker.Route) (pid : string)
          (v : Worker.Verb) (tail : Worker.M Response) (req : Worker.Request)
          (w : Worker.World),
      Worker.Mutation env b route pid v tail ->
      Worker.parsedBody req = Some b ->
      falsy b = false ->
      fst (Worker.isAdmin env req w) = Ret false ->
      fst (Worker.viewTokenAuthorized env pid (strField b "viewToken") w) = Ret false ->
      fst (Worker.passwordFallback env pid (strField b "password") w) = Ret None ->
      let out := Worker.fetch env route req w in
      (exists r, fst out = Ret r
                 /\ (Worker.outage env Worker.Posts v = None ->
                     r = Worker.send 200 Worker.okBody
                     /\ field (body r) "viewToken" = None)
                 /\ (Worker.outage env Worker.Posts v <> None ->
                     status r = 500 /\ Worker.db (snd out) = Worker.db w))
      /\ Worker.drawn (snd out) = Worker.drawn w
      /\ List.incl (Worker.view_tokens (Worker.db (snd out)))
                    (Worker.view_tokens (Worker.db w))
      /\ (exists evs, Worker.trace (snd out) = Worker.trace w ++ evs
                      /\ ~ In Worker.Mint evs))
  /\ (forall (env : Worker.Env) (b : json) (route : Worker.Route) (pid : string)
             (v : Worker.Verb) (tail : Worker.M Response) (req : WorkerWire.Request)
             (cookies : gmap string string) (w : Worker.World),
        Worker.Mutation env b route pid v tail ->
        WorkerWire.parsedBody req = Some b ->
        falsy b = false ->
        Cookies.workerParseCookies (WorkerWire.cookieHeader req) = Ret cookies ->
        fst (WorkerWire.isAdmin env req w) = Ret false ->
        fst (Worker.viewTokenAuthorized env pid (strField b "viewToken") w) = Ret false ->
        fst (Worker.passwordFallback env pid (strField b "password") w) = Ret None ->
        Addressing.plainId pid = true ->
        Worker.outage env Worker.Posts v = None ->
        let out := WorkerWire.fetch env route req w in
        fst out = Ret (Worker.send 200 Worker.okBody)
        /\ Worker.admin_sessions (Worker.db (snd out))
           = Worker.admin_sessions (Worker.db w)
        /\ (route = Worker.PostPut pid ->
            Worker.posts (Worker.db (snd out))
            = map (fun p => if String.eqb (Worker.id p) pid
                            then Worker.patched env (trim (strField b "title"))
                                                (trim (strField b "content")) p
                            else p)
                  (Worker.posts (Worker.db w))
            /\ Worker.view_tokens (Worker.db (snd out))
               = Worker.view_tokens (Worker.db w))
        /\ (route = Worker.PostDelete pid ->
            Worker.posts (Worker.db (snd out))
            = List.filter (fun p => negb (String.eqb (Worker.id p) pid))
                          (Worker.posts (Worker.db w))
            /\ Worker.view_tokens (Worker.db (snd out))
               = List.filter (fun t => negb (String.eqb (Worker.vt_post_id t) pid))
                             (Worker.view_tokens (Worker.db w))))
  /\ (forall (env : LocalServer.Env) (b : json) (r : LocalServer.Route) (pid : string)
             (post : LocalServer.Post) (tail : LocalServer.M (option Response))
             (req : LocalServer.Request) (w : LocalServer.World),
        LocalServer.Mutation env b (LocalServer.data w) r pid post tail ->
        LocalServer.parsedBody req = Some b ->
        b <> JNull ->
        LocalServer.isAdmin env w req = false ->
        LocalServer.sessionVerified
          (LocalServer.sessionOf w (LocalServer.getSessionId env req)) pid
        || LocalServer.sessionTokenOk
             (LocalServer.sessionOf w (LocalServer.getSessionId env req)) pid
             (strField b "viewToken") = false ->
        isEmpty (strField b "password") = false ->
        fst (LocalServer.verifyPassword (strField b "password")
                                        (LocalServer.password post) w) = Ret true ->
        let out := LocalServer.route env r req w in
        exists (sid tk : string) (s : LocalServer.Session) (res : Response),
          fst out = Ret (Some res)
          /\ status res = 200
          /\ body res = LocalServer.okBody
          /\ field (body res) "viewToken" = None
          /\ LocalServer.sessions (snd out) !! sid = Some s
          /\ pid ∈ LocalServer.verified s
          /\ LocalServer.tokens s !! pid
             = Some {| LocalServer.token := tk; LocalServer.issuedAt := LocalServer.now env |}
          /\ tk = LocalServer.uuidOfBytes
                    (map LocalServer.entropy (seq (LocalServer.drawn (snd out) - 16) 16))
          /\ (LocalServer.drawn w + 16 <= LocalServer.drawn (snd out))%nat
          /\ In LocalServer.Mint (LocalServer.trace (snd out))
          /\ (forall sid' : string,
                sid' <> sid ->
                LocalServer.sessions (snd out) !! sid' = LocalServer.sessions w !! sid')
          /\ ((LocalServer.getSessionId env req = Some sid
               /\ isEmpty sid = false
               /\ is_Some (LocalServer.sessions w !! sid)
               /\ set_cookie res = None)
              \/ (LocalServer.sessionOf w (LocalServer.getSessionId env req) = None
                  /\ sid = LocalServer.uuidOfBytes
                             (map LocalServer.entropy (seq (LocalServer.drawn w) 16))
                  /\ set_cookie res
                     = Some ("woldecks.sid=" +:+ LocalServer.encodeURIComponent
                                                   (LocalServer.sign env sid)
                             +:+ "; Path=/; HttpOnly; SameSite=Lax")))
          /\ (r = LocalServer.PostPut pid ->
              exists idx : nat,
                LocalServer.findIndex pid (LocalServer.data w) = Some (idx, post)
                /\ LocalServer.data (snd out)
                   = <[idx := LocalServer.edited env (trim (strField b "title"))
                                                 (trim (strField b "content")) post]>
                       (LocalServer.data w))
          /\ (r = LocalServer.PostDelete pid ->
              exists idx : nat,
                LocalServer.findIndex pid (LocalServer.data w) = Some (idx, post)
                /\ LocalServer.data (snd out) = delete idx (LocalServer.data w))).
Proof.
  assert (Hrun : forall (env : Worker.Env) (b : json) (route : Worker.Route) (pid : string)
                        (v : Worker.Verb) (tail : Worker.M Response) (req : Worker.Request)
                        (w : Worker.World),
            Worker.Mutation env b route pid v tail ->
            Worker.parsedBody req = Some b ->
            falsy b = false ->
            fst (Worker.isAdmin env req w) = Ret false ->
            fst (Worker.viewTokenAuthorized env pid (strField b "viewToken") w)
            = Ret false ->
            fst (Worker.passwordFallback env pid (strField b "password") w) = Ret None ->
            exists evs,
              Worker.fetch env route req w = tail (Worker.logged w evs)
              /\ ~ In Worker.Mint evs).
  { intros env b route pid v tail req w Hm Hb Hf Hadm Htok Hpw.
    destruct (fetch_mutation_cases env b route pid v tail req w Hm Hb Hf)
      as (evA & evT & evP & HevA & _ & _ & HevT & _ & _ & _ & HnoneP & Hout).
    rewrite Hadm, Htok, Hpw, (HnoneP Hpw) in Hout.
    eexists. split; [exact Hout|].
    destruct HevA as [->| ->], HevT as [->| ->]; simpl; intuition discriminate. }
  split; [|split].
  - intros env b route pid v tail req w Hm Hb Hf Hadm Htok Hpw out.
    destruct (Hrun env b route pid v tail req w Hm Hb Hf Hadm Htok Hpw)
      as (evs & Hout & Hmint).
    fold out in Hout.
    destruct (mutation_tail env b route pid v tail (Worker.logged w evs) Hm)
      as (r & Hr & Ht & Hd & _ & Hok & Hrefused & Hvt).
    rewrite Hout. split; [|split; [|split]].
    + exists r. split; [exact Hr|]. split.
      * intros Hup. rewrite (Hok Hup). split; reflexivity.
      * exact Hrefused.
    + exact Hd.
    + exact Hvt.
    + exists (evs ++ [Worker.Rest Worker.Posts v]). split.
      * rewrite Ht. unfold Worker.logged. simpl. now rewrite <- List.app_assoc.
      * intros Hin. apply in_app_or in Hin as [Hin|[Hin|[]]]; [auto | discriminate Hin].
  - intros env b route pid v tail req cookies w Hm Hb Hf Hparse Hadm Htok Hpw Hplain Hup out.
    rewrite (wire_isAdmin_parsed env req cookies w Hparse) in Hadm.
    destruct (Hrun env b route pid v tail (WorkerWire.parsed req cookies) w Hm Hb Hf
                Hadm Htok Hpw) as (evs & Hout & _).
    assert (Hwire : out = tail (Worker.logged w evs)).
    { unfold out. rewrite <- Hout. apply wire_fetch_parsed; [exact Hparse|].
      destruct Hm; exact Hplain. }
    rewrite Hwire.
    destruct Hm as [pid' Hti Hco|pid'].
    + rewrite applyUpdate_run, Hup.
      cbn [fst snd Worker.db Worker.posts Worker.view_tokens Worker.admin_sessions].
      split; [reflexivity|]. split; [reflexivity|].
      split; [intros _; split; reflexivity | discriminate].
    + rewrite applyDelete_run, Hup.
      cbn [fst snd Worker.db Worker.posts Worker.view_tokens Worker.admin_sessions].
      split; [reflexivity|]. split; [reflexivity|].
      split; [discriminate | intros _; split; reflexivity].
  - intros env b r pid post tail req w Hm Hb Hnull Hadm Hsess Hpw Hok out.
    assert (Hout : out = _)
      by exact (route_mutation_run env b r pid post tail req w Hm Hb Hnull).
    cbv zeta in Hout.
    change (LocalServer.isAdmin env (LocalServer.arriving w) req)
      with (LocalServer.isAdmin env w req) in Hout.
    change (LocalServer.sessionOf (LocalServer.arriving w) (LocalServer.getSessionId env req))
      with (LocalServer.sessionOf w (LocalServer.getSessionId env req)) in Hout.
    rewrite Hadm, Hsess, Hpw, node_verifyPassword_run in Hout.
    rewrite node_verifyPassword_run in Hok. cbn [fst] in Hok.
    destruct (LocalServer.pbkdf2Sync _ _ _ _ _) as [derived|m]; [|discriminate].
    apply JsFacts.Ret_inj in Hok. rewrite Hok in Hout.
    destruct (unlock_caller env req pid
                (LocalServer.logged (LocalServer.arriving w) [LocalServer.Derive]))
      as (sid & tk & s & w' & Hun & Hs & Hv & Ht & Htk & Hdrawn & Hdata & Htrace
          & Hothers & Hcaller).
    rewrite Hun in Hout.
    assert (Htail : tail w'
                    = (Ret (Some {| status := 200; body := LocalServer.okBody;
                                    set_cookie := LocalServer.resCookie w' |}),
                       {| LocalServer.sessions := LocalServer.sessions w';
                          LocalServer.data := LocalServer.data (snd (tail w'));
                          LocalServer.drawn := LocalServer.drawn w';
                          LocalServer.resCookie := LocalServer.resCookie w';
                          LocalServer.trace := LocalServer.trace w'
                                               ++ [LocalServer.WriteData] |})).
    { destruct (node_mutation_tail env b _ r pid post tail w' Hm) as (ps' & ->).
      reflexivity. }
    rewrite Htail in Hout. rewrite Hout. cbn [fst snd].
    exists sid, tk, s, {| status := 200; body := LocalServer.okBody;
                          set_cookie := LocalServer.resCookie w' |}.
    cbn [status body set_cookie LocalServer.sessions LocalServer.drawn LocalServer.trace
         LocalServer.data].
    split; [reflexivity|]. split; [reflexivity|]. split; [reflexivity|].
    split; [reflexivity|]. split; [exact Hs|]. split; [exact Hv|]. split; [exact Ht|].
    split; [exact Htk|]. split; [exact Hdrawn|].
    split; [rewrite Htrace; apply in_or_app; left; apply in_or_app; right; now left|].
    split; [exact Hothers|]. split; [exact Hcaller|].
    destruct Hm as [pid' idx post' Hti Hco Hfind|pid' idx post' Hfind].
    + split; [|discriminate]. intros _. exists idx. split; [exact Hfind|]. reflexivity.
    + split; [discriminate|]. intros _. exists idx. split; [exact Hfind|]. reflexivity.
Qed.

Lemma password_fallback_outcome_witness :
  Worker.drawn
    (snd (Worker.fetch (rt := Sample.web) Sample.webEnv (Worker.PostPut "p1")
            (Sample.webRequest None (Some (Sample.putBody "swordfish" "")))
            (Sample.webWorldWith [] [] [Sample.webPost])))
  = 0%nat
  /\ Worker.posts
       (Worker.db
          (snd (WorkerWire.fetch (rt := Sample.web) (decoder := SampleCookies.decoder)
                  (raw := SampleWire.rawWrites) Sample.webEnv (Worker.PostPut "p1")
                  (SampleWire.request None (Some (Sample.putBody "swordfish" "")))
                  (Sample.webWorldWith [] [] [Sample.webPost]))))
     = [Worker.patched (rt := Sample.web) Sample.webEnv "New title" "New text"
                       Sample.webPost]
  /\ (let out := LocalServer.route (rt := Sample.node) Sample.nodeEnv
                   (LocalServer.PostPut "p1")
                   (Sample.nodeRequest None (Some (Sample.putBody "swordfish" "")))
                   Sample.nodeWorld1 in
      exists res : Response,
        fst out = Ret (Some res)
        /\ set_cookie res
           = Some ("woldecks.sid=" +:+ Sample.firstSidSigned
                   +:+ "; Path=/; HttpOnly; SameSite=Lax")
        /\ is_Some (LocalServer.sessions (snd out) !! Sample.firstSid)
        /\ LocalServer.data (snd out)
           = [LocalServer.edited (rt := Sample.node) Sample.nodeEnv "New title" "New text"
                                 Sample.nodePost]).
Proof.
  destruct (password_fallback_outcome Sample.web Sample.node SampleCookies.decoder
              SampleWire.rawWrites) as (Hweb & Hwire & Hnode).
  split; [|split].
  - exact (proj1 (proj2
             (Hweb Sample.webEnv (Sample.putBody "swordfish" "")
                   (Worker.PostPut "p1") "p1"%string Worker.Patch _
                   (Sample.webRequest None (Some (Sample.putBody "swordfish" "")))
                   (Sample.webWorldWith [] [] [Sample.webPost])
                   (Worker.MutationPut Sample.webEnv (Sample.putBody "swordfish" "")
                                       "p1" eq_refl eq_refl)
                   eq_refl eq_refl eq_refl eq_refl eq_refl))).
  - destruct (Hwire Sample.webEnv (Sample.putBody "swordfish" "")
                    (Worker.PostPut "p1") "p1"%string Worker.Patch _
                    (SampleWire.request None (Some (Sample.putBody "swordfish" "")))
                    ∅ (Sample.webWorldWith [] [] [Sample.webPost])
                    (Worker.MutationPut Sample.webEnv (Sample.putBody "swordfish" "")
                                        "p1" eq_refl eq_refl)
                    eq_refl eq_refl eq_refl eq_refl eq_refl eq_refl eq_refl eq_refl)
      as (_ & _ & Hput & _).
    exact (proj1 (Hput eq_refl)).
  - destruct (Hnode Sample.nodeEnv (Sample.putBody "swordfish" "")
                    (LocalServer.PostPut "p1") "p1"%string Sample.nodePost _
                    (Sample.nodeRequest None (Some (Sample.putBody "swordfish" "")))
                    Sample.nodeWorld1
                    (LocalServer.MutationPut Sample.nodeEnv (Sample.putBody "swordfish" "")
                                             [Sample.nodePost] "p1" 0 Sample.nodePost
                                             eq_refl eq_refl eq_refl)
                    eq_refl ltac:(discriminate) eq_refl eq_refl eq_refl eq_refl)
      as (sid & tk & s & res & Hres & _ & _ & _ & Hs & _ & _ & _ & _ & _ & _ & Hcaller
          & Hput & _).
    destruct Hcaller as [(Hsid & _)|(_ & -> & Hcookie)]; [discriminate Hsid|].
    exists res. split; [exact Hres|]. split; [exact Hcookie|].
    split; [exists s; exact Hs|].
    destruct (Hput eq_refl) as (idx & Hfind & Hdata).
    apply JsFacts.Some_inj in Hfind. apply pair_equal_spec in Hfind as [<- _].
    exact Hdata.
Defined.

(** C3 as stated fails: the Worker answers a [DELETE] without credential,
    one with a wrong password, and one that names no post, with three
    different responses. *)
Lemma rejection_counterexample :
  let w := Sample.webWorldWith [] [] [Sample.webPost] in
  let answer pid b :=
    fst (Worker.fetch (rt := Sample.web) Sample.webEnv (Worker.PostDelete pid)
                      (Sample.webRequest None (Some b)) w) in
  let none := answer "p1"%string (JObj []) in
  let wrong := answer "p1"%string (JObj [("password", JStr "wrong")]) in
  let unknown := answer "p2"%string (JObj [("password", JStr "wrong")]) in
  none = Ret (Worker.send 401 (JObj [("error", JStr "Password required")]))
  /\ wrong = Ret (Worker.send 401 (JObj [("error", JStr "Invalid password")]))
  /\ unknown = Ret (Worker.send 404 (JObj [("error", JStr "Not found")]))
  /\ none <> wrong
  /\ unknown <> wrong.
Proof. vm_compute. repeat split; discriminate. Qed.

(** C3, amended.  A mutating request by a caller who is not admin and
    whose view token (Worker) or session (local server) does not
    authorize it is rejected without changing anything stored, and the
    response names the branch: 401 [Password required] when no password
    is supplied, 401 [Invalid password] when the password of an existing
    post is wrong, 404 [Not found] when the post does not exist (in the
    Worker once a password is supplied, in the local server before any
    credential is read). *)
Theorem rejection_responses (web : Worker.WebCrypto) (node : LocalServer.NodeRuntime) :
  (forall (env : Worker.Env) (b : json) (route : Worker.Route) (pid : string)
          (v : Worker.Verb) (tail : Worker.M Response) (req : Worker.Request)
          (w : Worker.World),
      Worker.Mutation env b route pid v tail ->
      Worker.parsedBody req = Some b ->
      falsy b = false ->
      fst (Worker.isAdmin env req w) = Ret false ->
      fst (Worker.viewTokenAuthorized env pid (strField b "viewToken") w) = Ret false ->
      let pass := strField b "password" in
      let out := Worker.fetch env route req w in
      let found := List.filter (fun p => String.eqb (Worker.id p) pid)
                               (Worker.posts (Worker.db w)) in
      (isEmpty pass = true ->
       fst out = Ret (Worker.send 401 (Worker.errorBody "Password required"))
       /\ Worker.db (snd out) = Worker.db w)
      /\ (isEmpty pass = false ->
          Worker.outage env Worker.Posts Worker.Select = None ->
          found = [] ->
          fst out = Ret (Worker.send 404 (Worker.errorBody "Not found"))
          /\ Worker.db (snd out) = Worker.db w)
      /\ (isEmpty pass = false ->
          Worker.outage env Worker.Posts Worker.Select = None ->
          forall (row : Worker.PostRow) (rest : list Worker.PostRow) (bits : list byte),
            found = row :: rest ->
            Worker.deriveBits (Worker.digestName (Worker.pw row))
                              (Worker.hexToBytes (Worker.pw_salt_hex (Worker.pw row)))
                              (Worker.pw_iterations (Worker.pw row)) pass
                              (Worker.pw_keylen (Worker.pw row) * 8) = Ret bits ->
            Worker.bytesToHex bits <> Worker.pw_hash_hex (Worker.pw row) ->
            fst out = Ret (Worker.send 401 (Worker.errorBody "Invalid password"))
            /\ Worker.db (snd out) = Worker.db w))
  /\ (forall (env : LocalServer.Env) (b : json) (r : LocalServer.Route) (pid : string)
             (post : LocalServer.Post) (tail : LocalServer.M (option Response))
             (req : LocalServer.Request) (w : LocalServer.World),
        LocalServer.Mutation env b (LocalServer.data w) r pid post tail ->
        LocalServer.parsedBody req = Some b ->
        b <> JNull ->
        LocalServer.isAdmin env w req = false ->
        LocalServer.sessionVerified
          (LocalServer.sessionOf w (LocalServer.getSessionId env req)) pid
        || LocalServer.sessionTokenOk
             (LocalServer.sessionOf w (LocalServer.getSessionId env req)) pid
             (strField b "viewToken") = false ->
        let pass := strField b "password" in
        let out := LocalServer.route env r req w in
        (isEmpty pass = true ->
         fst out = Ret (Some {| status := 401;
                                body := LocalServer.errorBody "Password required";
                                set_cookie := None |})
         /\ LocalServer.data (snd out) = LocalServer.data w
         /\ LocalServer.sessions (snd out) = LocalServer.sessions w)
        /\ (isEmpty pass = false ->
            fst (LocalServer.verifyPassword pass (LocalServer.password post) w) = Ret false ->
            fst out = Ret (Some {| status := 401;
                                   body := LocalServer.errorBody "Invalid password";
                                   set_cookie := None |})
            /\ LocalServer.data (snd out) = LocalServer.data w
            /\ LocalServer.sessions (snd out) = LocalServer.sessions w))
  /\ (forall (env : LocalServer.Env) (pid : string) (req : LocalServer.Request) (b : json)
             (w : LocalServer.World),
        LocalServer.parsedBody req = Some b ->
        b <> JNull ->
        LocalServer.findIndex pid (LocalServer.data w) = None ->
        fst (LocalServer.route env (LocalServer.PostDelete pid) req w)
          = Ret (Some {| status := 404; body := LocalServer.errorBody "Not found";
                         set_cookie := None |})
        /\ (isEmpty (trim (strField b "title")) = false ->
            isEmpty (trim (strField b "content")) = false ->
            fst (LocalServer.route env (LocalServer.PostPut pid) req w)
              = Ret (Some {| status := 404; body := LocalServer.errorBody "Not found";
                             set_cookie := None |}))).
Proof.
  split; [|split].
  - intros env b route pid v tail req w Hm Hb Hf Hadm Htok pass out found.
    destruct (fetch_mutation_cases env b route pid v tail req w Hm Hb Hf)
      as (evA & evT & evP & _ & _ & _ & _ & _ & _ & _ & _ & Hout).
    fold out pass in Hout. rewrite Hadm, Htok in Hout.
    rewrite passwordFallback_run in Hout. fold found in Hout.
    split; [|split].
    + intros Hpw. rewrite Hpw in Hout. rewrite Hout. split; reflexivity.
    + intros Hpw Hup Hnone. rewrite Hpw, Hup, Hnone in Hout. rewrite Hout.
      split; reflexivity.
    + intros Hpw Hup row rest bits Hfound Hbits Hne.
      rewrite Hpw, Hup, Hfound, Hbits in Hout. cbn [fst] in Hout.
      apply String.eqb_neq in Hne. rewrite Hne in Hout. rewrite Hout.
      split; reflexivity.
  - intros env b r pid post tail req w Hm Hb Hnull Hadm Hsess pass out.
    assert (Hout : out = _)
      by exact (route_mutation_run env b r pid post tail req w Hm Hb Hnull).
    cbv zeta in Hout. fold pass in Hout.
    change (LocalServer.isAdmin env (LocalServer.arriving w) req)
      with (LocalServer.isAdmin env w req) in Hout.
    change (LocalServer.sessionOf (LocalServer.arriving w) (LocalServer.getSessionId env req))
      with (LocalServer.sessionOf w (LocalServer.getSessionId env req)) in Hout.
    rewrite Hadm, Hsess, node_verifyPassword_run in Hout.
    split.
    + intros Hpw. rewrite Hpw in Hout. rewrite Hout. repeat split.
    + intros Hpw Hbad. rewrite Hpw in Hout.
      rewrite node_verifyPassword_run in Hbad. cbn [fst] in Hbad.
      destruct (LocalServer.pbkdf2Sync _ _ _ _ _) as [derived|m]; [|discriminate].
      apply JsFacts.Ret_inj in Hbad. rewrite Hbad in Hout. rewrite Hout. repeat split.
  - intros env pid req b w Hb Hnull Hfind. split.
    + unfold LocalServer.route, LocalServer.handlePostDelete. run. rewrite Hb.
      destruct b; try contradiction; run;
        change (LocalServer.data (LocalServer.arriving w)) with (LocalServer.data w);
        rewrite Hfind; reflexivity.
    + intros Ht Hc. unfold LocalServer.route, LocalServer.handlePostPut. run. rewrite Hb.
      destruct b; try contradiction; rewrite Ht, Hc; run; cbv beta iota delta [orb];
        change (LocalServer.data (LocalServer.arriving w)) with (LocalServer.data w);
        rewrite Hfind; reflexivity.
Qed.

Lemma rejection_responses_witness :
  fst (Worker.fetch (rt := Sample.web) Sample.webEnv (Worker.PostDelete "p1")
         (Sample.webRequest None (Some (JObj [])))
         (Sample.webWorldWith [] [] [Sample.webPost]))
  = Ret (Worker.send 401 (Worker.errorBody "Password required")).
Proof.
  refine (proj1 (proj1 (proj1 (rejection_responses Sample.web Sample.node)
                          Sample.webEnv (JObj []) (Worker.PostDelete "p1") "p1"
                          Worker.Delete _
                          (Sample.webRequest None (Some (JObj [])))
                          (Sample.webWorldWith [] [] [Sample.webPost])
                          (Worker.MutationDelete Sample.webEnv (JObj []) "p1")
                          eq_refl eq_refl _ _) eq_refl)).
  - vm_compute; reflexivity.
  - vm_compute; reflexivity.
Defined.

(** *** Malformed stored parameters *)

(** What [bytesToHex] writes is made of pairs of hex digits. *)
Lemma bytesToHex_isHexString `{rt : Worker.WebCrypto} (bs : list byte) :
  isHexString (Worker.bytesToHex bs) = true.
Proof.
  induction bs as [|b bs IH]; [reflexivity|].
  rewrite WorkerFacts.bytesToHex_cons.
  change (isHexString (String (hexHi b) (String (hexLo b) (Worker.bytesToHex bs))))
    with (bool_decide (is_Some (hexDigitValue (hexHi b)))
          && bool_decide (is_Some (hexDigitValue (hexLo b)))
          && isHexString (Worker.bytesToHex bs)).
  destruct (JsFacts.digits_of_byte b) as (hi & lo & Hhi & Hlo & _).
  rewrite Hhi, Hlo, IH. reflexivity.
Qed.

Lemma hexToBytes_length `{rt : Worker.WebCrypto} (s : string) :
  length (Worker.hexToBytes s) = (String.length s / 2)%nat.
Proof.
  unfold Worker.hexToBytes. destruct (isEmpty s) eqn:E.
  - destruct s; [reflexivity | discriminate].
  - rewrite length_map, length_seq.
    rewrite <- (Nat2Z.id (String.length s / 2)), Nat2Z.inj_div. reflexivity.
Qed.

(** C7 as stated fails on both counts.  A record whose salt is not hex
    does not make verification return [false]: the salt [zz] is decoded
    to one zero byte, and the password verifies when the stored hash is
    the derivation under that byte.  And a record whose iteration count
    is 0 makes the derivation raise: [verifyPassword] passes the raise on
    to the handler, and the Worker answers the [PUT] with status 500 and
    the message of the hasher as [detail]. *)
Lemma malformed_parameters_counterexample :
  ~ (forall (web : Worker.WebCrypto) (p : string) (r : Worker.PasswordRecord)
            (w : Worker.World),
        isHexString (Worker.pw_salt_hex r) = false ->
        fst (Worker.verifyPassword p r w) = Ret false)
  /\ fst (Worker.verifyPassword (rt := Sample.web) "swordfish" Sample.zeroRecord
                                Sample.webWorld0)
     = Throw "iterations must be positive"
  /\ fst (Worker.fetch (rt := Sample.web) Sample.webEnv (Worker.PostPut "p1")
            (Sample.webRequest None (Some (Sample.putBody "swordfish" "")))
            (Sample.webWorldWith [] [] [Sample.zeroPost]))
     = Ret (Worker.send 500 (Worker.errorDetail "Worker error"
                                                "iterations must be positive")).
Proof.
  split; [|split; vm_compute; reflexivity].
  intros Hclaim.
  specialize (Hclaim Sample.web "swordfish"%string
                {| Worker.pw_salt_hex := "zz"; Worker.pw_iterations := 100000;
                   Worker.pw_digest := "sha256"; Worker.pw_keylen := 32;
                   Worker.pw_hash_hex := "0073776f726466697368" |}
                Sample.webWorld0 eq_refl).
  vm_compute in Hclaim. discriminate Hclaim.
Qed.

(** C7, amended.  Malformed hex in a stored record never makes
    verification raise: both decoders are total, the Worker's
    [hexToBytes] giving one byte for each two characters (an unparsable
    pair read as the byte 0, a trailing odd character dropped), Node's
    [Buffer.from] stopping at the first pair that is not hex.
    Verification returns [true] exactly when the platform's derivation
    under the parameters as decoded returns the stored hash, and [false]
    exactly when it returns something else; so a malformed record is
    refused unless its hash is the derivation under its decoded salt, in
    the Worker a stored hash that is not well-formed hex never verifies,
    and in the local server a stored hash of another length than the
    derived key never verifies.  Verification raises exactly what the
    platform's derivation raises on the stored parameters, an iteration
    count of 0 for one; the Worker's [fetch] answers that raise on a
    [PUT] or [DELETE] with status 500 and the message as [detail]. *)
Theorem verifyPassword_on_stored_parameters (web : Worker.WebCrypto)
    (node : LocalServer.NodeRuntime) :
  (forall (p : string) (r : Worker.PasswordRecord) (w : Worker.World),
      let derived :=
        Worker.deriveBits (Worker.digestName r) (Worker.hexToBytes (Worker.pw_salt_hex r))
                          (Worker.pw_iterations r) p (Worker.pw_keylen r * 8) in
      (fst (Worker.verifyPassword p r w) = Ret true
       <-> exists bits, derived = Ret bits /\ Worker.pw_hash_hex r = Worker.bytesToHex bits)
      /\ (fst (Worker.verifyPassword p r w) = Ret false
          <-> exists bits, derived = Ret bits
                           /\ Worker.pw_hash_hex r <> Worker.bytesToHex bits)
      /\ (forall m, fst (Worker.verifyPassword p r w) = Throw m <-> derived = Throw m)
      /\ (isHexString (Worker.pw_hash_hex r) = false ->
          fst (Worker.verifyPassword p r w) <> Ret true))
  /\ (forall (p : string) (r : LocalServer.PasswordRecord) (w : LocalServer.World),
        let derived :=
          LocalServer.pbkdf2Sync p (LocalServer.bufferFromHex (LocalServer.saltHex r))
                                 (LocalServer.iterations r) (LocalServer.keylen r)
                                 (LocalServer.digest r) in
        (fst (LocalServer.verifyPassword p r w) = Ret true
         <-> exists key, derived = Ret key
                         /\ LocalServer.bufferFromHex (LocalServer.hashHex r) = key)
        /\ (fst (LocalServer.verifyPassword p r w) = Ret false
            <-> exists key, derived = Ret key
                            /\ LocalServer.bufferFromHex (LocalServer.hashHex r) <> key)
        /\ (forall m, fst (LocalServer.verifyPassword p r w) = Throw m
                      <-> derived = Throw m))
  /\ ((forall s : string, length (Worker.hexToBytes s) = (String.length s / 2)%nat)
      /\ Worker.hexToBytes "zz" = [x00] /\ Worker.hexToBytes "ab0" = [xab]
      /\ LocalServer.bufferFromHex "zz" = [] /\ LocalServer.bufferFromHex "ab0" = [xab])
  /\ (forall (p : string) (r : LocalServer.PasswordRecord) (w : LocalServer.World)
             (derived : list byte),
        LocalServer.pbkdf2Sync p (LocalServer.bufferFromHex (LocalServer.saltHex r))
                               (LocalServer.iterations r) (LocalServer.keylen r)
                               (LocalServer.digest r) = Ret derived ->
        length (LocalServer.bufferFromHex (LocalServer.hashHex r)) <> length derived ->
        fst (LocalServer.verifyPassword p r w) = Ret false)
  /\ (forall (env : Worker.Env) (b : json) (route : Worker.Route) (pid : string)
             (v : Worker.Verb) (tail : Worker.M Response) (req : Worker.Request)
             (w : Worker.World) (row : Worker.PostRow) (rest : list Worker.PostRow)
             (m : string),
        Worker.Mutation env b route pid v tail ->
        Worker.parsedBody req = Some b ->
        falsy b = false ->
        fst (Worker.isAdmin env req w) = Ret false ->
        fst (Worker.viewTokenAuthorized env pid (strField b "viewToken") w) = Ret false ->
        isEmpty (strField b "password") = false ->
        Worker.outage env Worker.Posts Worker.Select = None ->
        List.filter (fun p => String.eqb (Worker.id p) pid) (Worker.posts (Worker.db w))
          = row :: rest ->
        Worker.deriveBits (Worker.digestName (Worker.pw row))
                          (Worker.hexToBytes (Worker.pw_salt_hex (Worker.pw row)))
                          (Worker.pw_iterations (Worker.pw row)) (strField b "password")
                          (Worker.pw_keylen (Worker.pw row) * 8) = Throw m ->
        fst (Worker.fetch env route req w)
          = Ret (Worker.send 500 (Worker.errorDetail "Worker error" m))
        /\ Worker.db (snd (Worker.fetch env route req w)) = Worker.db w).
Proof.
  split; [|split; [|split; [|split]]].
  - intros p r w derived. rewrite web_verifyPassword_run. fold derived. cbn [fst].
    destruct derived as [bits|m0]; (split; [|split; [|split]]).
    + split.
      * intros H. apply JsFacts.Ret_inj, String.eqb_eq in H. eauto.
      * intros (bits' & Hb & Hh). apply JsFacts.Ret_inj in Hb. subst bits'.
        f_equal. apply String.eqb_eq. auto.
    + split.
      * intros H. apply JsFacts.Ret_inj, String.eqb_neq in H. exists bits. split; auto.
      * intros (bits' & Hb & Hh). apply JsFacts.Ret_inj in Hb. subst bits'.
        f_equal. apply String.eqb_neq. auto.
    + intros m. split; discriminate.
    + intros Hhex H. apply JsFacts.Ret_inj, String.eqb_eq in H.
      rewrite <- H, bytesToHex_isHexString in Hhex. discriminate.
    + split; [discriminate|]. intros (bits' & Hb & _). discriminate.
    + split; [discriminate|]. intros (bits' & Hb & _). discriminate.
    + intros m. split; intros H; injection H as ->; reflexivity.
    + discriminate.
  - intros p r w derived. rewrite node_verifyPassword_run. fold derived. cbn [fst].
    destruct derived as [key|m0]; (split; [|split]).
    + split.
      * intros H. apply JsFacts.Ret_inj, bytesEqual_true_iff in H. eauto.
      * intros (key' & Hb & Hh). apply JsFacts.Ret_inj in Hb. subst key'.
        f_equal. now apply bytesEqual_true_iff.
    + split.
      * intros H. apply JsFacts.Ret_inj in H. exists key. split; [reflexivity|].
        intros Heq. apply bytesEqual_true_iff in Heq. congruence.
      * intros (key' & Hb & Hh). apply JsFacts.Ret_inj in Hb. subst key'.
        f_equal. destruct (LocalServer.bytesEqual _ key) eqn:E; [|reflexivity].
        apply bytesEqual_true_iff in E. contradiction.
    + intros m. split; discriminate.
    + split; [discriminate|]. intros (key' & Hb & _). discriminate.
    + split; [discriminate|]. intros (key' & Hb & _). discriminate.
    + intros m. split; intros H; injection H as ->; reflexivity.
  - split; [exact hexToBytes_length|]. repeat split; reflexivity.
  - intros p r w derived Hd Hlen. rewrite node_verifyPassword_run, Hd. cbn [fst].
    now rewrite bytesEqual_length.
  - intros env b route pid v tail req w row rest m Hm Hb Hf Hadm Htok Hpw Hup Hrow Hthrow.
    destruct (fetch_mutation_cases env b route pid v tail req w Hm Hb Hf)
      as (evA & evT & evP & _ & _ & _ & _ & _ & _ & _ & _ & Hout).
    rewrite Hadm, Htok, passwordFallback_run, Hpw, Hup, Hrow, Hthrow in Hout.
    now rewrite Hout.
Qed.

Lemma verifyPassword_on_stored_parameters_witness :
  fst (LocalServer.verifyPassword (rt := Sample.node) "swordfish"
         {| LocalServer.saltHex := "zz"; LocalServer.iterations := 120000;
            LocalServer.digest := "sha256"; LocalServer.keylen := 32;
            LocalServer.hashHex := "" |}
         Sample.nodeWorld0)
  = Ret false
  /\ fst (Worker.verifyPassword (rt := Sample.web) "swordfish"
            {| Worker.pw_salt_hex := "zz"; Worker.pw_iterations := 100000;
               Worker.pw_digest := "sha256"; Worker.pw_keylen := 32;
               Worker.pw_hash_hex := "0073776f72646669736g" |}
            Sample.webWorld0)
     <> Ret true
  /\ (let out := Worker.fetch (rt := Sample.web) Sample.webEnv (Worker.PostDelete "p1")
                   (Sample.webRequest None (Some (JObj [("password", JStr "swordfish")])))
                   (Sample.webWorldWith [] [] [Sample.zeroPost]) in
      fst out = Ret (Worker.send 500 (Worker.errorDetail "Worker error"
                                                         "iterations must be positive"))
      /\ Worker.db (snd out) = Worker.db (Sample.webWorldWith [] [] [Sample.zeroPost])).
Proof.
  destruct (verifyPassword_on_stored_parameters Sample.web Sample.node)
    as (Hweb & _ & _ & Hlength & Hraise).
  split; [|split].
  - refine (Hlength "swordfish"%string _ Sample.nodeWorld0 (Sample.bytesOf "swordfish") _ _).
    + vm_compute; reflexivity.
    + vm_compute; discriminate.
  - apply (proj2 (proj2 (proj2 (Hweb "swordfish"%string _ Sample.webWorld0)))).
    vm_compute; reflexivity.
  - refine (Hraise Sample.webEnv (JObj [("password", JStr "swordfish")])
                   (Worker.PostDelete "p1") "p1"%string Worker.Delete _
                   (Sample.webRequest None (Some (JObj [("password", JStr "swordfish")])))
                   (Sample.webWorldWith [] [] [Sample.zeroPost])
                   Sample.zeroPost [] "iterations must be positive"%string
                   (Worker.MutationDelete Sample.webEnv _ "p1")
                   eq_refl eq_refl _ _ eq_refl eq_refl eq_refl eq_refl).
    + vm_compute; reflexivity.
    + vm_compute; reflexivity.
Defined.

(** *** What the public endpoints show *)

Section WorkerReads.
Context `{rt : Worker.WebCrypto}.
Import Worker WorkerFacts JsFacts.

Lemma allKeys_optStr (o : option string) : allKeys (optStr o) = [].
Proof. now destruct o. Qed.

Lemma allKeys_listedPost (p : PostRow) :
  allKeys (listedPost p) = ["id"; "title"; "author"; "createdAt"; "updatedAt"]%string.
Proof. unfold listedPost. simpl. now rewrite allKeys_optStr. Qed.

Lemma allKeys_shownPost (p : PostRow) : allKeys (shownPost p) = publicPostKeys.
Proof. unfold shownPost. simpl. now rewrite allKeys_optStr. Qed.

Lemma allKeys_listed (rows : list PostRow) :
  List.incl (flat_map allKeys (map listedPost rows)) publicPostKeys.
Proof.
  induction rows as [|p rows IH]; [apply List.incl_nil_l|].
  change (flat_map allKeys (map listedPost (p :: rows)))
    with (allKeys (listedPost p) ++ flat_map allKeys (map listedPost rows)).
  apply List.incl_app; [|exact IH]. rewrite allKeys_listedPost.
  intros k Hk. simpl in *. intuition.
Qed.

Lemma loadPost_shows (env : Env) (pid : string) (w : World) (r : Response) :
  fst (loadPost env pid w) = Ret r ->
  status r = 200 ->
  List.incl (allKeys (body r)) ("post"%string :: publicPostKeys).
Proof.
  unfold loadPost. run. rewrite selectPost_run.
  destruct (outage env Posts Select) as [detail|].
  - intros Hr Hst. apply Ret_inj in Hr. subst r. discriminate Hst.
  - destruct (List.filter _ _) as [|post rest]; intros Hr Hst; apply Ret_inj in Hr; subst r.
    + discriminate Hst.
    + cbn [body send allKeys flat_map fst snd]. rewrite allKeys_shownPost, List.app_nil_r.
      apply List.incl_refl.
Qed.

Lemma handlePostView_shows (env : Env) (pid : string) (req : Request) (w : World)
    (r : Response) :
  fst (handlePostView env pid req w) = Ret r ->
  status r = 200 ->
  List.incl (allKeys (body r)) ("post"%string :: "viewToken"%string :: publicPostKeys).
Proof.
  unfold handlePostView. run. rewrite isAdmin_run.
  assert (Hload : forall w0, fst (loadPost env pid w0) = Ret r -> status r = 200 ->
            List.incl (allKeys (body r))
                      ("post"%string :: "viewToken"%string :: publicPostKeys)).
  { intros w0 Hr Hst. pose proof (loadPost_shows env pid w0 r Hr Hst) as Hin.
    intros k Hk. apply Hin in Hk. simpl in *. intuition. }
  assert (Hrest : forall w0,
            fst (match parsedBody req with
                 | Some b0 =>
                     if falsy b0 then mret (send 400 (errorBody "Invalid JSON"))
                     else
                       if isEmpty (strField b0 "password")
                       then mret (send 401 (errorBody "Password required"))
                       else
                         res ← selectPost env pid;
                         match res with
                         | inl detail =>
                             mret (send 500 (errorDetail "Failed to load post" detail))
                         | inr [] => mret (send 404 (errorBody "Not found"))
                         | inr (post :: _) =>
                             ok ← verifyPassword (strField b0 "password") (pw post);
                             if negb ok then mret (send 401 (errorBody "Invalid password"))
                             else
                               tokenData ← makeToken (TOKEN_PEPPER env);
                               insertRes ← insertViewToken env
                                 {| vt_post_id := pid;
                                    vt_token_hash := hash tokenData;
                                    vt_token_salt := salt tokenData;
                                    vt_expires_at := now env + 60 * 60 * 1000 |};
                               match insertRes with
                               | inl detail =>
                                   mret (send 500 (errorDetail "Failed to issue token" detail))
                               | inr _ =>
                                   mret (send 200
                                           (JObj [("post", shownPost post);
                                                  ("viewToken", JStr (presented tokenData))]))
                               end
                         end
                 | None => mret (send 400 (errorBody "Invalid JSON"))
                 end w0) = Ret r ->
            status r = 200 ->
            List.incl (allKeys (body r))
                      ("post"%string :: "viewToken"%string :: publicPostKeys)).
  { intros w0. destruct (parsedBody req) as [b0|];
      [|intros Hr Hst; apply Ret_inj in Hr; subst r; discriminate Hst].
    destruct (falsy b0);
      [intros Hr Hst; apply Ret_inj in Hr; subst r; discriminate Hst|].
    destruct (isEmpty (strField b0 "password"));
      [intros Hr Hst; apply Ret_inj in Hr; subst r; discriminate Hst|].
    run. rewrite selectPost_run.
    destruct (outage env Posts Select) as [detail|];
      [intros Hr Hst; apply Ret_inj in Hr; subst r; discriminate Hst|].
    destruct (List.filter _ _) as [|post rest];
      [intros Hr Hst; apply Ret_inj in Hr; subst r; discriminate Hst|].
    cbv beta iota delta [firstn]. rewrite web_verifyPassword_run.
    destruct (deriveBits _ _ _ _ _) as [bits|m]; [|discriminate].
    destruct (String.eqb _ _); cbv beta iota delta [negb];
      [|intros Hr Hst; apply Ret_inj in Hr; subst r; discriminate Hst].
    rewrite makeToken_run. cbv zeta. unfold insertViewToken. rewrite rest_run.
    destruct (outage env ViewTokens Insert) as [detail|];
      intros Hr Hst; apply Ret_inj in Hr; subst r; [discriminate Hst|].
    cbn [body send allKeys flat_map fst snd]. rewrite allKeys_shownPost.
    intros k Hk. simpl in *. intuition. }
  destruct (splitToken (adminCookie req)) as [parts|]; cbv beta iota delta [fst snd].
  - destruct (bool_decide _); [apply Hload | apply Hrest].
  - apply Hrest.
Qed.

Lemma handlePostGet_shows (env : Env) (pid : string) (req : Request) (w : World)
    (r : Response) :
  fst (handlePostGet env pid req w) = Ret r ->
  status r = 200 ->
  List.incl (allKeys (body r)) ("post"%string :: publicPostKeys).
Proof.
  unfold handlePostGet. run. rewrite isAdmin_run.
  destruct (splitToken (adminCookie req)) as [parts|]; cbv beta iota delta [fst snd negb].
  - destruct (bool_decide _).
    + apply loadPost_shows.
    + intros Hr Hst. apply Ret_inj in Hr. subst r. discriminate Hst.
  - intros Hr Hst. apply Ret_inj in Hr. subst r. discriminate Hst.
Qed.

Lemma handlePostsList_shows (env : Env) (w : World) (r : Response) :
  fst (handlePostsList env w) = Ret r ->
  status r = 200 ->
  List.incl (allKeys (body r)) ("posts"%string :: publicPostKeys).
Proof.
  unfold handlePostsList, selectPosts. run. rewrite rest_run.
  destruct (outage env Posts Select) as [detail|];
    intros Hr Hst; apply Ret_inj in Hr; subst r; [discriminate Hst|].
  cbn [body send allKeys flat_map fst snd]. rewrite List.app_nil_r.
  apply List.incl_cons; [now left|]. apply List.incl_tl, allKeys_listed.
Qed.

(** A response with status 200 was returned by the handler itself. *)
Lemma fetch_success (env : Env) (route : Route) (req : Request) (w : World) (r : Response) :
  fst (fetch env route req w) = Ret r ->
  status r = 200 ->
  fst (dispatch env route req w) = Ret r.
Proof.
  unfold fetch, catch. destruct (dispatch env route req w) as [[r'|m] w']; [auto|].
  intros Hr Hst. apply Ret_inj in Hr. subst r. discriminate Hst.
Qed.

End WorkerReads.

Section LocalReads.
Context `{rt : LocalServer.NodeRuntime}.
Import LocalServer JsFacts.

Lemma allKeys_orNull (o : option string) : allKeys (orNull o) = [].
Proof. destruct o as [s|]; [|reflexivity]. unfold orNull. now destruct (isEmpty s). Qed.

Lemma node_allKeys_listedPost (p : Post) :
  allKeys (listedPost p) = ["id"; "title"; "author"; "createdAt"; "updatedAt"]%string.
Proof. unfold listedPost. simpl. now rewrite allKeys_orNull. Qed.

Lemma node_allKeys_shownPost (p : Post) : allKeys (shownPost p) = publicPostKeys.
Proof. unfold shownPost. simpl. now rewrite allKeys_orNull. Qed.

Lemma node_allKeys_listed (ps : list Post) :
  List.incl (flat_map allKeys (map listedPost ps)) publicPostKeys.
Proof.
  induction ps as [|p ps IH]; [apply List.incl_nil_l|].
  change (flat_map allKeys (map listedPost (p :: ps)))
    with (allKeys (listedPost p) ++ flat_map allKeys (map listedPost ps)).
  apply List.incl_app; [|exact IH]. rewrite node_allKeys_listedPost.
  intros k Hk. simpl in *. intuition.
Qed.

(** Splits [m w = Ret (Some res)] for a response just written. *)
Ltac written Hr Hst :=
  intros Hr Hst; apply Ret_inj, Some_inj in Hr; subst; try discriminate Hst.

Lemma node_handlePostsList_shows (w : World) (res : Response) :
  fst (handlePostsList w) = Ret (Some res) ->
  status res = 200 ->
  List.incl (allKeys (body res)) ("posts"%string :: publicPostKeys).
Proof.
  unfold handlePostsList. run. written Hr Hst.
  cbn [body allKeys flat_map fst snd]. rewrite List.app_nil_r.
  apply List.incl_cons; [now left|]. apply List.incl_tl, node_allKeys_listed.
Qed.

Lemma node_handlePostGet_shows (env : Env) (pid : string) (req : Request) (w : World)
    (res : Response) :
  fst (handlePostGet env pid req w) = Ret (Some res) ->
  status res = 200 ->
  List.incl (allKeys (body res)) ("post"%string :: publicPostKeys).
Proof.
  unfold handlePostGet, unauthorized, notFound. run.
  destruct (isAdmin env w req); cbv beta iota delta [negb]; [|written Hr Hst].
  destruct (findIndex pid (data w)) as [[idx post]|]; written Hr Hst.
  cbn [body allKeys flat_map fst snd]. rewrite node_allKeys_shownPost, List.app_nil_r.
  apply List.incl_refl.
Qed.

Lemma node_handlePostView_shows (env : Env) (pid : string) (req : Request) (w : World)
    (res : Response) :
  fst (handlePostView env pid req w) = Ret (Some res) ->
  status res = 200 ->
  List.incl (allKeys (body res)) ("post"%string :: "viewToken"%string :: publicPostKeys).
Proof.
  unfold handlePostView, unauthorized, notFound, badRequest. run.
  destruct (isAdmin env w req); [discriminate|].
  destruct (parsedBody req) as [b|]; [|written Hr Hst].
  assert (Hrest :
    fst ((if isEmpty (strField b "password")
          then json 401 (errorBody "Password required")
          else
            match findIndex pid (data w) with
            | Some (_, post) =>
                ok ← verifyPassword (strField b "password") (password post);
                if negb ok then json 401 (errorBody "Invalid password")
                else
                  viewToken ← unlock env req pid;
                  json 200 (JObj [("post", shownPost post); ("viewToken", JStr viewToken)])
            | None => json 404 (errorBody "Not found")
            end) w) = Ret (Some res) ->
    status res = 200 ->
    List.incl (allKeys (body res)) ("post"%string :: "viewToken"%string :: publicPostKeys)).
  { destruct (isEmpty (strField b "password")); [run; written Hr Hst|].
    destruct (findIndex pid (data w)) as [[idx post]|]; [|run; written Hr Hst].
    run. rewrite node_verifyPassword_run.
    destruct (pbkdf2Sync _ _ _ _ _) as [derived|m]; [|discriminate].
    destruct (bytesEqual _ _); cbv beta iota delta [negb]; [|written Hr Hst].
    destruct (unlock_spec env req pid (logged w [Derive]))
      as (sid & tk & s & w' & Hun & _).
    rewrite Hun. written Hr Hst.
    cbn [body allKeys flat_map fst snd]. rewrite node_allKeys_shownPost.
    intros k Hk. simpl in *. intuition. }
  destruct b; try exact Hrest. discriminate.
Qed.

End LocalReads.

(** C10.  A response with status 200 from the listing, from the single
    post and from the view exchange names, at any depth of its body, only
    the envelope ([posts] or [post]), the six public fields of a post,
    and [viewToken] on the view exchange; none of these is a name under
    which either server stores a credential. *)
Theorem public_bodies_carry_no_credential (web : Worker.WebCrypto)
    (node : LocalServer.NodeRuntime) :
  (forall (env : Worker.Env) (route : Worker.Route) (req : Worker.Request)
          (w : Worker.World) (r : Response),
      fst (Worker.fetch env route req w) = Ret r ->
      status r = 200 ->
      match route with
      | Worker.PostsList => List.incl (allKeys (body r)) ("posts"%string :: publicPostKeys)
      | Worker.PostGet _ => List.incl (allKeys (body r)) ("post"%string :: publicPostKeys)
      | Worker.PostView _ =>
          List.incl (allKeys (body r)) ("post"%string :: "viewToken"%string :: publicPostKeys)
      | _ => True
      end)
  /\ (forall (env : LocalServer.Env) (route : LocalServer.Route) (req : LocalServer.Request)
             (w : LocalServer.World) (r : Response),
        fst (LocalServer.route env route req w) = Ret (Some r) ->
        status r = 200 ->
        match route with
        | LocalServer.PostsList =>
            List.incl (allKeys (body r)) ("posts"%string :: publicPostKeys)
        | LocalServer.PostGet _ =>
            List.incl (allKeys (body r)) ("post"%string :: publicPostKeys)
        | LocalServer.PostView _ =>
            List.incl (allKeys (body r))
                      ("post"%string :: "viewToken"%string :: publicPostKeys)
        | _ => True
        end)
  /\ (forall k : string,
        In k ("posts"%string :: "post"%string :: "viewToken"%string :: publicPostKeys) ->
        ~ In k credentialKeys).
Proof.
  split; [|split].
  - intros env route req w r Hr Hst.
    pose proof (fetch_success env route req w r Hr Hst) as Hd.
    destruct route as [| | | |pid|pid|pid|pid]; try exact I; unfold Worker.dispatch in Hd.
    + now apply (handlePostsList_shows env w).
    + now apply (handlePostGet_shows env pid req w).
    + now apply (handlePostView_shows env pid req w).
  - intros env route req w r Hr Hst.
    destruct route as [| | | |pid|pid|pid|pid]; try exact I;
      unfold LocalServer.route in Hr; revert Hr; run; intros Hr.
    + now apply (node_handlePostsList_shows (LocalServer.arriving w)).
    + now apply (node_handlePostGet_shows env pid req (LocalServer.arriving w)).
    + now apply (node_handlePostView_shows env pid req (LocalServer.arriving w)).
  - intros k Hk Hc. simpl in Hk, Hc.
    repeat (destruct Hk as [<-|Hk]; [intuition discriminate|]). exact Hk.
Qed.

Lemma public_bodies_carry_no_credential_witness :
  List.incl
    (allKeys (JObj [("posts", JArr [Worker.listedPost Sample.webPost])]))
    ("posts"%string :: publicPostKeys).
Proof.
  refine (proj1 (public_bodies_carry_no_credential Sample.web Sample.node)
                Sample.webEnv Worker.PostsList (Sample.webRequest None None)
                (Sample.webWorldWith [] [] [Sample.webPost])
                (Worker.send 200 (JObj [("posts", JArr [Worker.listedPost Sample.webPost])]))
                _ _).
  - vm_compute; reflexivity.
  - reflexivity.
Defined.

(** ** Further properties of the two servers *)

(** *** Signed cookies of the local server *)

Section SignedCookies.
Context `{rt : LocalServer.NodeRuntime}.
Import LocalServer JsFacts.

Lemma verifySigned_cut (env : Env) (signed value : string) :
  verifySigned env signed = Some value ->
  signed = value +:+ "." +:+ hmacHex (SESSION_SECRET env) value
  /\ lastPos "." (hmacHex (SESSION_SECRET env) value) = None.
Proof.
  unfold verifySigned, lastIndexOf.
  destruct (lastPos "." signed) as [i|] eqn:E; [|simpl; discriminate].
  destruct (lastPos_split _ _ _ E) as (a & b & -> & <- & Hb).
  destruct (Z.eqb_spec (Z.of_nat (String.length a)) (-1)); [lia|].
  rewrite slice_before, sliceFrom_after.
  destruct (String.eqb_spec b (hmacHex (SESSION_SECRET env) a)) as [->|]; [|discriminate].
  intros Hv. apply Some_inj in Hv. subst value. auto.
Qed.

Lemma verifySigned_sign (env : Env) (value : string) :
  lastPos "." (hmacHex (SESSION_SECRET env) value) = None ->
  verifySigned env (sign env value) = Some value.
Proof.
  intros Hmac. unfold verifySigned, sign, lastIndexOf.
  change ("." +:+ hmacHex (SESSION_SECRET env) value)
    with (String "." (hmacHex (SESSION_SECRET env) value)).
  rewrite lastPos_app by assumption.
  destruct (Z.eqb_spec (Z.of_nat (String.length value)) (-1)); [lia|].
  rewrite slice_before, sliceFrom_after. now rewrite String.eqb_refl.
Qed.

End SignedCookies.

(** X1.  [verifySigned] accepts a string only if it is, character for
    character, what [sign] makes of the value it returns; and it gives
    back the value of every string [sign] made, as long as the MAC has no
    separator in it (a hex digest has none). *)
Theorem verifySigned_accepts_only_signatures (node : LocalServer.NodeRuntime)
    (env : LocalServer.Env) :
  (forall signed value : string,
      LocalServer.verifySigned env signed = Some value ->
      signed = LocalServer.sign env value)
  /\ (forall value : string,
        lastPos "." (LocalServer.hmacHex (LocalServer.SESSION_SECRET env) value) = None ->
        LocalServer.verifySigned env (LocalServer.sign env value) = Some value).
Proof.
  split.
  - intros signed value Hv. now destruct (verifySigned_cut env signed value Hv).
  - apply verifySigned_sign.
Qed.

Lemma verifySigned_accepts_only_signatures_witness :
  LocalServer.verifySigned (rt := Sample.node) Sample.nodeEnv Sample.firstSidSigned
  = Some Sample.firstSid.
Proof.
  refine (proj2 (verifySigned_accepts_only_signatures Sample.node Sample.nodeEnv)
                Sample.firstSid _).
  vm_compute; reflexivity.
Defined.

(** X2.  The local server keeps admin sessions and browser sessions in the
    one [sessions] map and tells them apart by nothing but the name of the
    cookie: a cookie value that names a live browser session, sent as the
    admin cookie, makes the request an admin request. *)
Theorem session_cookie_passes_as_admin (node : LocalServer.NodeRuntime)
    (env : LocalServer.Env) (w : LocalServer.World) (cookie sid : string)
    (other : option string) (b : option json) :
  LocalServer.getSessionId env
    {| LocalServer.sidCookie := Some cookie; LocalServer.adminCookie := None;
       LocalServer.parsedBody := None |} = Some sid ->
  isEmpty sid = false ->
  is_Some (LocalServer.sessions w !! sid) ->
  LocalServer.isAdmin env w
    {| LocalServer.sidCookie := other; LocalServer.adminCookie := Some cookie;
       LocalServer.parsedBody := b |} = true.
Proof.
  unfold LocalServer.getSessionId, LocalServer.isAdmin, LocalServer.getAdminSession.
  cbn [LocalServer.sidCookie LocalServer.adminCookie].
  destruct (isEmpty cookie); [discriminate|].
  intros -> -> Hlive. now rewrite (bool_decide_eq_true_2 _ Hlive).
Qed.

Lemma session_cookie_passes_as_admin_witness :
  LocalServer.isAdmin (rt := Sample.node) Sample.nodeEnv
    (snd (LocalServer.route (rt := Sample.node) Sample.nodeEnv (LocalServer.PostView "p1")
            (Sample.nodeRequest None (Some (JObj [("password", JStr "swordfish")])))
            Sample.nodeWorld1))
    {| LocalServer.sidCookie := None; LocalServer.adminCookie := Some Sample.firstSidSigned;
       LocalServer.parsedBody := None |} = true.
Proof.
  refine (session_cookie_passes_as_admin Sample.node Sample.nodeEnv _
            Sample.firstSidSigned Sample.firstSid None None _ _ _).
  - vm_compute; reflexivity.
  - reflexivity.
  - vm_compute. eexists; reflexivity.
Defined.

(** *** Admin sessions of the Worker *)

Section WorkerAdmin.
Context `{rt : Worker.WebCrypto}.
Import Worker WorkerFacts JsFacts.

Lemma handleAdminLogin_granted (env : Env) (req : Request) (b : json) (w : World) :
  parsedBody req = Some b ->
  falsy b = false ->
  isEmpty (ADMIN_PASSWORD env) = false ->
  strField b "password" = ADMIN_PASSWORD env ->
  handleAdminLogin env req w =
  (let tok := uuidOfBytes (map entropy (seq (drawn w) 16)) in
   let slt := bytesToHex (map entropy (seq (drawn w + 16) 16)) in
   let t := {| token := tok; salt := slt;
               hash := sha256Hex (tokenInput tok slt (TOKEN_PEPPER env)) |} in
   match outage env AdminSessions Insert with
   | Some _ =>
       (Ret (send 500 (errorBody "Failed to create session")),
        {| db := db w; drawn := (drawn w + 16 + 16)%nat;
           trace := trace w ++ [Mint; Rest AdminSessions Insert] |})
   | None =>
       (Ret {| status := 200; body := JObj [("admin", JBool true)];
               set_cookie := Some (adminCookieHeader t) |},
        {| db := {| posts := posts (db w); view_tokens := view_tokens (db w);
                    admin_sessions :=
                      admin_sessions (db w)
                      ++ [ {| as_token_hash := hash t; as_token_salt := salt t;
                              as_expires_at := now env + 24 * 60 * 60 * 1000 |} ] |};
           drawn := (drawn w + 16 + 16)%nat;
           trace := trace w ++ [Mint; Rest AdminSessions Insert] |})
   end).
Proof.
  intros Hb Hf Hne Hpw. unfold handleAdminLogin. rewrite Hb, Hf, Hpw, Hne, String.eqb_refl.
  cbv beta iota delta [negb]. run. rewrite makeToken_run. cbv zeta.
  unfold insertAdminSession. rewrite rest_run.
  cbv beta iota delta [db drawn trace fst snd].
  destruct (outage env AdminSessions Insert); unfold logged; simpl;
    now rewrite <- List.app_assoc.
Qed.

Lemma handleAdminLogin_refused (env : Env) (req : Request) (w : World) :
  match parsedBody req with
  | Some b => falsy b = true \/ strField b "password" <> ADMIN_PASSWORD env
              \/ isEmpty (strField b "password") = true
  | None => True
  end ->
  exists r, handleAdminLogin env req w = (Ret r, w)
            /\ (status r = 400 \/ status r = 401)
            /\ set_cookie r = None.
Proof.
  unfold handleAdminLogin. destruct (parsedBody req) as [b|].
  - destruct (falsy b); [intros _; eexists; split; [reflexivity|auto]|].
    destruct (isEmpty (strField b "password")) eqn:He;
      [intros _; eexists; split; [reflexivity|auto]|].
    intros [Hf|[Hne|Hemp]]; try discriminate.
    apply String.eqb_neq in Hne. rewrite Hne. eexists; split; [reflexivity|auto].
  - intros _. eexists; split; [reflexivity|auto].
Qed.

Lemma filter_after_removal {A : Type} (f g : A -> bool) (l : list A) :
  (forall x, f x = true -> g x = true) ->
  List.filter f (List.filter (fun x => negb (g x)) l) = [].
Proof.
  intros Himp. induction l as [|x l IH]; [reflexivity|]. simpl.
  destruct (g x) eqn:Eg; simpl; [exact IH|].
  destruct (f x) eqn:Ef; [|exact IH]. apply Himp in Ef. congruence.
Qed.

Lemma handleAdminLogout_run (env : Env) (req : Request) (w : World) :
  handleAdminLogout env req w =
  (Ret {| status := 200; body := okBody;
          set_cookie :=
            Some "woldecks.admin=x; Path=/; HttpOnly; SameSite=None; Secure; Max-Age=0"%string |},
   match splitToken (adminCookie req) with
   | None => w
   | Some parts =>
       match outage env AdminSessions Delete with
       | Some _ => logged w [Rest AdminSessions Delete]
       | None =>
           {| db := {| posts := posts (db w); view_tokens := view_tokens (db w);
                       admin_sessions :=
                         List.filter
                           (fun r => negb (String.eqb (as_token_hash r)
                                             (sha256Hex (tokenInput (tp_token parts)
                                                           (tp_salt parts) (TOKEN_PEPPER env)))
                                           && String.eqb (as_token_salt r) (tp_salt parts)))
                           (admin_sessions (db w)) |};
              drawn := drawn w; trace := trace w ++ [Rest AdminSessions Delete] |}
       end
   end).
Proof.
  unfold handleAdminLogout. run.
  destruct (splitToken (adminCookie req)) as [parts|]; [|reflexivity].
  run. unfold deleteAdminSessions. rewrite rest_run.
  destruct (outage env AdminSessions Delete); reflexivity.
Qed.

End WorkerAdmin.

(** X3.  In the Worker a login with the configured admin password, the
    back end accepting the insert, answers 200 with the session cookie,
    adds one session row that expires 24 hours later and touches no other
    table; the token of that cookie then makes every request an admin
    request until those 24 hours are over.  A login with any other
    password is answered 400 or 401 without cookie and leaves the world as
    it was: nothing is drawn, nothing is asked of the back end. *)
Theorem admin_login_opens_session (web : Worker.WebCrypto) (env : Worker.Env)
    (req : Worker.Request) (b : json) (w : Worker.World) :
  Worker.parsedBody req = Some b ->
  falsy b = false ->
  isEmpty (Worker.ADMIN_PASSWORD env) = false ->
  let out := Worker.fetch env Worker.AdminLogin req w in
  (strField b "password" = Worker.ADMIN_PASSWORD env ->
   Worker.outage env Worker.AdminSessions Worker.Insert = None ->
   exists t : Worker.Token,
     fst (Worker.makeToken (Worker.TOKEN_PEPPER env) w) = Ret t
     /\ fst out = Ret {| status := 200; body := JObj [("admin", JBool true)];
                         set_cookie := Some (Worker.adminCookieHeader t) |}
     /\ Worker.admin_sessions (Worker.db (snd out))
        = Worker.admin_sessions (Worker.db w)
          ++ [ {| Worker.as_token_hash := Worker.hash t;
                  Worker.as_token_salt := Worker.salt t;
                  Worker.as_expires_at := Worker.now env + 86400000 |} ]
     /\ Worker.posts (Worker.db (snd out)) = Worker.posts (Worker.db w)
     /\ Worker.view_tokens (Worker.db (snd out)) = Worker.view_tokens (Worker.db w)
     /\ forall (env' : Worker.Env) (req' : Worker.Request),
          Worker.TOKEN_PEPPER env' = Worker.TOKEN_PEPPER env ->
          Worker.outage env' Worker.AdminSessions Worker.Select = None ->
          Worker.adminCookie req' = Some (Worker.presented t) ->
          Worker.now env' < Worker.now env + 86400000 ->
          fst (Worker.isAdmin env' req' (snd out)) = Ret true)
  /\ (strField b "password" <> Worker.ADMIN_PASSWORD env ->
      snd out = w
      /\ exists r, fst out = Ret r /\ (status r = 400 \/ status r = 401)
                   /\ set_cookie r = None).
Proof.
  intros Hb Hf Hne out. split.
  - intros Hpw Hup.
    pose proof (handleAdminLogin_granted env req b w Hb Hf Hne Hpw) as Hrun.
    cbv zeta in Hrun. rewrite Hup in Hrun.
    assert (Hout : out = _) by (unfold out, Worker.fetch, Worker.catch, Worker.dispatch;
                                rewrite Hrun; reflexivity).
    eexists. split; [rewrite makeToken_run; reflexivity|].
    rewrite Hout. cbn [fst snd Worker.db Worker.admin_sessions Worker.posts Worker.view_tokens
                       Worker.hash Worker.salt Worker.token].
    repeat split.
    intros env' req' Hpep Hsel Hcookie Hlt.
    rewrite isAdmin_run, Hcookie. unfold Worker.presented.
    cbn [Worker.token Worker.salt].
    rewrite WorkerFacts.splitToken_joined by apply WorkerFacts.bytesToHex_no_dot.
    unfold Worker.answeringSession. rewrite Hsel, Hpep.
    cbn [fst Worker.db Worker.admin_sessions Worker.tp_token Worker.tp_salt].
    match goal with
    | |- context [List.filter ?f (?l ++ [?row])] =>
        destruct (JsFacts.head_filter_in f (l ++ [row]) row) as (y & Hy & _)
    end.
    + apply in_or_app. right. now left.
    + unfold Worker.adminSessionFilter. cbn. rewrite !String.eqb_refl. simpl.
      apply Z.ltb_lt. lia.
    + now rewrite Hy.
  - intros Hpw.
    destruct (handleAdminLogin_refused env req w) as (r & Hrun & Hst & Hc).
    { rewrite Hb. auto. }
    assert (Hout : out = (Ret r, w))
      by (unfold out, Worker.fetch, Worker.catch, Worker.dispatch; rewrite Hrun; reflexivity).
    rewrite Hout. split; [reflexivity|]. exists r. auto.
Qed.

Lemma admin_login_opens_session_witness :
  fst (Worker.isAdmin (rt := Sample.web) Sample.webEnv
         (Sample.webRequest (Some (Worker.presented Sample.issued)) None)
         (snd (Worker.fetch (rt := Sample.web) Sample.webEnv Worker.AdminLogin
                 (Sample.webRequest None (Some (JObj [("password", JStr "admin1234")])))
                 Sample.webWorld0)))
  = Ret true.
Proof.
  destruct (proj1 (admin_login_opens_session Sample.web Sample.webEnv
                     (Sample.webRequest None (Some (JObj [("password", JStr "admin1234")])))
                     (JObj [("password", JStr "admin1234")]) Sample.webWorld0
                     eq_refl eq_refl eq_refl) eq_refl eq_refl)
    as (t & Ht & _ & _ & _ & _ & Hadmin).
  apply JsFacts.Ret_inj in Ht. subst t.
  apply Hadmin; reflexivity.
Defined.

(** The logout handler on a request whose cookies are read: it answers
    200 and clears the cookie, and never touches posts or view tokens.
    When the back end carries out the delete, the presented cookie is no
    admin credential any more, at any later time; when the back end
    refuses it, the answer is the same 200 and the stored sessions are as
    before. *)
Lemma logout_closes_session (web : Worker.WebCrypto) (env : Worker.Env)
    (req : Worker.Request) (w : Worker.World) :
  let out := Worker.fetch env Worker.AdminLogout req w in
  fst out
    = Ret {| status := 200; body := Worker.okBody;
             set_cookie :=
               Some "woldecks.admin=x; Path=/; HttpOnly; SameSite=None; Secure; Max-Age=0"%string |}
  /\ Worker.posts (Worker.db (snd out)) = Worker.posts (Worker.db w)
  /\ Worker.view_tokens (Worker.db (snd out)) = Worker.view_tokens (Worker.db w)
  /\ (Worker.outage env Worker.AdminSessions Worker.Delete = None ->
      forall env' : Worker.Env,
        Worker.TOKEN_PEPPER env' = Worker.TOKEN_PEPPER env ->
        fst (Worker.isAdmin env' req (snd out)) = Ret false)
  /\ (Worker.outage env Worker.AdminSessions Worker.Delete <> None ->
      Worker.db (snd out) = Worker.db w).
Proof.
  intros out.
  assert (Hout : out = _)
    by (unfold out, Worker.fetch, Worker.catch, Worker.dispatch;
        rewrite handleAdminLogout_run; reflexivity).
  rewrite Hout. cbn [fst snd].
  split; [reflexivity|].
  destruct (Worker.splitToken (Worker.adminCookie req)) as [parts|] eqn:Hsplit.
  - destruct (Worker.outage env Worker.AdminSessions Worker.Delete) as [detail|] eqn:Hdel.
    + repeat split; try reflexivity. discriminate.
    + repeat split; try reflexivity; [|congruence].
      intros _ env' Hpep. rewrite isAdmin_run, Hsplit. cbn [fst].
      unfold Worker.answeringSession.
      destruct (Worker.outage env' Worker.AdminSessions Worker.Select); [reflexivity|].
      cbn [Worker.db Worker.admin_sessions]. rewrite Hpep.
      rewrite (filter_after_removal
                 (Worker.adminSessionFilter env'
                    (Worker.sha256Hex (Worker.tokenInput (Worker.tp_token parts)
                                         (Worker.tp_salt parts) (Worker.TOKEN_PEPPER env)))
                    (Worker.tp_salt parts))
                 (fun r => String.eqb (Worker.as_token_hash r)
                             (Worker.sha256Hex (Worker.tokenInput (Worker.tp_token parts)
                                                  (Worker.tp_salt parts)
                                                  (Worker.TOKEN_PEPPER env)))
                           && String.eqb (Worker.as_token_salt r) (Worker.tp_salt parts))).
      * reflexivity.
      * intros x. unfold Worker.adminSessionFilter. intros Hx.
        apply andb_true_iff in Hx as [Hx _]. exact Hx.
  - repeat split; try reflexivity.
    intros _ env' _. rewrite isAdmin_run, Hsplit. reflexivity.
Qed.

(** X4.  In the Worker a logout never touches posts or view tokens.
    When the [Cookie] header parses, it answers 200 and clears the cookie;
    when the back end carries out the delete, the header is no admin
    credential any more, at any later time; when the back end refuses it,
    the answer is the same 200 and the stored sessions are as before.
    When a cookie value of the header has a malformed escape,
    [parseCookies] raises inside the handler: the answer is 500
    [Worker error] with the message, no cookie is cleared, no session is
    closed and the back end is not called. *)
Theorem admin_logout_closes_session (web : Worker.WebCrypto)
    (decoder : Cookies.UriDecoder) (raw : WorkerWire.RawWrites) (env : Worker.Env)
    (req : WorkerWire.Request) (w : Worker.World) :
  let out := WorkerWire.fetch env Worker.AdminLogout req w in
  Worker.posts (Worker.db (snd out)) = Worker.posts (Worker.db w)
  /\ Worker.view_tokens (Worker.db (snd out)) = Worker.view_tokens (Worker.db w)
  /\ (forall cookies : gmap string string,
        Cookies.workerParseCookies (WorkerWire.cookieHeader req) = Ret cookies ->
        fst out
          = Ret {| status := 200; body := Worker.okBody;
                   set_cookie :=
                     Some "woldecks.admin=x; Path=/; HttpOnly; SameSite=None; Secure; Max-Age=0"%string |}
        /\ (Worker.outage env Worker.AdminSessions Worker.Delete = None ->
            forall env' : Worker.Env,
              Worker.TOKEN_PEPPER env' = Worker.TOKEN_PEPPER env ->
              fst (WorkerWire.isAdmin env' req (snd out)) = Ret false)
        /\ (Worker.outage env Worker.AdminSessions Worker.Delete <> None ->
            Worker.db (snd out) = Worker.db w))
  /\ (forall m : string,
        Cookies.workerParseCookies (WorkerWire.cookieHeader req) = Throw m ->
        out = (Ret {| status := 500; body := Worker.errorDetail "Worker error" m;
                      set_cookie := None |}, w)).
Proof.
  intros out.
  destruct (Cookies.workerParseCookies (WorkerWire.cookieHeader req)) as [cookies|m]
    eqn:Hparse.
  - assert (Hout : out = Worker.fetch env Worker.AdminLogout
                           (WorkerWire.parsed req cookies) w)
      by (apply wire_fetch_parsed; [exact Hparse | reflexivity]).
    destruct (logout_closes_session web env (WorkerWire.parsed req cookies) w)
      as (Hans & Hposts & Hvt & Hclosed & Hrefused).
    rewrite Hout. split; [exact Hposts|]. split; [exact Hvt|]. split.
    + intros cookies' Hc'. apply JsFacts.Ret_inj in Hc'. subst cookies'.
      split; [exact Hans|]. split; [|exact Hrefused].
      intros Hdel env' Hpep.
      rewrite (wire_isAdmin_parsed env' req cookies _ Hparse). now apply Hclosed.
    + intros m Hm. discriminate Hm.
  - assert (Hout : out = (Ret (Worker.send 500 (Worker.errorDetail "Worker error" m)), w))
      by (apply wire_fetch_raises; [exact Hparse | exact I]).
    rewrite Hout. split; [reflexivity|]. split; [reflexivity|]. split.
    + intros cookies Hc. discriminate Hc.
    + intros m' Hm'. injection Hm' as <-. reflexivity.
Qed.

Lemma admin_logout_closes_session_witness :
  fst (WorkerWire.isAdmin (rt := Sample.web) (decoder := SampleCookies.decoder)
         Sample.webEnv (SampleWire.request (Some SampleWire.adminHeader) None)
         (snd (WorkerWire.fetch (rt := Sample.web) (decoder := SampleCookies.decoder)
                 (raw := SampleWire.rawWrites) Sample.webEnv Worker.AdminLogout
                 (SampleWire.request (Some SampleWire.adminHeader) None)
                 (Sample.webWorldWith [Sample.adminRow 2000] [] []))))
  = Ret false
  /\ WorkerWire.fetch (rt := Sample.web) (decoder := SampleCookies.decoder)
       (raw := SampleWire.rawWrites) Sample.webEnv Worker.AdminLogout
       (SampleWire.request (Some SampleWire.brokenHeader) None)
       (Sample.webWorldWith [Sample.adminRow 2000] [] [])
     = (Ret {| status := 500; body := Worker.errorDetail "Worker error" "URI malformed";
               set_cookie := None |},
        Sample.webWorldWith [Sample.adminRow 2000] [] []).
Proof.
  split.
  - destruct (admin_logout_closes_session Sample.web SampleCookies.decoder
                SampleWire.rawWrites Sample.webEnv
                (SampleWire.request (Some SampleWire.adminHeader) None)
                (Sample.webWorldWith [Sample.adminRow 2000] [] []))
      as (_ & _ & Hparsed & _).
    destruct (Hparsed _ eq_refl) as (_ & Hclosed & _).
    exact (Hclosed eq_refl Sample.webEnv eq_refl).
  - exact (proj2 (proj2 (proj2
             (admin_logout_closes_session Sample.web SampleCookies.decoder
                SampleWire.rawWrites Sample.webEnv
                (SampleWire.request (Some SampleWire.brokenHeader) None)
                (Sample.webWorldWith [Sample.adminRow 2000] [] []))))
             "URI malformed"%string eq_refl).
Defined.

(** *** Admin sessions of the local server *)

Section LocalAdmin.
Context `{rt : LocalServer.NodeRuntime}.
Import LocalServer JsFacts.

Lemma sign_nonempty (env : Env) (value : string) : isEmpty (sign env value) = false.
Proof. unfold sign. destruct value; reflexivity. Qed.

Lemma getAdminSession_signed (env : Env) (w : World) (req : Request) (sid : string) :
  adminCookie req = Some (sign env sid) ->
  isEmpty sid = false ->
  lastPos "." (hmacHex (SESSION_SECRET env) sid) = None ->
  getAdminSession env w req
  = if bool_decide (is_Some (sessions w !! sid)) then Some sid else None.
Proof.
  intros Hc Hne Hdot. unfold getAdminSession.
  rewrite Hc, sign_nonempty, (verifySigned_sign env sid Hdot), Hne. reflexivity.
Qed.

Lemma node_handleAdminLogin_granted (env : Env) (req : Request) (b : Json.json) (w : World) :
  parsedBody req = Some b ->
  b <> JNull ->
  isEmpty (ADMIN_PASSWORD env) = false ->
  strField b "password" = ADMIN_PASSWORD env ->
  route env AdminLogin req w =
  (let sid := uuidOfBytes (map entropy (seq (drawn w) 16)) in
   let cookie := ("woldecks.admin" +:+ "=" +:+ encodeURIComponent (sign env sid)
                  +:+ "; Path=/; HttpOnly; SameSite=Lax" +:+ "")%string in
   (Ret (Some {| status := 200; body := JObj [("admin", JBool true)];
                 set_cookie := Some cookie |}),
    {| sessions := <[sid := freshSession env]> (sessions w); data := data w;
       drawn := (drawn w + 16)%nat; resCookie := Some cookie; trace := trace w |})).
Proof.
  intros Hb Hnull Hne Hpw. unfold route, handleAdminLogin. run. rewrite Hb.
  destruct b; try contradiction; rewrite Hpw, Hne, String.eqb_refl; reflexivity.
Qed.

Lemma node_handleAdminLogout_run (env : Env) (req : Request) (w : World) :
  route env AdminLogout req w =
  (let cookie := ("woldecks.admin" +:+ "=" +:+ encodeURIComponent "x"
                  +:+ "; Path=/; HttpOnly; SameSite=Lax" +:+ "; Max-Age=0")%string in
   (Ret (Some {| status := 200; body := okBody; set_cookie := Some cookie |}),
    {| sessions := match getAdminSession env w req with
                   | Some sid => delete sid (sessions w)
                   | None => sessions w
                   end;
       data := data w; drawn := drawn w; resCookie := Some cookie; trace := trace w |})).
Proof.
  unfold route, handleAdminLogout. run.
  change (getAdminSession env (arriving w) req) with (getAdminSession env w req).
  destruct (getAdminSession env w req); reflexivity.
Qed.

End LocalAdmin.

(** X5.  In the local server a login with the configured admin password
    draws a new session id, stores an empty session under it, and answers
    200 with the signed id in the [woldecks.admin] cookie; the posts are
    untouched.  That cookie makes a request an admin request at any later
    clock reading, for as long as the session stays in the map: the local
    server has no expiry.  A logout presenting the cookie removes exactly
    that session, answers 200 with the clearing cookie, and the cookie is
    no admin credential afterwards. *)
Theorem local_login_then_logout (node : LocalServer.NodeRuntime) (env : LocalServer.Env)
    (req : LocalServer.Request) (b : json) (w : LocalServer.World) :
  LocalServer.parsedBody req = Some b ->
  b <> JNull ->
  isEmpty (LocalServer.ADMIN_PASSWORD env) = false ->
  strField b "password" = LocalServer.ADMIN_PASSWORD env ->
  let sid := LocalServer.uuidOfBytes (map LocalServer.entropy (seq (LocalServer.drawn w) 16)) in
  isEmpty sid = false ->
  lastPos "." (LocalServer.hmacHex (LocalServer.SESSION_SECRET env) sid) = None ->
  let out := LocalServer.route env LocalServer.AdminLogin req w in
  (exists r, fst out = Ret (Some r) /\ status r = 200
             /\ body r = JObj [("admin", JBool true)]
             /\ set_cookie r
                = Some ("woldecks.admin=" +:+ LocalServer.encodeURIComponent
                                                (LocalServer.sign env sid)
                        +:+ "; Path=/; HttpOnly; SameSite=Lax")%string)
  /\ LocalServer.sessions (snd out)
     = <[sid := LocalServer.freshSession env]> (LocalServer.sessions w)
  /\ LocalServer.data (snd out) = LocalServer.data w
  /\ forall (env' : LocalServer.Env) (req' : LocalServer.Request),
       LocalServer.SESSION_SECRET env' = LocalServer.SESSION_SECRET env ->
       LocalServer.adminCookie req' = Some (LocalServer.sign env sid) ->
       LocalServer.isAdmin env' (snd out) req' = true
       /\ let out' := LocalServer.route env' LocalServer.AdminLogout req' (snd out) in
          (exists r', fst out' = Ret (Some r') /\ status r' = 200
                      /\ body r' = LocalServer.okBody)
          /\ LocalServer.sessions (snd out') = delete sid (LocalServer.sessions (snd out))
          /\ LocalServer.isAdmin env' (snd out') req' = false.
Proof.
  intros Hb Hnull Hne Hpw sid Hsid Hdot out.
  assert (Hout : out = _) by exact (node_handleAdminLogin_granted env req b w Hb Hnull Hne Hpw).
  cbv zeta in Hout. fold sid in Hout. rewrite Hout. cbn [fst snd LocalServer.sessions
    LocalServer.data].
  split.
  { eexists. split; [reflexivity|]. cbn [status body set_cookie]. repeat split. }
  repeat split.
  - unfold LocalServer.isAdmin.
    rewrite (getAdminSession_signed env' _ req' sid); try assumption.
    + cbn [LocalServer.sessions]. rewrite lookup_insert_eq.
      rewrite bool_decide_eq_true_2 by (eexists; reflexivity). reflexivity.
    + unfold LocalServer.sign in *. now rewrite H.
    + now rewrite H.
  - rewrite node_handleAdminLogout_run. cbv zeta. eexists. split; [reflexivity|].
    split; reflexivity.
  - rewrite node_handleAdminLogout_run. cbv zeta. cbn [snd LocalServer.sessions].
    rewrite (getAdminSession_signed env' _ req' sid); try assumption.
    + cbn [LocalServer.sessions]. rewrite lookup_insert_eq.
      rewrite bool_decide_eq_true_2 by (eexists; reflexivity). reflexivity.
    + unfold LocalServer.sign in *. now rewrite H.
    + now rewrite H.
  - rewrite node_handleAdminLogout_run. cbv zeta. cbn [snd].
    rewrite (getAdminSession_signed env' _ req' sid); try assumption.
    + cbn [LocalServer.sessions]. rewrite lookup_insert_eq.
      rewrite bool_decide_eq_true_2 by (eexists; reflexivity).
      unfold LocalServer.isAdmin.
      rewrite (getAdminSession_signed env' _ req' sid); try assumption.
      * cbn [LocalServer.sessions]. rewrite lookup_delete_eq.
        rewrite bool_decide_eq_false_2 by (intros [? ?]; discriminate).
        reflexivity.
      * unfold LocalServer.sign in *. now rewrite H.
      * now rewrite H.
    + unfold LocalServer.sign in *. now rewrite H.
    + now rewrite H.
Qed.

Lemma local_login_then_logout_witness :
  LocalServer.isAdmin (rt := Sample.node) Sample.nodeEnv
    (snd (LocalServer.route (rt := Sample.node) Sample.nodeEnv LocalServer.AdminLogin
            (Sample.nodeRequest None (Some (JObj [("password", JStr "admin1234")])))
            Sample.nodeWorld0))
    {| LocalServer.sidCookie := None; LocalServer.adminCookie := Some Sample.firstSidSigned;
       LocalServer.parsedBody := None |} = true.
Proof.
  refine (proj1 (proj2 (proj2 (proj2
            (local_login_then_logout Sample.node Sample.nodeEnv
               (Sample.nodeRequest None (Some (JObj [("password", JStr "admin1234")])))
               (JObj [("password", JStr "admin1234")]) Sample.nodeWorld0
               eq_refl _ eq_refl eq_refl _ _)))
            Sample.nodeEnv
            {| LocalServer.sidCookie := None;
               LocalServer.adminCookie := Some Sample.firstSidSigned;
               LocalServer.parsedBody := None |} eq_refl _)).
  - discriminate.
  - vm_compute; reflexivity.
  - vm_compute; reflexivity.
  - vm_compute; reflexivity.
Defined.

(** *** The view exchange of the Worker *)

Section WorkerView.
Context `{rt : Worker.WebCrypto}.
Import Worker WorkerFacts JsFacts.

(** The view exchange for a caller who is not admin and whose password
    verifies against the first row with the asked id. *)
Lemma handlePostView_granted (env : Env) (pid : string) (req : Request) (b : json)
    (row : PostRow) (others : list PostRow) (w : World) :
  fst (isAdmin env req w) = Ret false ->
  parsedBody req = Some b ->
  falsy b = false ->
  isEmpty (strField b "password") = false ->
  outage env Posts Select = None ->
  List.filter (fun p => String.eqb (id p) pid) (posts (db w)) = row :: others ->
  fst (verifyPassword (strField b "password") (pw row) w) = Ret true ->
  exists evA,
    handlePostView env pid req w =
    (let tok := uuidOfBytes (map entropy (seq (drawn w) 16)) in
     let slt := bytesToHex (map entropy (seq (drawn w + 16) 16)) in
     let t := {| token := tok; salt := slt;
                 hash := sha256Hex (tokenInput tok slt (TOKEN_PEPPER env)) |} in
     let evs := evA ++ [Rest Posts Select; Derive; Mint; Rest ViewTokens Insert] in
     match outage env ViewTokens Insert with
     | Some detail =>
         (Ret (send 500 (errorDetail "Failed to issue token" detail)),
          {| db := db w; drawn := (drawn w + 16 + 16)%nat; trace := trace w ++ evs |})
     | None =>
         (Ret (send 200 (JObj [("post", shownPost row); ("viewToken", JStr (presented t))])),
          {| db := {| posts := posts (db w);
                      view_tokens := view_tokens (db w)
                                     ++ [ {| vt_post_id := pid; vt_token_hash := hash t;
                                             vt_token_salt := salt t;
                                             vt_expires_at := now env + 60 * 60 * 1000 |} ];
                      admin_sessions := admin_sessions (db w) |};
             drawn := (drawn w + 16 + 16)%nat; trace := trace w ++ evs |})
     end).
Proof.
  intros Hadm Hb Hf Hpw Hup Hrow Hok.
  destruct (isAdmin_events env req w) as (evA & _ & Hsnd & _ & _).
  exists evA. unfold handlePostView. run.
  destruct (isAdmin env req w) as [oa wa] eqn:Ea. cbn [fst snd] in Hadm, Hsnd. subst oa wa.
  rewrite Hb, Hf, Hpw. rewrite selectPost_run, Hup.
  change (db (logged w evA)) with (db w). rewrite Hrow. cbv beta iota delta [firstn].
  rewrite web_verifyPassword_run. rewrite web_verifyPassword_run in Hok. cbn [fst] in Hok.
  destruct (deriveBits _ _ _ _ _) as [bits|m]; [|discriminate].
  apply Ret_inj in Hok. rewrite Hok. cbv beta iota delta [negb].
  rewrite makeToken_run. cbv zeta. unfold insertViewToken. rewrite rest_run.
  destruct (outage env ViewTokens Insert) as [detail|].
  - unfold logged. cbn. rewrite <- !List.app_assoc. reflexivity.
  - unfold logged. cbn. rewrite <- !List.app_assoc. reflexivity.
Qed.

Lemma filter_none {A : Type} (f : A -> bool) (l : list A) :
  (forall x, In x l -> f x = false) -> List.filter f l = [].
Proof.
  induction l as [|x l IH]; [reflexivity|]. intros H. simpl.
  rewrite (H x) by now left. apply IH. intros y Hy. apply H. now right.
Qed.

End WorkerView.

(** X6.  In the Worker the view exchange, for a caller who is not admin
    and whose password verifies against the post, answers the post and a
    newly minted token, and stores one row for it that names the post and
    expires one hour later; posts and admin sessions are untouched.  The
    token then passes the view-token check of that post at any time before
    the hour is over.  Provided its salt was not in use before, it passes
    the check of no other post, and of no post once the hour is over. *)
Theorem view_exchange_token_scope (web : Worker.WebCrypto) (env : Worker.Env)
    (pid : string) (req : Worker.Request) (b : json)
    (row : Worker.PostRow) (others : list Worker.PostRow) (w : Worker.World) :
  fst (Worker.isAdmin env req w) = Ret false ->
  Worker.parsedBody req = Some b ->
  falsy b = false ->
  isEmpty (strField b "password") = false ->
  Worker.outage env Worker.Posts Worker.Select = None ->
  Worker.outage env Worker.ViewTokens Worker.Insert = None ->
  List.filter (fun p => String.eqb (Worker.id p) pid) (Worker.posts (Worker.db w))
  = row :: others ->
  fst (Worker.verifyPassword (strField b "password") (Worker.pw row) w) = Ret true ->
  let out := Worker.fetch env (Worker.PostView pid) req w in
  exists t : Worker.Token,
    fst (Worker.makeToken (Worker.TOKEN_PEPPER env) w) = Ret t
    /\ fst out = Ret (Worker.send 200 (JObj [("post", Worker.shownPost row);
                                             ("viewToken", JStr (Worker.presented t))]))
    /\ Worker.view_tokens (Worker.db (snd out))
       = Worker.view_tokens (Worker.db w)
         ++ [ {| Worker.vt_post_id := pid; Worker.vt_token_hash := Worker.hash t;
                 Worker.vt_token_salt := Worker.salt t;
                 Worker.vt_expires_at := Worker.now env + 3600000 |} ]
    /\ Worker.posts (Worker.db (snd out)) = Worker.posts (Worker.db w)
    /\ Worker.admin_sessions (Worker.db (snd out)) = Worker.admin_sessions (Worker.db w)
    /\ (forall env' : Worker.Env,
          Worker.TOKEN_PEPPER env' = Worker.TOKEN_PEPPER env ->
          Worker.outage env' Worker.ViewTokens Worker.Select = None ->
          Worker.now env' < Worker.now env + 3600000 ->
          fst (Worker.viewTokenAuthorized env' pid (Worker.presented t) (snd out))
          = Ret true)
    /\ (forall (env' : Worker.Env) (pid' : string),
          (forall r, In r (Worker.view_tokens (Worker.db w)) ->
                     Worker.vt_token_salt r <> Worker.salt t) ->
          pid' <> pid \/ Worker.now env + 3600000 <= Worker.now env' ->
          fst (Worker.viewTokenAuthorized env' pid' (Worker.presented t) (snd out))
          = Ret false).
Proof.
  intros Hadm Hb Hf Hpw Hsel Hins Hrow Hok out.
  destruct (handlePostView_granted env pid req b row others w Hadm Hb Hf Hpw Hsel Hrow Hok)
    as (evA & Hrun).
  cbv zeta in Hrun. rewrite Hins in Hrun.
  assert (Hout : out = _)
    by (unfold out, Worker.fetch, Worker.catch, Worker.dispatch; rewrite Hrun; reflexivity).
  eexists. split; [rewrite makeToken_run; reflexivity|].
  rewrite Hout.
  cbn [fst snd Worker.db Worker.view_tokens Worker.posts Worker.admin_sessions
       Worker.hash Worker.salt Worker.token].
  repeat split.
  - intros env' Hpep Hup Hlt.
    rewrite viewTokenAuthorized_run. unfold Worker.presented. cbn [Worker.token Worker.salt].
    rewrite WorkerFacts.splitToken_joined by apply WorkerFacts.bytesToHex_no_dot.
    unfold Worker.answeringViewToken. rewrite Hup, Hpep.
    cbn [fst Worker.db Worker.view_tokens Worker.tp_token Worker.tp_salt].
    match goal with
    | |- context [List.filter ?f (?l ++ [?r])] =>
        destruct (JsFacts.head_filter_in f (l ++ [r]) r) as (y & Hy & _)
    end.
    + apply in_or_app. right. now left.
    + unfold Worker.viewTokenFilter. cbn. rewrite !String.eqb_refl. simpl.
      apply Z.ltb_lt. lia.
    + rewrite Hy. reflexivity.
  - intros env' pid' Hfresh Hcase.
    rewrite viewTokenAuthorized_run. unfold Worker.presented. cbn [Worker.token Worker.salt].
    rewrite WorkerFacts.splitToken_joined by apply WorkerFacts.bytesToHex_no_dot.
    unfold Worker.answeringViewToken.
    destruct (Worker.outage env' Worker.ViewTokens Worker.Select); [reflexivity|].
    cbn [fst Worker.db Worker.view_tokens Worker.tp_token Worker.tp_salt].
    rewrite List.filter_app.
    rewrite filter_none.
    2:{ intros r Hr. unfold Worker.viewTokenFilter.
        destruct (String.eqb_spec (Worker.vt_token_salt r)
                    (Worker.bytesToHex (map Worker.entropy (seq (Worker.drawn w + 16) 16))))
          as [Heq|Hne]; [exfalso; exact (Hfresh r Hr Heq)|].
        now rewrite !andb_false_r. }
    match goal with
    | |- context [List.filter ?f [?r]] => assert (Hnew : f r = false)
    end.
    { unfold Worker.viewTokenFilter.
      cbn [Worker.vt_post_id Worker.vt_expires_at Worker.vt_token_hash Worker.vt_token_salt].
      destruct Hcase as [Hpid|Hlate].
      - destruct (String.eqb_spec pid pid') as [Heq|_]; [now subst|]. reflexivity.
      - replace (Worker.now env' <? Worker.now env + 60 * 60 * 1000) with false
          by (symmetry; apply Z.ltb_ge; lia).
        now rewrite !andb_false_r. }
    cbn [app List.filter]. rewrite Hnew. reflexivity.
Qed.

Lemma view_exchange_token_scope_witness :
  fst (Worker.viewTokenAuthorized (rt := Sample.web) Sample.webEnv "p1"
         (Worker.presented Sample.issued)
         (snd (Worker.fetch (rt := Sample.web) Sample.webEnv (Worker.PostView "p1")
                 (Sample.webRequest None (Some (JObj [("password", JStr "swordfish")])))
                 (Sample.webWorldWith [] [] [Sample.webPost]))))
  = Ret true.
Proof.
  destruct (view_exchange_token_scope Sample.web Sample.webEnv "p1"
              (Sample.webRequest None (Some (JObj [("password", JStr "swordfish")])))
              (JObj [("password", JStr "swordfish")]) Sample.webPost []
              (Sample.webWorldWith [] [] [Sample.webPost])
              eq_refl eq_refl eq_refl eq_refl eq_refl eq_refl eq_refl eq_refl)
    as (t & Ht & _ & _ & _ & _ & Hlive & _).
  apply JsFacts.Ret_inj in Ht. subst t.
  apply Hlive; reflexivity.
Defined.

(** *** What a mutation leaves in the tables of the Worker *)

Section WorkerOutcomes.
Context `{rt : Worker.WebCrypto}.
Import Worker WorkerFacts JsFacts.

Ltac tail_case Htail evs :=
  let r := fresh "r" in
  let Hr := fresh "Hr" in
  destruct (Htail evs) as (r & Hr & [[? ?]|[? ?]]);
  exists r, evs; (split; [exact Hr|]);
  [left; repeat split; solve [assumption | reflexivity]
  |right; split; assumption].

(** Any [PUT] or [DELETE] whose body parses is answered, and the tables
    are either as the tail of the handler leaves them, with answer 200, or
    as they were, with another answer. *)
Lemma fetch_mutation_outcome (env : Env) (b : json) (route : Route) (pid : string)
    (v : Verb) (tail : M Response) (req : Request) (w : World) :
  Mutation env b route pid v tail ->
  parsedBody req = Some b ->
  falsy b = false ->
  exists (r : Response) (evs : list Event),
    fst (fetch env route req w) = Ret r
    /\ ((r = send 200 okBody /\ outage env Posts v = None
         /\ db (snd (fetch env route req w)) = db (snd (tail (logged w evs))))
        \/ (status r <> 200 /\ db (snd (fetch env route req w)) = db w)).
Proof.
  intros Hm Hb Hf.
  destruct (fetch_mutation_cases env b route pid v tail req w Hm Hb Hf)
    as (evA & evT & evP & _ & _ & _ & _ & _ & _ & _ & _ & Hrun).
  assert (Htail : forall evs,
            exists r, fst (tail (logged w evs)) = Ret r
              /\ ((r = send 200 okBody /\ outage env Posts v = None)
                  \/ (status r <> 200 /\ db (snd (tail (logged w evs))) = db w))).
  { intros evs.
    destruct (mutation_tail env b route pid v tail (logged w evs) Hm)
      as (r & Hr & _ & _ & _ & Hup & Hdown & _).
    exists r. split; [exact Hr|].
    destruct (outage env Posts v) as [detail|] eqn:E.
    - right. destruct Hdown as [Hs Hd]; [discriminate|]. rewrite Hs, Hd. split; [lia|reflexivity].
    - left. split; [now apply Hup | reflexivity]. }
  rewrite Hrun.
  destruct (fst (isAdmin env req w)) as [[|]|?].
  - tail_case Htail constr:(evA).
  - destruct (fst (viewTokenAuthorized env pid (strField b "viewToken") w)) as [[|]|?].
    + tail_case Htail constr:((evA ++ evT)).
    + destruct (fst (passwordFallback env pid (strField b "password") w))
        as [[r|]|m] eqn:Ep.
      * exists r, []. split; [reflexivity|]. right. split; [|reflexivity].
        destruct (passwordFallback_denies env pid _ w r Ep) as [H|[H|H]]; rewrite H; lia.
      * tail_case Htail constr:(((evA ++ evT) ++ evP)).
      * eexists _, []. split; [reflexivity|]. right. split; [cbn; lia|reflexivity].
    + destruct (fst (passwordFallback env pid (strField b "password") w))
        as [[r|]|m] eqn:Ep.
      * exists r, []. split; [reflexivity|]. right. split; [|reflexivity].
        destruct (passwordFallback_denies env pid _ w r Ep) as [H|[H|H]]; rewrite H; lia.
      * tail_case Htail constr:(((evA ++ evT) ++ evP)).
      * eexists _, []. split; [reflexivity|]. right. split; [cbn; lia|reflexivity].
  - destruct (fst (viewTokenAuthorized env pid (strField b "viewToken") w)) as [[|]|?].
    + tail_case Htail constr:((evA ++ evT)).
    + destruct (fst (passwordFallback env pid (strField b "password") w))
        as [[r|]|m] eqn:Ep.
      * exists r, []. split; [reflexivity|]. right. split; [|reflexivity].
        destruct (passwordFallback_denies env pid _ w r Ep) as [H|[H|H]]; rewrite H; lia.
      * tail_case Htail constr:(((evA ++ evT) ++ evP)).
      * eexists _, []. split; [reflexivity|]. right. split; [cbn; lia|reflexivity].
    + destruct (fst (passwordFallback env pid (strField b "password") w))
        as [[r|]|m] eqn:Ep.
      * exists r, []. split; [reflexivity|]. right. split; [|reflexivity].
        destruct (passwordFallback_denies env pid _ w r Ep) as [H|[H|H]]; rewrite H; lia.
      * tail_case Htail constr:(((evA ++ evT) ++ evP)).
      * eexists _, []. split; [reflexivity|]. right. split; [cbn; lia|reflexivity].
Qed.

(** A [PUT] or [DELETE] whose body does not parse, or parses to a falsy
    value, is answered 400 at once. *)
Lemma fetch_mutation_unparsed (env : Env) (route : Route) (pid : string) (req : Request)
    (w : World) :
  route = PostPut pid \/ route = PostDelete pid ->
  match parsedBody req with Some b => falsy b = true | None => True end ->
  fetch env route req w = (Ret (send 400 (errorBody "Invalid JSON")), w).
Proof.
  intros [->| ->] Hb; unfold fetch, catch, dispatch, handlePostPut, handlePostDelete;
    destruct (parsedBody req) as [b|]; try rewrite Hb; reflexivity.
Qed.

End WorkerOutcomes.

Section WorkerAbsent.
Context `{rt : Worker.WebCrypto}.
Import Worker WorkerFacts JsFacts.

Lemma loadPost_absent (env : Env) (pid : string) (w : World) :
  List.filter (fun p => String.eqb (id p) pid) (posts (db w)) = [] ->
  exists r, fst (loadPost env pid w) = Ret r /\ status r <> 200.
Proof.
  intros Hnone. unfold loadPost. run. rewrite selectPost_run.
  destruct (outage env Posts Select) as [detail|].
  - eexists. split; [reflexivity|]. cbn. lia.
  - rewrite Hnone. eexists. split; [reflexivity|]. cbn. lia.
Qed.

(** No row, no post: the two routes that show a post answer another
    status than 200 for an id that names none. *)
Lemma shown_absent (env : Env) (pid : string) (route : Route) (req : Request) (w : World) :
  route = PostGet pid \/ route = PostView pid ->
  List.filter (fun p => String.eqb (id p) pid) (posts (db w)) = [] ->
  exists r, fst (fetch env route req w) = Ret r /\ status r <> 200.
Proof.
  intros Hroute Hnone.
  assert (Hload : forall evs, exists r, loadPost env pid (logged w evs)
                                        = (Ret r, snd (loadPost env pid (logged w evs)))
                                        /\ status r <> 200).
  { intros evs. destruct (loadPost_absent env pid (logged w evs) Hnone) as (r & Hr & Hs).
    exists r. split; [|exact Hs].
    destruct (loadPost env pid (logged w evs)) as [o w']. cbn [fst snd] in *. now subst. }
  destruct (isAdmin_events env req w) as (evA & _ & Hsnd & _ & Hcase).
  destruct (isAdmin env req w) as [oa wa] eqn:Ea. cbn [fst snd] in Hsnd, Hcase. subst wa.
  unfold fetch, catch, dispatch.
  destruct Hroute as [-> | ->].
  - unfold handlePostGet. run. rewrite Ea.
    destruct Hcase as [-> | ->]; cbv beta iota delta [negb].
    + destruct (Hload evA) as (r & -> & Hs). exists r. split; [reflexivity|exact Hs].
    + eexists. split; [reflexivity|]. cbn. lia.
  - unfold handlePostView. run. rewrite Ea.
    destruct Hcase as [-> | ->].
    + destruct (Hload evA) as (r & -> & Hs). exists r. split; [reflexivity|exact Hs].
    + destruct (parsedBody req) as [b|]; [|eexists; split; [reflexivity|cbn; lia]].
      destruct (falsy b); [eexists; split; [reflexivity|cbn; lia]|].
      destruct (isEmpty (strField b "password")); [eexists; split; [reflexivity|cbn; lia]|].
      rewrite selectPost_run.
      destruct (outage env Posts Select) as [detail|];
        [eexists; split; [reflexivity|cbn; lia]|].
      change (db (logged w evA)) with (db w). rewrite Hnone.
      eexists; split; [reflexivity|cbn; lia].
Qed.

Lemma filter_filter_negb {A : Type} (f : A -> bool) (l : list A) :
  List.filter f (List.filter (fun x => negb (f x)) l) = [].
Proof.
  induction l as [|x l IH]; [reflexivity|]. simpl.
  destruct (f x) eqn:E; simpl; [exact IH|]. now rewrite E.
Qed.

End WorkerAbsent.

(** A [DELETE] on a request whose cookies are read, the write naming
    the rows of the id: it is answered, and it changes the tables only when
    it answers 200.  It then removes exactly the posts with the asked id
    and exactly the view tokens issued for it; the other posts, the other
    tokens and the admin sessions stay as they were.  After that no token
    passes the view-token check of that id, and neither the view exchange
    nor the admin's [GET] shows a post for it. *)
Lemma delete_removes_rows (web : Worker.WebCrypto) (env : Worker.Env)
    (pid : string) (req : Worker.Request) (w : Worker.World) :
  let out := Worker.fetch env (Worker.PostDelete pid) req w in
  exists r : Response,
    fst out = Ret r
    /\ ((status r = 200
         /\ Worker.posts (Worker.db (snd out))
            = List.filter (fun p => negb (String.eqb (Worker.id p) pid))
                          (Worker.posts (Worker.db w))
         /\ Worker.view_tokens (Worker.db (snd out))
            = List.filter (fun t => negb (String.eqb (Worker.vt_post_id t) pid))
                          (Worker.view_tokens (Worker.db w))
         /\ Worker.admin_sessions (Worker.db (snd out))
            = Worker.admin_sessions (Worker.db w)
         /\ (forall (env' : Worker.Env) (viewToken : string),
               fst (Worker.viewTokenAuthorized env' pid viewToken (snd out)) = Ret false)
         /\ (forall (env' : Worker.Env) (req' : Worker.Request) (route : Worker.Route),
               route = Worker.PostGet pid \/ route = Worker.PostView pid ->
               exists r', fst (Worker.fetch env' route req' (snd out)) = Ret r'
                          /\ status r' <> 200))
        \/ (status r <> 200 /\ Worker.db (snd out) = Worker.db w)).
Proof.
  intros out.
  destruct (Worker.parsedBody req) as [b|] eqn:Hb.
  2:{ exists (Worker.send 400 (Worker.errorBody "Invalid JSON")). unfold out.
      rewrite (fetch_mutation_unparsed env (Worker.PostDelete pid) pid req w)
        by (auto; now rewrite Hb).
      split; [reflexivity|]. right. split; [cbn; lia | reflexivity]. }
  destruct (falsy b) eqn:Hf.
  { exists (Worker.send 400 (Worker.errorBody "Invalid JSON")). unfold out.
    rewrite (fetch_mutation_unparsed env (Worker.PostDelete pid) pid req w)
      by (auto; now rewrite Hb).
    split; [reflexivity|]. right. split; [cbn; lia | reflexivity]. }
  destruct (fetch_mutation_outcome env b (Worker.PostDelete pid) pid Worker.Delete
              (Worker.applyDelete env pid) req w (Worker.MutationDelete env b pid) Hb Hf)
    as (r & evs & Hr & Hcases).
  exists r. split; [exact Hr|].
  destruct Hcases as [(-> & Hup & Hdb)|[Hs Hd]]; [left|right; auto].
  fold out in Hdb. rewrite applyDelete_run, Hup in Hdb. cbn [snd Worker.db] in Hdb.
  change (Worker.db (Worker.logged w evs)) with (Worker.db w) in Hdb.
  rewrite Hdb. cbn [Worker.posts Worker.view_tokens Worker.admin_sessions].
  split; [reflexivity|]. repeat split.
  - intros env' vt. rewrite viewTokenAuthorized_run.
    destruct (Worker.splitToken (Some vt)) as [parts|]; [|reflexivity].
    cbn [fst]. unfold Worker.answeringViewToken.
    destruct (Worker.outage env' Worker.ViewTokens Worker.Select); [reflexivity|].
    rewrite Hdb. cbn [Worker.view_tokens].
    rewrite filter_none; [reflexivity|].
    intros t Ht. apply List.filter_In in Ht as [_ Ht]. unfold Worker.viewTokenFilter.
    apply negb_true_iff in Ht. now rewrite Ht.
  - intros env' req' route Hroute. apply (shown_absent env' pid route req'); [exact Hroute|].
    rewrite Hdb. cbn [Worker.posts].
    apply (filter_filter_negb (fun p => String.eqb (Worker.id p) pid)).
Qed.

(** X7.  In the Worker every [DELETE] whose path segment is a plain id
    (an id in which [URLSearchParams] escapes nothing, as every uuid: the
    write sends the segment unescaped, so for these ids it names the rows
    the checks name) is answered, and it changes the tables only when it
    answers 200.  It then removes exactly the posts with the asked id and,
    through the cascade of the schema, exactly the view tokens issued for
    it; the other posts, the other tokens and the admin sessions stay as
    they were.  After that no token passes the view-token check of that
    id, and neither the view exchange nor the admin's [GET] shows a post
    for it, whatever cookies the later request carries.  A [DELETE] whose
    [Cookie] header does not parse is among those that change nothing. *)
Theorem delete_removes_post_and_tokens (web : Worker.WebCrypto)
    (decoder : Cookies.UriDecoder) (raw : WorkerWire.RawWrites) (env : Worker.Env)
    (pid : string) (req : WorkerWire.Request) (w : Worker.World) :
  Addressing.plainId pid = true ->
  let out := WorkerWire.fetch env (Worker.PostDelete pid) req w in
  exists r : Response,
    fst out = Ret r
    /\ ((status r = 200
         /\ Worker.posts (Worker.db (snd out))
            = List.filter (fun p => negb (String.eqb (Worker.id p) pid))
                          (Worker.posts (Worker.db w))
         /\ Worker.view_tokens (Worker.db (snd out))
            = List.filter (fun t => negb (String.eqb (Worker.vt_post_id t) pid))
                          (Worker.view_tokens (Worker.db w))
         /\ Worker.admin_sessions (Worker.db (snd out))
            = Worker.admin_sessions (Worker.db w)
         /\ (forall (env' : Worker.Env) (viewToken : string),
               fst (Worker.viewTokenAuthorized env' pid viewToken (snd out)) = Ret false)
         /\ (forall (env' : Worker.Env) (req' : WorkerWire.Request) (route : Worker.Route),
               route = Worker.PostGet pid \/ route = Worker.PostView pid ->
               exists r', fst (WorkerWire.fetch env' route req' (snd out)) = Ret r'
                          /\ status r' <> 200))
        \/ (status r <> 200 /\ Worker.db (snd out) = Worker.db w)).
Proof.
  intros Hplain out.
  destruct (Cookies.workerParseCookies (WorkerWire.cookieHeader req)) as [cookies|m]
    eqn:Hparse.
  - assert (Hout : out = Worker.fetch env (Worker.PostDelete pid)
                           (WorkerWire.parsed req cookies) w)
      by (apply wire_fetch_parsed; [exact Hparse | exact Hplain]).
    destruct (delete_removes_rows web env pid (WorkerWire.parsed req cookies) w)
      as (r & Hr & Hcases).
    rewrite Hout. exists r. split; [exact Hr|].
    destruct Hcases as [(Hs & Hp & Hv & Ha & Htok & Hshown)|Hsame]; [left|right; exact Hsame].
    split; [exact Hs|]. split; [exact Hp|]. split; [exact Hv|]. split; [exact Ha|].
    split; [exact Htok|].
    intros env' req' route Hroute.
    destruct (Cookies.workerParseCookies (WorkerWire.cookieHeader req')) as [cookies'|m']
      eqn:Hparse'.
    + rewrite (wire_fetch_parsed env' route req' cookies' _ Hparse')
        by (destruct Hroute as [-> | ->]; reflexivity).
      exact (Hshown env' (WorkerWire.parsed req' cookies') route Hroute).
    + rewrite (wire_fetch_raises env' route req' m' _ Hparse')
        by (destruct Hroute as [-> | ->]; exact I).
      eexists. split; [reflexivity|]. cbn. lia.
  - destruct (wire_fetch_raises_refused env (Worker.PostDelete pid) req m w Hparse)
      as (r & Hr & Hs); [discriminate | discriminate |].
    fold out in Hr. rewrite Hr. exists r. split; [reflexivity|]. right.
    split; [exact Hs | reflexivity].
Qed.

Lemma delete_removes_post_and_tokens_witness :
  Worker.posts (Worker.db (snd
    (WorkerWire.fetch (rt := Sample.web) (decoder := SampleCookies.decoder)
       (raw := SampleWire.rawWrites) Sample.webEnv (Worker.PostDelete "p1")
       (SampleWire.request None (Some (JObj [("password", JStr "swordfish")])))
       (Sample.webWorldWith [] [] [Sample.webPost])))) = [].
Proof.
  destruct (delete_removes_post_and_tokens Sample.web SampleCookies.decoder
              SampleWire.rawWrites Sample.webEnv "p1"
              (SampleWire.request None (Some (JObj [("password", JStr "swordfish")])))
              (Sample.webWorldWith [] [] [Sample.webPost]) eq_refl)
    as (r & Hr & [(_ & Hposts & _)|(Hs & _)]).
  - exact Hposts.
  - apply JsFacts.Ret_inj in Hr. subst r. exfalso. apply Hs. reflexivity.
Defined.

(** The write of a segment that is no plain id, run on a back end that
    decodes escapes: an admin's [DELETE] of [%701] removes the post [p1],
    while the checks of a caller who is no admin look for a post named
    [%701] and find none. *)
Example escaped_segment_names_another_post :
  let w := Sample.webWorldWith [Sample.adminRow 2000] [] [Sample.webPost] in
  let delete header :=
    WorkerWire.fetch (rt := Sample.web) (decoder := SampleCookies.decoder)
      (raw := SampleWire.rawWrites) Sample.webEnv (Worker.PostDelete "%701")
      (SampleWire.request header (Some (JObj [("password", JStr "swordfish")]))) w in
  fst (delete (Some SampleWire.adminHeader)) = Ret (Worker.send 200 Worker.okBody)
  /\ Worker.posts (Worker.db (snd (delete (Some SampleWire.adminHeader)))) = []
  /\ fst (delete None) = Ret (Worker.send 404 (Worker.errorBody "Not found"))
  /\ Worker.posts (Worker.db (snd (delete None))) = [Sample.webPost].
Proof. vm_compute. repeat split; reflexivity. Qed.

(** A [PUT] on a request whose cookies are read, the write naming the
    rows of the id: it is answered, and whatever it answers the posts keep
    their order, ids, authors, credential records and creation times, and
    the view tokens and admin sessions are untouched.  When it answers 200,
    each post with the asked id carries the trimmed title and content of
    the request and the time of the request as update time; with any other
    answer the tables are unchanged. *)
Lemma edit_keeps_rows (web : Worker.WebCrypto) (env : Worker.Env)
    (pid : string) (req : Worker.Request) (w : Worker.World) :
  let out := Worker.fetch env (Worker.PostPut pid) req w in
  map Worker.id (Worker.posts (Worker.db (snd out)))
  = map Worker.id (Worker.posts (Worker.db w))
  /\ map Worker.author (Worker.posts (Worker.db (snd out)))
     = map Worker.author (Worker.posts (Worker.db w))
  /\ map Worker.pw (Worker.posts (Worker.db (snd out)))
     = map Worker.pw (Worker.posts (Worker.db w))
  /\ map Worker.created_at (Worker.posts (Worker.db (snd out)))
     = map Worker.created_at (Worker.posts (Worker.db w))
  /\ Worker.view_tokens (Worker.db (snd out)) = Worker.view_tokens (Worker.db w)
  /\ Worker.admin_sessions (Worker.db (snd out)) = Worker.admin_sessions (Worker.db w)
  /\ exists r : Response,
       fst out = Ret r
       /\ (status r <> 200 -> Worker.db (snd out) = Worker.db w)
       /\ (status r = 200 ->
           exists b : json,
             Worker.parsedBody req = Some b
             /\ Worker.posts (Worker.db (snd out))
                = map (fun p => if String.eqb (Worker.id p) pid
                                then Worker.patched env (trim (strField b "title"))
                                                    (trim (strField b "content")) p
                                else p)
                      (Worker.posts (Worker.db w))).
Proof.
  intros out.
  assert (Hcore : exists r : Response,
            fst out = Ret r
            /\ ((status r = 200
                 /\ exists b : json,
                      Worker.parsedBody req = Some b
                      /\ Worker.db (snd out)
                         = {| Worker.posts :=
                                map (fun p => if String.eqb (Worker.id p) pid
                                              then Worker.patched env
                                                     (trim (strField b "title"))
                                                     (trim (strField b "content")) p
                                              else p)
                                    (Worker.posts (Worker.db w));
                              Worker.view_tokens := Worker.view_tokens (Worker.db w);
                              Worker.admin_sessions := Worker.admin_sessions (Worker.db w) |})
                \/ (status r <> 200 /\ Worker.db (snd out) = Worker.db w))).
  { destruct (Worker.parsedBody req) as [b|] eqn:Hb.
    2:{ exists (Worker.send 400 (Worker.errorBody "Invalid JSON")). unfold out.
        rewrite (fetch_mutation_unparsed env (Worker.PostPut pid) pid req w)
          by (auto; now rewrite Hb).
        split; [reflexivity|]. right. split; [cbn; lia | reflexivity]. }
    destruct (falsy b) eqn:Hf.
    { exists (Worker.send 400 (Worker.errorBody "Invalid JSON")). unfold out.
      rewrite (fetch_mutation_unparsed env (Worker.PostPut pid) pid req w)
        by (auto; now rewrite Hb).
      split; [reflexivity|]. right. split; [cbn; lia | reflexivity]. }
    destruct (isEmpty (trim (strField b "title"))) eqn:Ht.
    { exists (Worker.send 400 (Worker.errorBody "Missing fields")). unfold out.
      unfold Worker.fetch, Worker.catch, Worker.dispatch, Worker.handlePostPut.
      rewrite Hb, Hf, Ht. split; [reflexivity|]. right. split; [cbn; lia | reflexivity]. }
    destruct (isEmpty (trim (strField b "content"))) eqn:Hc.
    { exists (Worker.send 400 (Worker.errorBody "Missing fields")). unfold out.
      unfold Worker.fetch, Worker.catch, Worker.dispatch, Worker.handlePostPut.
      rewrite Hb, Hf, Ht, Hc. split; [reflexivity|]. right.
      split; [cbn; lia | reflexivity]. }
    destruct (fetch_mutation_outcome env b (Worker.PostPut pid) pid Worker.Patch _ req w
                (Worker.MutationPut env b pid Ht Hc) Hb Hf)
      as (r & evs & Hr & Hcases).
    exists r. split; [exact Hr|].
    destruct Hcases as [(-> & Hup & Hdb)|[Hs Hd]]; [left|right; auto].
    split; [reflexivity|]. exists b. split; [reflexivity|].
    fold out in Hdb. rewrite applyUpdate_run, Hup in Hdb. exact Hdb. }
  destruct Hcore as (r & Hr & Hcases).
  assert (Hkeep : forall (A : Type) (f : Worker.PostRow -> A) (t c : string)
                         (l : list Worker.PostRow),
            (forall p, f (Worker.patched env t c p) = f p) ->
            map f (map (fun p => if String.eqb (Worker.id p) pid
                                 then Worker.patched env t c p else p) l)
            = map f l).
  { intros A f t c l Hf. rewrite List.map_map. apply List.map_ext.
    intros p. destruct (String.eqb _ _); [apply Hf | reflexivity]. }
  destruct Hcases as [(Hs & b & Hb & Hdb)|(Hs & Hdb)]; rewrite Hdb;
    cbn [Worker.posts Worker.view_tokens Worker.admin_sessions].
  - rewrite !Hkeep by reflexivity. repeat split.
    exists r. split; [exact Hr|]. split; [intros Hne; contradiction|].
    intros _. exists b. split; [exact Hb | reflexivity].
  - repeat split. exists r. split; [exact Hr|]. split; [reflexivity|].
    intros H200. contradiction.
Qed.

(** X8.  In the Worker every [PUT] whose path segment is a plain id (an
    id in which [URLSearchParams] escapes nothing, as every uuid: the
    write sends the segment unescaped, so for these ids it names the rows
    the checks name) is answered, and whatever it answers the posts keep
    their order, ids, authors, credential records and creation times, and
    the view tokens and admin sessions are untouched: an edit can change
    titles, contents and update times only.  When it answers 200, the
    posts with another id are exactly as before and each post with the
    asked id carries the trimmed title and content of the request and the
    time of the request as update time; with any other answer, as when
    the [Cookie] header does not parse, the tables are unchanged. *)
Theorem edit_keeps_identity_and_credentials (web : Worker.WebCrypto)
    (decoder : Cookies.UriDecoder) (raw : WorkerWire.RawWrites) (env : Worker.Env)
    (pid : string) (req : WorkerWire.Request) (w : Worker.World) :
  Addressing.plainId pid = true ->
  let out := WorkerWire.fetch env (Worker.PostPut pid) req w in
  map Worker.id (Worker.posts (Worker.db (snd out)))
  = map Worker.id (Worker.posts (Worker.db w))
  /\ map Worker.author (Worker.posts (Worker.db (snd out)))
     = map Worker.author (Worker.posts (Worker.db w))
  /\ map Worker.pw (Worker.posts (Worker.db (snd out)))
     = map Worker.pw (Worker.posts (Worker.db w))
  /\ map Worker.created_at (Worker.posts (Worker.db (snd out)))
     = map Worker.created_at (Worker.posts (Worker.db w))
  /\ Worker.view_tokens (Worker.db (snd out)) = Worker.view_tokens (Worker.db w)
  /\ Worker.admin_sessions (Worker.db (snd out)) = Worker.admin_sessions (Worker.db w)
  /\ exists r : Response,
       fst out = Ret r
       /\ (status r <> 200 -> Worker.db (snd out) = Worker.db w)
       /\ (status r = 200 ->
           exists b : json,
             WorkerWire.parsedBody req = Some b
             /\ Worker.posts (Worker.db (snd out))
                = map (fun p => if String.eqb (Worker.id p) pid
                                then Worker.patched env (trim (strField b "title"))
                                                    (trim (strField b "content")) p
                                else p)
                      (Worker.posts (Worker.db w))).
Proof.
  intros Hplain out.
  destruct (Cookies.workerParseCookies (WorkerWire.cookieHeader req)) as [cookies|m]
    eqn:Hparse.
  - assert (Hout : out = Worker.fetch env (Worker.PostPut pid)
                           (WorkerWire.parsed req cookies) w)
      by (apply wire_fetch_parsed; [exact Hparse | exact Hplain]).
    rewrite Hout. exact (edit_keeps_rows web env pid (WorkerWire.parsed req cookies) w).
  - destruct (wire_fetch_raises_refused env (Worker.PostPut pid) req m w Hparse)
      as (r & Hr & Hs); [discriminate | discriminate |].
    fold out in Hr. rewrite Hr. cbn [fst snd]. repeat (split; [reflexivity|]).
    exists r. split; [reflexivity|]. split; [reflexivity|]. intros H200. contradiction.
Qed.

Lemma edit_keeps_identity_and_credentials_witness :
  map Worker.pw (Worker.posts (Worker.db (snd
    (WorkerWire.fetch (rt := Sample.web) (decoder := SampleCookies.decoder)
       (raw := SampleWire.rawWrites) Sample.webEnv (Worker.PostPut "p1")
       (SampleWire.request None (Some (Sample.putBody "swordfish" "")))
       (Sample.webWorldWith [] [] [Sample.webPost])))))
  = [Sample.webRecord].
Proof.
  exact (proj1 (proj2 (proj2
           (edit_keeps_identity_and_credentials Sample.web SampleCookies.decoder
              SampleWire.rawWrites Sample.webEnv "p1"
              (SampleWire.request None (Some (Sample.putBody "swordfish" "")))
              (Sample.webWorldWith [] [] [Sample.webPost]) eq_refl)))).
Defined.

(** *** What a mutation leaves in the data file of the local server *)

Section LocalOutcomes.
Context `{rt : LocalServer.NodeRuntime}.
Import LocalServer JsFacts.

Lemma findIndex_lookup (pid : string) (ps : list Post) (idx : nat) (post : Post) :
  findIndex pid ps = Some (idx, post) -> ps !! idx = Some post /\ id post = pid.
Proof.
  revert idx. induction ps as [|p ps IH]; intros idx; [discriminate|]. simpl.
  destruct (String.eqb_spec (id p) pid) as [Heq|Hne].
  - intros H. apply Some_inj in H. apply pair_equal_spec in H as [<- <-]. auto.
  - destruct (findIndex pid ps) as [[i q]|]; [|discriminate].
    intros H. apply Some_inj in H. apply pair_equal_spec in H as [<- <-].
    now apply IH.
Qed.

(** A well-formed [PUT] or [DELETE] on a post of the data file either runs
    the tail of its handler, which answers 200, or leaves the data file as
    it was and answers 401 or raises. *)
Lemma route_mutation_outcome (env : Env) (b : Json.json) (r : Route) (pid : string)
    (post : Post) (tail : M (option Response)) (req : Request) (w : World) :
  Mutation env b (data w) r pid post tail ->
  parsedBody req = Some b ->
  b <> JNull ->
  (exists w', route env r req w = tail w')
  \/ (data (snd (route env r req w)) = data w
      /\ forall res, fst (route env r req w) = Ret (Some res) -> status res = 401).
Proof.
  intros Hm Hb Hnull. rewrite (route_mutation_run env b r pid post tail req w Hm Hb Hnull).
  cbv zeta.
  destruct (isAdmin env (arriving w) req); [left; eexists; reflexivity|].
  destruct (sessionVerified _ pid || sessionTokenOk _ pid _); [left; eexists; reflexivity|].
  destruct (isEmpty (strField b "password")).
  { right. split; [reflexivity|]. intros res H. apply Ret_inj, Some_inj in H. now subst. }
  rewrite node_verifyPassword_run.
  destruct (pbkdf2Sync _ _ _ _ _) as [derived|m]; [|right; split; [reflexivity|discriminate]].
  destruct (bytesEqual _ _).
  - destruct (unlock_spec env req pid (logged (arriving w) [Derive]))
      as (sid & tk & s & w' & Hrun & _).
    rewrite Hrun. left. eexists; reflexivity.
  - right. split; [reflexivity|]. intros res H. apply Ret_inj, Some_inj in H. now subst.
Qed.

End LocalOutcomes.

(** X9.  In the local server a [PUT] or [DELETE] changes the data file
    only when it answers 200; when it answers anything else, answers
    nothing or raises, the posts are as before.  A [PUT] that answers 200
    replaces the first post with the asked id by its edited form (trimmed
    title and content of the request, the time of the request as update
    time), and whatever a [PUT] does the posts keep their order, ids,
    authors, credential records and creation times.  A [DELETE] that
    answers 200 removes the first post with the asked id and no other. *)
Theorem local_mutation_effect (node : LocalServer.NodeRuntime) (env : LocalServer.Env)
    (pid : string) (req : LocalServer.Request) (w : LocalServer.World) :
  let answers200 (out : Outcome (option Response) * LocalServer.World) :=
    exists res, fst out = Ret (Some res) /\ status res = 200 in
  (let out := LocalServer.route env (LocalServer.PostPut pid) req w in
   map LocalServer.id (LocalServer.data (snd out)) = map LocalServer.id (LocalServer.data w)
   /\ map LocalServer.author (LocalServer.data (snd out))
      = map LocalServer.author (LocalServer.data w)
   /\ map LocalServer.password (LocalServer.data (snd out))
      = map LocalServer.password (LocalServer.data w)
   /\ map LocalServer.createdAt (LocalServer.data (snd out))
      = map LocalServer.createdAt (LocalServer.data w)
   /\ (answers200 out ->
       exists (b : json) (idx : nat) (post : LocalServer.Post),
         LocalServer.parsedBody req = Some b
         /\ LocalServer.findIndex pid (LocalServer.data w) = Some (idx, post)
         /\ LocalServer.data (snd out)
            = <[idx := LocalServer.edited env (trim (strField b "title"))
                                          (trim (strField b "content")) post]>
                (LocalServer.data w))
   /\ (~ answers200 out -> LocalServer.data (snd out) = LocalServer.data w))
  /\ (let out := LocalServer.route env (LocalServer.PostDelete pid) req w in
      (answers200 out ->
       exists (idx : nat) (post : LocalServer.Post),
         LocalServer.findIndex pid (LocalServer.data w) = Some (idx, post)
         /\ LocalServer.data (snd out) = delete idx (LocalServer.data w))
      /\ (~ answers200 out -> LocalServer.data (snd out) = LocalServer.data w)).
Proof.
  intros answers200.
  assert (Hput : let out := LocalServer.route env (LocalServer.PostPut pid) req w in
            (answers200 out
             /\ exists (b : json) (idx : nat) (post : LocalServer.Post),
                  LocalServer.parsedBody req = Some b
                  /\ LocalServer.findIndex pid (LocalServer.data w) = Some (idx, post)
                  /\ LocalServer.data (snd out)
                     = <[idx := LocalServer.edited env (trim (strField b "title"))
                                                   (trim (strField b "content")) post]>
                         (LocalServer.data w))
            \/ (~ answers200 out /\ LocalServer.data (snd out) = LocalServer.data w)).
  { cbv zeta.
    assert (Hno : forall (o : Outcome (option Response)) (w' : LocalServer.World),
              (forall res, o = Ret (Some res) -> status res <> 200) ->
              ~ answers200 (o, w')).
    { intros o w' H (res & Hres & Hs). exact (H res Hres Hs). }
    destruct (LocalServer.parsedBody req) as [b|] eqn:Hb.
    2:{ right. unfold LocalServer.route, LocalServer.handlePostPut. run. rewrite Hb.
        split; [|reflexivity]. apply Hno. intros res H.
        apply JsFacts.Ret_inj, JsFacts.Some_inj in H. subst res. cbn. lia. }
    assert (Hnull : b = JNull \/ b <> JNull) by (destruct b; auto; right; discriminate).
    destruct Hnull as [->|Hnull].
    { right. unfold LocalServer.route, LocalServer.handlePostPut. run. rewrite Hb.
      split; [|reflexivity]. apply Hno. intros res H. discriminate. }
    destruct (isEmpty (trim (strField b "title")) || isEmpty (trim (strField b "content")))
      eqn:Hfields.
    { right. unfold LocalServer.route, LocalServer.handlePostPut. run. rewrite Hb.
      destruct b; try contradiction; rewrite Hfields;
        (split; [|reflexivity]); apply Hno; intros res H;
        apply JsFacts.Ret_inj, JsFacts.Some_inj in H; subst res; cbn; lia. }
    apply orb_false_iff in Hfields as [Ht Hc].
    destruct (LocalServer.findIndex pid (LocalServer.data w)) as [[idx post]|] eqn:Hfind.
    2:{ right. unfold LocalServer.route, LocalServer.handlePostPut. run. rewrite Hb.
        destruct b; try contradiction; rewrite Ht, Hc; cbv beta iota delta [orb];
          change (LocalServer.data (LocalServer.arriving w)) with (LocalServer.data w);
          rewrite Hfind; (split; [|reflexivity]); apply Hno; intros res H;
          apply JsFacts.Ret_inj, JsFacts.Some_inj in H; subst res; cbn; lia. }
    destruct (route_mutation_outcome env b (LocalServer.PostPut pid) pid post _ req w
                (LocalServer.MutationPut env b (LocalServer.data w) pid idx post Ht Hc Hfind)
                Hb Hnull) as [(w' & ->)|(Hdata & Hst)].
    - left. split; [eexists; split; reflexivity|].
      exists b, idx, post. repeat split; reflexivity.
    - right. split; [|exact Hdata]. intros (res & Hres & Hs).
      rewrite (Hst res Hres) in Hs. discriminate. }
  assert (Hdel : let out := LocalServer.route env (LocalServer.PostDelete pid) req w in
            (answers200 out
             /\ exists (idx : nat) (post : LocalServer.Post),
                  LocalServer.findIndex pid (LocalServer.data w) = Some (idx, post)
                  /\ LocalServer.data (snd out) = delete idx (LocalServer.data w))
            \/ (~ answers200 out /\ LocalServer.data (snd out) = LocalServer.data w)).
  { cbv zeta.
    assert (Hno : forall (o : Outcome (option Response)) (w' : LocalServer.World),
              (forall res, o = Ret (Some res) -> status res <> 200) ->
              ~ answers200 (o, w')).
    { intros o w' H (res & Hres & Hs). exact (H res Hres Hs). }
    destruct (LocalServer.parsedBody req) as [b|] eqn:Hb.
    2:{ right. unfold LocalServer.route, LocalServer.handlePostDelete. run. rewrite Hb.
        split; [|reflexivity]. apply Hno. intros res H.
        apply JsFacts.Ret_inj, JsFacts.Some_inj in H. subst res. cbn. lia. }
    assert (Hnull : b = JNull \/ b <> JNull) by (destruct b; auto; right; discriminate).
    destruct Hnull as [->|Hnull].
    { right. unfold LocalServer.route, LocalServer.handlePostDelete. run. rewrite Hb.
      split; [|reflexivity]. apply Hno. intros res H. discriminate. }
    destruct (LocalServer.findIndex pid (LocalServer.data w)) as [[idx post]|] eqn:Hfind.
    2:{ right. unfold LocalServer.route, LocalServer.handlePostDelete. run. rewrite Hb.
        destruct b; try contradiction;
          change (LocalServer.data (LocalServer.arriving w)) with (LocalServer.data w);
          rewrite Hfind; (split; [|reflexivity]); apply Hno; intros res H;
          apply JsFacts.Ret_inj, JsFacts.Some_inj in H; subst res; cbn; lia. }
    destruct (route_mutation_outcome env b (LocalServer.PostDelete pid) pid post _ req w
                (LocalServer.MutationDelete env b (LocalServer.data w) pid idx post Hfind)
                Hb Hnull) as [(w' & ->)|(Hdata & Hst)].
    - left. split; [eexists; split; reflexivity|].
      exists idx, post. repeat split; reflexivity.
    - right. split; [|exact Hdata]. intros (res & Hres & Hs).
      rewrite (Hst res Hres) in Hs. discriminate. }
  cbv zeta in *. split.
  - assert (Hkeep : forall (A : Type) (f : LocalServer.Post -> A),
              (forall t c p, f (LocalServer.edited env t c p) = f p) ->
              map f (LocalServer.data
                       (snd (LocalServer.route env (LocalServer.PostPut pid) req w)))
              = map f (LocalServer.data w)).
    { intros A f Hf. destruct Hput as [(_ & b & idx & post & _ & Hfind & ->)|(_ & ->)];
        [|reflexivity].
      apply findIndex_lookup in Hfind as [Hlook _].
      change (map f) with (fmap (M := list) f).
      rewrite list_fmap_insert, Hf. apply list_insert_id.
      now rewrite list_lookup_fmap, Hlook. }
    repeat split; try (apply Hkeep; reflexivity).
    + intros H200. destruct Hput as [(_ & Hex)|(Hn & _)]; [exact Hex | contradiction].
    + intros Hn. destruct Hput as [(H200 & _)|(_ & Hd)]; [contradiction | exact Hd].
  - split.
    + intros H200. destruct Hdel as [(_ & Hex)|(Hn & _)]; [exact Hex | contradiction].
    + intros Hn. destruct Hdel as [(H200 & _)|(_ & Hd)]; [contradiction | exact Hd].
Qed.

(** *** The hex decoders of the two servers *)

Section HexDecoders.
Import Worker LocalServer JsFacts WorkerFacts.

Lemma hexDigitValue_cases (c : ascii) (v : Z) :
  hexDigitValue c = Some v ->
  In (c, v) [("0", 0); ("1", 1); ("2", 2); ("3", 3); ("4", 4); ("5", 5); ("6", 6);
             ("7", 7); ("8", 8); ("9", 9); ("a", 10); ("b", 11); ("c", 12); ("d", 13);
             ("e", 14); ("f", 15); ("A", 10); ("B", 11); ("C", 12); ("D", 13);
             ("E", 14); ("F", 15)]%char.
Proof.
  destruct c as [[] [] [] [] [] [] [] []]; intros H; try discriminate H;
    apply Some_inj in H; subst v; simpl; tauto.
Qed.

(** On a pair of hex digits [parseInt] reads both: no white space, sign or
    [0x] prefix can start with a hex digit followed by one. *)
Lemma parse_hex_pair (a b : ascii) (hi lo : Z) :
  hexDigitValue a = Some hi ->
  hexDigitValue b = Some lo ->
  parseInt16 (String a (String b EmptyString)) = Some (16 * hi + lo).
Proof.
  intros Ha Hb. apply hexDigitValue_cases in Ha, Hb.
  repeat (destruct Ha as [Ha|Ha]; [apply pair_equal_spec in Ha as [<- <-]|]);
    try contradiction;
    repeat (destruct Hb as [Hb|Hb]; [apply pair_equal_spec in Hb as [<- <-]; reflexivity|]);
    contradiction.
Qed.

Lemma isHexString_pair (a b : ascii) (rest : string) :
  isHexString (String a (String b rest)) = true ->
  exists hi lo, hexDigitValue a = Some hi /\ hexDigitValue b = Some lo
                /\ isHexString rest = true.
Proof.
  change (isHexString (String a (String b rest)))
    with (bool_decide (is_Some (hexDigitValue a)) && bool_decide (is_Some (hexDigitValue b))
          && isHexString rest).
  intros H. apply andb_true_iff in H as [H Hrest]. apply andb_true_iff in H as [Ha Hb].
  apply bool_decide_eq_true_1 in Ha as [hi Ha], Hb as [lo Hb]. eauto.
Qed.

(** Induction over a string two characters at a time. *)
Lemma string_pair_ind (P : string -> Prop) :
  P EmptyString ->
  (forall a, P (String a EmptyString)) ->
  (forall a b rest, P rest -> P (String a (String b rest))) ->
  forall s, P s.
Proof.
  intros H0 H1 H2.
  assert (H : forall s, P s /\ forall a, P (String a s)).
  { induction s as [|c s [IHs IHc]]; split; auto. }
  intros s. apply H.
Qed.

End HexDecoders.

(** X10.  The two servers decode hex differently, the Worker pair by pair
    with [parseInt] and the local server with [Buffer.from], yet on every
    string made of pairs of hex digits they give the same bytes, one per
    pair; so each decodes what the other's encoder writes.  On any other
    string the local decoder stops at the first pair that is not hex,
    while the Worker goes on: the local result is always a prefix of the
    Worker's. *)
Theorem hex_decoders_agree :
  (forall s : string,
     isHexString s = true ->
     Worker.hexToBytes s = LocalServer.bufferFromHex s
     /\ (2 * length (Worker.hexToBytes s))%nat = String.length s)
  /\ (forall s : string,
        exists more : list byte,
          Worker.hexToBytes s = LocalServer.bufferFromHex s ++ more)
  /\ (forall bs : list byte,
        Worker.hexToBytes (LocalServer.bufferToHex bs) = bs
        /\ LocalServer.bufferFromHex (Worker.bytesToHex bs) = bs).
Proof.
  split; [|split].
  - intros s. induction s as [| a | a b rest IH] using string_pair_ind.
    + intros _. split; reflexivity.
    + discriminate.
    + intros H. apply isHexString_pair in H as (hi & lo & Ha & Hb & Hrest).
      destruct (IH Hrest) as [IHeq IHlen].
      rewrite WorkerFacts.hexToBytes_pair, (parse_hex_pair a b hi lo Ha Hb).
      change (LocalServer.bufferFromHex (String a (String b rest)))
        with (match hexDigitValue a, hexDigitValue b with
              | Some hi, Some lo =>
                  toUint8 (Some (16 * hi + lo)) :: LocalServer.bufferFromHex rest
              | _, _ => []
              end).
      rewrite Ha, Hb, IHeq. split; [reflexivity|].
      rewrite <- IHeq. simpl. lia.
  - intros s. induction s as [| a | a b rest [more IH]] using string_pair_ind.
    + exists []. reflexivity.
    + exists []. reflexivity.
    + rewrite WorkerFacts.hexToBytes_pair.
      change (LocalServer.bufferFromHex (String a (String b rest)))
        with (match hexDigitValue a, hexDigitValue b with
              | Some hi, Some lo =>
                  toUint8 (Some (16 * hi + lo)) :: LocalServer.bufferFromHex rest
              | _, _ => []
              end).
      destruct (hexDigitValue a) as [hi|] eqn:Ha; [|eexists; reflexivity].
      destruct (hexDigitValue b) as [lo|] eqn:Hb; [|eexists; reflexivity].
      rewrite (parse_hex_pair a b hi lo Ha Hb), IH. exists more. reflexivity.
  - intros bs. split.
    + exact (WorkerFacts.hexToBytes_bytesToHex bs).
    + exact (bufferFromHex_bufferToHex bs).
Qed.

Lemma hex_decoders_agree_witness :
  Worker.hexToBytes "0aFf10" = LocalServer.bufferFromHex "0aFf10"
  /\ (2 * length (Worker.hexToBytes "0aFf10"))%nat = String.length "0aFf10".
Proof. exact (proj1 hex_decoders_agree "0aFf10" eq_refl). Defined.

(** X11.  The two constant-time comparisons decide equality.  The
    Worker's [safeEqualHex], which ORs together the XOR of the code units,
    answers true exactly for equal strings and never raises.  The local
    server's [timingSafeEqual] answers true exactly for equal buffers and
    raises exactly when the lengths differ, which is why [verifyPassword]
    wraps it in [try]. *)
Theorem comparisons_decide_equality :
  (forall a b : string, Worker.safeEqualHex a b = true <-> a = b)
  /\ (forall a b : list byte, LocalServer.timingSafeEqual a b = Ret true <-> a = b)
  /\ (forall a b : list byte,
        (exists m, LocalServer.timingSafeEqual a b = Throw m) <-> length a <> length b).
Proof.
  split; [exact WorkerFacts.safeEqualHex_true_iff|]. split.
  - intros a b. unfold LocalServer.timingSafeEqual.
    destruct (Nat.eqb_spec (length a) (length b)) as [Hlen|Hlen]; simpl.
    + rewrite <- bytesEqual_true_iff. split; [intros H; now apply JsFacts.Ret_inj in H|].
      now intros ->.
    + split; [discriminate | intros ->; contradiction].
  - intros a b. unfold LocalServer.timingSafeEqual.
    destruct (Nat.eqb_spec (length a) (length b)) as [Hlen|Hlen]; simpl.
    + split; [intros [m Hm]; discriminate | contradiction].
    + split; [auto | eexists; reflexivity].
Qed.

(** *** Where the rows of the Worker's credential tables come from *)

Section WorkerIssuance.
Context `{rt : Worker.WebCrypto}.
Import Worker WorkerFacts JsFacts.

Lemma loadPost_db (env : Env) (pid : string) (w : World) :
  exists r, fst (loadPost env pid w) = Ret r /\ db (snd (loadPost env pid w)) = db w.
Proof.
  unfold loadPost. run. rewrite selectPost_run.
  destruct (outage env Posts Select) as [detail|]; [eexists; split; reflexivity|].
  destruct (List.filter _ _) as [|row rest]; eexists; split; reflexivity.
Qed.

(** The view exchange leaves the tables as they are, unless the caller is
    not admin and the password verifies against the post: then it adds
    the row of the token it answers. *)
Lemma fetch_view_db (env : Env) (pid : string) (req : Request) (w : World) :
  db (snd (fetch env (PostView pid) req w)) = db w
  \/ exists (b : json) (row : PostRow) (others : list PostRow) (t : Token),
       fst (isAdmin env req w) = Ret false
       /\ parsedBody req = Some b
       /\ List.filter (fun p => String.eqb (id p) pid) (posts (db w)) = row :: others
       /\ fst (verifyPassword (strField b "password") (pw row) w) = Ret true
       /\ fst (makeToken (TOKEN_PEPPER env) w) = Ret t
       /\ db (snd (fetch env (PostView pid) req w))
          = {| posts := posts (db w);
               view_tokens := view_tokens (db w)
                              ++ [ {| vt_post_id := pid; vt_token_hash := hash t;
                                      vt_token_salt := salt t;
                                      vt_expires_at := now env + 60 * 60 * 1000 |} ];
               admin_sessions := admin_sessions (db w) |}.
Proof.
  destruct (isAdmin_events env req w) as (evA & _ & Hsnd & _ & Hcase).
  destruct Hcase as [Hadm|Hadm].
  - left. unfold fetch, catch, dispatch, handlePostView. run.
    destruct (isAdmin env req w) as [oa wa]. cbn [fst snd] in Hadm, Hsnd. subst oa wa.
    destruct (loadPost_db env pid (logged w evA)) as (r & Hr & Hdb).
    destruct (loadPost env pid (logged w evA)) as [o w']. cbn [fst snd] in *. now subst o.
  - destruct (parsedBody req) as [b|] eqn:Hb.
    2:{ left. unfold fetch, catch, dispatch, handlePostView. run.
        destruct (isAdmin env req w) as [oa wa]. cbn [fst snd] in Hadm, Hsnd. subst oa wa.
        rewrite Hb. reflexivity. }
    destruct (falsy b) eqn:Hf.
    { left. unfold fetch, catch, dispatch, handlePostView. run.
      destruct (isAdmin env req w) as [oa wa]. cbn [fst snd] in Hadm, Hsnd. subst oa wa.
      rewrite Hb, Hf. reflexivity. }
    destruct (isEmpty (strField b "password")) eqn:Hpw.
    { left. unfold fetch, catch, dispatch, handlePostView. run.
      destruct (isAdmin env req w) as [oa wa]. cbn [fst snd] in Hadm, Hsnd. subst oa wa.
      rewrite Hb, Hf, Hpw. reflexivity. }
    destruct (outage env Posts Select) as [detail|] eqn:Hsel.
    { left. unfold fetch, catch, dispatch, handlePostView. run.
      destruct (isAdmin env req w) as [oa wa]. cbn [fst snd] in Hadm, Hsnd. subst oa wa.
      rewrite Hb, Hf, Hpw, selectPost_run, Hsel. reflexivity. }
    destruct (List.filter (fun p => String.eqb (id p) pid) (posts (db w)))
      as [|row others] eqn:Hrow.
    { left. unfold fetch, catch, dispatch, handlePostView. run.
      destruct (isAdmin env req w) as [oa wa]. cbn [fst snd] in Hadm, Hsnd. subst oa wa.
      rewrite Hb, Hf, Hpw, selectPost_run, Hsel.
      change (db (logged w evA)) with (db w). rewrite Hrow. reflexivity. }
    destruct (fst (verifyPassword (strField b "password") (pw row) w)) as [[|]|m] eqn:Hok.
    + destruct (handlePostView_granted env pid req b row others w Hadm Hb Hf Hpw Hsel
                  Hrow Hok) as (evA' & Hrun).
      cbv zeta in Hrun. unfold fetch, catch, dispatch. rewrite Hrun.
      destruct (outage env ViewTokens Insert) as [detail|]; [left; reflexivity|].
      right. exists b, row, others. eexists. repeat split; try reflexivity; assumption.
    + left. unfold fetch, catch, dispatch, handlePostView. run.
      destruct (isAdmin env req w) as [oa wa]. cbn [fst snd] in Hadm, Hsnd. subst oa wa.
      rewrite Hb, Hf, Hpw, selectPost_run, Hsel.
      change (db (logged w evA)) with (db w). rewrite Hrow. cbv beta iota delta [firstn].
      rewrite web_verifyPassword_run. rewrite web_verifyPassword_run in Hok.
      cbn [fst] in Hok. destruct (deriveBits _ _ _ _ _) as [bits|m]; [|discriminate].
      apply Ret_inj in Hok. rewrite Hok. reflexivity.
    + left. unfold fetch, catch, dispatch, handlePostView. run.
      destruct (isAdmin env req w) as [oa wa]. cbn [fst snd] in Hadm, Hsnd. subst oa wa.
      rewrite Hb, Hf, Hpw, selectPost_run, Hsel.
      change (db (logged w evA)) with (db w). rewrite Hrow. cbv beta iota delta [firstn].
      rewrite web_verifyPassword_run. rewrite web_verifyPassword_run in Hok.
      cbn [fst] in Hok. destruct (deriveBits _ _ _ _ _) as [bits|m']; [discriminate|].
      reflexivity.
Qed.

(** The three routes that only read. *)
Lemma fetch_read_db (env : Env) (route : Route) (req : Request) (w : World) :
  route = AdminMe \/ route = PostsList \/ (exists pid, route = PostGet pid) ->
  db (snd (fetch env route req w)) = db w.
Proof.
  destruct (isAdmin_events env req w) as (evA & _ & Hsnd & _ & Hcase).
  intros [->|[->|[pid ->]]]; unfold fetch, catch, dispatch.
  - unfold handleAdminMe. run.
    destruct (isAdmin env req w) as [oa wa]. cbn [fst snd] in Hcase, Hsnd. subst wa.
    destruct Hcase as [-> | ->]; reflexivity.
  - unfold handlePostsList, selectPosts. run. rewrite rest_run.
    destruct (outage env Posts Select); reflexivity.
  - unfold handlePostGet. run.
    destruct (isAdmin env req w) as [oa wa]. cbn [fst snd] in Hcase, Hsnd. subst wa.
    destruct Hcase as [-> | ->]; cbv beta iota delta [negb]; [|reflexivity].
    destruct (loadPost_db env pid (logged w evA)) as (r & Hr & Hdb).
    destruct (loadPost env pid (logged w evA)) as [o w']. cbn [fst snd] in *. now subst o.
Qed.

(** A [PUT] or [DELETE] adds nothing to the credential tables. *)
Lemma fetch_mutation_tables (env : Env) (route : Route) (pid : string) (req : Request)
    (w : World) :
  route = PostPut pid \/ route = PostDelete pid ->
  admin_sessions (db (snd (fetch env route req w))) = admin_sessions (db w)
  /\ List.incl (view_tokens (db (snd (fetch env route req w)))) (view_tokens (db w)).
Proof.
  intros Hroute.
  assert (Hsame : db (snd (fetch env route req w)) = db w ->
            admin_sessions (db (snd (fetch env route req w))) = admin_sessions (db w)
            /\ List.incl (view_tokens (db (snd (fetch env route req w))))
                         (view_tokens (db w))).
  { intros ->. split; [reflexivity | apply List.incl_refl]. }
  destruct (parsedBody req) as [b|] eqn:Hb.
  2:{ apply Hsame. rewrite (fetch_mutation_unparsed env route pid req w Hroute);
        [reflexivity | now rewrite Hb]. }
  destruct (falsy b) eqn:Hf.
  { apply Hsame. rewrite (fetch_mutation_unparsed env route pid req w Hroute);
      [reflexivity | now rewrite Hb]. }
  assert (Hwell : forall v tail, Mutation env b route pid v tail ->
            admin_sessions (db (snd (fetch env route req w))) = admin_sessions (db w)
            /\ List.incl (view_tokens (db (snd (fetch env route req w))))
                         (view_tokens (db w))).
  { intros v tail Hm.
    destruct (fetch_mutation_outcome env b route pid v tail req w Hm Hb Hf)
      as (r & evs & _ & [(_ & _ & Hdb)|(_ & Hdb)]); [|now apply Hsame].
    rewrite Hdb.
    destruct (mutation_tail env b route pid v tail (logged w evs) Hm)
      as (r' & _ & _ & _ & Has & _ & _ & Hvt).
    split; [exact Has | exact Hvt]. }
  destruct Hroute as [-> | ->].
  - destruct (isEmpty (trim (strField b "title"))) eqn:Ht.
    { apply Hsame. unfold fetch, catch, dispatch, handlePostPut.
      rewrite Hb, Hf, Ht. reflexivity. }
    destruct (isEmpty (trim (strField b "content"))) eqn:Hc.
    { apply Hsame. unfold fetch, catch, dispatch, handlePostPut.
      rewrite Hb, Hf, Ht, Hc. reflexivity. }
    exact (Hwell Patch _ (MutationPut env b pid Ht Hc)).
  - exact (Hwell Delete _ (MutationDelete env b pid)).
Qed.

End WorkerIssuance.

(** X12.  In the Worker no request adds a row to a credential table
    without proof of the matching secret.  Whatever the route and the
    request, a row of the admin sessions that was not there before comes
    from a login whose password is the configured admin password, and
    expires 24 hours after it; a row of the view tokens that was not there
    before comes from a view exchange by a caller who is not admin, names
    the post of that exchange, whose stored credential record the
    presented password verifies against, and expires one hour after it. *)
Theorem credentials_issued_on_proof (web : Worker.WebCrypto) (env : Worker.Env)
    (route : Worker.Route) (req : Worker.Request) (w : Worker.World) :
  let out := Worker.fetch env route req w in
  (forall s : Worker.AdminSessionRow,
     In s (Worker.admin_sessions (Worker.db (snd out))) ->
     In s (Worker.admin_sessions (Worker.db w))
     \/ (route = Worker.AdminLogin
         /\ Worker.as_expires_at s = Worker.now env + 86400000
         /\ exists b : json,
              Worker.parsedBody req = Some b
              /\ isEmpty (strField b "password") = false
              /\ strField b "password" = Worker.ADMIN_PASSWORD env))
  /\ (forall t : Worker.ViewTokenRow,
        In t (Worker.view_tokens (Worker.db (snd out))) ->
        In t (Worker.view_tokens (Worker.db w))
        \/ (route = Worker.PostView (Worker.vt_post_id t)
            /\ Worker.vt_expires_at t = Worker.now env + 3600000
            /\ fst (Worker.isAdmin env req w) = Ret false
            /\ exists (b : json) (row : Worker.PostRow) (others : list Worker.PostRow),
                 Worker.parsedBody req = Some b
                 /\ List.filter (fun p => String.eqb (Worker.id p) (Worker.vt_post_id t))
                                (Worker.posts (Worker.db w)) = row :: others
                 /\ fst (Worker.verifyPassword (strField b "password") (Worker.pw row) w)
                    = Ret true)).
Proof.
  intros out.
  match goal with
  | |- ?G => assert (Hsame : Worker.db (snd out) = Worker.db w -> G)
  end.
  { intros ->. split; intros x Hx; left; exact Hx. }
  destruct route as [| | | |pid|pid|pid|pid].
  - apply Hsame. apply fetch_read_db. auto.
  - (* login *)
    destruct (Worker.parsedBody req) as [b|] eqn:Hb.
    2:{ apply Hsame. unfold out, Worker.fetch, Worker.catch, Worker.dispatch.
        destruct (handleAdminLogin_refused env req w) as (r & -> & _);
          [now rewrite Hb | reflexivity]. }
    destruct (falsy b) eqn:Hf.
    { apply Hsame. unfold out, Worker.fetch, Worker.catch, Worker.dispatch.
      destruct (handleAdminLogin_refused env req w) as (r & -> & _);
        [rewrite Hb; auto | reflexivity]. }
    destruct (isEmpty (strField b "password")) eqn:He.
    { apply Hsame. unfold out, Worker.fetch, Worker.catch, Worker.dispatch.
      destruct (handleAdminLogin_refused env req w) as (r & -> & _);
        [rewrite Hb; auto | reflexivity]. }
    destruct (String.eqb_spec (strField b "password") (Worker.ADMIN_PASSWORD env))
      as [Hpw|Hpw].
    2:{ apply Hsame. unfold out, Worker.fetch, Worker.catch, Worker.dispatch.
        destruct (handleAdminLogin_refused env req w) as (r & -> & _);
          [rewrite Hb; auto | reflexivity]. }
    assert (Hne : isEmpty (Worker.ADMIN_PASSWORD env) = false) by now rewrite <- Hpw.
    pose proof (handleAdminLogin_granted env req b w Hb Hf Hne Hpw) as Hrun.
    cbv zeta in Hrun.
    destruct (Worker.outage env Worker.AdminSessions Worker.Insert) as [detail|].
    { apply Hsame. unfold out, Worker.fetch, Worker.catch, Worker.dispatch.
      rewrite Hrun. reflexivity. }
    assert (Hout : out = _)
      by (unfold out, Worker.fetch, Worker.catch, Worker.dispatch; rewrite Hrun;
          reflexivity).
    rewrite Hout. cbn [snd Worker.db Worker.admin_sessions Worker.view_tokens]. split.
    + intros s Hs. apply in_app_or in Hs as [Hs|[<-|[]]]; [left; exact Hs|].
      right. split; [reflexivity|]. split; [reflexivity|]. exists b. auto.
    + intros t Ht. left. exact Ht.
  - (* logout *)
    unfold out, Worker.fetch, Worker.catch, Worker.dispatch.
    rewrite handleAdminLogout_run. cbn [snd].
    destruct (Worker.splitToken (Worker.adminCookie req)) as [parts|];
      [|split; intros x Hx; left; exact Hx].
    destruct (Worker.outage env Worker.AdminSessions Worker.Delete);
      [split; intros x Hx; left; exact Hx|].
    cbn [Worker.db Worker.admin_sessions Worker.view_tokens]. split.
    + intros s Hs. left. apply List.filter_In in Hs. tauto.
    + intros t Ht. left. exact Ht.
  - apply Hsame. apply fetch_read_db. auto.
  - apply Hsame. apply fetch_read_db. eauto.
  - (* view exchange *)
    destruct (fetch_view_db env pid req w)
      as [Hdb|(b & row & others & t & Hadm & Hb & Hrow & Hok & Ht & Hdb)];
      [now apply Hsame|].
    fold out in Hdb. rewrite Hdb.
    cbn [Worker.admin_sessions Worker.view_tokens]. split.
    + intros s Hs. left. exact Hs.
    + intros t' Ht'. apply in_app_or in Ht' as [Ht'|[<-|[]]]; [left; exact Ht'|].
      right. cbn [Worker.vt_post_id Worker.vt_expires_at].
      split; [reflexivity|]. split; [reflexivity|]. split; [exact Hadm|].
      exists b, row, others. auto.
  - destruct (fetch_mutation_tables env (Worker.PostPut pid) pid req w) as [Has Hvt];
      [auto|]. fold out in Has, Hvt. rewrite Has. split.
    + intros s Hs. left. exact Hs.
    + intros t Ht. left. exact (Hvt t Ht).
  - destruct (fetch_mutation_tables env (Worker.PostDelete pid) pid req w) as [Has Hvt];
      [auto|]. fold out in Has, Hvt. rewrite Has. split.
    + intros s Hs. left. exact Hs.
    + intros t Ht. left. exact (Hvt t Ht).
Qed.

Lemma credentials_issued_on_proof_witness :
  In {| Worker.vt_post_id := "p1"; Worker.vt_token_hash := Worker.hash Sample.issued;
        Worker.vt_token_salt := Worker.salt Sample.issued;
        Worker.vt_expires_at := 3601000 |}
     (Worker.view_tokens (Worker.db (Sample.webWorldWith [] [] [Sample.webPost])))
  \/ (Worker.PostView "p1" = Worker.PostView "p1"
      /\ 3601000 = Worker.now Sample.webEnv + 3600000
      /\ fst (Worker.isAdmin (rt := Sample.web) Sample.webEnv
                (Sample.webRequest None (Some (JObj [("password", JStr "swordfish")])))
                (Sample.webWorldWith [] [] [Sample.webPost])) = Ret false
      /\ exists (b : json) (row : Worker.PostRow) (others : list Worker.PostRow),
           Worker.parsedBody
             (Sample.webRequest None (Some (JObj [("password", JStr "swordfish")])))
           = Some b
           /\ List.filter (fun p => String.eqb (Worker.id p) "p1")
                          (Worker.posts
                             (Worker.db (Sample.webWorldWith [] [] [Sample.webPost])))
              = row :: others
           /\ fst (Worker.verifyPassword (rt := Sample.web) (strField b "password")
                     (Worker.pw row) (Sample.webWorldWith [] [] [Sample.webPost]))
              = Ret true).
Proof.
  apply (proj2 (credentials_issued_on_proof Sample.web Sample.webEnv (Worker.PostView "p1")
                  (Sample.webRequest None (Some (JObj [("password", JStr "swordfish")])))
                  (Sample.webWorldWith [] [] [Sample.webPost]))
               {| Worker.vt_post_id := "p1"; Worker.vt_token_hash := Worker.hash Sample.issued;
                  Worker.vt_token_salt := Worker.salt Sample.issued;
                  Worker.vt_expires_at := 3601000 |}).
  vm_compute. left. reflexivity.
Defined.

(** *** Where the marks of the local server's sessions come from *)

Section LocalIssuance.
Context `{rt : LocalServer.NodeRuntime}.
Import LocalServer JsFacts.

(** [unlock] rewrites one entry of the session map: the caller's session,
    or an empty one under a newly drawn id, with the mark and the token of
    the post added. *)
Lemma unlock_lookup (env : Env) (req : Request) (pid : string) (w : World) :
  exists (sid tk : string) (base : Session),
    fst (unlock env req pid w) = Ret tk
    /\ (base = freshSession env \/ sessions w !! sid = Some base)
    /\ data (snd (unlock env req pid w)) = data w
    /\ forall sid', sessions (snd (unlock env req pid w)) !! sid'
                    = if String.eqb sid' sid then Some (unlockedSession env pid tk base)
                      else sessions w !! sid'.
Proof.
  destruct (sessionOf w (getSessionId env req)) as [s|] eqn:E.
  - unfold sessionOf in E. destruct (getSessionId env req) as [sid|] eqn:Hsid;
      [|discriminate].
    destruct (isEmpty sid) eqn:Hne; [discriminate|].
    rewrite (unlock_known env req pid sid s w Hsid Hne E). cbv zeta.
    exists sid, (uuidOfBytes (map entropy (seq (drawn w) 16))), s.
    cbn [fst snd sessions data]. repeat split; auto.
    intros sid'. destruct (String.eqb_spec sid' sid) as [->|Hne'].
    + now rewrite !lookup_alter_eq, E.
    + now rewrite !lookup_alter_ne by congruence.
  - rewrite (unlock_new env req pid w E). cbv zeta.
    exists (uuidOfBytes (map entropy (seq (drawn w) 16))),
           (uuidOfBytes (map entropy (seq (drawn w + 16) 16))), (freshSession env).
    cbn [fst snd sessions data]. repeat split; auto.
    intros sid'.
    destruct (String.eqb_spec sid' (uuidOfBytes (map entropy (seq (drawn w) 16))))
      as [->|Hne'].
    + now rewrite !lookup_alter_eq, lookup_insert_eq.
    + now rewrite !lookup_alter_ne, lookup_insert_ne by congruence.
Qed.

Lemma verifyPassword_fst (pass : string) (record : PasswordRecord) (w w0 : World) :
  fst (verifyPassword pass record w0) = fst (verifyPassword pass record w).
Proof. now rewrite !node_verifyPassword_run. Qed.

(** What a well-formed [PUT] or [DELETE] can do to the session map:
    nothing, or the [unlock] that follows a verified password. *)
Lemma route_mutation_sessions (env : Env) (b : Json.json) (r : Route) (pid : string)
    (post : Post) (tail : M (option Response)) (req : Request) (w : World) :
  Mutation env b (data w) r pid post tail ->
  parsedBody req = Some b ->
  b <> JNull ->
  sessions (snd (route env r req w)) = sessions w
  \/ (isAdmin env w req = false
      /\ fst (verifyPassword (strField b "password") (password post) w) = Ret true
      /\ exists w1, sessions w1 = sessions w
                    /\ sessions (snd (route env r req w))
                       = sessions (snd (unlock env req pid w1))).
Proof.
  intros Hm Hb Hnull.
  rewrite (route_mutation_run env b r pid post tail req w Hm Hb Hnull). cbv zeta.
  assert (Htail : forall w', sessions (snd (tail w')) = sessions w').
  { intros w'. destruct (node_mutation_tail env b (data w) r pid post tail w' Hm)
      as (ps' & ->). reflexivity. }
  change (isAdmin env (arriving w) req) with (isAdmin env w req).
  destruct (isAdmin env w req) eqn:Hadm; [left; now rewrite Htail|].
  destruct (sessionVerified _ pid || sessionTokenOk _ pid _); [left; now rewrite Htail|].
  destruct (isEmpty (strField b "password")); [now left|].
  pose proof (verifyPassword_fst (strField b "password") (password post) w (arriving w))
    as Hfst.
  destruct (verifyPassword (strField b "password") (password post) (arriving w))
    as [[[|]|m] w1] eqn:Hv; cbn [fst] in Hfst;
    rewrite node_verifyPassword_run in Hv; apply pair_equal_spec in Hv as [_ Hw1];
    [|left; now subst w1|left; now subst w1].
  right. split; [reflexivity|]. split; [now symmetry|].
  exists w1. split; [now subst w1|].
  destruct (unlock_lookup env req pid w1) as (sid & tk & base & Htk & _).
  destruct (unlock env req pid w1) as [[tk'|m] w2] eqn:Hu; [|discriminate].
  now rewrite Htail.
Qed.

(** The same for the view exchange, whatever the request. *)
Lemma route_view_sessions (env : Env) (pid : string) (req : Request) (w : World) :
  sessions (snd (route env (PostView pid) req w)) = sessions w
  \/ (isAdmin env w req = false
      /\ exists (b : Json.json) (idx : nat) (post : Post) (w1 : World),
           parsedBody req = Some b
           /\ findIndex pid (data w) = Some (idx, post)
           /\ fst (verifyPassword (strField b "password") (password post) w) = Ret true
           /\ sessions w1 = sessions w
           /\ sessions (snd (route env (PostView pid) req w))
              = sessions (snd (unlock env req pid w1))).
Proof.
  unfold route, handlePostView. run.
  change (isAdmin env (arriving w) req) with (isAdmin env w req).
  destruct (isAdmin env w req) eqn:Hadm; [now left|].
  destruct (parsedBody req) as [b|] eqn:Hb; [|now left].
  assert (Hnull : b = JNull \/ b <> JNull) by (destruct b; auto; right; discriminate).
  destruct Hnull as [->|Hnull]; [now left|].
  assert (Hgo :
    sessions (snd (
      (if isEmpty (strField b "password") then unauthorized "Password required"
       else
         match findIndex pid (data (arriving w)) with
         | None => notFound
         | Some (_, post) =>
             ok ← verifyPassword (strField b "password") (password post);
             if negb ok then unauthorized "Invalid password"
             else
               viewToken ← unlock env req pid;
               json 200 (JObj [("post", shownPost post); ("viewToken", JStr viewToken)])
         end) (arriving w))) = sessions w
    \/ (false = false
        /\ exists (b0 : Json.json) (idx : nat) (post : Post) (w1 : World),
             Some b = Some b0
             /\ findIndex pid (data w) = Some (idx, post)
             /\ fst (verifyPassword (strField b0 "password") (password post) w) = Ret true
             /\ sessions w1 = sessions w
             /\ sessions (snd (
                  (if isEmpty (strField b "password") then unauthorized "Password required"
                   else
                     match findIndex pid (data (arriving w)) with
                     | None => notFound
                     | Some (_, post) =>
                         ok ← verifyPassword (strField b "password") (password post);
                         if negb ok then unauthorized "Invalid password"
                         else
                           viewToken ← unlock env req pid;
                           json 200 (JObj [("post", shownPost post);
                                           ("viewToken", JStr viewToken)])
                     end) (arriving w)))
                = sessions (snd (unlock env req pid w1)))).
  { destruct (isEmpty (strField b "password")); [now left|].
    change (data (arriving w)) with (data w).
    destruct (findIndex pid (data w)) as [[idx post]|] eqn:Hfind; [|now left].
    run.
    pose proof (verifyPassword_fst (strField b "password") (password post) w (arriving w))
      as Hfst.
    destruct (verifyPassword (strField b "password") (password post) (arriving w))
      as [[[|]|m] w1] eqn:Hv; cbn [fst] in Hfst;
      rewrite node_verifyPassword_run in Hv; apply pair_equal_spec in Hv as [_ Hw1];
      [|left; now subst w1|left; now subst w1].
    right. split; [reflexivity|]. exists b, idx, post, w1.
    split; [reflexivity|]. split; [reflexivity|]. split; [now symmetry|].
    split; [now subst w1|].
    cbv beta iota delta [negb].
    destruct (unlock_lookup env req pid w1) as (sid & tk & base & Htk & _).
    destruct (unlock env req pid w1) as [[tk'|m] w2] eqn:Hu; [|discriminate].
    reflexivity. }
  destruct b; try contradiction; exact Hgo.
Qed.

End LocalIssuance.

(** X13.  In the local server a session comes to pass the session check
    of [PUT] and [DELETE] for a post (its verified mark, or its token
    compared with the presented one) only through proof of that post's
    password.  Whatever the route and the request, a session that passes
    the check of a post afterwards either passed it before, or the request
    was a view exchange, [PUT] or [DELETE] on that very post by a caller
    who is not admin, and the password it carried verifies against the
    stored credential record of the post. *)
Theorem marks_granted_on_proof (node : LocalServer.NodeRuntime) (env : LocalServer.Env)
    (r : LocalServer.Route) (req : LocalServer.Request) (w : LocalServer.World)
    (sid pid viewToken : string) :
  let passes (m : gmap string LocalServer.Session) :=
    LocalServer.sessionVerified (m !! sid) pid
    || LocalServer.sessionTokenOk (m !! sid) pid viewToken in
  passes (LocalServer.sessions (snd (LocalServer.route env r req w))) = true ->
  passes (LocalServer.sessions w) = true
  \/ ((r = LocalServer.PostView pid \/ r = LocalServer.PostPut pid
       \/ r = LocalServer.PostDelete pid)
      /\ LocalServer.isAdmin env w req = false
      /\ exists (b : json) (idx : nat) (post : LocalServer.Post),
           LocalServer.parsedBody req = Some b
           /\ LocalServer.findIndex pid (LocalServer.data w) = Some (idx, post)
           /\ fst (LocalServer.verifyPassword (strField b "password")
                     (LocalServer.password post) w) = Ret true).
Proof.
  intros passes Hafter.
  assert (Hkept : LocalServer.sessions (snd (LocalServer.route env r req w))
                  = LocalServer.sessions w -> passes (LocalServer.sessions w) = true).
  { intros Heq. now rewrite <- Heq. }
  (* the entry an [unlock] for the post [p] leaves under [sid] *)
  assert (Hunlock : forall (p : string) (w1 : LocalServer.World),
            LocalServer.sessions w1 = LocalServer.sessions w ->
            passes (LocalServer.sessions (snd (LocalServer.unlock env req p w1))) = true ->
            passes (LocalServer.sessions w) = true \/ p = pid).
  { intros p w1 Hw1 Hp.
    destruct (unlock_lookup env req p w1) as (sid0 & tk & base & _ & Hbase & _ & Hlook).
    unfold passes in Hp. rewrite (Hlook sid) in Hp.
    destruct (String.eqb_spec sid sid0) as [->|Hne].
    - destruct (String.eqb_spec p pid) as [Heq|Hpid]; [now right|]. left.
      unfold passes. rewrite <- Hw1.
      unfold LocalServer.sessionVerified, LocalServer.sessionTokenOk,
        LocalServer.unlockedSession, LocalServer.setToken, LocalServer.addVerified in Hp.
      cbn [LocalServer.verified LocalServer.tokens] in Hp.
      rewrite lookup_insert_ne in Hp by exact Hpid.
      destruct Hbase as [->|Hold].
      + cbn [LocalServer.freshSession LocalServer.verified LocalServer.tokens] in Hp.
        rewrite lookup_empty in Hp. rewrite orb_false_r in Hp.
        pose proof (bool_decide_eq_true_1 _ Hp) as Hin.
        apply elem_of_union in Hin as [Hin|Hin];
          [apply elem_of_singleton in Hin; congruence | now apply elem_of_empty in Hin].
      + rewrite Hold. unfold LocalServer.sessionVerified, LocalServer.sessionTokenOk.
        apply orb_true_iff in Hp as [Hp|Hp].
        * apply orb_true_iff. left. pose proof (bool_decide_eq_true_1 _ Hp) as Hin.
          apply bool_decide_eq_true_2.
          apply elem_of_union in Hin as [Hin|Hin];
            [apply elem_of_singleton in Hin; congruence | exact Hin].
        * apply orb_true_iff. right. exact Hp.
    - left. unfold passes. rewrite <- Hw1. exact Hp. }
  destruct r as [| | | |p|p|p|p].
  - left. apply Hkept. reflexivity.
  - (* login *)
    left. revert Hafter. unfold LocalServer.route, LocalServer.handleAdminLogin. run.
    destruct (LocalServer.parsedBody req) as [b|]; [|exact (fun H => H)].
    assert (Hgo : forall k : LocalServer.M (option Response),
              (passes (LocalServer.sessions (snd (k (LocalServer.arriving w)))) = true ->
               passes (LocalServer.sessions w) = true) ->
              passes (LocalServer.sessions (snd (k (LocalServer.arriving w)))) = true ->
              passes (LocalServer.sessions w) = true) by auto.
    destruct (isEmpty (strField b "password")) eqn:He;
      [destruct b; exact (fun H => H)|].
    destruct (negb (String.eqb (strField b "password") (LocalServer.ADMIN_PASSWORD env)))
      eqn:Hpw; [destruct b; try rewrite He; try rewrite Hpw; exact (fun H => H)|].
    assert (Hfresh : passes (<[LocalServer.uuidOfBytes
                                 (map LocalServer.entropy (seq (LocalServer.drawn w) 16))
                               := LocalServer.freshSession env]> (LocalServer.sessions w))
                     = true -> passes (LocalServer.sessions w) = true).
    { unfold passes.
      destruct (String.eqb_spec sid (LocalServer.uuidOfBytes
                  (map LocalServer.entropy (seq (LocalServer.drawn w) 16)))) as [->|Hne].
      - rewrite lookup_insert_eq. cbn. rewrite lookup_empty. cbn.
        intros H. exfalso. rewrite orb_false_r in H.
        pose proof (bool_decide_eq_true_1 _ H) as Hin. now apply elem_of_empty in Hin.
      - now rewrite lookup_insert_ne by congruence. }
    destruct b; try rewrite He; try rewrite Hpw; try exact (fun H => H); exact Hfresh.
  - (* logout *)
    left. revert Hafter. rewrite node_handleAdminLogout_run. cbv zeta.
    cbn [snd LocalServer.sessions].
    destruct (LocalServer.getAdminSession env w req) as [sid0|]; [|exact (fun H => H)].
    unfold passes. destruct (String.eqb_spec sid sid0) as [->|Hne].
    + rewrite lookup_delete_eq. discriminate.
    + now rewrite lookup_delete_ne by congruence.
  - left. apply Hkept. reflexivity.
  - left. apply Hkept. unfold LocalServer.route, LocalServer.handlePostGet. run.
    destruct (LocalServer.isAdmin _ _ _); [|reflexivity].
    cbv beta iota delta [negb].
    destruct (LocalServer.findIndex _ _) as [[? ?]|]; reflexivity.
  - (* view exchange *)
    destruct (route_view_sessions env p req w)
      as [Heq|(Hadm & b & idx & post & w1 & Hb & Hfind & Hok & Hw1 & Heq)];
      [left; now apply Hkept|].
    rewrite Heq in Hafter. destruct (Hunlock p w1 Hw1 Hafter) as [Hold| ->]; [now left|].
    right. split; [auto|]. split; [exact Hadm|]. exists b, idx, post. auto.
  - (* put *)
    destruct (LocalServer.parsedBody req) as [b|] eqn:Hb.
    2:{ left. apply Hkept. unfold LocalServer.route, LocalServer.handlePostPut. run.
        now rewrite Hb. }
    assert (Hnull : b = JNull \/ b <> JNull) by (destruct b; auto; right; discriminate).
    destruct Hnull as [->|Hnull].
    { left. apply Hkept. unfold LocalServer.route, LocalServer.handlePostPut. run.
      now rewrite Hb. }
    destruct (isEmpty (trim (strField b "title")) || isEmpty (trim (strField b "content")))
      eqn:Hfields.
    { left. apply Hkept. unfold LocalServer.route, LocalServer.handlePostPut. run.
      rewrite Hb. destruct b; try contradiction; now rewrite Hfields. }
    apply orb_false_iff in Hfields as [Ht Hc].
    destruct (LocalServer.findIndex p (LocalServer.data w)) as [[idx post]|] eqn:Hfind.
    2:{ left. apply Hkept. unfold LocalServer.route, LocalServer.handlePostPut. run.
        rewrite Hb. destruct b; try contradiction; rewrite Ht, Hc;
          cbv beta iota delta [orb];
          change (LocalServer.data (LocalServer.arriving w)) with (LocalServer.data w);
          now rewrite Hfind. }
    destruct (route_mutation_sessions env b (LocalServer.PostPut p) p post _ req w
                (LocalServer.MutationPut env b (LocalServer.data w) p idx post Ht Hc Hfind)
                Hb Hnull) as [Heq|(Hadm & Hok & w1 & Hw1 & Heq)];
      [left; now apply Hkept|].
    rewrite Heq in Hafter. destruct (Hunlock p w1 Hw1 Hafter) as [Hold| ->]; [now left|].
    right. split; [auto|]. split; [exact Hadm|]. exists b, idx, post. auto.
  - (* delete *)
    destruct (LocalServer.parsedBody req) as [b|] eqn:Hb.
    2:{ left. apply Hkept. unfold LocalServer.route, LocalServer.handlePostDelete. run.
        now rewrite Hb. }
    assert (Hnull : b = JNull \/ b <> JNull) by (destruct b; auto; right; discriminate).
    destruct Hnull as [->|Hnull].
    { left. apply Hkept. unfold LocalServer.route, LocalServer.handlePostDelete. run.
      now rewrite Hb. }
    destruct (LocalServer.findIndex p (LocalServer.data w)) as [[idx post]|] eqn:Hfind.
    2:{ left. apply Hkept. unfold LocalServer.route, LocalServer.handlePostDelete. run.
        rewrite Hb. destruct b; try contradiction;
          change (LocalServer.data (LocalServer.arriving w)) with (LocalServer.data w);
          now rewrite Hfind. }
    destruct (route_mutation_sessions env b (LocalServer.PostDelete p) p post _ req w
                (LocalServer.MutationDelete env b (LocalServer.data w) p idx post Hfind)
                Hb Hnull) as [Heq|(Hadm & Hok & w1 & Hw1 & Heq)];
      [left; now apply Hkept|].
    rewrite Heq in Hafter. destruct (Hunlock p w1 Hw1 Hafter) as [Hold| ->]; [now left|].
    right. split; [auto|]. split; [exact Hadm|]. exists b, idx, post. auto.
Qed.

Lemma marks_granted_on_proof_witness :
  LocalServer.sessionVerified (LocalServer.sessions Sample.nodeWorld1 !! Sample.firstSid) "p1"
  || LocalServer.sessionTokenOk (LocalServer.sessions Sample.nodeWorld1 !! Sample.firstSid)
       "p1" "" = true
  \/ ((LocalServer.PostView "p1" = LocalServer.PostView "p1"
       \/ LocalServer.PostView "p1" = LocalServer.PostPut "p1"
       \/ LocalServer.PostView "p1" = LocalServer.PostDelete "p1")
      /\ LocalServer.isAdmin (rt := Sample.node) Sample.nodeEnv Sample.nodeWorld1
           (Sample.nodeRequest None (Some (JObj [("password", JStr "swordfish")]))) = false
      /\ exists (b : json) (idx : nat) (post : LocalServer.Post),
           LocalServer.parsedBody
             (Sample.nodeRequest None (Some (JObj [("password", JStr "swordfish")])))
           = Some b
           /\ LocalServer.findIndex "p1" (LocalServer.data Sample.nodeWorld1)
              = Some (idx, post)
           /\ fst (LocalServer.verifyPassword (rt := Sample.node) (strField b "password")
                     (LocalServer.password post) Sample.nodeWorld1) = Ret true).
Proof.
  apply (marks_granted_on_proof Sample.node Sample.nodeEnv (LocalServer.PostView "p1")
           (Sample.nodeRequest None (Some (JObj [("password", JStr "swordfish")])))
           Sample.nodeWorld1 Sample.firstSid "p1" "").
  vm_compute; reflexivity.
Defined.

(** *** Creating a post in the local server *)

Section LocalCreation.
Context `{rt : LocalServer.NodeRuntime}.
Import LocalServer JsFacts.

Lemma routeCreate_granted (env : Env) (req : Request) (b : Json.json) (w : World)
    (derived : list byte) :
  parsedBody req = Some b ->
  b <> JNull ->
  isEmpty (trim (strField b "title")) = false ->
  isEmpty (trim (strField b "author")) = false ->
  isEmpty (trim (strField b "content")) = false ->
  isEmpty (strField b "password") = false ->
  pbkdf2Sync (strField b "password") (map entropy (seq (drawn w + 16) 16)) 120000 32 "sha256"
  = Ret derived ->
  LocalCreate.routeCreate env req w =
  (let newId := uuidOfBytes (map entropy (seq (drawn w) 16)) in
   let post := {| id := newId; title := trim (strField b "title");
                  author := trim (strField b "author");
                  content := trim (strField b "content");
                  password := {| saltHex := bufferToHex (map entropy (seq (drawn w + 16) 16));
                                 iterations := 120000; digest := "sha256"; keylen := 32;
                                 hashHex := bufferToHex derived |};
                  createdAt := toISOString (now env); updatedAt := None |} in
   (Ret (Some {| status := 201; body := JObj [("id", JStr newId)]; set_cookie := None |}),
    {| sessions := sessions w; data := post :: data w; drawn := (drawn w + 16 + 16)%nat;
       resCookie := None; trace := trace w ++ [Derive; WriteData] |})).
Proof.
  intros Hb Hnull Ht Ha Hc Hp Hd.
  unfold LocalCreate.routeCreate, LocalCreate.handlePostCreate. run. rewrite Hb.
  assert (Hgo :
    (w0 ← getWorld;
     newId ← randomUUID;
     record ← makePasswordRecord (strField b "password");
     _ ← writeData ({| id := newId; title := trim (strField b "title");
                       author := trim (strField b "author");
                       content := trim (strField b "content"); password := record;
                       createdAt := toISOString (now env); updatedAt := None |} :: data w0);
     json 201 (JObj [("id", JStr newId)])) (arriving w)
    = (Ret (Some {| status := 201;
                    body := JObj [("id", JStr (uuidOfBytes (map entropy (seq (drawn w) 16))))];
                    set_cookie := None |}),
       {| sessions := sessions w;
          data := {| id := uuidOfBytes (map entropy (seq (drawn w) 16));
                     title := trim (strField b "title");
                     author := trim (strField b "author");
                     content := trim (strField b "content");
                     password :=
                       {| saltHex := bufferToHex (map entropy (seq (drawn w + 16) 16));
                          iterations := 120000; digest := "sha256"; keylen := 32;
                          hashHex := bufferToHex derived |};
                     createdAt := toISOString (now env); updatedAt := None |} :: data w;
          drawn := (drawn w + 16 + 16)%nat; resCookie := None;
          trace := trace w ++ [Derive; WriteData] |})).
  { unfold randomUUID, randomBytes. run. rewrite node_makePasswordRecord_run. cbv zeta.
    cbn [drawn sessions data resCookie trace arriving]. rewrite Hd.
    rewrite node_writeData_run. cbn [drawn sessions data resCookie trace].
    now rewrite <- List.app_assoc. }
  destruct b; try contradiction; rewrite Ht, Ha, Hc, Hp; exact Hgo.
Qed.

End LocalCreation.

Section LocalViewing.
Context `{rt : LocalServer.NodeRuntime}.
Import LocalServer JsFacts.

(** The view exchange for a caller who is not admin and whose password
    verifies against the post. *)
Lemma route_view_granted (env : Env) (pid : string) (req : Request) (b : Json.json)
    (idx : nat) (post : Post) (w : World) :
  isAdmin env w req = false ->
  parsedBody req = Some b ->
  b <> JNull ->
  isEmpty (strField b "password") = false ->
  findIndex pid (data w) = Some (idx, post) ->
  fst (verifyPassword (strField b "password") (password post) w) = Ret true ->
  exists (tk : string) (res : Response),
    fst (route env (PostView pid) req w) = Ret (Some res)
    /\ status res = 200
    /\ body res = JObj [("post", shownPost post); ("viewToken", JStr tk)]
    /\ data (snd (route env (PostView pid) req w)) = data w.
Proof.
  intros Hadm Hb Hnull Hp Hfind Hok.
  unfold route, handlePostView. run.
  change (isAdmin env (arriving w) req) with (isAdmin env w req). rewrite Hadm, Hb.
  assert (Hgo : exists (tk : string) (res : Response),
    fst ((ok ← verifyPassword (strField b "password") (password post);
          if negb ok then unauthorized "Invalid password"
          else
            viewToken ← unlock env req pid;
            json 200 (JObj [("post", shownPost post); ("viewToken", JStr viewToken)]))
           (arriving w)) = Ret (Some res)
    /\ status res = 200
    /\ body res = JObj [("post", shownPost post); ("viewToken", JStr tk)]
    /\ data (snd ((ok ← verifyPassword (strField b "password") (password post);
                   if negb ok then unauthorized "Invalid password"
                   else
                     viewToken ← unlock env req pid;
                     json 200 (JObj [("post", shownPost post);
                                     ("viewToken", JStr viewToken)]))
                    (arriving w))) = data w).
  { run.
    rewrite <- (verifyPassword_fst _ _ w (arriving w)) in Hok.
    destruct (verifyPassword (strField b "password") (password post) (arriving w))
      as [o w1] eqn:Hv. cbn [fst] in Hok. subst o.
    rewrite node_verifyPassword_run in Hv. apply pair_equal_spec in Hv as [_ Hw1].
    cbv beta iota delta [negb].
    destruct (unlock_lookup env req pid w1) as (sid & tk & base & Htk & _ & Hdata & _).
    destruct (unlock env req pid w1) as [[tk'|m] w2] eqn:Hu; [|discriminate].
    apply Ret_inj in Htk. subst tk'. cbn [snd] in Hdata.
    exists tk. eexists. cbn [fst snd]. split; [reflexivity|]. split; [reflexivity|].
    split; [reflexivity|]. rewrite Hdata, <- Hw1. reflexivity. }
  change (data (arriving w)) with (data w).
  destruct b; try contradiction; rewrite Hp, Hfind; exact Hgo.
Qed.

End LocalViewing.

(** X14.  In the local server [POST /api/posts] needs no credential.  With
    a title, an author and a content that are not blank and a password
    that is not empty (the derivation returning), it answers 201 with the
    id it drew and nothing else, puts the new post, with the trimmed
    fields and a record made from the password, in front of the others,
    and leaves posts and sessions otherwise untouched.  A view exchange on
    that id with the same password, by a caller who is not admin, then
    answers 200 with exactly that post. *)
Theorem local_create_then_view (node : LocalServer.NodeRuntime) (env : LocalServer.Env)
    (req : LocalServer.Request) (b : json) (w : LocalServer.World) (derived : list byte) :
  LocalServer.parsedBody req = Some b ->
  b <> JNull ->
  isEmpty (trim (strField b "title")) = false ->
  isEmpty (trim (strField b "author")) = false ->
  isEmpty (trim (strField b "content")) = false ->
  isEmpty (strField b "password") = false ->
  LocalServer.pbkdf2Sync (strField b "password")
    (map LocalServer.entropy (seq (LocalServer.drawn w + 16) 16)) 120000 32 "sha256"
  = Ret derived ->
  let out := LocalCreate.routeCreate env req w in
  let newId :=
    LocalServer.uuidOfBytes (map LocalServer.entropy (seq (LocalServer.drawn w) 16)) in
  exists post : LocalServer.Post,
    fst out = Ret (Some {| status := 201; body := JObj [("id", JStr newId)];
                           set_cookie := None |})
    /\ LocalServer.data (snd out) = post :: LocalServer.data w
    /\ LocalServer.sessions (snd out) = LocalServer.sessions w
    /\ LocalServer.id post = newId
    /\ LocalServer.title post = trim (strField b "title")
    /\ LocalServer.author post = trim (strField b "author")
    /\ LocalServer.content post = trim (strField b "content")
    /\ LocalServer.updatedAt post = None
    /\ forall (env' : LocalServer.Env) (req' : LocalServer.Request) (b' : json),
         LocalServer.isAdmin env' (snd out) req' = false ->
         LocalServer.parsedBody req' = Some b' ->
         b' <> JNull ->
         strField b' "password" = strField b "password" ->
         exists (tk : string) (res : Response),
           fst (LocalServer.route env' (LocalServer.PostView newId) req' (snd out))
           = Ret (Some res)
           /\ status res = 200
           /\ body res = JObj [("post", LocalServer.shownPost post);
                               ("viewToken", JStr tk)].
Proof.
  intros Hb Hnull Ht Ha Hc Hp Hd out newId.
  pose proof (routeCreate_granted env req b w derived Hb Hnull Ht Ha Hc Hp Hd) as Hrun.
  cbv zeta in Hrun. fold newId in Hrun. fold out in Hrun.
  eexists. rewrite Hrun. cbn [fst snd LocalServer.data LocalServer.sessions].
  split; [reflexivity|]. split; [reflexivity|]. split; [reflexivity|].
  cbn [LocalServer.id LocalServer.title LocalServer.author LocalServer.content
       LocalServer.updatedAt].
  repeat (split; [reflexivity|]).
  intros env' req' b' Hadm Hb' Hnull' Hsame.
  match goal with
  | |- context [LocalServer.route env' _ req' ?w1] =>
      destruct (route_view_granted env' newId req' b' 0 (hd Sample.nodePost (LocalServer.data w1))
                  w1 Hadm Hb' Hnull') as (tk & res & Hres & Hs & Hbody & _)
  end.
  - now rewrite Hsame.
  - cbn [LocalServer.data hd LocalServer.findIndex LocalServer.id].
    now rewrite String.eqb_refl.
  - rewrite node_verifyPassword_run. cbn [fst hd LocalServer.data LocalServer.password
      LocalServer.saltHex LocalServer.iterations LocalServer.keylen LocalServer.digest
      LocalServer.hashHex].
    rewrite Hsame, !bufferFromHex_bufferToHex, Hd. f_equal.
    now apply bytesEqual_true_iff.
  - exists tk, res. split; [exact Hres|]. split; [exact Hs|]. exact Hbody.
Qed.

Lemma local_create_then_view_witness :
  fst (LocalCreate.routeCreate (rt := Sample.node) Sample.nodeEnv
         (Sample.nodeRequest None
            (Some (JObj [("title", JStr " Hello "); ("author", JStr "ann");
                         ("content", JStr "text"); ("password", JStr "swordfish")])))
         Sample.nodeWorld0)
  = Ret (Some {| status := 201; body := JObj [("id", JStr Sample.firstSid)];
                 set_cookie := None |}).
Proof.
  destruct (local_create_then_view Sample.node Sample.nodeEnv
              (Sample.nodeRequest None
                 (Some (JObj [("title", JStr " Hello "); ("author", JStr "ann");
                              ("content", JStr "text"); ("password", JStr "swordfish")])))
              (JObj [("title", JStr " Hello "); ("author", JStr "ann");
                     ("content", JStr "text"); ("password", JStr "swordfish")])
              Sample.nodeWorld0
              (map Sample.entropyByte (seq 16 16) ++ Sample.bytesOf "swordfish")
              eq_refl ltac:(discriminate) eq_refl eq_refl eq_refl eq_refl eq_refl)
    as (post & Hfst & _).
  exact Hfst.
Defined.

(** *** Creating a post in the Worker *)

Section WorkerCreation.
Context `{rt : Worker.WebCrypto}.
Import Worker WorkerFacts JsFacts.

Lemma fetchCreate_granted (env : Env) (given : WorkerCreate.Assigned) (req : Request)
    (b : json) (w : World) (bits : list byte) :
  parsedBody req = Some b ->
  falsy b = false ->
  isEmpty (trim (strField b "title")) = false ->
  isEmpty (trim (strField b "author")) = false ->
  isEmpty (trim (strField b "content")) = false ->
  isEmpty (strField b "password") = false ->
  deriveBits "SHA-256" (map entropy (seq (drawn w) 16)) 100000 (strField b "password") 256
  = Ret bits ->
  WorkerCreate.fetchCreate env given req w =
  (let row := {| id := WorkerCreate.assignedId given;
                 title := trim (strField b "title");
                 author := trim (strField b "author");
                 content := trim (strField b "content");
                 pw := {| pw_salt_hex := bytesToHex (map entropy (seq (drawn w) 16));
                          pw_iterations := 100000; pw_digest := "sha256"; pw_keylen := 32;
                          pw_hash_hex := bytesToHex bits |};
                 created_at := WorkerCreate.assignedCreatedAt given;
                 updated_at := None |} in
   match outage env Posts Insert with
   | Some detail =>
       (Ret (send 500 (errorDetail "Failed to create post" detail)),
        {| db := db w; drawn := (drawn w + 16)%nat;
           trace := trace w ++ [Derive; Rest Posts Insert] |})
   | None =>
       (Ret (send 201 (JObj [("id", JStr (WorkerCreate.assignedId given))])),
        {| db := {| posts := posts (db w) ++ [row]; view_tokens := view_tokens (db w);
                    admin_sessions := admin_sessions (db w) |};
           drawn := (drawn w + 16)%nat;
           trace := trace w ++ [Derive; Rest Posts Insert] |})
   end).
Proof.
  intros Hb Hf Ht Ha Hc Hp Hd.
  unfold WorkerCreate.fetchCreate, catch, WorkerCreate.handlePostCreate.
  rewrite Hb, Hf, Ht, Ha, Hc, Hp. cbv beta iota delta [orb]. run.
  rewrite web_makePasswordRecord_run. cbv zeta. rewrite Hd.
  unfold WorkerCreate.insertPost. rewrite rest_run.
  cbv beta iota zeta delta [db drawn trace fst snd].
  destruct (outage env Posts Insert); unfold logged; simpl;
    now rewrite <- List.app_assoc.
Qed.

End WorkerCreation.

(** X15.  In the Worker [POST /api/posts] needs no credential.  With a
    title, an author and a content that are not blank and a password that
    is not empty (the derivation returning, the back end accepting the
    insert), it answers 201 with the id the table assigned and nothing
    else, and adds one row with the trimmed fields and a record made from
    the password; the other rows and tables are untouched.  The assigned
    id being new, as the primary key makes it, a view exchange on that id
    with the same password, by a caller who is not admin, then answers 200
    with exactly that post and a token. *)
Theorem worker_create_then_view (web : Worker.WebCrypto) (env : Worker.Env)
    (given : WorkerCreate.Assigned) (req : Worker.Request) (b : json) (w : Worker.World)
    (bits : list byte) :
  Worker.parsedBody req = Some b ->
  falsy b = false ->
  isEmpty (trim (strField b "title")) = false ->
  isEmpty (trim (strField b "author")) = false ->
  isEmpty (trim (strField b "content")) = false ->
  isEmpty (strField b "password") = false ->
  Worker.deriveBits "SHA-256" (map Worker.entropy (seq (Worker.drawn w) 16)) 100000
    (strField b "password") 256 = Ret bits ->
  Worker.outage env Worker.Posts Worker.Insert = None ->
  (forall p, In p (Worker.posts (Worker.db w)) ->
             Worker.id p <> WorkerCreate.assignedId given) ->
  let out := WorkerCreate.fetchCreate env given req w in
  exists row : Worker.PostRow,
    fst out = Ret (Worker.send 201 (JObj [("id", JStr (WorkerCreate.assignedId given))]))
    /\ Worker.posts (Worker.db (snd out)) = Worker.posts (Worker.db w) ++ [row]
    /\ Worker.view_tokens (Worker.db (snd out)) = Worker.view_tokens (Worker.db w)
    /\ Worker.admin_sessions (Worker.db (snd out)) = Worker.admin_sessions (Worker.db w)
    /\ Worker.id row = WorkerCreate.assignedId given
    /\ Worker.title row = trim (strField b "title")
    /\ Worker.author row = trim (strField b "author")
    /\ Worker.content row = trim (strField b "content")
    /\ Worker.updated_at row = None
    /\ forall (env' : Worker.Env) (req' : Worker.Request) (b' : json),
         fst (Worker.isAdmin env' req' (snd out)) = Ret false ->
         Worker.parsedBody req' = Some b' ->
         falsy b' = false ->
         strField b' "password" = strField b "password" ->
         Worker.outage env' Worker.Posts Worker.Select = None ->
         Worker.outage env' Worker.ViewTokens Worker.Insert = None ->
         exists t : Worker.Token,
           fst (Worker.fetch env' (Worker.PostView (WorkerCreate.assignedId given)) req'
                  (snd out))
           = Ret (Worker.send 200 (JObj [("post", Worker.shownPost row);
                                         ("viewToken", JStr (Worker.presented t))])).
Proof.
  intros Hb Hf Ht Ha Hc Hp Hd Hup Hnew out.
  pose proof (fetchCreate_granted env given req b w bits Hb Hf Ht Ha Hc Hp Hd) as Hrun.
  cbv zeta in Hrun. rewrite Hup in Hrun. fold out in Hrun.
  eexists. rewrite Hrun.
  cbn [fst snd Worker.db Worker.posts Worker.view_tokens Worker.admin_sessions].
  split; [reflexivity|]. split; [reflexivity|].
  cbn [Worker.id Worker.title Worker.author Worker.content Worker.updated_at].
  repeat (split; [reflexivity|]).
  intros env' req' b' Hadm Hb' Hf' Hsame Hsel Hins.
  match goal with
  | |- context [Worker.fetch env' _ req' ?w1] =>
      destruct (handlePostView_granted env' (WorkerCreate.assignedId given) req' b'
                  (List.last (Worker.posts (Worker.db w1)) Sample.webPost) [] w1 Hadm Hb' Hf')
        as (evA & Hview)
  end.
  - now rewrite Hsame.
  - exact Hsel.
  - cbn [Worker.db Worker.posts]. rewrite List.filter_app, filter_none.
    + rewrite List.last_last. cbn [List.filter Worker.id app].
      now rewrite String.eqb_refl.
    + intros p Hin. apply String.eqb_neq. now apply Hnew.
  - cbn [Worker.db Worker.posts]. rewrite List.last_last, web_verifyPassword_run.
    cbn [fst Worker.pw Worker.pw_salt_hex Worker.pw_iterations Worker.pw_keylen
         Worker.pw_hash_hex].
    unfold Worker.digestName. cbn [Worker.pw_digest].
    rewrite String.eqb_refl, WorkerFacts.hexToBytes_bytesToHex, Hsame.
    change (32 * 8) with 256. rewrite Hd. now rewrite String.eqb_refl.
  - cbv zeta in Hview. rewrite Hins in Hview.
    cbn [Worker.db Worker.posts] in Hview. rewrite List.last_last in Hview.
    eexists. unfold Worker.fetch, Worker.catch, Worker.dispatch. rewrite Hview.
    reflexivity.
Qed.

Lemma worker_create_then_view_witness :
  fst (WorkerCreate.fetchCreate (rt := Sample.web) Sample.webEnv
         {| WorkerCreate.assignedId := "p2";
            WorkerCreate.assignedCreatedAt := "2026-01-02T00:00:00.000Z" |}
         (Sample.webRequest None
            (Some (JObj [("title", JStr " Hello "); ("author", JStr "ann");
                         ("content", JStr "text"); ("password", JStr "swordfish")])))
         (Sample.webWorldWith [] [] [Sample.webPost]))
  = Ret (Worker.send 201 (JObj [("id", JStr "p2")])).
Proof.
  destruct (worker_create_then_view Sample.web Sample.webEnv
              {| WorkerCreate.assignedId := "p2";
                 WorkerCreate.assignedCreatedAt := "2026-01-02T00:00:00.000Z" |}
              (Sample.webRequest None
                 (Some (JObj [("title", JStr " Hello "); ("author", JStr "ann");
                              ("content", JStr "text"); ("password", JStr "swordfish")])))
              (JObj [("title", JStr " Hello "); ("author", JStr "ann");
                     ("content", JStr "text"); ("password", JStr "swordfish")])
              (Sample.webWorldWith [] [] [Sample.webPost])
              (map Sample.entropyByte (seq 0 16) ++ Sample.bytesOf "swordfish")
              eq_refl eq_refl eq_refl eq_refl eq_refl eq_refl eq_refl eq_refl)
    as (row & Hfst & _).
  - intros p [<-|[]]. discriminate.
  - exact Hfst.
Defined.

(** *** The routes *)

Section RoutePatterns.
Import Routing JsFacts.
#[local] Arguments String.append !_ _ / : simpl nomatch.

Lemma stripPrefix_spec (p s rest : string) :
  stripPrefix p s = Some rest <-> s = (p +:+ rest)%string.
Proof.
  revert s. induction p as [|a p IH]; intros s; simpl.
  - split; [intros H; now apply Some_inj in H | intros ->; reflexivity].
  - destruct s as [|b s]; [split; discriminate|].
    destruct (Ascii.eqb_spec a b) as [->|Hne].
    + rewrite IH. split; [intros ->; reflexivity | intros H; now injection H].
    + split; [discriminate | intros H; injection H; intros; congruence].
Qed.

(** A string without slash. *)
Lemma segment_whole (seg : string) :
  lastPos "/" seg = None -> segment seg = (seg, EmptyString).
Proof.
  induction seg as [|c seg IH]; [reflexivity|]. simpl.
  destruct (lastPos "/" seg); [discriminate|].
  destruct (Ascii.eqb c "/"); [discriminate|]. intros _. now rewrite IH.
Qed.

Lemma segment_cut (seg tail : string) :
  lastPos "/" seg = None ->
  segment (seg +:+ String "/" tail) = (seg, String "/" tail).
Proof.
  induction seg as [|c seg IH]; [reflexivity|]. simpl.
  destruct (lastPos "/" seg); [discriminate|].
  destruct (Ascii.eqb c "/"); [discriminate|]. intros _. now rewrite IH.
Qed.

Lemma segment_spec (s seg after : string) :
  segment s = (seg, after) ->
  s = (seg +:+ after)%string
  /\ lastPos "/" seg = None
  /\ (after = EmptyString \/ exists tail, after = String "/" tail).
Proof.
  revert seg after. induction s as [|c s IH]; intros seg after; simpl.
  - intros H. apply pair_equal_spec in H as [<- <-]. auto.
  - destruct (Ascii.eqb_spec c "/") as [->|Hne].
    + intros H. apply pair_equal_spec in H as [<- <-]. repeat split; eauto.
    + destruct (segment s) as [seg' after'] eqn:E.
      intros H. apply pair_equal_spec in H as [<- <-].
      destruct (IH seg' after' eq_refl) as (-> & Hno & Hafter).
      repeat split; auto. simpl. rewrite Hno.
      destruct (Ascii.eqb_spec c "/"); [contradiction | reflexivity].
Qed.

Lemma append_nil_r (s : string) : (s +:+ EmptyString)%string = s.
Proof. induction s as [|c s IH]; [reflexivity|]. simpl. now rewrite IH. Qed.

Lemma append_cancel_l (p a b : string) : (p +:+ a)%string = (p +:+ b)%string -> a = b.
Proof.
  induction p as [|c p IH]; simpl; [auto|]. intros H. injection H as H. now apply IH.
Qed.

Lemma postMatch_spec (path id : string) :
  postMatch path = Some id
  <-> path = ("/api/posts/" +:+ id)%string /\ isEmpty id = false /\ lastPos "/" id = None.
Proof.
  unfold postMatch. split.
  - destruct (stripPrefix "/api/posts/" path) as [rest|] eqn:Hpre; [|discriminate].
    apply stripPrefix_spec in Hpre. subst path.
    destruct (segment rest) as [seg after] eqn:Hseg.
    apply segment_spec in Hseg as (-> & Hno & _).
    destruct seg; [discriminate|]. destruct after; [|discriminate].
    intros H. apply Some_inj in H. subst id.
    rewrite append_nil_r. auto.
  - intros (-> & Hne & Hno).
    rewrite (proj2 (stripPrefix_spec "/api/posts/" _ id) eq_refl).
    rewrite (segment_whole id Hno), Hne. reflexivity.
Qed.

Lemma viewMatch_spec (path id : string) :
  viewMatch path = Some id
  <-> path = ("/api/posts/" +:+ id +:+ "/view")%string /\ isEmpty id = false
      /\ lastPos "/" id = None.
Proof.
  unfold viewMatch. split.
  - destruct (stripPrefix "/api/posts/" path) as [rest|] eqn:Hpre; [|discriminate].
    apply stripPrefix_spec in Hpre. subst path.
    destruct (segment rest) as [seg after] eqn:Hseg.
    apply segment_spec in Hseg as (-> & Hno & _).
    destruct seg; [discriminate|].
    destruct (String.eqb_spec after "/view") as [->|]; [|discriminate].
    intros H. apply Some_inj in H. subst id. auto.
  - intros (-> & Hne & Hno).
    rewrite (proj2 (stripPrefix_spec "/api/posts/" _ (id +:+ "/view")) eq_refl).
    rewrite (segment_cut id "view" Hno), Hne. reflexivity.
Qed.

(** A path that matches one pattern does not match the other. *)
Lemma postMatch_not_view (path id : string) :
  postMatch path = Some id -> viewMatch path = None.
Proof.
  intros Hp. apply postMatch_spec in Hp as (-> & Hne & Hno).
  destruct (viewMatch ("/api/posts/" +:+ id)) as [id'|] eqn:Hv; [|reflexivity].
  apply viewMatch_spec in Hv as (Heq & _ & Hno'). exfalso.
  apply append_cancel_l in Heq. subst id.
  exact (lastPos_contains "/" id' "view" Hno).
Qed.

End RoutePatterns.

(** X16.  The two path patterns of the servers take exactly the paths
    they are written for: [postMatch] captures [id] from [/api/posts/id]
    and [viewMatch] from [/api/posts/id/view], for an [id] that is not
    empty and holds no slash, and from no other path; no path matches
    both.  The Worker, once past its [OPTIONS] test, and the local server
    decide every request alike, the Worker answering 404 where the local
    server's [route] returns [null]. *)
Theorem route_patterns :
  (forall path id : string,
     Routing.postMatch path = Some id
     <-> path = ("/api/posts/" +:+ id)%string /\ isEmpty id = false
         /\ lastPos "/" id = None)
  /\ (forall path id : string,
        Routing.viewMatch path = Some id
        <-> path = ("/api/posts/" +:+ id +:+ "/view")%string /\ isEmpty id = false
            /\ lastPos "/" id = None)
  /\ (forall path id : string,
        Routing.postMatch path = Some id -> Routing.viewMatch path = None)
  /\ (forall method path : string,
        method <> "OPTIONS"%string ->
        Routing.fetchRoute method path
        = match Routing.route method path with
          | Some t => Routing.Routed t
          | None => Routing.NotFound
          end).
Proof.
  split; [exact postMatch_spec|]. split; [exact viewMatch_spec|]. split.
  - exact postMatch_not_view.
  - intros method path Hm. unfold Routing.fetchRoute, Routing.route.
    apply String.eqb_neq in Hm. rewrite Hm.
    repeat match goal with
           | |- context [if ?c then _ else _] => destruct c; [reflexivity|]
           end.
    destruct (Routing.postMatch path), (Routing.viewMatch path);
      repeat match goal with
             | |- context [String.eqb method ?m] => destruct (String.eqb method m)
             end; reflexivity.
Qed.

Lemma route_patterns_witness : Routing.viewMatch "/api/posts/p1/view" = Some "p1"%string.
Proof.
  exact (proj2 (proj1 (proj2 route_patterns) "/api/posts/p1/view" "p1")
               (conj eq_refl (conj eq_refl eq_refl))).
Defined.

(** X17.  The two servers treat an admin's view exchange differently.
    The local server rewrites the path to [/api/posts/id] and calls
    [route] again with the method still [POST]; no route takes that pair,
    so [route] returns [null]: no response is written and nothing changes.
    The Worker answers the admin with the post when the back end holds
    one, whatever the body of the request, without reading a password and
    without minting or storing a token. *)
Theorem admin_view_exchange (web : Worker.WebCrypto) (node : LocalServer.NodeRuntime) :
  (forall (path id : string),
     Routing.viewMatch path = Some id ->
     Routing.route "POST" path = Some (Routing.PostView id)
     /\ Routing.route "POST" (Routing.redirected id) = None)
  /\ (forall (env : LocalServer.Env) (id : string) (req : LocalServer.Request)
             (w : LocalServer.World),
        LocalServer.isAdmin env w req = true ->
        LocalServer.route env (LocalServer.PostView id) req w
        = (Ret None, LocalServer.arriving w))
  /\ (forall (env : Worker.Env) (id : string) (req : Worker.Request) (w : Worker.World)
             (row : Worker.PostRow) (others : list Worker.PostRow),
        fst (Worker.isAdmin env req w) = Ret true ->
        Worker.outage env Worker.Posts Worker.Select = None ->
        List.filter (fun p => String.eqb (Worker.id p) id) (Worker.posts (Worker.db w))
        = row :: others ->
        let out := Worker.fetch env (Worker.PostView id) req w in
        fst out = Ret (Worker.send 200 (JObj [("post", Worker.shownPost row)]))
        /\ Worker.db (snd out) = Worker.db w
        /\ Worker.drawn (snd out) = Worker.drawn w
        /\ Worker.trace (snd out)
           = Worker.trace w ++ [Worker.Rest Worker.AdminSessions Worker.Select;
                                Worker.Rest Worker.Posts Worker.Select]).
Proof.
  split; [|split].
  - intros path id Hv. pose proof Hv as Hspec.
    apply viewMatch_spec in Hspec as (-> & Hne & Hno).
    split.
    + unfold Routing.route.
      change (String.eqb ("/api/posts/" +:+ id +:+ "/view") "/api/admin/me") with false.
      change (String.eqb ("/api/posts/" +:+ id +:+ "/view") "/api/admin/login") with false.
      change (String.eqb ("/api/posts/" +:+ id +:+ "/view") "/api/admin/logout") with false.
      change (String.eqb ("/api/posts/" +:+ id +:+ "/view") "/api/posts") with false.
      cbv beta iota zeta delta [andb]. rewrite Hv.
      change (String.eqb "POST" "GET") with false.
      destruct (Routing.postMatch _); reflexivity.
    + unfold Routing.route, Routing.redirected.
      change (String.eqb ("/api/posts/" +:+ id) "/api/admin/me") with false.
      change (String.eqb ("/api/posts/" +:+ id) "/api/admin/login") with false.
      change (String.eqb ("/api/posts/" +:+ id) "/api/admin/logout") with false.
      change (String.eqb ("/api/posts/" +:+ id) "/api/posts") with false.
      cbv beta iota zeta delta [andb].
      rewrite (proj2 (postMatch_spec ("/api/posts/" +:+ id) id) (conj eq_refl (conj Hne Hno))).
      rewrite (postMatch_not_view ("/api/posts/" +:+ id) id
                 (proj2 (postMatch_spec _ id) (conj eq_refl (conj Hne Hno)))).
      reflexivity.
  - intros env id req w Hadm. unfold LocalServer.route, LocalServer.handlePostView. run.
    change (LocalServer.isAdmin env (LocalServer.arriving w) req)
      with (LocalServer.isAdmin env w req).
    now rewrite Hadm.
  - intros env id req w row others Hadm Hsel Hrow out.
    destruct (isAdmin_events env req w) as (evA & _ & Hsnd & Htrue & _).
    specialize (Htrue Hadm). subst evA.
    assert (Hout : out = (Ret (Worker.send 200 (JObj [("post", Worker.shownPost row)])),
                          Worker.logged w [Worker.Rest Worker.AdminSessions Worker.Select;
                                           Worker.Rest Worker.Posts Worker.Select])).
    { unfold out, Worker.fetch, Worker.catch, Worker.dispatch, Worker.handlePostView. run.
      destruct (Worker.isAdmin env req w) as [oa wa]. cbn [fst snd] in Hadm, Hsnd.
      subst oa wa. unfold Worker.loadPost. run. rewrite selectPost_run, Hsel.
      change (Worker.db (Worker.logged w [Worker.Rest Worker.AdminSessions Worker.Select]))
        with (Worker.db w).
      rewrite Hrow. cbv beta iota delta [firstn]. rewrite logged_logged. reflexivity. }
    rewrite Hout. repeat split.
Qed.

Lemma admin_view_exchange_witness :
  Routing.route "POST" "/api/posts/p1/view" = Some (Routing.PostView "p1")
  /\ Routing.route "POST" (Routing.redirected "p1") = None.
Proof.
  exact (proj1 (admin_view_exchange Sample.web Sample.node) "/api/posts/p1/view" "p1"
               eq_refl).
Defined.

(** *** The cookies a request carries *)

Section CookieParsing.
Context `{rt : Cookies.UriDecoder}.
Import Cookies JsFacts.
#[local] Arguments String.append !_ _ / : simpl nomatch.

(** A name bound after the loop was bound before it or by one of the
    parts. *)
Lemma assign_sound (parts : list string) (out m : gmap string string) (name v : string) :
  assign parts out = Ret m ->
  m !! name = Some v ->
  out !! name = Some v
  \/ exists part value, In part parts /\ pairOf part = Some (name, value)
                        /\ decodeURIComponent value = Ret v.
Proof.
  revert out. induction parts as [|part parts IH]; intros out; simpl.
  - intros H Hm. apply Ret_inj in H. subst m. now left.
  - destruct (pairOf part) as [[key value]|] eqn:Hpair.
    + destruct (decodeURIComponent value) as [v'|msg] eqn:Hd; [|discriminate].
      intros H Hm. destruct (IH _ H Hm) as [Hout|(p & val & Hin & Hp & Hv)].
      * destruct (String.eqb key "__proto__"); [now left|].
        destruct (String.eqb_spec key name) as [->|Hne].
        -- rewrite lookup_insert_eq in Hout. apply Some_inj in Hout. subst v'.
           right. exists part, value. auto.
        -- rewrite lookup_insert_ne in Hout by exact Hne. now left.
      * right. exists p, val. auto.
    + intros H Hm. destruct (IH _ H Hm) as [Hout|(p & val & Hin & Hp & Hv)];
        [now left|]. right. exists p, val. auto.
Qed.

(** The loop raises exactly when the value of some part with a key does
    not decode. *)
Lemma assign_raises (parts : list string) (out : gmap string string) :
  (exists message, assign parts out = Throw message)
  <-> exists part key value message,
        In part parts /\ pairOf part = Some (key, value)
        /\ decodeURIComponent value = Throw message.
Proof.
  revert out. induction parts as [|part parts IH]; intros out; simpl.
  - split; [intros [m H]; discriminate | intros (p & k & v & m & [] & _)].
  - destruct (pairOf part) as [[key value]|] eqn:Hpair.
    + destruct (decodeURIComponent value) as [v'|msg] eqn:Hd.
      * rewrite IH. split.
        -- intros (p & k & v & m & Hin & Hp & Hv). exists p, k, v, m. auto.
        -- intros (p & k & v & m & [<-|Hin] & Hp & Hv).
           ++ rewrite Hpair in Hp. apply Some_inj in Hp.
              apply pair_equal_spec in Hp as [_ <-]. congruence.
           ++ exists p, k, v, m. auto.
      * split; [|eauto]. intros _. exists part, key, value, msg. auto.
    + rewrite IH. split.
      * intros (p & k & v & m & Hin & Hp & Hv). exists p, k, v, m. auto.
      * intros (p & k & v & m & [<-|Hin] & Hp & Hv); [congruence|].
        exists p, k, v, m. auto.
Qed.

Lemma assign_app (l1 l2 : list string) (out : gmap string string) :
  assign (l1 ++ l2) out
  = match assign l1 out with
    | Ret m => assign l2 m
    | Throw message => Throw message
    end.
Proof.
  revert out. induction l1 as [|part l1 IH]; intros out; simpl; [reflexivity|].
  destruct (pairOf part) as [[key value]|]; [|apply IH].
  destruct (decodeURIComponent value); [apply IH | reflexivity].
Qed.

Lemma split_nonempty (c : ascii) (s : string) : split c s <> [].
Proof.
  destruct s as [|a s]; simpl; [discriminate|].
  destruct (Ascii.eqb a c); [discriminate|]. destruct (split c s); discriminate.
Qed.

Lemma split_whole (c : ascii) (s : string) : firstPos c s = None -> split c s = [s].
Proof.
  induction s as [|a s IH]; simpl; [reflexivity|].
  destruct (Ascii.eqb a c); [discriminate|].
  destruct (firstPos c s); [discriminate|]. intros _. now rewrite IH.
Qed.

(** One more part at the end of the header is one more piece. *)
Lemma split_snoc (c : ascii) (h part : string) :
  firstPos c part = None ->
  split c (h +:+ String c part) = split c h ++ [part].
Proof.
  intros Hpart. induction h as [|a h IH]; simpl.
  - rewrite Ascii.eqb_refl. now rewrite (split_whole c part Hpart).
  - destruct (Ascii.eqb a c); [now rewrite IH|].
    rewrite IH. destruct (split c h) as [|piece pieces] eqn:E; [|reflexivity].
    now destruct (split_nonempty c h).
Qed.

End CookieParsing.

(** X18.  The two [parseCookies] read every header alike.  A name is
    bound in the result only to the decoded value of a part of the header
    that carries that name as its trimmed key; a part added at the end of
    the header overrides what the name was bound to; and the call raises
    exactly when the value of some part with a key does not decode,
    whether or not the server reads that cookie. *)
Theorem parseCookies_reads (decoder : Cookies.UriDecoder) :
  (forall header : option string,
     Cookies.workerParseCookies header = Cookies.localParseCookies header)
  /\ (forall (h : string) (m : gmap string string) (name v : string),
        Cookies.localParseCookies (Some h) = Ret m ->
        m !! name = Some v ->
        exists part value,
          In part (Cookies.split ";" h)
          /\ Cookies.pairOf part = Some (name, value)
          /\ Cookies.decodeURIComponent value = Ret v)
  /\ (forall (h part name value v : string) (m : gmap string string),
        Cookies.localParseCookies (Some h) = Ret m ->
        Cookies.firstPos ";" part = None ->
        Cookies.pairOf part = Some (name, value) ->
        name <> "__proto__"%string ->
        Cookies.decodeURIComponent value = Ret v ->
        Cookies.localParseCookies (Some (h +:+ ";" +:+ part)) = Ret (<[name := v]> m))
  /\ (forall h : string,
        (exists message, Cookies.localParseCookies (Some h) = Throw message)
        <-> exists part key value message,
              In part (Cookies.split ";" h)
              /\ Cookies.pairOf part = Some (key, value)
              /\ Cookies.decodeURIComponent value = Throw message).
Proof.
  assert (Hlocal : forall h, Cookies.localParseCookies (Some h)
                             = Cookies.assign (Cookies.split ";" h) ∅).
  { intros h. unfold Cookies.localParseCookies. now destruct h. }
  split; [|split; [|split]].
  - intros [h|]; [|reflexivity]. rewrite Hlocal. unfold Cookies.workerParseCookies.
    now destruct h.
  - intros h m name v Hm Hv. rewrite Hlocal in Hm.
    destruct (assign_sound _ _ _ _ _ Hm Hv) as [Hempty|Hex]; [|exact Hex].
    rewrite lookup_empty in Hempty. discriminate.
  - intros h part name value v m Hm Hsemi Hpair Hname Hd.
    rewrite Hlocal in *.
    change (h +:+ ";" +:+ part)%string with (h +:+ String ";" part)%string.
    rewrite (split_snoc ";" h part Hsemi), assign_app, Hm. simpl.
    rewrite Hpair, Hd. apply String.eqb_neq in Hname. now rewrite Hname.
  - intros h. rewrite Hlocal. apply assign_raises.
Qed.

Lemma parseCookies_reads_witness :
  Cookies.localParseCookies (rt := SampleCookies.decoder)
    (Some "theme=dark; woldecks.sid=abc"%string)
  = Ret (<["woldecks.sid"%string := "abc"%string]> {["theme"%string := "dark"%string]}).
Proof.
  exact (proj1 (proj2 (proj2 (parseCookies_reads SampleCookies.decoder)))
               "theme=dark" " woldecks.sid=abc" "woldecks.sid" "abc" "abc"
               {["theme"%string := "dark"%string]}
               eq_refl eq_refl eq_refl ltac:(discriminate) eq_refl).
Defined.

(** *** The configuration of the local server *)

Section DotEnvLoading.
Import DotEnv JsFacts.

Lemma load_keeps (lines : list string) (env : gmap string string) (key v : string) :
  env !! key = Some v -> load lines env !! key = Some v.
Proof.
  revert env. induction lines as [|line lines IH]; intros env Hk; simpl; [exact Hk|].
  destruct (entryOf line) as [[k val]|]; [|now apply IH].
  apply IH. destruct (env !! k) eqn:Ek; [exact Hk|].
  rewrite lookup_insert_ne; [exact Hk | congruence].
Qed.

Lemma load_sound (lines : list string) (env : gmap string string) (key v : string) :
  load lines env !! key = Some v ->
  env !! key = Some v
  \/ (env !! key = None /\ exists line, In line lines /\ entryOf line = Some (key, v)).
Proof.
  revert env. induction lines as [|line lines IH]; intros env; simpl; [now left|].
  destruct (entryOf line) as [[k val]|] eqn:He.
  - intros H. apply IH in H as [H|(Hnone & l & Hin & Hl)].
    + destruct (env !! k) eqn:Ek; [now left|].
      destruct (String.eqb_spec k key) as [->|Hne].
      * rewrite lookup_insert_eq in H. apply Some_inj in H. subst val.
        right. split; [exact Ek|]. exists line. auto.
      * rewrite lookup_insert_ne in H by exact Hne. now left.
    + right. split.
      * destruct (env !! k) eqn:Ek; [exact Hnone|].
        destruct (String.eqb_spec k key) as [->|Hne].
        -- now rewrite lookup_insert_eq in Hnone.
        -- now rewrite lookup_insert_ne in Hnone by exact Hne.
      * exists l. auto.
  - intros H. apply IH in H as [H|(Hnone & l & Hin & Hl)]; [now left|].
    right. split; [exact Hnone|]. exists l. auto.
Qed.

Lemma load_first (before after : list string) (line key v : string)
    (env : gmap string string) :
  env !! key = None ->
  (forall l v', In l before -> entryOf l <> Some (key, v')) ->
  entryOf line = Some (key, v) ->
  load (before ++ line :: after) env !! key = Some v.
Proof.
  revert env. induction before as [|l before IH]; intros env Hnone Hbefore Hline; simpl.
  - rewrite Hline, Hnone. apply load_keeps. apply lookup_insert_eq.
  - destruct (entryOf l) as [[k val]|] eqn:He.
    + apply IH; [|intros l' v' Hin; apply Hbefore; now right|exact Hline].
      destruct (env !! k) eqn:Ek; [exact Hnone|].
      rewrite lookup_insert_ne; [exact Hnone|].
      intros ->. apply (Hbefore l val); [now left | exact He].
    + apply IH; [exact Hnone|intros l' v' Hin; apply Hbefore; now right|exact Hline].
Qed.

End DotEnvLoading.

(** X19.  [loadDotEnv] never overrides a variable of the environment: a
    name that is set keeps its value whatever the file says.  A name the
    file sets gets the value of the first line that defines it, later
    lines for the same name being ignored, and a name is set afterwards
    only if it was set before or some line of the file defines it.  A file
    that cannot be read changes nothing.  The admin password taken from
    the environment is never empty: an unset or empty variable gives the
    default [admin1234]. *)
Theorem loadDotEnv_fills_gaps :
  (forall (file : option string) (env : gmap string string) (key v : string),
     env !! key = Some v -> DotEnv.loadDotEnv file env !! key = Some v)
  /\ (forall (raw : string) (env : gmap string string) (key v : string),
        DotEnv.loadDotEnv (Some raw) env !! key = Some v ->
        env !! key = Some v
        \/ (env !! key = None
            /\ exists line, In line (DotEnv.splitLines raw)
                            /\ DotEnv.entryOf line = Some (key, v)))
  /\ (forall (raw : string) (before after : list string) (line key v : string)
             (env : gmap string string),
        DotEnv.splitLines raw = before ++ line :: after ->
        env !! key = None ->
        (forall l v', In l before -> DotEnv.entryOf l <> Some (key, v')) ->
        DotEnv.entryOf line = Some (key, v) ->
        DotEnv.loadDotEnv (Some raw) env !! key = Some v)
  /\ (forall env : gmap string string, DotEnv.loadDotEnv None env = env)
  /\ (forall env : gmap string string, isEmpty (DotEnv.adminPassword env) = false).
Proof.
  split; [|split; [|split; [|split]]].
  - intros [raw|] env key v Hk; [|exact Hk]. now apply load_keeps.
  - intros raw env key v. apply load_sound.
  - intros raw before after line key v env Hsplit Hnone Hbefore Hline.
    unfold DotEnv.loadDotEnv. rewrite Hsplit. now apply load_first.
  - reflexivity.
  - intros env. unfold DotEnv.adminPassword.
    destruct (env !! "ADMIN_PASSWORD"%string) as [s|]; [|reflexivity].
    destruct s; reflexivity.
Qed.

Lemma loadDotEnv_fills_gaps_witness :
  DotEnv.loadDotEnv
    (Some ("PORT=8080" +:+ String "010" "ADMIN_PASSWORD='s3cret'"
           +:+ String "010" "ADMIN_PASSWORD=other")%string)
    {["PORT"%string := "3000"%string]}
  !! "ADMIN_PASSWORD"%string = Some "s3cret"%string.
Proof.
  exact (proj1 (proj2 (proj2 loadDotEnv_fills_gaps))
               ("PORT=8080" +:+ String "010" "ADMIN_PASSWORD='s3cret'"
                +:+ String "010" "ADMIN_PASSWORD=other")%string
               ["PORT=8080"%string] ["ADMIN_PASSWORD=other"%string]
               "ADMIN_PASSWORD='s3cret'" "ADMIN_PASSWORD" "s3cret"
               {["PORT"%string := "3000"%string]}
               eq_refl eq_refl
               ltac:(intros l v' [<-|[]]; discriminate) eq_refl).
Defined.

(** *** The size limit on request bodies *)

Section BodyLimit.
Import Upload JsFacts.

(** The running size stays within the limit while chunks are kept, so the
    outcome depends on the total size only. *)
Lemma collect_spec (limitBytes size : Z) (chunks kept : list (list byte)) :
  size <= limitBytes ->
  collect limitBytes size chunks kept
  = if limitBytes <? size + Z.of_nat (length (concat chunks))
    then Throw "Payload too large"
    else Ret (concat (rev kept) ++ concat chunks).
Proof.
  revert size kept. induction chunks as [|chunk chunks IH]; intros size kept Hsize; simpl.
  - rewrite Z.add_0_r, List.app_nil_r.
    destruct (Z.ltb_spec limitBytes size); [lia | reflexivity].
  - rewrite List.length_app, Nat2Z.inj_add.
    destruct (Z.ltb_spec limitBytes (size + Z.of_nat (length chunk))) as [Hover|Hfit].
    + destruct (Z.ltb_spec limitBytes
                  (size + (Z.of_nat (length chunk) + Z.of_nat (length (concat chunks)))));
        [reflexivity | lia].
    + rewrite IH by exact Hfit. rewrite Z.add_assoc.
      destruct (Z.ltb_spec limitBytes
                  (size + Z.of_nat (length chunk) + Z.of_nat (length (concat chunks))));
        [reflexivity|].
      simpl. now rewrite concat_app, <- List.app_assoc; simpl; rewrite List.app_nil_r.
Qed.

Lemma readBody_spec (chunks : list (list byte)) :
  readBody chunks
  = if 262144 <? Z.of_nat (length (concat chunks))
    then Throw "Payload too large"
    else Ret (concat chunks).
Proof.
  unfold readBody. change (256 * 1024) with 262144.
  rewrite collect_spec by lia. reflexivity.
Qed.

End BodyLimit.

(** X20.  The local server accepts a request body by its total size, not
    by how it arrives: [readBody] resolves with all the bytes, in order,
    exactly when they are at most 262144 (256 KiB), and is rejected with
    [Payload too large] otherwise; [readJson] turns the rejection, like a
    text that does not parse, into [null] after a 400 answer, and reads an
    empty body as the empty object. *)
Theorem readBody_limit :
  (forall chunks : list (list byte),
     (Z.of_nat (length (concat chunks)) <= 262144 ->
      Upload.readBody chunks = Ret (concat chunks))
     /\ (262144 < Z.of_nat (length (concat chunks)) ->
         Upload.readBody chunks = Throw "Payload too large"))
  /\ (forall (parse : list byte -> Outcome json) (chunks : list (list byte)),
        (262144 < Z.of_nat (length (concat chunks)) -> Upload.readJson parse chunks = None)
        /\ (concat chunks = [] -> Upload.readJson parse chunks = Some (JObj [])))
  /\ (forall (parse : list byte -> Outcome json) (chunks chunks' : list (list byte)),
        concat chunks = concat chunks' ->
        Upload.readJson parse chunks = Upload.readJson parse chunks').
Proof.
  split; [|split].
  - intros chunks. rewrite readBody_spec.
    destruct (Z.ltb_spec 262144 (Z.of_nat (length (concat chunks)))); split;
      intros; try reflexivity; lia.
  - intros parse chunks. unfold Upload.readJson. rewrite readBody_spec. split.
    + intros Hover. apply Z.ltb_lt in Hover. now rewrite Hover.
    + intros ->. reflexivity.
  - intros parse chunks chunks' Heq. unfold Upload.readJson.
    now rewrite !readBody_spec, Heq.
Qed.

Lemma readBody_limit_witness :
  Upload.readBody [[x61; x62]; []; [x63]] = Ret [x61; x62; x63].
Proof.
  exact (proj1 (proj1 readBody_limit [[x61; x62]; []; [x63]]) ltac:(simpl; lia)).
Defined.

(** *** What the local server sends from its directory *)

Section StaticFiles.
Context `{rt : LocalStatic.PathModule}.
Import LocalStatic JsFacts.

Lemma tmp_differs (p : string) : (p +:+ ".tmp")%string <> p.
Proof.
  intros H. apply (f_equal String.length) in H. rewrite length_app in H. simpl in H. lia.
Qed.

Lemma writeData_files (text : string) (files : gmap string string) :
  writeData text files !! dataPath = Some text
  /\ writeData text files !! (dataPath +:+ ".tmp")%string = None
  /\ forall p, p <> dataPath -> p <> (dataPath +:+ ".tmp")%string ->
               writeData text files !! p = files !! p.
Proof.
  unfold writeData. cbv zeta. split; [apply lookup_insert_eq|]. split.
  - rewrite lookup_insert_ne by (intros H; symmetry in H; now apply tmp_differs in H).
    apply lookup_delete_eq.
  - intros p Hd Ht.
    rewrite lookup_insert_ne by congruence.
    rewrite lookup_delete_ne by congruence.
    now rewrite lookup_insert_ne by congruence.
Qed.

End StaticFiles.

(** X21.  The listener of the local server answers any request that no
    route takes from the directory of [server.js], without reading a
    credential and whatever the method: a path other than [/] whose join
    with the directory names a regular file under it is answered 200 with
    the content of that file.  The data file is such a file.  [writeData]
    leaves the given text in it, removes its temporary file and touches no
    other; with a [path.join] that reads [/woldecks-data.json] as the
    data file under the directory, a request for that path is answered
    with the text last written, which holds the credential records of
    all posts. *)
Theorem data_file_is_served (paths : LocalStatic.PathModule) :
  (forall (files : gmap string string) (method pathname content : string),
     Routing.route method pathname = None ->
     pathname <> "/"%string ->
     String.prefix LocalStatic.dirname (LocalStatic.join pathname) = true ->
     files !! LocalStatic.join pathname = Some content ->
     LocalStatic.listener files method pathname
     = LocalStatic.Static
         (LocalStatic.contentType (LocalStatic.extname (LocalStatic.join pathname)))
         content)
  /\ (forall (files : gmap string string) (text : string),
        LocalStatic.writeData text files !! LocalStatic.dataPath = Some text
        /\ LocalStatic.writeData text files !! (LocalStatic.dataPath +:+ ".tmp")%string
           = None
        /\ forall p, p <> LocalStatic.dataPath ->
                     p <> (LocalStatic.dataPath +:+ ".tmp")%string ->
                     LocalStatic.writeData text files !! p = files !! p)
  /\ (forall (files : gmap string string) (text method : string),
        LocalStatic.join "/woldecks-data.json" = LocalStatic.dataPath ->
        String.prefix LocalStatic.dirname LocalStatic.dataPath = true ->
        LocalStatic.listener (LocalStatic.writeData text files) method
                             "/woldecks-data.json"
        = LocalStatic.Static
            (LocalStatic.contentType (LocalStatic.extname LocalStatic.dataPath)) text).
Proof.
  assert (Hany : forall (files : gmap string string) (method pathname content : string),
            Routing.route method pathname = None ->
            pathname <> "/"%string ->
            String.prefix LocalStatic.dirname (LocalStatic.join pathname) = true ->
            files !! LocalStatic.join pathname = Some content ->
            LocalStatic.listener files method pathname
            = LocalStatic.Static
                (LocalStatic.contentType (LocalStatic.extname (LocalStatic.join pathname)))
                content).
  { intros files method pathname content Hroute Hroot Hunder Hfile.
    unfold LocalStatic.listener, LocalStatic.serveStatic. rewrite Hroute.
    apply String.eqb_neq in Hroot. rewrite Hroot. cbv zeta.
    now rewrite Hunder, Hfile. }
  split; [exact Hany|]. split; [intros files text; apply writeData_files|].
  intros files text method Hjoin Hunder.
  rewrite <- Hjoin. apply Hany.
  - reflexivity.
  - discriminate.
  - now rewrite Hjoin.
  - rewrite Hjoin. apply writeData_files.
Qed.

Lemma data_file_is_served_witness :
  LocalStatic.listener (rt := SampleDisk.paths)
    (LocalStatic.writeData (rt := SampleDisk.paths) "{ posts }" ∅)
    "GET" "/woldecks-data.json"
  = LocalStatic.Static "application/octet-stream" "{ posts }".
Proof.
  exact (proj2 (proj2 (data_file_is_served SampleDisk.paths))
               ∅ "{ posts }"%string "GET"%string eq_refl eq_refl).
Defined.

(** *** The CSV export read back *)

Section CsvReading.
Import Csv JsFacts.
#[local] Arguments String.append !_ _ / : simpl nomatch.

Lemma run_app (r : Reader) (a b : string) : run r (a +:+ b) = run (run r a) b.
Proof. revert r. induction a as [|c a IH]; intros r; simpl; [reflexivity | apply IH]. Qed.

Lemma append_assoc (a b c : string) : ((a +:+ b) +:+ c)%string = (a +:+ (b +:+ c))%string.
Proof. induction a as [|x a IH]; simpl; [reflexivity | now rewrite IH]. Qed.

Lemma special_false (c : ascii) :
  special c = false ->
  Ascii.eqb c quote = false /\ Ascii.eqb c comma = false
  /\ Ascii.eqb c carriageReturn = false.
Proof.
  unfold special. intros H.
  apply orb_false_iff in H as [H Hcr]. apply orb_false_iff in H as [H Hlf].
  apply orb_false_iff in H as [Hq Hc]. auto.
Qed.

(** A text without special character is read as it is. *)
Lemma run_plain (text : string) (m : Mode) (c : string) (rw : list string)
    (rs : list (list string)) :
  needsQuotes text = false ->
  m = Fresh \/ m = Plain ->
  run {| mode := m; cell := c; row := rw; rows := rs |} text
  = {| mode := if isEmpty text then m else Plain; cell := (c +:+ text)%string;
       row := rw; rows := rs |}.
Proof.
  revert m c. induction text as [|x text IH]; intros m c Hn Hm; simpl.
  - now rewrite append_nil_r.
  - simpl in Hn. apply orb_false_iff in Hn as [Hx Hn].
    apply special_false in Hx as (Hq & Hc & Hcr).
    assert (Hstep : step {| mode := m; cell := c; row := rw; rows := rs |} x
                    = {| mode := Plain; cell := (c +:+ String x EmptyString)%string;
                         row := rw; rows := rs |}).
    { unfold step. destruct Hm as [-> | ->]; cbn [mode]; rewrite ?Hq, Hc, Hcr; reflexivity. }
    rewrite Hstep, IH by auto. rewrite append_assoc. simpl.
    now destruct text.
Qed.

(** Inside quotes the doubled quotes are read back as single ones. *)
Lemma run_quoted (text c : string) (rw : list string) (rs : list (list string)) :
  run {| mode := Quoted; cell := c; row := rw; rows := rs |} (doubleQuotes text)
  = {| mode := Quoted; cell := (c +:+ text)%string; row := rw; rows := rs |}.
Proof.
  revert c. induction text as [|x text IH]; intros c; simpl.
  - now rewrite append_nil_r.
  - destruct (Ascii.eqb_spec x quote) as [->|Hne].
    + simpl. unfold step at 2. cbn [mode]. rewrite Ascii.eqb_refl.
      unfold step. cbn [mode]. rewrite Ascii.eqb_refl. unfold keep. cbn [cell row rows].
      rewrite IH, append_assoc. reflexivity.
    + simpl. unfold step. cbn [mode].
      apply Ascii.eqb_neq in Hne. rewrite Hne. unfold keep. cbn [cell row rows].
      rewrite IH, append_assoc. reflexivity.
Qed.

(** After an escaped cell the reader holds the cell, in a mode in which
    a separator or the end of the text closes it. *)
Lemma run_cell (text : string) (rw : list string) (rs : list (list string)) :
  exists m, (m = Fresh \/ m = Plain \/ m = Closing)
            /\ run {| mode := Fresh; cell := EmptyString; row := rw; rows := rs |}
                   (escapeCell text)
               = {| mode := m; cell := text; row := rw; rows := rs |}.
Proof.
  unfold escapeCell. destruct (needsQuotes text) eqn:Hn.
  - exists Closing. split; [auto|]. simpl. unfold step at 1. cbn [mode].
    rewrite Ascii.eqb_refl. cbn [cell row rows].
    rewrite run_app, run_quoted. simpl. unfold step. cbn [mode].
    now rewrite Ascii.eqb_refl.
  - exists (if isEmpty text then Fresh else Plain). split; [destruct text; auto|].
    now rewrite run_plain by auto.
Qed.

Lemma step_comma (m : Mode) (c : string) (rw : list string) (rs : list (list string)) :
  m = Fresh \/ m = Plain \/ m = Closing ->
  step {| mode := m; cell := c; row := rw; rows := rs |} comma
  = {| mode := Fresh; cell := EmptyString; row := rw ++ [c]; rows := rs |}.
Proof. intros [-> |[-> | ->]]; reflexivity. Qed.

Lemma step_return (m : Mode) (c : string) (rw : list string) (rs : list (list string)) :
  m = Fresh \/ m = Plain \/ m = Closing ->
  run {| mode := m; cell := c; row := rw; rows := rs |}
      (String carriageReturn (String lineFeed EmptyString))
  = {| mode := Fresh; cell := EmptyString; row := []; rows := rs ++ [rw ++ [c]] |}.
Proof. intros [-> |[-> | ->]]; reflexivity. Qed.

Lemma finish_complete (m : Mode) (c : string) (rw : list string) (rs : list (list string)) :
  m = Fresh \/ m = Plain \/ m = Closing ->
  finish {| mode := m; cell := c; row := rw; rows := rs |} = rs ++ [rw ++ [c]].
Proof. intros [-> |[-> | ->]]; reflexivity. Qed.

Lemma csvRow_cons (t t' : string) (ts : list string) :
  csvRow (t :: t' :: ts) = (escapeCell t +:+ String comma (csvRow (t' :: ts)))%string.
Proof. reflexivity. Qed.

Lemma csv_cons (r r' : list string) (rs : list (list string)) :
  csv (r :: r' :: rs)
  = (csvRow r +:+ String carriageReturn (String lineFeed (csv (r' :: rs))))%string.
Proof. reflexivity. Qed.

(** A row of at least one cell: the reader holds the last cell and has
    put the others in the row. *)
Lemma run_row (t : string) (ts rw : list string) (rs : list (list string)) :
  exists m c, (m = Fresh \/ m = Plain \/ m = Closing)
    /\ run {| mode := Fresh; cell := EmptyString; row := rw; rows := rs |}
           (csvRow (t :: ts))
       = {| mode := m; cell := c; row := rw ++ List.removelast (t :: ts); rows := rs |}
    /\ c = List.last (t :: ts) EmptyString.
Proof.
  revert t rw. induction ts as [|t' ts IH]; intros t rw.
  - destruct (run_cell t rw rs) as (m & Hm & Hrun).
    exists m, t. split; [exact Hm|]. split; [|reflexivity].
    change (csvRow [t]) with (escapeCell t). rewrite Hrun. simpl.
    now rewrite List.app_nil_r.
  - rewrite csvRow_cons, run_app.
    destruct (run_cell t rw rs) as (m & Hm & ->).
    change (run ?r (String comma ?rest)) with (run (step r comma) rest).
    rewrite (step_comma m t rw rs Hm).
    destruct (IH t' (rw ++ [t])) as (m' & c & Hm' & Hrun & Hc).
    exists m', c. split; [exact Hm'|]. split; [|exact Hc].
    rewrite Hrun. f_equal.
    change (List.removelast (t :: t' :: ts)) with (t :: List.removelast (t' :: ts)).
    now rewrite <- List.app_assoc.
Qed.

(** A table of at least one row, each of at least one cell. *)
Lemma run_rows (r : list string) (rest : list (list string)) (rs : list (list string)) :
  r <> [] ->
  Forall (fun row => row <> []) rest ->
  finish (run {| mode := Fresh; cell := EmptyString; row := []; rows := rs |}
              (csv (r :: rest)))
  = rs ++ r :: rest.
Proof.
  revert r rs. induction rest as [|r' rest IH]; intros r rs Hr Hrest.
  - destruct r as [|t ts]; [contradiction|].
    change (csv [t :: ts]) with (csvRow (t :: ts)).
    destruct (run_row t ts [] rs) as (m & c & Hm & -> & ->).
    rewrite (finish_complete _ _ _ _ Hm). rewrite List.app_nil_l.
    now rewrite <- List.app_removelast_last by discriminate.
  - destruct r as [|t ts]; [contradiction|].
    rewrite csv_cons, run_app.
    destruct (run_row t ts [] rs) as (m & c & Hm & -> & ->).
    change (run ?x (String carriageReturn (String lineFeed ?y)))
      with (run (run x (String carriageReturn (String lineFeed EmptyString))) y).
    rewrite (step_return _ _ _ _ Hm). rewrite List.app_nil_l.
    rewrite <- List.app_removelast_last by discriminate.
    apply List.Forall_cons_iff in Hrest as [Hr' Hrest].
    rewrite (IH r' _ Hr' Hrest). now rewrite <- List.app_assoc.
Qed.

End CsvReading.

(** X22.  The CSV text of the export loses nothing.  A cell without
    quote, comma, line feed or carriage return is written as it is, any
    other between quotes with its quotes doubled; a reader of the format
    gets back, from the text of any table of at least one row whose rows
    have at least one cell each, exactly the table: commas, line breaks
    and quotes inside cells included.  So two such tables with the same
    text are the same table. *)
Theorem csv_export_reads_back :
  (forall text : string,
     Csv.needsQuotes text = false -> Csv.escapeCell text = text)
  /\ (forall table : list (list string),
        table <> [] ->
        Forall (fun row => row <> []) table ->
        Csv.read (Csv.csv table) = table)
  /\ (forall table table' : list (list string),
        table <> [] -> table' <> [] ->
        Forall (fun row => row <> []) table ->
        Forall (fun row => row <> []) table' ->
        Csv.csv table = Csv.csv table' ->
        table = table').
Proof.
  assert (Hread : forall table : list (list string),
            table <> [] ->
            Forall (fun row => row <> []) table ->
            Csv.read (Csv.csv table) = table).
  { intros [|r rest] Hne Hrows; [contradiction|].
    apply List.Forall_cons_iff in Hrows as [Hr Hrest].
    unfold Csv.read. now rewrite run_rows. }
  split; [|split].
  - intros text Hn. unfold Csv.escapeCell. now rewrite Hn.
  - exact Hread.
  - intros table table' Hne Hne' Hrows Hrows' Heq.
    rewrite <- (Hread table Hne Hrows), <- (Hread table' Hne' Hrows'). now rewrite Heq.
Qed.

Lemma csv_export_reads_back_witness :
  Csv.read (Csv.csv [["title"; "content"]; ["a,b"; String Csv.quote "hi"]])
  = [["title"; "content"]; ["a,b"; String Csv.quote "hi"]]%string.
Proof.
  apply (proj1 (proj2 csv_export_reads_back)).
  - discriminate.
  - repeat constructor; discriminate.
Defined.

(** The checks on a request whose cookies are read.  While the back end
    refuses the lookup of admin sessions no such request is an admin
    request, and while it refuses the lookup of view tokens no token
    passes, whatever is presented.  A [PUT] or [DELETE] made during both
    outages is then decided by the password alone: without one it is
    answered 401 [Password required], not 500, and with one, the lookup of
    the post being refused as well, 500 [Failed to verify]; in both cases
    the tables are untouched. *)
Lemma checks_refuse_during_outage (web : Worker.WebCrypto) (env : Worker.Env) :
  (forall (req : Worker.Request) (w : Worker.World) (detail : string),
     Worker.outage env Worker.AdminSessions Worker.Select = Some detail ->
     fst (Worker.isAdmin env req w) = Ret false)
  /\ (forall (pid viewToken : string) (w : Worker.World) (detail : string),
        Worker.outage env Worker.ViewTokens Worker.Select = Some detail ->
        fst (Worker.viewTokenAuthorized env pid viewToken w) = Ret false)
  /\ (forall (b : json) (route : Worker.Route) (pid : string) (v : Worker.Verb)
             (tail : Worker.M Response) (req : Worker.Request) (w : Worker.World)
             (d1 d2 : string),
        Worker.Mutation env b route pid v tail ->
        Worker.parsedBody req = Some b ->
        falsy b = false ->
        Worker.outage env Worker.AdminSessions Worker.Select = Some d1 ->
        Worker.outage env Worker.ViewTokens Worker.Select = Some d2 ->
        let out := Worker.fetch env route req w in
        (isEmpty (strField b "password") = true ->
         fst out = Ret (Worker.send 401 (Worker.errorBody "Password required"))
         /\ Worker.db (snd out) = Worker.db w)
        /\ (forall d3 : string,
              isEmpty (strField b "password") = false ->
              Worker.outage env Worker.Posts Worker.Select = Some d3 ->
              fst out = Ret (Worker.send 500 (Worker.errorDetail "Failed to verify" d3))
              /\ Worker.db (snd out) = Worker.db w)).
Proof.
  assert (Hadm : forall (req : Worker.Request) (w : Worker.World) (detail : string),
            Worker.outage env Worker.AdminSessions Worker.Select = Some detail ->
            fst (Worker.isAdmin env req w) = Ret false).
  { intros req w detail Hout. rewrite isAdmin_run.
    destruct (Worker.splitToken (Worker.adminCookie req)); [|reflexivity].
    unfold Worker.answeringSession. now rewrite Hout. }
  assert (Htok : forall (pid viewToken : string) (w : Worker.World) (detail : string),
            Worker.outage env Worker.ViewTokens Worker.Select = Some detail ->
            fst (Worker.viewTokenAuthorized env pid viewToken w) = Ret false).
  { intros pid vt w detail Hout. rewrite viewTokenAuthorized_run.
    destruct (Worker.splitToken (Some vt)); [|reflexivity].
    unfold Worker.answeringViewToken. now rewrite Hout. }
  split; [exact Hadm|]. split; [exact Htok|].
  intros b route pid v tail req w d1 d2 Hm Hb Hf Ho1 Ho2 out.
  destruct (fetch_mutation_cases env b route pid v tail req w Hm Hb Hf)
    as (evA & evT & evP & _ & _ & _ & _ & _ & _ & _ & _ & Hrun).
  fold out in Hrun.
  rewrite (Hadm req w d1 Ho1), (Htok pid (strField b "viewToken") w d2 Ho2) in Hrun.
  rewrite passwordFallback_run in Hrun.
  destruct (isEmpty (strField b "password")) eqn:Hp.
  - cbn [fst] in Hrun. rewrite Hrun. cbn [fst snd]. split; [auto | discriminate].
  - split; [discriminate|]. intros d3 _ Ho3. rewrite Ho3 in Hrun.
    cbn [fst] in Hrun. rewrite Hrun. cbn [fst snd]. auto.
Qed.

(** During both outages the authorization block turns the request down
    on the password alone, and touches no table. *)
Lemma authorize_during_outage `{rt : Worker.WebCrypto} (env : Worker.Env)
    (pid : string) (req : Worker.Request) (password viewToken : string)
    (w : Worker.World) (d1 d2 : string) :
  Worker.outage env Worker.AdminSessions Worker.Select = Some d1 ->
  Worker.outage env Worker.ViewTokens Worker.Select = Some d2 ->
  (isEmpty password = true ->
   exists w',
     Worker.authorize env pid req password viewToken w
     = (Ret (Some (Worker.send 401 (Worker.errorBody "Password required"))), w')
     /\ Worker.db w' = Worker.db w)
  /\ (forall d3 : string,
        isEmpty password = false ->
        Worker.outage env Worker.Posts Worker.Select = Some d3 ->
        exists w',
          Worker.authorize env pid req password viewToken w
          = (Ret (Some (Worker.send 500 (Worker.errorDetail "Failed to verify" d3))), w')
          /\ Worker.db w' = Worker.db w).
Proof.
  intros Ho1 Ho2.
  assert (Hrun : exists evs,
            Worker.authorize env pid req password viewToken w
            = Worker.passwordFallback env pid password (Worker.logged w evs)).
  { unfold Worker.authorize. run. rewrite isAdmin_run.
    destruct (Worker.splitToken (Worker.adminCookie req)) as [parts|].
    - unfold Worker.answeringSession. rewrite Ho1.
      change (bool_decide (is_Some (@None Worker.AdminSessionRow))) with false.
      cbn [negb]. rewrite viewTokenAuthorized_run.
      destruct (Worker.splitToken (Some viewToken)) as [vparts|].
      + unfold Worker.answeringViewToken. rewrite Ho2. cbn [negb].
        exists [Worker.Rest Worker.AdminSessions Worker.Select;
                Worker.Rest Worker.ViewTokens Worker.Select].
        rewrite logged_logged. reflexivity.
      + cbn [negb]. exists [Worker.Rest Worker.AdminSessions Worker.Select]. reflexivity.
    - cbn [negb]. rewrite viewTokenAuthorized_run.
      destruct (Worker.splitToken (Some viewToken)) as [vparts|].
      + unfold Worker.answeringViewToken. rewrite Ho2. cbn [negb].
        exists [Worker.Rest Worker.ViewTokens Worker.Select]. reflexivity.
      + cbn [negb]. exists []. unfold Worker.logged. rewrite List.app_nil_r.
        destruct w. reflexivity. }
  destruct Hrun as (evs & ->). rewrite passwordFallback_run. split.
  - intros Hp. rewrite Hp. eauto.
  - intros d3 Hp Ho3. rewrite Hp, Ho3. eexists. split; reflexivity.
Qed.

(** X23.  The credential checks of the Worker fail closed.  A request is
    an admin request only when its [Cookie] header parses and the back
    end answers the lookup: while the back end refuses the lookup of
    admin sessions [isAdmin] answers false for every header that parses,
    and on a header with a malformed escape it raises, whatever the back
    end holds.  While the back end refuses the lookup of view tokens no
    token passes, whatever is presented.  A [PUT] or [DELETE] made during
    both outages is then decided by the password alone: without one it is
    answered 401 [Password required], not 500, and with one, the lookup of
    the post being refused as well, 500 [Failed to verify].  A [PUT] or
    [DELETE] whose header has a malformed escape is answered 500
    [Worker error] with the message, whatever credentials it carries.  In
    all these cases the tables are untouched. *)
Theorem checks_fail_closed (web : Worker.WebCrypto) (decoder : Cookies.UriDecoder)
    (raw : WorkerWire.RawWrites) (env : Worker.Env) :
  (forall (req : WorkerWire.Request) (w : Worker.World) (detail : string)
          (cookies : gmap string string),
     Worker.outage env Worker.AdminSessions Worker.Select = Some detail ->
     Cookies.workerParseCookies (WorkerWire.cookieHeader req) = Ret cookies ->
     fst (WorkerWire.isAdmin env req w) = Ret false)
  /\ (forall (req : WorkerWire.Request) (w : Worker.World) (m : string),
        Cookies.workerParseCookies (WorkerWire.cookieHeader req) = Throw m ->
        WorkerWire.isAdmin env req w = (Throw m, w))
  /\ (forall (pid viewToken : string) (w : Worker.World) (detail : string),
        Worker.outage env Worker.ViewTokens Worker.Select = Some detail ->
        fst (Worker.viewTokenAuthorized env pid viewToken w) = Ret false)
  /\ (forall (b : json) (route : Worker.Route) (pid : string) (v : Worker.Verb)
             (tail : Worker.M Response) (req : WorkerWire.Request) (w : Worker.World)
             (d1 d2 : string) (cookies : gmap string string),
        Worker.Mutation env b route pid v tail ->
        WorkerWire.parsedBody req = Some b ->
        falsy b = false ->
        Cookies.workerParseCookies (WorkerWire.cookieHeader req) = Ret cookies ->
        Worker.outage env Worker.AdminSessions Worker.Select = Some d1 ->
        Worker.outage env Worker.ViewTokens Worker.Select = Some d2 ->
        let out := WorkerWire.fetch env route req w in
        (isEmpty (strField b "password") = true ->
         fst out = Ret (Worker.send 401 (Worker.errorBody "Password required"))
         /\ Worker.db (snd out) = Worker.db w)
        /\ (forall d3 : string,
              isEmpty (strField b "password") = false ->
              Worker.outage env Worker.Posts Worker.Select = Some d3 ->
              fst out = Ret (Worker.send 500 (Worker.errorDetail "Failed to verify" d3))
              /\ Worker.db (snd out) = Worker.db w))
  /\ (forall (b : json) (route : Worker.Route) (pid : string) (v : Worker.Verb)
             (tail : Worker.M Response) (req : WorkerWire.Request) (w : Worker.World)
             (m : string),
        Worker.Mutation env b route pid v tail ->
        WorkerWire.parsedBody req = Some b ->
        falsy b = false ->
        Cookies.workerParseCookies (WorkerWire.cookieHeader req) = Throw m ->
        WorkerWire.fetch env route req w
        = (Ret (Worker.send 500 (Worker.errorDetail "Worker error" m)), w)).
Proof.
  destruct (checks_refuse_during_outage web env) as (Hadm & Htok & _).
  split; [|split; [|split; [|split]]].
  - intros req w detail cookies Hout Hparse.
    rewrite (wire_isAdmin_parsed env req cookies w Hparse). exact (Hadm _ w detail Hout).
  - intros req w m Hparse. exact (wire_isAdmin_raises env req m w Hparse).
  - exact Htok.
  - intros b route pid v tail req w d1 d2 cookies Hm Hb Hf Hparse Ho1 Ho2 out.
    destruct (authorize_during_outage env pid (WorkerWire.parsed req cookies)
                (strField b "password") (strField b "viewToken") w d1 d2 Ho1 Ho2)
      as [Hnone Hsome].
    split.
    + intros Hp. destruct (Hnone Hp) as (w' & Hden & Hdb). unfold out.
      now rewrite (wire_fetch_denied env b route pid v tail req cookies w w' _
                     Hm Hb Hf Hparse Hden).
    + intros d3 Hp Ho3. destruct (Hsome d3 Hp Ho3) as (w' & Hden & Hdb). unfold out.
      now rewrite (wire_fetch_denied env b route pid v tail req cookies w w' _
                     Hm Hb Hf Hparse Hden).
  - intros b route pid v tail req w m Hm Hb Hf Hparse.
    apply wire_fetch_raises; [exact Hparse|].
    destruct Hm as [pid' Ht Hc|pid']; exists b; auto.
Qed.

Lemma checks_fail_closed_witness :
  fst (WorkerWire.isAdmin (rt := Sample.web) (decoder := SampleCookies.decoder)
         {| Worker.ADMIN_PASSWORD := "admin1234"; Worker.TOKEN_PEPPER := "pepper";
            Worker.now := 1000;
            Worker.outage := fun _ _ => Some "upstream down"%string |}
         (SampleWire.request (Some SampleWire.adminHeader) None)
         (Sample.webWorldWith [Sample.adminRow 2000] [] []))
  = Ret false
  /\ WorkerWire.fetch (rt := Sample.web) (decoder := SampleCookies.decoder)
       (raw := SampleWire.rawWrites) Sample.webEnv (Worker.PostDelete "p1")
       (SampleWire.request (Some SampleWire.brokenHeader)
                           (Some (JObj [("password", JStr "swordfish")])))
       (Sample.webWorldWith [] [] [Sample.webPost])
     = (Ret (Worker.send 500 (Worker.errorDetail "Worker error" "URI malformed")),
        Sample.webWorldWith [] [] [Sample.webPost]).
Proof.
  split.
  - exact (proj1 (checks_fail_closed Sample.web SampleCookies.decoder SampleWire.rawWrites
                    {| Worker.ADMIN_PASSWORD := "admin1234"; Worker.TOKEN_PEPPER := "pepper";
                       Worker.now := 1000;
                       Worker.outage := fun _ _ => Some "upstream down"%string |})
                 (SampleWire.request (Some SampleWire.adminHeader) None)
                 (Sample.webWorldWith [Sample.adminRow 2000] [] [])
                 "upstream down"%string _ eq_refl eq_refl).
  - exact (proj2 (proj2 (proj2 (proj2
             (checks_fail_closed Sample.web SampleCookies.decoder SampleWire.rawWrites
                                 Sample.webEnv))))
             (JObj [("password", JStr "swordfish")]) (Worker.PostDelete "p1") "p1"%string
             Worker.Delete _
             (SampleWire.request (Some SampleWire.brokenHeader)
                                 (Some (JObj [("password", JStr "swordfish")])))
             (Sample.webWorldWith [] [] [Sample.webPost]) "URI malformed"%string
             (Worker.MutationDelete Sample.webEnv _ "p1") eq_refl eq_refl eq_refl).
Defined.

(** *** Where the rows of the Worker's credential tables go *)

Section WorkerRevocation.
Context `{rt : Worker.WebCrypto}.
Import Worker WorkerFacts JsFacts.

(** A [PUT] or [DELETE] leaves the tables as its tail does on the tables
    it found, or as they were. *)
Lemma fetch_mutation_db (env : Env) (route : Route) (pid : string) (req : Request)
    (w : World) :
  route = PostPut pid \/ route = PostDelete pid ->
  db (snd (fetch env route req w)) = db w
  \/ exists (b : json) (v : Verb) (tail : M Response) (evs : list Event),
       Mutation env b route pid v tail
       /\ outage env Posts v = None
       /\ db (snd (fetch env route req w)) = db (snd (tail (logged w evs))).
Proof.
  intros Hroute.
  destruct (parsedBody req) as [b|] eqn:Hb.
  2:{ left. rewrite (fetch_mutation_unparsed env route pid req w Hroute);
        [reflexivity | now rewrite Hb]. }
  destruct (falsy b) eqn:Hf.
  { left. rewrite (fetch_mutation_unparsed env route pid req w Hroute);
      [reflexivity | now rewrite Hb]. }
  assert (Hwell : forall v tail, Mutation env b route pid v tail ->
            db (snd (fetch env route req w)) = db w
            \/ exists (b0 : json) (v0 : Verb) (tail0 : M Response) (evs : list Event),
                 Mutation env b0 route pid v0 tail0
                 /\ outage env Posts v0 = None
                 /\ db (snd (fetch env route req w)) = db (snd (tail0 (logged w evs)))).
  { intros v tail Hm.
    destruct (fetch_mutation_outcome env b route pid v tail req w Hm Hb Hf)
      as (r & evs & _ & [(_ & Hup & Hdb)|(_ & Hdb)]); [|now left].
    right. exists b, v, tail, evs. auto. }
  destruct Hroute as [-> | ->].
  - destruct (isEmpty (trim (strField b "title"))) eqn:Ht.
    { left. unfold fetch, catch, dispatch, handlePostPut. now rewrite Hb, Hf, Ht. }
    destruct (isEmpty (trim (strField b "content"))) eqn:Hc.
    { left. unfold fetch, catch, dispatch, handlePostPut. now rewrite Hb, Hf, Ht, Hc. }
    exact (Hwell Patch _ (MutationPut env b pid Ht Hc)).
  - exact (Hwell Delete _ (MutationDelete env b pid)).
Qed.

(** A login leaves the tables as they were or adds one session. *)
Lemma credentials_added (env : Env) (req : Request) (w : World) :
  db (snd (fetch env AdminLogin req w)) = db w
  \/ exists row : AdminSessionRow,
       admin_sessions (db (snd (fetch env AdminLogin req w)))
       = admin_sessions (db w) ++ [row]
       /\ view_tokens (db (snd (fetch env AdminLogin req w))) = view_tokens (db w).
Proof.
  assert (Hrefused :
            match parsedBody req with
            | Some b => falsy b = true \/ strField b "password" <> ADMIN_PASSWORD env
                        \/ isEmpty (strField b "password") = true
            | None => True
            end ->
            db (snd (fetch env AdminLogin req w)) = db w).
  { intros H. unfold fetch, catch, dispatch.
    destruct (handleAdminLogin_refused env req w H) as (r & -> & _). reflexivity. }
  destruct (parsedBody req) as [b|] eqn:Hb; [|left; now apply Hrefused].
  destruct (falsy b) eqn:Hf; [left; apply Hrefused; auto|].
  destruct (isEmpty (strField b "password")) eqn:He; [left; apply Hrefused; auto|].
  destruct (String.eqb_spec (strField b "password") (ADMIN_PASSWORD env)) as [Hpw|Hpw];
    [|left; apply Hrefused; auto].
  assert (Hne : isEmpty (ADMIN_PASSWORD env) = false) by now rewrite <- Hpw.
  pose proof (handleAdminLogin_granted env req b w Hb Hf Hne Hpw) as Hrun.
  cbv zeta in Hrun. unfold fetch, catch, dispatch. rewrite Hrun.
  destruct (outage env AdminSessions Insert); [now left|].
  right. eexists. split; reflexivity.
Qed.

End WorkerRevocation.

(** Where the credential rows go on a request whose cookies are read,
    the write naming the rows of the id: an admin session that was stored
    is still stored afterwards unless the request is a logout whose cookie
    carries the salt of that session; a view token that was stored is
    still stored unless the request is a [DELETE] of the post it names. *)
Lemma credentials_leave (web : Worker.WebCrypto) (env : Worker.Env)
    (route : Worker.Route) (req : Worker.Request) (w : Worker.World) :
  let out := Worker.fetch env route req w in
  (forall s : Worker.AdminSessionRow,
     In s (Worker.admin_sessions (Worker.db w)) ->
     In s (Worker.admin_sessions (Worker.db (snd out)))
     \/ (route = Worker.AdminLogout
         /\ exists parts : Worker.TokenParts,
              Worker.splitToken (Worker.adminCookie req) = Some parts
              /\ Worker.as_token_salt s = Worker.tp_salt parts
              /\ Worker.as_token_hash s
                 = Worker.sha256Hex (Worker.tokenInput (Worker.tp_token parts)
                                       (Worker.tp_salt parts) (Worker.TOKEN_PEPPER env))))
  /\ (forall t : Worker.ViewTokenRow,
        In t (Worker.view_tokens (Worker.db w)) ->
        In t (Worker.view_tokens (Worker.db (snd out)))
        \/ route = Worker.PostDelete (Worker.vt_post_id t)).
Proof.
  intros out.
  match goal with
  | |- ?G => assert (Hsame : Worker.db (snd out) = Worker.db w -> G)
  end.
  { intros ->. split; intros x Hx; left; exact Hx. }
  destruct route as [| | | |pid|pid|pid|pid].
  - apply Hsame. apply fetch_read_db. auto.
  - (* login: rows are added at the end *)
    destruct (credentials_added env req w) as [Hdb|(row & Has & Hvt)];
      [now apply Hsame|].
    fold out in Has, Hvt. rewrite Has, Hvt. split.
    + intros s Hs. left. apply in_or_app. now left.
    + intros t Ht. now left.
  - (* logout *)
    unfold out, Worker.fetch, Worker.catch, Worker.dispatch.
    rewrite handleAdminLogout_run. cbn [snd].
    destruct (Worker.splitToken (Worker.adminCookie req)) as [parts|] eqn:Hsplit;
      [|split; intros x Hx; left; exact Hx].
    destruct (Worker.outage env Worker.AdminSessions Worker.Delete);
      [split; intros x Hx; left; exact Hx|].
    cbn [Worker.db Worker.admin_sessions Worker.view_tokens]. split.
    + intros s Hs.
      destruct (String.eqb (Worker.as_token_hash s)
                  (Worker.sha256Hex (Worker.tokenInput (Worker.tp_token parts)
                                       (Worker.tp_salt parts) (Worker.TOKEN_PEPPER env)))
                && String.eqb (Worker.as_token_salt s) (Worker.tp_salt parts)) eqn:E.
      * right. split; [reflexivity|]. exists parts. split; [reflexivity|].
        apply andb_true_iff in E as [Eh Es].
        apply String.eqb_eq in Eh, Es. auto.
      * left. apply List.filter_In. split; [exact Hs|]. now rewrite E.
    + intros t Ht. now left.
  - apply Hsame. apply fetch_read_db. auto.
  - apply Hsame. apply fetch_read_db. eauto.
  - (* view exchange: rows are added at the end *)
    destruct (fetch_view_db env pid req w)
      as [Hdb|(b & row & others & t & _ & _ & _ & _ & _ & Hdb)]; [now apply Hsame|].
    fold out in Hdb. rewrite Hdb. cbn [Worker.admin_sessions Worker.view_tokens]. split.
    + intros s Hs. now left.
    + intros t' Ht'. left. apply in_or_app. now left.
  - (* put *)
    destruct (fetch_mutation_db env (Worker.PostPut pid) pid req w)
      as [Hdb|(b & v & tail & evs & Hm & Hup & Hdb)]; [auto|now apply Hsame|].
    fold out in Hdb. rewrite Hdb. inversion Hm; subst.
    rewrite applyUpdate_run, Hup. cbn [snd Worker.db Worker.admin_sessions
      Worker.view_tokens]. split; intros x Hx; left; exact Hx.
  - (* delete *)
    destruct (fetch_mutation_db env (Worker.PostDelete pid) pid req w)
      as [Hdb|(b & v & tail & evs & Hm & Hup & Hdb)]; [auto|now apply Hsame|].
    fold out in Hdb. rewrite Hdb. inversion Hm; subst.
    rewrite applyDelete_run, Hup. cbn [snd Worker.db Worker.admin_sessions
      Worker.view_tokens]. split.
    + intros s Hs. now left.
    + intros t Ht.
      destruct (String.eqb_spec (Worker.vt_post_id t) pid) as [<-|Hne]; [now right|].
      left. apply List.filter_In. split; [exact Ht|].
      apply String.eqb_neq in Hne. now rewrite Hne.
Qed.

(** X24.  In the Worker a credential row leaves its table in one way
    only.  Whatever the request, on every route but a [PUT] or [DELETE]
    whose path segment is no plain id (the write sends the segment
    unescaped, so only a plain id names for the write the post that the
    checks name), an admin session that was stored is still stored
    afterwards unless the request is a logout whose [Cookie] header parses
    and carries the salt and secret of that session; a view token that
    was stored is still stored unless the request is a [DELETE] of the
    post it names.  So no such request removes a row because it has
    expired, no edit of a post, by its author or by an admin, withdraws
    the tokens issued for it, and a request whose header does not parse
    removes nothing. *)
Theorem credentials_leave_on_request (web : Worker.WebCrypto)
    (decoder : Cookies.UriDecoder) (raw : WorkerWire.RawWrites) (env : Worker.Env)
    (route : Worker.Route) (req : WorkerWire.Request) (w : Worker.World) :
  Addressing.plainWrite route = true ->
  let out := WorkerWire.fetch env route req w in
  (forall s : Worker.AdminSessionRow,
     In s (Worker.admin_sessions (Worker.db w)) ->
     In s (Worker.admin_sessions (Worker.db (snd out)))
     \/ (route = Worker.AdminLogout
         /\ exists (cookies : gmap string string) (parts : Worker.TokenParts),
              Cookies.workerParseCookies (WorkerWire.cookieHeader req) = Ret cookies
              /\ Worker.splitToken (cookies !! "woldecks.admin"%string) = Some parts
              /\ Worker.as_token_salt s = Worker.tp_salt parts
              /\ Worker.as_token_hash s
                 = Worker.sha256Hex (Worker.tokenInput (Worker.tp_token parts)
                                       (Worker.tp_salt parts) (Worker.TOKEN_PEPPER env))))
  /\ (forall t : Worker.ViewTokenRow,
        In t (Worker.view_tokens (Worker.db w)) ->
        In t (Worker.view_tokens (Worker.db (snd out)))
        \/ route = Worker.PostDelete (Worker.vt_post_id t)).
Proof.
  intros Hplain out.
  assert (Hmodel : forall request : Worker.Request,
            out = Worker.fetch env route request w ->
            (forall parts, Worker.splitToken (Worker.adminCookie request) = Some parts ->
               exists cookies,
                 Cookies.workerParseCookies (WorkerWire.cookieHeader req) = Ret cookies
                 /\ Worker.splitToken (cookies !! "woldecks.admin"%string) = Some parts) ->
            (forall s : Worker.AdminSessionRow,
               In s (Worker.admin_sessions (Worker.db w)) ->
               In s (Worker.admin_sessions (Worker.db (snd out)))
               \/ (route = Worker.AdminLogout
                   /\ exists (cookies : gmap string string) (parts : Worker.TokenParts),
                        Cookies.workerParseCookies (WorkerWire.cookieHeader req)
                        = Ret cookies
                        /\ Worker.splitToken (cookies !! "woldecks.admin"%string)
                           = Some parts
                        /\ Worker.as_token_salt s = Worker.tp_salt parts
                        /\ Worker.as_token_hash s
                           = Worker.sha256Hex
                               (Worker.tokenInput (Worker.tp_token parts)
                                  (Worker.tp_salt parts) (Worker.TOKEN_PEPPER env))))
            /\ (forall t : Worker.ViewTokenRow,
                  In t (Worker.view_tokens (Worker.db w)) ->
                  In t (Worker.view_tokens (Worker.db (snd out)))
                  \/ route = Worker.PostDelete (Worker.vt_post_id t))).
  { intros request Hout Hcookie.
    destruct (credentials_leave web env route request w) as [Hs Ht].
    rewrite Hout. split; [|exact Ht].
    intros s Hin. destruct (Hs s Hin) as [Hstay|(Hroute & parts & Hsplit & Hsalt & Hhash)];
      [now left|right].
    split; [exact Hroute|]. destruct (Hcookie parts Hsplit) as (cookies & Hc & Hsp).
    exists cookies, parts. auto. }
  destruct (Cookies.workerParseCookies (WorkerWire.cookieHeader req)) as [cookies|m]
    eqn:Hparse.
  - apply (Hmodel (WorkerWire.parsed req cookies)).
    + apply wire_fetch_parsed; [exact Hparse | exact Hplain].
    + intros parts Hsplit. exists cookies. split; [reflexivity | exact Hsplit].
  - assert (Hcookieless : route = Worker.AdminLogin \/ route = Worker.PostsList ->
              (forall s : Worker.AdminSessionRow,
                 In s (Worker.admin_sessions (Worker.db w)) ->
                 In s (Worker.admin_sessions (Worker.db (snd out)))
                 \/ (route = Worker.AdminLogout
                     /\ exists (cookies : gmap string string) (parts : Worker.TokenParts),
                          @Throw (gmap string string) m = Ret cookies
                          /\ Worker.splitToken (cookies !! "woldecks.admin"%string)
                             = Some parts
                          /\ Worker.as_token_salt s = Worker.tp_salt parts
                          /\ Worker.as_token_hash s
                             = Worker.sha256Hex
                                 (Worker.tokenInput (Worker.tp_token parts)
                                    (Worker.tp_salt parts) (Worker.TOKEN_PEPPER env))))
              /\ (forall t : Worker.ViewTokenRow,
                    In t (Worker.view_tokens (Worker.db w)) ->
                    In t (Worker.view_tokens (Worker.db (snd out)))
                    \/ route = Worker.PostDelete (Worker.vt_post_id t))).
    { intros Hroute.
      destruct (credentials_leave web env route (WorkerWire.parsed req ∅) w) as [Hs Ht].
      unfold out. rewrite (wire_fetch_cookieless env route req w Hroute).
      split; [|exact Ht].
      intros s Hin. destruct (Hs s Hin) as [Hstay|(Hlogout & _)]; [now left|].
      destruct Hroute as [-> | ->]; discriminate Hlogout. }
    assert (Hrefused : route <> Worker.AdminLogin -> route <> Worker.PostsList ->
              Worker.db (snd out) = Worker.db w).
    { intros Hlogin Hlist.
      destruct (wire_fetch_raises_refused env route req m w Hparse Hlogin Hlist)
        as (r & Hr & _).
      fold out in Hr. now rewrite Hr. }
    destruct route as [| | | |pid|pid|pid|pid];
      try (apply Hcookieless; auto; fail);
      rewrite Hrefused by discriminate; split; intros x Hx; now left.
Qed.

Lemma credentials_leave_on_request_witness :
  In {| Worker.vt_post_id := "p1"; Worker.vt_token_hash := "h"; Worker.vt_token_salt := "s";
        Worker.vt_expires_at := 0 |}
     (Worker.view_tokens (Worker.db (snd
        (WorkerWire.fetch (rt := Sample.web) (decoder := SampleCookies.decoder)
           (raw := SampleWire.rawWrites) Sample.webEnv (Worker.PostPut "p1")
           (SampleWire.request None (Some (Sample.putBody "swordfish" "")))
           (Sample.webWorldWith []
              [{| Worker.vt_post_id := "p1"; Worker.vt_token_hash := "h";
                  Worker.vt_token_salt := "s"; Worker.vt_expires_at := 0 |}]
              [Sample.webPost])))))
  \/ Worker.PostPut "p1" = Worker.PostDelete "p1".
Proof.
  apply (proj2 (credentials_leave_on_request Sample.web SampleCookies.decoder
                  SampleWire.rawWrites Sample.webEnv (Worker.PostPut "p1")
                  (SampleWire.request None (Some (Sample.putBody "swordfish" "")))
                  (Sample.webWorldWith []
                     [{| Worker.vt_post_id := "p1"; Worker.vt_token_hash := "h";
                         Worker.vt_token_salt := "s"; Worker.vt_expires_at := 0 |}]
                     [Sample.webPost]) eq_refl)
               {| Worker.vt_post_id := "p1"; Worker.vt_token_hash := "h";
                  Worker.vt_token_salt := "s"; Worker.vt_expires_at := 0 |}).
  simpl. left. reflexivity.
Defined.

(** An edit with the password, run on the sample platform: the credential
    records of the data file are as before. *)
Lemma local_mutation_effect_witness :
  map LocalServer.password
      (LocalServer.data (snd
         (LocalServer.route (rt := Sample.node) Sample.nodeEnv (LocalServer.PostPut "p1")
            (Sample.nodeRequest None (Some (Sample.putBody "swordfish" "")))
            Sample.nodeWorld1)))
  = map LocalServer.password (LocalServer.data Sample.nodeWorld1).
Proof.
  exact (proj1 (proj2 (proj2 (proj1
           (local_mutation_effect Sample.node Sample.nodeEnv "p1"
              (Sample.nodeRequest None (Some (Sample.putBody "swordfish" "")))
              Sample.nodeWorld1))))).
Defined.

(** Two equal hex strings under the Worker's comparison. *)
Lemma comparisons_decide_equality_witness :
  Worker.safeEqualHex "0a1b" "0a1b" = true.
Proof. exact (proj2 (proj1 comparisons_decide_equality "0a1b" "0a1b") eq_refl). Defined.

(** X25.  The Worker allows every origin, with credentials.  Whatever
    non-empty [Origin] a request carries, and whatever the bindings, every
    response [fetch] sends and the answer to a preflight name that very
    origin as allowed and allow credentials, even over headers of the same
    names a handler might pass; a [Set-Cookie] a handler passes goes out
    with them.  A request without [Origin] gets no such header added. *)
Theorem every_origin_allowed :
  (forall (o : string) (extraHeaders : gmap string string),
     isEmpty o = false ->
     WorkerCors.sendHeaders (Some o) extraHeaders
       !! "Access-Control-Allow-Origin"%string = Some o
     /\ WorkerCors.sendHeaders (Some o) extraHeaders
          !! "Access-Control-Allow-Credentials"%string = Some "true"%string
     /\ WorkerCors.sendHeaders (Some o) extraHeaders !! "Set-Cookie"%string
        = extraHeaders !! "Set-Cookie"%string
     /\ fst (WorkerCors.handleOptions (Some o)) = 204
     /\ snd (WorkerCors.handleOptions (Some o))
          !! "Access-Control-Allow-Origin"%string = Some o
     /\ snd (WorkerCors.handleOptions (Some o))
          !! "Access-Control-Allow-Credentials"%string = Some "true"%string)
  /\ (forall (extraHeaders : gmap string string) (name : string),
        name <> "Content-Type"%string -> name <> "Cache-Control"%string ->
        WorkerCors.sendHeaders None extraHeaders !! name = extraHeaders !! name)
  /\ WorkerCors.handleOptions None = (204, ∅).
Proof.
  split; [|split; [|reflexivity]].
  - intros o extra Ho.
    unfold WorkerCors.sendHeaders, WorkerCors.handleOptions, WorkerCors.getAllowedOrigin,
      WorkerCors.jsonHeaders, WorkerCors.spread, WorkerCors.corsHeaders.
    repeat (rewrite Ho; cbv beta iota). cbn [fst snd].
    repeat split.
    + apply lookup_union_Some_l, lookup_union_Some_l.
      now rewrite !lookup_insert_ne, lookup_insert_eq by discriminate.
    + apply lookup_union_Some_l, lookup_union_Some_l.
      now rewrite !lookup_insert_ne, lookup_insert_eq by discriminate.
    + destruct (extra !! "Set-Cookie"%string) as [v|] eqn:Hc.
      * apply lookup_union_Some_l. rewrite lookup_union_r; [exact Hc|].
        now rewrite !lookup_insert_ne by discriminate.
      * rewrite lookup_union_r.
        -- now rewrite !lookup_insert_ne by discriminate.
        -- rewrite lookup_union_r; [exact Hc|].
           now rewrite !lookup_insert_ne by discriminate.
  - intros extra name Hct Hcc.
    unfold WorkerCors.sendHeaders, WorkerCors.getAllowedOrigin, WorkerCors.jsonHeaders,
      WorkerCors.spread.
    rewrite (left_id_L ∅ (∪) extra).
    destruct (extra !! name) as [v|] eqn:Hn.
    + now apply lookup_union_Some_l.
    + rewrite lookup_union_r by exact Hn.
      now rewrite !lookup_insert_ne by congruence.
Qed.

Lemma every_origin_allowed_witness :
  WorkerCors.sendHeaders (Some "https://elsewhere.example"%string)
    {["Set-Cookie"%string := "woldecks.admin=t"%string]}
  !! "Access-Control-Allow-Origin"%string = Some "https://elsewhere.example"%string.
Proof.
  exact (proj1 (proj1 every_origin_allowed "https://elsewhere.example"%string
                  {["Set-Cookie"%string := "woldecks.admin=t"%string]} eq_refl)).
Defined.

(** X26.  Creating a post touches nothing but the posts, and of those
    only by adding one.  In the Worker, whatever the request, the view
    tokens and admin sessions are as before and the posts are as before or
    have one more row at the end, which carries the id the table
    assigned; in the local server the sessions are as before and the posts
    are as before or have one more in front.  In both the posts are as
    before unless the answer is 201. *)
Theorem creation_adds_one_post (web : Worker.WebCrypto) (node : LocalServer.NodeRuntime) :
  (forall (env : Worker.Env) (given : WorkerCreate.Assigned) (req : Worker.Request)
          (w : Worker.World),
     let out := WorkerCreate.fetchCreate env given req w in
     Worker.view_tokens (Worker.db (snd out)) = Worker.view_tokens (Worker.db w)
     /\ Worker.admin_sessions (Worker.db (snd out)) = Worker.admin_sessions (Worker.db w)
     /\ exists r : Response,
          fst out = Ret r
          /\ ((status r <> 201 /\ Worker.posts (Worker.db (snd out))
                                  = Worker.posts (Worker.db w))
              \/ (status r = 201
                  /\ exists row : Worker.PostRow,
                       Worker.id row = WorkerCreate.assignedId given
                       /\ Worker.posts (Worker.db (snd out))
                          = Worker.posts (Worker.db w) ++ [row])))
  /\ (forall (env : LocalServer.Env) (req : LocalServer.Request) (w : LocalServer.World),
        let out := LocalCreate.routeCreate env req w in
        LocalServer.sessions (snd out) = LocalServer.sessions w
        /\ (((forall res, fst out = Ret (Some res) -> status res <> 201)
             /\ LocalServer.data (snd out) = LocalServer.data w)
            \/ (exists (res : Response) (post : LocalServer.Post),
                  fst out = Ret (Some res) /\ status res = 201
                  /\ LocalServer.data (snd out) = post :: LocalServer.data w))).
Proof.
  split.
  - intros env given req w out.
    assert (Hkept : forall r, out = (Ret r, w) -> status r <> 201 ->
              Worker.view_tokens (Worker.db (snd out)) = Worker.view_tokens (Worker.db w)
              /\ Worker.admin_sessions (Worker.db (snd out))
                 = Worker.admin_sessions (Worker.db w)
              /\ exists r0 : Response,
                   fst out = Ret r0
                   /\ ((status r0 <> 201 /\ Worker.posts (Worker.db (snd out))
                                            = Worker.posts (Worker.db w))
                       \/ (status r0 = 201
                           /\ exists row : Worker.PostRow,
                                Worker.id row = WorkerCreate.assignedId given
                                /\ Worker.posts (Worker.db (snd out))
                                   = Worker.posts (Worker.db w) ++ [row]))).
    { intros r -> Hs. cbn [fst snd]. repeat split. exists r. split; [reflexivity|]. now left. }
    destruct (Worker.parsedBody req) as [b|] eqn:Hb.
    2:{ apply (Hkept (Worker.send 400 (Worker.errorBody "Invalid JSON"))); [|cbn; lia].
        unfold out, WorkerCreate.fetchCreate, Worker.catch, WorkerCreate.handlePostCreate.
        now rewrite Hb. }
    destruct (falsy b) eqn:Hf.
    { apply (Hkept (Worker.send 400 (Worker.errorBody "Invalid JSON"))); [|cbn; lia].
      unfold out, WorkerCreate.fetchCreate, Worker.catch, WorkerCreate.handlePostCreate.
      now rewrite Hb, Hf. }
    destruct (isEmpty (trim (strField b "title")) || isEmpty (trim (strField b "author"))
              || isEmpty (trim (strField b "content")) || isEmpty (strField b "password"))
      eqn:Hfields.
    { apply (Hkept (Worker.send 400 (Worker.errorBody "Missing fields"))); [|cbn; lia].
      unfold out, WorkerCreate.fetchCreate, Worker.catch, WorkerCreate.handlePostCreate.
      now rewrite Hb, Hf, Hfields. }
    assert (Hout : out = _)
      by (unfold out, WorkerCreate.fetchCreate, Worker.catch, WorkerCreate.handlePostCreate;
          rewrite Hb, Hf, Hfields; reflexivity).
    revert Hout. run. rewrite web_makePasswordRecord_run. cbv zeta.
    destruct (Worker.deriveBits _ _ _ _ _) as [bits|m].
    + unfold WorkerCreate.insertPost. rewrite rest_run.
      destruct (Worker.outage env Worker.Posts Worker.Insert) as [detail|].
      * intros ->. cbn [fst snd Worker.db Worker.logged]. repeat split.
        eexists. split; [reflexivity|]. left. split; [cbn; lia | reflexivity].
      * intros ->. cbn [fst snd Worker.db Worker.posts Worker.view_tokens
                        Worker.admin_sessions]. repeat split.
        eexists. split; [reflexivity|]. right. split; [reflexivity|].
        eexists. split; [|reflexivity]. reflexivity.
    + intros ->. cbn [fst snd Worker.db]. repeat split.
      eexists. split; [reflexivity|]. left. split; [cbn; lia | reflexivity].
  - intros env req w out.
    assert (Hkept : forall o : Outcome (option Response),
              out = (o, LocalServer.arriving w) ->
              (forall res, o = Ret (Some res) -> status res <> 201) ->
              LocalServer.sessions (snd out) = LocalServer.sessions w
              /\ (((forall res, fst out = Ret (Some res) -> status res <> 201)
                   /\ LocalServer.data (snd out) = LocalServer.data w)
                  \/ (exists (res : Response) (post : LocalServer.Post),
                        fst out = Ret (Some res) /\ status res = 201
                        /\ LocalServer.data (snd out) = post :: LocalServer.data w))).
    { intros o -> Ho. cbn [fst snd]. split; [reflexivity|]. left. split; [exact Ho|].
      reflexivity. }
    destruct (LocalServer.parsedBody req) as [b|] eqn:Hb.
    2:{ eapply Hkept.
        - unfold out, LocalCreate.routeCreate, LocalCreate.handlePostCreate. run.
          rewrite Hb. reflexivity.
        - intros res H. apply JsFacts.Ret_inj, JsFacts.Some_inj in H. subst res. cbn. lia. }
    assert (Hnull : b = JNull \/ b <> JNull) by (destruct b; auto; right; discriminate).
    destruct Hnull as [->|Hnull].
    { eapply Hkept.
      - unfold out, LocalCreate.routeCreate, LocalCreate.handlePostCreate. run.
        rewrite Hb. reflexivity.
      - discriminate. }
    destruct (isEmpty (trim (strField b "title")) || isEmpty (trim (strField b "author"))
              || isEmpty (trim (strField b "content")) || isEmpty (strField b "password"))
      eqn:Hfields.
    { eapply Hkept.
      - unfold out, LocalCreate.routeCreate, LocalCreate.handlePostCreate. run.
        rewrite Hb. destruct b; try contradiction; rewrite Hfields; reflexivity.
      - intros res H. apply JsFacts.Ret_inj, JsFacts.Some_inj in H. subst res. cbn. lia. }
    assert (Hout : out =
              (w0 ← LocalServer.getWorld;
               newId ← LocalServer.randomUUID;
               record ← LocalServer.makePasswordRecord (strField b "password");
               _ ← LocalServer.writeData
                     ({| LocalServer.id := newId;
                         LocalServer.title := trim (strField b "title");
                         LocalServer.author := trim (strField b "author");
                         LocalServer.content := trim (strField b "content");
                         LocalServer.password := record;
                         LocalServer.createdAt :=
                           LocalServer.toISOString (LocalServer.now env);
                         LocalServer.updatedAt := None |} :: LocalServer.data w0);
               LocalServer.json 201 (JObj [("id", JStr newId)])) (LocalServer.arriving w)).
    { unfold out, LocalCreate.routeCreate, LocalCreate.handlePostCreate. run. rewrite Hb.
      destruct b; try contradiction; rewrite Hfields; reflexivity. }
    revert Hout. unfold LocalServer.randomUUID, LocalServer.randomBytes. run.
    rewrite node_makePasswordRecord_run. cbv zeta.
    cbn [LocalServer.drawn LocalServer.sessions LocalServer.data LocalServer.resCookie
         LocalServer.trace LocalServer.arriving].
    destruct (LocalServer.pbkdf2Sync _ _ _ _ _) as [hash|m].
    + rewrite node_writeData_run. intros ->. cbn [fst snd LocalServer.sessions
        LocalServer.data]. split; [reflexivity|]. right.
      eexists _, _. split; [reflexivity|]. split; reflexivity.
    + intros ->. cbn [fst snd LocalServer.sessions LocalServer.data].
      split; [reflexivity|]. left. split; [discriminate | reflexivity].
Qed.

Lemma creation_adds_one_post_witness :
  LocalServer.sessions
    (snd (LocalCreate.routeCreate (rt := Sample.node) Sample.nodeEnv
            (Sample.nodeRequest None (Some (JObj [("title", JStr "Hello")])))
            Sample.nodeWorld1))
  = LocalServer.sessions Sample.nodeWorld1.
Proof.
  exact (proj1 (proj2 (creation_adds_one_post Sample.web Sample.node) Sample.nodeEnv
                  (Sample.nodeRequest None (Some (JObj [("title", JStr "Hello")])))
                  Sample.nodeWorld1)).
Defined.

(** X27.  [readData] never raises and always gives an object whose
    [posts] is an array, which the handlers search and splice without a
    test of their own: a file that is missing, does not parse, or parses
    to anything but an object with an array under [posts] is read as the
    empty board, and any other file is returned as parsed, whole. *)
Theorem readData_gives_posts :
  (forall parsed : option json,
     exists items : list json,
       field (DataFile.readData parsed) "posts" = Some (JArr items))
  /\ (forall (v : json) (items : list json),
        field v "posts" = Some (JArr items) -> DataFile.readData (Some v) = v)
  /\ (forall parsed : option json,
        DataFile.readData parsed = DataFile.emptyData
        \/ parsed = Some (DataFile.readData parsed)).
Proof.
  split; [|split].
  - intros [v|]; [|exists []; reflexivity]. unfold DataFile.readData.
    destruct (falsy v || negb (DataFile.isObjectType v)); [exists []; reflexivity|].
    unfold DataFile.hasPostsArray.
    destruct (field v "posts") as [[| | | |items|]|] eqn:Hf;
      try (exists []; reflexivity).
    exists items. exact Hf.
  - intros v items Hf. unfold DataFile.readData, DataFile.hasPostsArray. rewrite Hf.
    destruct v; try discriminate. reflexivity.
  - intros [v|]; [|now left]. unfold DataFile.readData.
    destruct (falsy v || negb (DataFile.isObjectType v)); [now left|].
    destruct (negb (DataFile.hasPostsArray v)); [now left | now right].
Qed.

Lemma readData_gives_posts_witness :
  DataFile.readData (Some (JObj [("posts", JArr [JStr "p"]); ("version", JNum 2)]))
  = JObj [("posts", JArr [JStr "p"]); ("version", JNum 2)].
Proof.
  exact (proj1 (proj2 readData_gives_posts)
               (JObj [("posts", JArr [JStr "p"]); ("version", JNum 2)]) [JStr "p"] eq_refl).
Defined.
